(* ===== verification/_CoqProject ===== *)
-Q . S2P
Prelude.v
CString.v
Printf.v
Layout.v
Structs.v
World.v
Handlers.v
Testmode.v
Requests.v
Statistics.v
P2pSink.v
DriverCmd.v
DriverLogs.v
DriverProps.v
Session.v
Query.v
Live.v
Progress.v
Mrdump.v
MrdumpTool.v
PowerHal.v
Perf.v
Shims.v
