(* ===== verification/Prelude.v ===== *)
(** * Verification of the native code of the Smart Surf2 4G device tree

    The repository is an Android device tree.  Its own native programs are small C and
    C++ components that talk to MediaTek's kernel drivers:

    - [lib_driver_cmd_mt66xx]: a library linked into wpa_supplicant.  Its entry point
      [wpa_driver_nl80211_driver_cmd] receives the text of a DRIVER command, and either
      answers it (by a netlink "testmode" request to the Wi-Fi driver, by changing
      wpa_supplicant's P2P state, by a report) or passes it on with a private ioctl;
    - [mrdump]: reads and clears the result of a memory dump, a block near the end of
      the [expdb] partition, and a command line tool over it;
    - [power]: the power HAL module; [meizupshelper]: a helper that starts the
      calibration of the proximity sensor;
    - [mtk/perfservicenative]: a binder client of a performance service, disabled in
      this tree;
    - [libmtk_symbols], [libshims], [mtk/libxlog]: functions under the names the vendor's
      prebuilt libraries import, most of them forwards.

    ** How C is modelled

    A C function is a Rocq function in the monad [outcome] of this file: it returns, has
    undefined behaviour for a recorded reason ([ub]), or never returns ([Hang]).  Integers
    are [Z] with their conversions written out ([u8], [u32], [s64], ...); memory is a
    [list byte] with bounds checked access ([mem_read], [mem_write]); strings are byte
    lists, terminated ones are read with [cstr].  Uninitialised locals are arguments of
    the model (fields of [DriverCmd.stack], the [garbage] arguments), so that a theorem
    that does not mention them holds whatever the stack contained.  One access of the code
    leaves its object on every complete run, [reserved[32]] in [print_sta_statistics]: it is
    [Undef] in C, and [DriverCmd.g_behind] lets a theorem say what follows where the
    program finds a byte there.  Structures a caller places in a buffer are read from the
    bytes of the buffer ([read_wapi_key_param]; the layout of [struct wfd_data_s], which
    wpa_supplicant declares, is the parameter [ov_wfd] of [DriverCmd.overlays]), so a buffer
    shorter than the structure is undefined behaviour.  The build options
    the sources test with [#ifdef] are the fields of [Structs.config]; theorems hold for
    every configuration unless they say otherwise.

    Code outside the repository is a parameter: [World.Libnl] (netlink attributes, with
    the documented laws [LibnlLaws]), [World.Kernel] (the answers of the kernel, the event
    loop and wpa_supplicant, functions of everything exchanged before), [hwaddr_aton]
    ([Requests.WpaCommon]), the block device ([Mrdump.device]), the kernel nodes
    ([PowerHal.nodes]), the surroundings of a binder call ([Perf.perf_env]), the results of
    the functions the shims call ([ext] and [dlsym] of [Shims]).  Every effect of the driver
    library on the outside is an [event] of a history, the [trace].

    ** The files

    - [Prelude]: outcomes, machine integers, memory, the tactics [inv_outcome] and
      [decide_now].
    - [CString], [Printf]: the functions of the C library the sources use ([strtol],
      [atoi], [strncasecmp], [strstr], [strtok_r], [strlcpy], [snprintf] with the
      conversions %d %u %X %.1f), with the laws the other files need.
    - [Layout]: C structures as bytes on 32 and 64 bit ARM; storing and loading members.
    - [Structs]: [mediatek_driver_nl80211.h]: identifiers, attributes, structures.
    - [World]: the parameters named above, the history, and a concrete instance.
    - [Handlers]: the callbacks [testmode_*_handler] that decode answers.
    - [Testmode]: [send_and_recv_msgs] and [wpa_driver_nl80211_testmode].  The class
      [TestmodeChannel] states what their callers rely on.
    - [Requests]: the functions that build a request and send it, over any
      [TestmodeChannel].
    - [Statistics]: [print_sta_statistics], [wpa_driver_get_sta_statistics],
      [wpa_driver_get_sta_link_detect].
    - [P2pSink]: capability, frequency table, single and multi channel operation, P2P
      sigma commands.
    - [DriverCmd]: [wpa_driver_nl80211_driver_cmd]: the chain of comparisons as a table
      ([command_table]), one definition per branch ([cmd_*]), the private ioctl
      ([private_command]), the guards, the error counter.
    - [DriverLogs]: what the branches append to the history, for any predicate closed
      under their events ([LogPred]).
    - [DriverProps]: the theorems on the dispatcher and its branches.
    - [Session]: sequences of commands, timer expiries and outside changes as a step
      relation, and what holds in every reachable state.
    - [Query]: two queries followed through all components of the driver library.
    - [Live]: computations that return ([returns]), kernels that settle every request
      ([Responsive]), channels that return for every request ([LiveChannel]), and the
      senders over such a channel.
    - [Progress]: every branch of the dispatcher returns for a well formed call, and so
      does a whole session.
    - [Mrdump], [MrdumpTool]: [mrdump_status.c], [mrdump_tool.c].
    - [PowerHal]: [power.c], [meizupshelper/lib.c], [meizupshelper/helper.c].
    - [Perf]: [PerfServiceNative.cpp].
    - [Shims]: [libmtk_symbols], [libshims], [mtk/libxlog].

    ** What is shown

    - Dispatch: the order of the branches does not matter but for one pair
      ([classify_complete]); a call ends in a private ioctl exactly for the commands
      outside the table and two inside it ([private_ioctl_iff], with the text and lengths
      that reach the kernel; the result is in [private_command_result]); the effect of single branches ([rxfilter_sends],
      [mcc_sets_flags], [country_sends]).
    - Channel: the testmode routine refines the contract its callers are verified
      against, and stores the decoded answer that belongs to the identifier of the request
      ([testmode_refines_channel]); it returns exactly when the kernel settles
      the request ([send_and_recv_returns_iff]); the messages it leaks
      ([testmode_message_accounting]); headers are read back as written
      ([request_index_roundtrip]).
    - Composition: the statistics and link queries from the text of the command to the
      report in the buffer ([statistics_command], [link_detect_command]).
    - Liveness: on a kernel that settles its requests a session of well formed commands
      runs to its end, without a hang or undefined behaviour ([session_completes]).  A call
      is well formed when it meets conditions the code relies on without testing them:
      the interface is not "ap0", the command is terminated and fits the buffer, and
      [args_ok] holds of the argument and the buffer, which says something for seven of the
      branches; a statistics query with a valid address is not well formed.
      "set_scan_loading" leads to its notification in every session, for each interface
      on its own ([scan_loading_notified]).
    - Sessions: the static error counter is the number of failed ioctls since the last
      success, modulo the limit plus one ([errors_count_failures]); at most one timeout
      is pending for an interface ([one_timeout_pending]; the event loop tells timeouts apart
      by the driver data and context they were registered with); no netlink message is leaked while attributes
      fit ([session_leaks_nothing]).
    - Answers and reports: each handler's loop over a switch equals a parallel
      assignment from the attributes ([sta_statistics_handler_spec],
      [link_detect_handler_spec]) and keeps the members in their types; reports are
      complete in a buffer of the stated size, cut at a line in a smaller one, and never
      written outside it; rates are printed exactly, through IEEE 754 arithmetic ([tx_rate_text]).
    - Requests: the bytes sent load back as the members intended ([wapi_key_sends],
      [wfd_data_update_sends], [sta_block_sends]), or overflow ([wapi_key_overflow], and
      exactly from which length on, and over which members before that, in [wfd_ie_bound]).
    - P2P: the frequency table is sound and knows every channel its comments name, with the
      class of four of them differing from one comment; switching to one
      channel and back restores the configuration.
    - Memory dump: clearing and reading ([clear_then_get]), reading what the boot loader
      writes ([ok_status_roundtrip]), what clearing does not touch ([clear_frame]),
      descriptors, small partitions, termination of the parser.
    - Others: hints of the power HAL, exit status of the helper; the performance client
      sends nothing as it stands ([perf_silent]), and the code behind its returns sends
      one request per call ([perf_protocol]) and limits frame updates
      ([frame_updates_limited]); the forwarding shims are transparent ([shims_forward]).
    - Defects are theorems too where the model shows them: [wapi_key_overflow],
      [miracast_negative_frequency], [country_overflow], [private_copy_unchecked],
      [ap0_uninitialised], [suspend_request_leaks], [statistics_uninitialised],
      [reserved_read_past_end], [scc_uninitialised], [sigma_null_deref],
      [status_overread], [hint_null_data], [graphic_buffer_constructs],
      [media_buffer_group_null_object], [camera_missing_argument].

    ** Fuel and bounds

    The only definitions with fuel are [Printf.digits_fuel], called with the bit length
    of its argument, which has at least as many digits as decimal notation, and
    [Mrdump.parse_ok_lines], called with one more than the length of the text, which every
    line shortens; running out is [Hang], and [parse_ok_lines_terminates] shows that it does
    not happen.  The receive loop of the channel recurses on
    the batches the kernel delivers and is [Hang] when they run out.

    ** Not modelled

    Log output of the components other than the shims, and the parsing of an SSID that
    is only logged.  What the callee of a shim under a mangled C++ name finds in the
    registers the call does not set: the shims are declared without the implicit object
    argument, so whether a forward reaches the object depends on the compiler leaving the
    remaining registers alone.  [mtk_xlog.cpp] repeats [xlog.c] and is not built.
    [PerfServiceNative.h] declares the entry points and names the integers its callers
    pass.  [include/fd_utils-inl-extra.h]: one macro.
    The Java classes, makefiles, init scripts, SELinux policy, overlays and patches are
    not native code of this tree.  Interleaving inside a call is not modelled:
    wpa_supplicant calls the library from its single threaded event loop. *)

From Stdlib Require Export ZArith Lia String.
From coqutil Require Export Byte Word.LittleEndianList Datatypes.RecordSetters.
From stdpp Require Export base sets list strings numbers option.

Export DoubleBraceUpdate.
#[global] Open Scope Z_scope.

(** ** Machine integers *)

(** Conversion to an unsigned C type of [w] bits: reduction modulo [2^w]. *)
Definition uwrap (w z : Z) : Z := z mod 2 ^ w.

(** Conversion to a signed two's complement C type of [w] bits. *)
Definition swrap (w z : Z) : Z := (z + 2 ^ (w - 1)) mod 2 ^ w - 2 ^ (w - 1).

Definition u8 : Z -> Z := uwrap 8.
Definition u16 : Z -> Z := uwrap 16.
Definition u32 : Z -> Z := uwrap 32.
Definition u64 : Z -> Z := uwrap 64.
Definition s32 : Z -> Z := swrap 32.
Definition s64 : Z -> Z := swrap 64.

(** The values of an unsigned (signed) type of [w] bits. *)
Definition in_u (w z : Z) : Prop := 0 <= z < 2 ^ w.
Definition in_s (w z : Z) : Prop := - 2 ^ (w - 1) <= z < 2 ^ (w - 1).

(** ** Outcomes of C code

    A piece of C either returns a value, has undefined behaviour (and we record
    why), or never returns to its caller. *)

Inductive ub : Type :=
| NullDeref       (* a null or never assigned pointer is dereferenced *)
| OutOfBounds     (* an access leaves the object it started in *)
| SignedOverflow  (* a signed operation has no representable result *)
| MissingArgument. (* a format asks for more arguments than were passed *)

Inductive outcome (A : Type) : Type :=
| Ret (a : A)
| Undef (u : ub)
| Hang.
Arguments Ret {A} a.
Arguments Undef {A} u.
Arguments Hang {A}.

#[global] Instance outcome_ret : MRet outcome := fun A a => Ret a.
#[global] Instance outcome_bind : MBind outcome := fun A B f m =>
  match m with
  | Ret a => f a
  | Undef u => Undef u
  | Hang => Hang
  end.
#[global] Instance outcome_fmap : FMap outcome := fun A B f m =>
  match m with
  | Ret a => Ret (f a)
  | Undef u => Undef u
  | Hang => Hang
  end.

(** The first monad law, for rewriting: evaluating a long chain of binds by conversion
    alone compares the continuations at every step. *)
Lemma bind_Ret {A B} (a : A) (f : A -> outcome B) : mbind f (Ret a) = f a.
Proof. reflexivity. Qed.

Lemma Ret_inj {A} (a b : A) : Ret a = Ret b -> a = b.
Proof. by intros [= ->]. Qed.

(** Dereferencing a pointer that may be null. *)
Definition deref {A} (p : option A) : outcome A :=
  match p with
  | Some a => Ret a
  | None => Undef NullDeref
  end.

(** The code has no undefined behaviour. *)
Definition defined {A} (m : outcome A) : Prop :=
  match m with
  | Undef _ => False
  | _ => True
  end.

#[global] Instance ub_eq_dec : EqDecision ub.
Proof. solve_decision. Defined.
#[global] Instance outcome_eq_dec {A} `{EqDecision A} : EqDecision (outcome A).
Proof. solve_decision. Defined.

(** ** Bytes and memory objects *)

#[global] Instance byte_eq_dec : EqDecision byte := Byte.byte_eq_dec.

(** A C string literal, without its terminator. *)
Definition str (s : string) : list byte := list_byte_of_string s.

Definition NUL : byte := Byte.x00.
Definition NL : byte := Byte.x0a.
Definition SP : byte := Byte.x20.

(** A C string literal with its terminator, as it lies in memory. *)
Definition lit (s : string) : list byte := str s ++ [NUL].

(** [memset(p, 0, n)] on a fresh object of [n] bytes. *)
Definition zeros (n : nat) : list byte := replicate n NUL.

(** The [n] bytes at offset [off] of the object [m]. *)
Definition mem_read (m : list byte) (off n : nat) : outcome (list byte) :=
  if decide (off + n ≤ length m)%nat then Ret (take n (drop off m))
  else Undef OutOfBounds.

(** [memcpy] of [src] to offset [off] of the object [m]. *)
Definition mem_write (m : list byte) (off : nat) (src : list byte) : outcome (list byte) :=
  if decide (off + length src ≤ length m)%nat
  then Ret (take off m ++ src ++ drop (off + length src) m)
  else Undef OutOfBounds.

(** The string that starts at the beginning of [m]: the bytes before the first
    terminator, [None] when the object holds no terminator. *)
Fixpoint cstr (m : list byte) : option (list byte) :=
  match m with
  | [] => None
  | b :: m' => if decide (b = NUL) then Some [] else cons b <$> cstr m'
  end.

(** The string that starts at offset [off]: a scan that leaves the object is
    undefined. *)
Definition cstr_at (m : list byte) (off : nat) : outcome (list byte) :=
  match cstr (drop off m) with
  | Some s => Ret s
  | None => Undef OutOfBounds
  end.

(** ** Tactics *)

(** Split an equation between outcomes produced by a bind. *)
Ltac inv_outcome :=
  repeat match goal with
  | H : Ret _ = Ret _ |- _ => injection H; clear H; intros; subst
  | H : Undef _ = Ret _ |- _ => discriminate H
  | H : Hang = Ret _ |- _ => discriminate H
  | H : Ret _ = Undef _ |- _ => discriminate H
  | H : Ret _ = Hang |- _ => discriminate H
  | H : (_, _) = (_, _) |- _ => injection H; clear H; intros; subst
  | H : mbind _ ?m = Ret _ |- _ =>
      let E := fresh "E" in destruct m eqn:E; cbn [mbind outcome_bind] in H
  end.

(** Case analysis on the tests of the code, then arithmetic. *)
Ltac split_tests :=
  repeat match goal with
  | |- context [if decide ?P then _ else _] => destruct (decide P)
  | |- context [if ?a =? ?b then _ else _] => destruct (Z.eqb_spec a b)
  | |- context [if ?a <? ?b then _ else _] => destruct (Z.ltb_spec a b)
  | |- context [if ?a <=? ?b then _ else _] => destruct (Z.leb_spec a b)
  | |- context [if (?a <? ?b)%nat then _ else _] => destruct (Nat.ltb_spec a b)
  | |- context [if (?a <=? ?b)%nat then _ else _] => destruct (Nat.leb_spec a b)
  end.

(** Decide a closed proposition by evaluation. *)
Ltac decide_now := apply (bool_decide_unpack _); vm_compute; exact I.

Create HintDb cmem.

(** ** Lemmas on integers *)

Lemma uwrap_range w z : 0 <= w -> in_u w (uwrap w z).
Proof. intros. apply Z.mod_pos_bound. lia. Qed.

Lemma u32_add_l a b : u32 (u32 a + b) = u32 (a + b).
Proof. unfold u32, uwrap. apply Z.add_mod_idemp_l. lia. Qed.

Lemma uwrap_id w z : in_u w z -> uwrap w z = z.
Proof. apply Z.mod_small. Qed.

Lemma swrap_range w z : 0 < w -> in_s w (swrap w z).
Proof.
  intros. unfold in_s, swrap.
  pose proof (Z.mod_pos_bound (z + 2 ^ (w - 1)) (2 ^ w) ltac:(lia)).
  replace (2 ^ w) with (2 * 2 ^ (w - 1)) in *; [lia|].
  rewrite <- Z.pow_succ_r by lia. f_equal. lia.
Qed.

Lemma swrap_id w z : 0 < w -> in_s w z -> swrap w z = z.
Proof.
  unfold in_s, swrap. intros Hw Hz. rewrite Z.mod_small; [lia|].
  replace (2 ^ w) with (2 * 2 ^ (w - 1)); [lia|].
  rewrite <- Z.pow_succ_r by lia. f_equal. lia.
Qed.

Lemma byte_unsigned_bounds b : 0 <= byte.unsigned b < 256.
Proof. apply byte.unsigned_range. Qed.

#[export] Hint Resolve uwrap_range swrap_range byte_unsigned_bounds : cmem.

(** ** Lemmas on memory objects *)

Lemma length_zeros n : length (zeros n) = n.
Proof. apply length_replicate. Qed.

Lemma mem_write_length m off src m' :
  mem_write m off src = Ret m' -> length m' = length m.
Proof.
  unfold mem_write. case_decide; [|done]. intros [= <-].
  rewrite !length_app, length_take, length_drop. lia.
Qed.

Lemma mem_write_in_range m off src :
  (off + length src ≤ length m)%nat ->
  mem_write m off src = Ret (take off m ++ src ++ drop (off + length src) m).
Proof. intros. unfold mem_write. by rewrite decide_True. Qed.

Lemma mem_write_out_of_range m off src :
  (length m < off + length src)%nat -> mem_write m off src = Undef OutOfBounds.
Proof. intros. unfold mem_write. rewrite decide_False; [done|lia]. Qed.

Lemma mem_read_write m off src m' :
  mem_write m off src = Ret m' -> mem_read m' off (length src) = Ret src.
Proof.
  intros H. pose proof (mem_write_length _ _ _ _ H) as Hl. revert H.
  unfold mem_write. case_decide; [|done]. intros [= <-].
  unfold mem_read. rewrite decide_True by lia. f_equal.
  rewrite drop_app_length' by (rewrite length_take; lia).
  by rewrite take_app_length.
Qed.

(** A string without a terminator inside it, followed by a terminator, is read
    back whole. *)
Lemma cstr_app_nul s r : NUL ∉ s -> cstr (s ++ NUL :: r) = Some s.
Proof.
  induction s as [|b s IH]; intros Hs; [done|]. cbn.
  apply not_elem_of_cons in Hs as [Hb Hs].
  rewrite decide_False by done. by rewrite IH.
Qed.

Lemma cstr_inv m s :
  cstr m = Some s -> (NUL ∉ s) /\ exists r, m = s ++ NUL :: r.
Proof.
  revert s. induction m as [|b m IH]; intros s; [done|]. cbn.
  case_decide as Hb.
  - intros [= <-]. split; [apply not_elem_of_nil|]. subst. by exists m.
  - destruct (cstr m) as [s'|]; [|done]. intros [= <-].
    destruct (IH s' eq_refl) as [Hs [r ->]]. split; [|by exists r].
    by apply not_elem_of_cons.
Qed.

Lemma cstr_None m : cstr m = None <-> NUL ∉ m.
Proof.
  split.
  - induction m as [|b m IH]; cbn; [intros _; apply not_elem_of_nil|].
    case_decide; [done|]. destruct (cstr m); [done|]. intros _.
    apply not_elem_of_cons. by split; [|apply IH].
  - intros H. destruct (cstr m) as [s|] eqn:E; [|done].
    apply cstr_inv in E as [_ [r ->]]. exfalso. apply H. set_solver.
Qed.

Lemma cstr_length m s : cstr m = Some s -> (length s < length m)%nat.
Proof.
  intros H. apply cstr_inv in H as [_ [r ->]]. rewrite length_app. cbn. lia.
Qed.

Lemma cstr_at_app_nul p s r :
  NUL ∉ s -> cstr_at (p ++ s ++ NUL :: r) (length p) = Ret s.
Proof.
  intros. unfold cstr_at. rewrite drop_app_length. by rewrite cstr_app_nul.
Qed.

#[export] Hint Resolve mem_write_length length_zeros cstr_app_nul : cmem.
