(* ===== verification/CString.v ===== *)
(** * The C string functions the sources call

    Executable definitions of the parts of [<string.h>] and [<stdlib.h>] that
    [lib_driver_cmd_mt66xx], [mrdump], [power] and [meizupshelper] use, with the
    lemmas the components share.  A C string is the list of its bytes without the
    terminator; functions that may run off the end of their argument work on the
    memory object itself and return an [outcome]. *)

From S2P Require Import Prelude.

(** ** The two ABIs of the board

    BoardConfig.mk builds for arm64 with arm as the second architecture (or for arm
    alone): pointers and [long] have the width of the ABI, [int] has 32 bits. *)

Inductive abi : Type := Arm32 | Arm64.

Definition ptr_size (A : abi) : nat :=
  match A with Arm32 => 4 | Arm64 => 8 end.

Definition long_bits (A : abi) : Z :=
  match A with Arm32 => 32 | Arm64 => 64 end.

(** ** Characters *)

Definition code (b : byte) : Z := byte.unsigned b.

(** [tolower] in the C locale. *)
Definition tolower (b : byte) : byte :=
  if (65 <=? code b) && (code b <=? 90) then byte.of_Z (code b + 32) else b.

(** [isspace] in the C locale. *)
Definition isspace (b : byte) : bool :=
  (code b =? 32) || ((9 <=? code b) && (code b <=? 13)).

(** The value of a character as a digit, 36 when it is none. *)
Definition digit_value (b : byte) : Z :=
  if (48 <=? code b) && (code b <=? 57) then code b - 48
  else if (97 <=? code b) && (code b <=? 122) then code b - 87
  else if (65 <=? code b) && (code b <=? 90) then code b - 55
  else 36.

(** ** Comparison *)

(** [strncmp(s, p, strlen(p)) == 0]. *)
Fixpoint starts_with (p s : list byte) : bool :=
  match p, s with
  | [], _ => true
  | b :: p', c :: s' => bool_decide (b = c) && starts_with p' s'
  | _ :: _, [] => false
  end.

(** [strncasecmp(s, p, strlen(p)) == 0]. *)
Definition starts_with_ci (p s : list byte) : bool :=
  starts_with (tolower <$> p) (tolower <$> s).

(** [strcmp(s, t) == 0] and [strcasecmp(s, t) == 0]. *)
Definition str_eq (s t : list byte) : bool := bool_decide (s = t).
Definition str_eq_ci (s t : list byte) : bool :=
  bool_decide (tolower <$> s = tolower <$> t).

(** [strcmp(m, s) == 0] where [m] is an array that need not hold a terminator:
    the scan stops at the first difference and is undefined past the object. *)
Fixpoint strcmp_eq (m s : list byte) : outcome bool :=
  match m, s with
  | [], _ => Undef OutOfBounds
  | b :: _, [] => Ret (bool_decide (b = NUL))
  | b :: m', c :: s' => if decide (b = c) then strcmp_eq m' s' else Ret false
  end.

(** ** Search *)

(** [strchr(s, c)] as an index, for [c] other than the terminator. *)
Fixpoint strchr (s : list byte) (c : byte) : option nat :=
  match s with
  | [] => None
  | b :: s' => if decide (b = c) then Some 0%nat else S <$> strchr s' c
  end.

(** [strstr(s, p)] as an index. *)
Fixpoint strstr (s p : list byte) : option nat :=
  if starts_with p s then Some 0%nat else
  match s with
  | [] => None
  | _ :: s' => S <$> strstr s' p
  end.

(** ** Numbers *)

(** The value of the longest prefix of [s] made of digits of [base], and its
    length. *)
Fixpoint scan_digits (base acc : Z) (s : list byte) : Z * nat :=
  match s with
  | [] => (acc, 0%nat)
  | b :: s' =>
      if digit_value b <? base
      then let '(v, n) := scan_digits base (acc * base + digit_value b) s' in (v, S n)
      else (acc, 0%nat)
  end.

Fixpoint skip_spaces (s : list byte) : nat :=
  match s with
  | b :: s' => if isspace b then S (skip_spaces s') else 0
  | [] => 0
  end.

(** The optional sign: its factor and its length. *)
Definition scan_sign (s : list byte) : Z * nat :=
  match s with
  | b :: _ => if code b =? 45 then (-1, 1%nat) else if code b =? 43 then (1, 1%nat) else (1, 0%nat)
  | [] => (1, 0%nat)
  end.

(** The base the digits are read in and the length of its prefix: base 0 takes
    "0x" before a hexadecimal digit as 16, a leading "0" as 8, otherwise 10. *)
Definition scan_base (base : Z) (s : list byte) : Z * nat :=
  if base =? 0 then
    match s with
    | z :: x :: d :: _ =>
        if (code z =? 48) && ((code x =? 120) || (code x =? 88)) && (digit_value d <? 16)
        then (16, 2%nat)
        else if code z =? 48 then (8, 0%nat) else (10, 0%nat)
    | z :: _ => if code z =? 48 then (8, 0%nat) else (10, 0%nat)
    | [] => (10, 0%nat)
    end
  else (base, 0%nat).

Definition clamp (lo hi z : Z) : Z := Z.max lo (Z.min hi z).

(** [strtol(s, &endp, base)] for base 0 or 10: the value and the number of
    characters consumed, 0 of them when there is no number. *)
Definition strtol (A : abi) (s : list byte) (base : Z) : Z * nat :=
  let w := skip_spaces s in
  let '(sg, n1) := scan_sign (drop w s) in
  let '(b, n2) := scan_base base (drop (w + n1) s) in
  let '(v, n3) := scan_digits b 0 (drop (w + n1 + n2) s) in
  if (n3 =? 0)%nat then (0, 0%nat)
  else (clamp (- 2 ^ (long_bits A - 1)) (2 ^ (long_bits A - 1) - 1) (sg * v),
        (w + n1 + n2 + n3)%nat).

(** [atoi(s)]: [strtol] in base 10, converted to [int]. *)
Definition atoi (A : abi) (s : list byte) : Z := s32 (fst (strtol A s 10)).

(** ** Copying and tokens *)

(** [strlcpy(dst, src, length dst)]: at most [length dst - 1] characters and a
    terminator; the rest of [dst] is left as it was. *)
Definition strlcpy (dst src : list byte) : list byte :=
  match length dst with
  | O => dst
  | S n => let c := take n src ++ [NUL] in c ++ drop (length c) dst
  end.

(** The characters before the first [c] and those after it. *)
Fixpoint break_at (c : byte) (s : list byte) : list byte * list byte :=
  match s with
  | [] => ([], [])
  | b :: s' => if decide (b = c) then ([], s')
               else let '(t, r) := break_at c s' in (b :: t, r)
  end.

Fixpoint skip_char (c : byte) (s : list byte) : list byte :=
  match s with
  | b :: s' => if decide (b = c) then skip_char c s' else s
  | [] => []
  end.

(** [strtok_r(s, "c", &save)]: the next token and the new [save] string. *)
Definition strtok_r (c : byte) (s : list byte) : option (list byte * list byte) :=
  match skip_char c s with
  | [] => None
  | s' => Some (break_at c s')
  end.

(** ** Lemmas *)

Lemma starts_with_spec p s : starts_with p s = true <-> exists r, s = p ++ r.
Proof.
  revert s. induction p as [|b p IH]; intros s; cbn.
  - split; [|done]. by exists s.
  - destruct s as [|c s]; [split; [done|by intros [r [=]]]|].
    rewrite andb_true_iff, bool_decide_eq_true, IH. split.
    + intros [-> [r ->]]. by exists r.
    + intros [r [= -> ->]]. split; [done|by exists r].
Qed.

Lemma starts_with_app p r : starts_with p (p ++ r) = true.
Proof. apply starts_with_spec. by exists r. Qed.

Lemma starts_with_take p s : starts_with p s = true <-> take (length p) s = p.
Proof.
  rewrite starts_with_spec. split.
  - intros [r ->]. by rewrite take_app_length.
  - intros H. exists (drop (length p) s). by rewrite <- H at 1; rewrite take_drop.
Qed.

(** Two prefixes of one string are prefixes of one another. *)
Lemma starts_with_comparable p q s :
  starts_with p s = true -> starts_with q s = true ->
  starts_with p q = true \/ starts_with q p = true.
Proof.
  revert q s. induction p as [|b p IH]; intros q s Hp Hq; [by left|].
  destruct q as [|c q]; [by right|]. destruct s as [|d s]; [done|]. cbn in *.
  apply andb_true_iff in Hp as [Hb%bool_decide_eq_true Hp].
  apply andb_true_iff in Hq as [Hc%bool_decide_eq_true Hq]. subst.
  rewrite bool_decide_true by done. by apply (IH q s).
Qed.

Lemma starts_with_trans p q s :
  starts_with p q = true -> starts_with q s = true -> starts_with p s = true.
Proof.
  rewrite !starts_with_spec. intros [r ->] [t ->]. exists (r ++ t).
  by rewrite (assoc_L (++)).
Qed.

(** Lowercasing is a homomorphism, so a case sensitive match is a case
    insensitive one. *)
Lemma starts_with_weaken_ci p s : starts_with p s = true -> starts_with_ci p s = true.
Proof.
  intros [r ->]%starts_with_spec. unfold starts_with_ci. rewrite fmap_app.
  apply starts_with_app.
Qed.

Lemma tolower_idemp b : tolower (tolower b) = tolower b.
Proof. by destruct b; vm_compute. Qed.

Lemma strcmp_eq_true m s :
  NUL ∉ s -> strcmp_eq m s = Ret true <-> exists r, m = s ++ NUL :: r.
Proof.
  revert m. induction s as [|c s IH]; intros m Hs.
  - destruct m as [|b m]; cbn; split; try done.
    + by intros [r [=]].
    + intros [= ->%bool_decide_eq_true]. by exists m.
    + intros [r [= -> ->]]. by rewrite bool_decide_true.
  - apply not_elem_of_cons in Hs as [Hc Hs]. destruct m as [|b m]; cbn.
    + split; [done|by intros [r [=]]].
    + case_decide as Hb.
      * subst. rewrite (IH m Hs). split; intros [r H]; exists r; [by subst|by injection H].
      * split; [done|]. by intros [r [= -> ->]].
Qed.

(** The comparison stays inside an array longer than the string. *)
Lemma strcmp_eq_defined m s :
  (length s < length m)%nat -> exists b, strcmp_eq m s = Ret b.
Proof.
  revert m. induction s as [|c s IH]; intros [|b m]; cbn; try lia; eauto.
  case_decide; eauto. intros. apply IH. lia.
Qed.

Lemma strchr_spec s c i :
  strchr s c = Some i <-> s !! i = Some c /\ c ∉ take i s.
Proof.
  revert i. induction s as [|b s IH]; intros i; cbn.
  - by split; [|intros [? _]; rewrite lookup_nil in *].
  - case_decide as Hb.
    + subst. split.
      * intros [= <-]. split; [done|apply not_elem_of_nil].
      * intros [_ H]. destruct i; [done|]. exfalso. apply H. by apply elem_of_cons; left.
    + destruct i as [|i]; cbn.
      * split; [by destruct (strchr s c)|]. by intros [[= ->] _].
      * rewrite fmap_Some, not_elem_of_cons. split.
        -- intros (j & Hj & [= ->]). apply IH in Hj as []. by split_and!.
        -- intros (H1 & _ & H2). exists i. split; [|done]. by apply IH.
Qed.

Lemma strchr_None s c : strchr s c = None <-> c ∉ s.
Proof.
  induction s as [|b s IH]; cbn; [split; [intros _; apply not_elem_of_nil|done]|]. case_decide.
  - subst. split; [done|]. intros H. exfalso. apply H. by apply elem_of_cons; left.
  - rewrite fmap_None, IH, not_elem_of_cons. intuition congruence.
Qed.

Lemma length_strlcpy dst src : length (strlcpy dst src) = length dst.
Proof.
  unfold strlcpy. destruct (length dst) as [|n] eqn:E; [done|]. cbn zeta.
  rewrite length_app, length_drop, length_app, length_take. cbn. lia.
Qed.

(** [strlcpy] into a nonempty array leaves a terminated string: the source
    truncated to what fits. *)
Lemma cstr_strlcpy dst src :
  (0 < length dst)%nat -> NUL ∉ src ->
  cstr (strlcpy dst src) = Some (take (length dst - 1) src).
Proof.
  intros Hl Hs. unfold strlcpy. destruct (length dst) as [|n]; [lia|]. cbn zeta.
  rewrite <- (assoc_L (++)). cbn [Nat.sub]. rewrite Nat.sub_0_r.
  change (?a ++ [NUL] ++ ?r) with (a ++ NUL :: r).
  apply cstr_app_nul. intros H. apply Hs. by apply elem_of_take in H as (?&?%list_elem_of_lookup_2&?).
Qed.

Lemma skip_char_length c s : (length (skip_char c s) ≤ length s)%nat.
Proof. induction s; cbn; [lia|]. case_decide; cbn; lia. Qed.

Lemma break_at_length c s : (length (snd (break_at c s)) ≤ length s)%nat.
Proof.
  induction s as [|b s IH]; cbn; [lia|]. case_decide; cbn; [lia|].
  destruct (break_at c s); cbn in *. lia.
Qed.

(** Every call of [strtok_r] that returns a token shortens what is left. *)
Lemma strtok_r_shorter c s t r : strtok_r c s = Some (t, r) -> (length r < length s)%nat.
Proof.
  unfold strtok_r. pose proof (skip_char_length c s).
  destruct (skip_char c s) as [|b s'] eqn:E; [done|]. cbn.
  case_decide as Hb.
  - exfalso. subst. clear -E. induction s as [|x s IH]; cbn in E; [done|].
    case_decide; [by apply IH|]. by injection E as <- _.
  - pose proof (break_at_length c s'). destruct (break_at c s') as [t' r'].
    intros [= <- <-]. cbn in *. lia.
Qed.

Lemma break_at_app c t r : c ∉ t -> break_at c (t ++ c :: r) = (t, r).
Proof.
  induction t as [|b t IH]; intros Hc; cbn; [by rewrite decide_True|].
  apply not_elem_of_cons in Hc as [Hb Hc]. rewrite decide_False by done. by rewrite IH.
Qed.

(** The first token of a text that starts with a line. *)
Lemma strtok_r_line c b t r : c ∉ b :: t -> strtok_r c ((b :: t) ++ c :: r) = Some (b :: t, r).
Proof.
  intros Hc. unfold strtok_r. pose proof Hc as [Hb _]%not_elem_of_cons.
  assert (skip_char c ((b :: t) ++ c :: r) = (b :: t) ++ c :: r) as ->
    by (cbn; by rewrite decide_False).
  rewrite <- (break_at_app c (b :: t) r Hc). done.
Qed.

#[export] Hint Resolve length_strlcpy starts_with_app strtok_r_shorter : cmem.

(** The text at an address holds no terminator. *)
Lemma cstr_at_no_nul m p s : cstr_at m p = Ret s -> NUL ∉ s.
Proof.
  unfold cstr_at. destruct (cstr (drop p m)) as [t|] eqn:E; [|done].
  intros [= <-]. by apply cstr_inv in E as [E _].
Qed.
