(* ===== verification/Printf.v ===== *)
(** * Formatted output

    The conversions of [printf] the sources use ([%d], [%u], [%llu], [%X] with a
    zero padded width, [%.1f], [%s] and the MAC address macro), [snprintf] into a
    memory object, and the idiom the status printers repeat: print a piece, give up
    when it does not fit, advance. *)

From Stdlib Require Import SpecFloat.
From S2P Require Import Prelude CString.

(** ** Numbers as text *)

Definition digit_char (upper : bool) (d : Z) : byte :=
  byte.of_Z (if d <? 10 then 48 + d else if upper then 55 + d else 87 + d).

Fixpoint digits_fuel (fuel : nat) (upper : bool) (base n : Z) (acc : list byte) : list byte :=
  match fuel with
  | O => acc
  | S f =>
      let acc' := digit_char upper (n mod base) :: acc in
      if n <? base then acc' else digits_fuel f upper base (n / base) acc'
  end.

(** The digits of [n >= 0]: a number has no more digits than bits. *)
Definition digits (upper : bool) (base n : Z) : list byte :=
  digits_fuel (S (Z.to_nat (Z.log2 n))) upper base n [].

(** [%u] and [%llu] of a value of the type. *)
Definition fmt_u (n : Z) : list byte := digits false 10 n.

(** [%d]: the argument is passed as a 32 bit pattern and read as [int]. *)
Definition fmt_d (z : Z) : list byte :=
  let v := s32 z in
  if v <? 0 then str "-" ++ fmt_u (- v) else fmt_u v.

(** [%0wX] and [%0wx] of a 32 bit value. *)
Definition fmt_x (upper : bool) (w : nat) (n : Z) : list byte :=
  let ds := digits upper 16 n in
  replicate (w - length ds) (digit_char upper 0) ++ ds.

(** [MACSTR] applied to [MAC2STR(a)]. *)
Fixpoint fmt_mac (a : list byte) : list byte :=
  match a with
  | [] => []
  | [b] => fmt_x false 2 (code b)
  | b :: a' => fmt_x false 2 (code b) ++ str ":" ++ fmt_mac a'
  end.

(** The quotient [n / d] rounded to the nearest integer, ties to even. *)
Definition round_half_even (n d : Z) : Z :=
  let q := n / d in
  let r := n mod d in
  if 2 * r <? d then q
  else if d <? 2 * r then q + 1
  else if Z.even q then q else q + 1.

(** [%.1f] of an IEEE 754 double. *)
Definition fmt_f1 (x : spec_float) : list byte :=
  let sign s := if s : bool then str "-" else [] in
  match x with
  | S754_zero s => sign s ++ str "0.0"
  | S754_infinity s => sign s ++ str "inf"
  | S754_nan => str "nan"
  | S754_finite s m e =>
      let tenths := round_half_even (Z.pos m * 10 * 2 ^ Z.max 0 e) (2 ^ Z.max 0 (- e)) in
      sign s ++ fmt_u (tenths / 10) ++ str "." ++ fmt_u (tenths mod 10)
  end.

(** ** snprintf *)

(** [snprintf(m + pos, size, ...)] producing [text]: at most [size - 1] characters
    and a terminator are written, the length of the whole text is returned. *)
Definition snprintf (m : list byte) (pos size : nat) (text : list byte)
    : outcome (list byte * Z) :=
  match size with
  | O => Ret (m, Z.of_nat (length text))
  | S n => m' ← mem_write m pos (take n text ++ [NUL]); Ret (m', Z.of_nat (length text))
  end.

(** [ret = snprintf(pos, end - pos, ...); if (ret < 0 || ret >= end - pos) return;
    pos += ret;] for each piece in turn.  The result is the memory, the final
    [pos], and whether every piece was printed. *)
Fixpoint emit_all (m : list byte) (pos fin : nat) (pieces : list (list byte))
    : outcome (list byte * nat * bool) :=
  match pieces with
  | [] => Ret (m, pos, true)
  | t :: ts =>
      '(m', ret) ← snprintf m pos (fin - pos) t;
      if (ret <? 0) || (Z.of_nat fin - Z.of_nat pos <=? ret) then Ret (m', pos, false)
      else emit_all m' (pos + Z.to_nat ret) fin ts
  end.

(** The pieces that fit in [avail] bytes, terminator included, before the first
    one that does not. *)
Fixpoint fitting (avail : nat) (pieces : list (list byte)) : list (list byte) :=
  match pieces with
  | [] => []
  | t :: ts => if (avail <=? length t)%nat then []
               else t :: fitting (avail - length t) ts
  end.

(** ** Lemmas on numbers *)

Lemma digit_value_char upper d : 0 <= d < 16 -> digit_value (digit_char upper d) = d.
Proof.
  intros H.
  assert (Forall (fun d => digit_value (digit_char upper d) = d) (seqZ 0 16)) as HF
    by (destruct upper; by repeat constructor).
  eapply Forall_forall in HF; [exact HF|]. apply list_elem_of_In, elem_of_seqZ. lia.
Qed.

Lemma digits_fuel_scan fuel upper base n acc :
  1 < base <= 16 -> 0 <= n < base ^ Z.of_nat fuel -> (0 < fuel)%nat ->
  exists k, forall r,
    scan_digits base 0 (digits_fuel fuel upper base n acc ++ r) =
    let '(v, c) := scan_digits base n (acc ++ r) in (v, S (k + c)).
Proof.
  intros Hb. revert n acc. induction fuel as [|f IH]; intros n acc Hn Hf; [lia|].
  cbn [digits_fuel]. pose proof (Z.mod_pos_bound n base ltac:(lia)).
  destruct (Z.ltb_spec n base).
  - exists 0%nat. intros r. cbn. rewrite (Z.mod_small n base) by lia.
    rewrite digit_value_char by lia. rewrite (proj2 (Z.ltb_lt _ _)) by lia.
    rewrite Z.mul_0_l, Z.add_0_l. by destruct (scan_digits base n (acc ++ r)).
  - rewrite Nat2Z.inj_succ, Z.pow_succ_r in Hn by lia.
    destruct f as [|f]; [cbn in Hn; lia|].
    destruct (IH (n / base) (digit_char upper (n mod base) :: acc)) as [k Hk].
    + split; [apply Z.div_pos; lia|]. apply Z.div_lt_upper_bound; lia.
    + lia.
    + exists (S k). intros r. rewrite Hk. cbn.
      rewrite digit_value_char by lia. rewrite (proj2 (Z.ltb_lt _ _)) by lia.
      rewrite (Z.mul_comm (n / base)), <- Z.div_mod by lia.
      destruct (scan_digits base n (acc ++ r)). f_equal. lia.
Qed.

Lemma digits_fuel_enough base n :
  1 < base -> 0 <= n -> n < base ^ Z.of_nat (S (Z.to_nat (Z.log2 n))).
Proof.
  intros Hb Hn. rewrite Nat2Z.inj_succ, Z2Nat.id by apply Z.log2_nonneg.
  destruct (Z.eq_dec n 0) as [->|]; [change (Z.log2 0) with 0; rewrite Z.pow_1_r; lia|].
  eapply Z.lt_le_trans; [apply Z.log2_spec; lia|].
  apply Z.pow_le_mono_l. lia.
Qed.

(** The digits of a number are read back as the number. *)
Lemma scan_digits_digits upper base n :
  1 < base <= 16 -> 0 <= n ->
  exists k, scan_digits base 0 (digits upper base n) = (n, S k).
Proof.
  intros Hb Hn. unfold digits.
  destruct (digits_fuel_scan (S (Z.to_nat (Z.log2 n))) upper base n []) as [k Hk];
    [done|split; [done|by apply digits_fuel_enough; lia]|lia|].
  exists k. specialize (Hk []). rewrite !app_nil_r in Hk. rewrite Hk. cbn.
  by rewrite Nat.add_0_r.
Qed.

Lemma digits_fuel_length fuel upper base n acc k :
  1 < base -> 0 <= n < base ^ Z.of_nat k -> (0 < k)%nat ->
  (length (digits_fuel fuel upper base n acc) ≤ k + length acc)%nat.
Proof.
  intros Hb. revert n acc k. induction fuel as [|f IH]; intros n acc k Hn Hk; cbn; [lia|].
  destruct (Z.ltb_spec n base); cbn; [lia|].
  destruct k as [|k]; [lia|]. rewrite Nat2Z.inj_succ, Z.pow_succ_r in Hn by lia.
  destruct k as [|k]; [cbn in Hn; lia|].
  specialize (IH (n / base) (digit_char upper (n mod base) :: acc) (S k)).
  cbn [length] in IH. etrans; [apply IH|lia]; [|lia].
  split; [apply Z.div_pos; lia|]. apply Z.div_lt_upper_bound; lia.
Qed.

Lemma fmt_u_length n k :
  0 <= n < 10 ^ Z.of_nat k -> (0 < k)%nat -> (length (fmt_u n) ≤ k)%nat.
Proof.
  intros. unfold fmt_u, digits. etrans; [apply (digits_fuel_length _ _ _ _ _ k); lia|].
  cbn. lia.
Qed.

Lemma fmt_d_length z : (length (fmt_d z) ≤ 11)%nat.
Proof.
  unfold fmt_d. pose proof (swrap_range 32 z ltac:(lia)) as [H1 H2]. fold s32 in H1, H2.
  change (2 ^ (32 - 1)) with 2147483648 in *.
  destruct (Z.ltb_spec (s32 z) 0).
  - rewrite length_app. pose proof (fmt_u_length (- s32 z) 10). cbn in *. lia.
  - pose proof (fmt_u_length (s32 z) 10). cbn in *. lia.
Qed.

Lemma fmt_x_length upper w n :
  0 <= n < 16 ^ Z.of_nat w -> (0 < w)%nat -> length (fmt_x upper w n) = w.
Proof.
  intros. unfold fmt_x. rewrite length_app, length_replicate.
  assert (length (digits upper 16 n) ≤ w)%nat; [|lia].
  unfold digits. etrans; [apply (digits_fuel_length _ _ _ _ _ w); lia|]. cbn. lia.
Qed.

(** No digit text holds a terminator. *)
Lemma digits_fuel_no_nul fuel upper base n acc :
  1 < base <= 16 -> NUL ∉ acc -> NUL ∉ digits_fuel fuel upper base n acc.
Proof.
  intros Hb. revert n acc. induction fuel as [|f IH]; intros n acc Ha; cbn; [done|].
  assert (NUL ∉ digit_char upper (n mod base) :: acc).
  { apply not_elem_of_cons. split; [|done]. intros E.
    pose proof (Z.mod_pos_bound n base ltac:(lia)).
    pose proof (digit_value_char upper (n mod base) ltac:(lia)) as Hd.
    rewrite <- E in Hd. change (digit_value NUL) with 36 in Hd. lia. }
  destruct (n <? base); [done|]. by apply IH.
Qed.

Lemma fmt_u_no_nul n : NUL ∉ fmt_u n.
Proof. apply digits_fuel_no_nul; [lia|apply not_elem_of_nil]. Qed.

Lemma fmt_d_no_nul z : NUL ∉ fmt_d z.
Proof.
  unfold fmt_d. case_match; [|apply fmt_u_no_nul].
  apply not_elem_of_app. split; [decide_now|].
  apply fmt_u_no_nul.
Qed.

Lemma digits_fuel_head fuel upper base n acc :
  1 < base -> (0 < fuel)%nat ->
  exists d r, 0 <= d < base /\ digits_fuel fuel upper base n acc = digit_char upper d :: r.
Proof.
  intros Hb. revert n acc. induction fuel as [|f IH]; intros n acc Hf; [lia|]. cbn.
  pose proof (Z.mod_pos_bound n base ltac:(lia)).
  destruct (n <? base); [by exists (n mod base), acc|].
  destruct f as [|f]; [by exists (n mod base), acc|]. apply IH. lia.
Qed.

(** A decimal digit starts no space, sign or base prefix. *)
Lemma decimal_head d :
  0 <= d < 10 ->
  isspace (digit_char false d) = false /\
  code (digit_char false d) <> 45 /\ code (digit_char false d) <> 43.
Proof.
  intros H.
  assert (Forall (fun d => isspace (digit_char false d) = false /\
    code (digit_char false d) <> 45 /\ code (digit_char false d) <> 43) (seqZ 0 10)) as HF
    by (repeat constructor; by vm_compute).
  eapply Forall_forall in HF; [exact HF|]. apply list_elem_of_In, elem_of_seqZ. lia.
Qed.

Lemma fmt_u_head n : exists d r, 0 <= d < 10 /\ fmt_u n = digit_char false d :: r.
Proof. apply digits_fuel_head; lia. Qed.

Lemma fmt_d_nonempty z : fmt_d z <> [].
Proof. unfold fmt_d. case_match; [done|]. by destruct (fmt_u_head (s32 z)) as (d & r & _ & ->). Qed.

Lemma long_bits_32 A : 32 <= long_bits A.
Proof. destruct A; cbn; lia. Qed.

Lemma in_s_mono w w' z : 0 < w <= w' -> in_s w z -> in_s w' z.
Proof.
  unfold in_s. intros Hw Hz.
  pose proof (Z.pow_le_mono_r 2 (w - 1) (w' - 1) ltac:(lia) ltac:(lia)). lia.
Qed.

Lemma clamp_id lo hi z : lo <= z <= hi -> clamp lo hi z = z.
Proof. unfold clamp. lia. Qed.

(** [%d] followed by [atoi] is the conversion to [int]. *)
Lemma atoi_fmt_d A z : atoi A (fmt_d z) = s32 z.
Proof.
  pose proof (swrap_range 32 z ltac:(lia)) as Hr. fold s32 in Hr.
  pose proof (in_s_mono 32 (long_bits A) (s32 z) ltac:(pose proof (long_bits_32 A); lia) Hr)
    as [HL1 HL2].
  unfold atoi, fmt_d, strtol. destruct (Z.ltb_spec (s32 z) 0) as [Hz|Hz].
  - destruct (scan_digits_digits false 10 (- s32 z)) as [k Hk]; [lia|lia|].
    fold (fmt_u (- s32 z)) in Hk.
    change (str "-" ++ ?x) with (Byte.x2d :: x).
    cbn -[scan_digits long_bits clamp fmt_u s32]. rewrite drop_0, Hk. cbn [fst Nat.eqb].
    rewrite clamp_id by lia. replace (-1 * - s32 z) with (s32 z) by lia.
    by apply swrap_id; [lia|].
  - destruct (scan_digits_digits false 10 (s32 z)) as [k Hk]; [lia|lia|].
    fold (fmt_u (s32 z)) in Hk.
    destruct (fmt_u_head (s32 z)) as (d & r & Hd & E).
    destruct (decimal_head d Hd) as (H1 & H2 & H3).
    rewrite E in *. cbn [skip_spaces]. rewrite H1. cbn [drop scan_sign].
    rewrite (proj2 (Z.eqb_neq _ _) H2), (proj2 (Z.eqb_neq _ _) H3).
    cbn -[scan_digits long_bits clamp]. rewrite Hk. cbn [fst Nat.eqb].
    rewrite clamp_id by lia. rewrite Z.mul_1_l. by apply swrap_id; [lia|].
Qed.

(** The digits of a positive number start with one that is not 0. *)
Lemma digits_fuel_head_pos fuel base n acc :
  1 < base <= 16 -> 0 < n -> (Z.to_nat (Z.log2 n) < fuel)%nat ->
  exists d r, 0 < d < base /\ digits_fuel fuel false base n acc = digit_char false d :: r.
Proof.
  intros Hb. revert n acc. induction fuel as [|f IH]; intros n acc Hn Hf; [lia|]. cbn.
  destruct (Z.ltb_spec n base).
  - exists n. rewrite Z.mod_small by lia. eexists. split; [lia|done].
  - apply IH.
    + apply Z.div_str_pos. lia.
    + assert (n / base <= n / 2) as Hd by (apply Z.div_le_compat_l; lia).
      pose proof (Z.div_str_pos n base ltac:(lia)).
      pose proof (Z.log2_le_mono 2 n ltac:(lia)) as H2. change (Z.log2 2) with 1 in H2.
      apply Z.log2_le_mono in Hd. change (n / 2) with (n / 2 ^ 1) in Hd. rewrite <- Z.shiftr_div_pow2 with (n := 1) in Hd by lia.
      rewrite Z.log2_shiftr in Hd by lia. pose proof (Z.log2_nonneg (n / base)). lia.
Qed.

(** [strtol] in base 0 reads a decimal number behind a blank whole, and saturates at the
    largest [long]. *)
Lemma strtol_blank_fmt_u A n :
  0 <= n -> exists k, strtol A (SP :: fmt_u n) 0 = (Z.min n (2 ^ (long_bits A - 1) - 1), S k).
Proof.
  intros Hn. assert (n = 0 \/ 0 < n) as [->|Hp] by lia.
  { exists 1%nat. by destruct A. }
  destruct (scan_digits_digits false 10 n) as [k Hk]; [lia|lia|]. fold (fmt_u n) in Hk.
  destruct (digits_fuel_head_pos (S (Z.to_nat (Z.log2 n))) 10 n []) as (d & r & Hd & E); [lia..|].
  fold (digits false 10 n) in E. fold (fmt_u n) in E. rewrite E in *.
  destruct (decimal_head d) as (H1 & H2 & H3); [lia|].
  assert (code (digit_char false d) <> 48) as H4.
  { unfold code, digit_char. rewrite (proj2 (Z.ltb_lt d 10)) by lia.
    rewrite byte.unsigned_of_Z. unfold byte.wrap. rewrite Z.mod_small by lia. lia. }
  unfold strtol. cbn [skip_spaces]. change (isspace SP) with true. rewrite H1.
  cbn [drop Nat.add scan_sign].
  rewrite (proj2 (Z.eqb_neq _ _) H2), (proj2 (Z.eqb_neq _ _) H3). cbn [Nat.add drop].
  assert (scan_base 0 (digit_char false d :: r) = (10, 0%nat)) as ->.
  { unfold scan_base. cbn [Z.eqb]. rewrite (proj2 (Z.eqb_neq _ _) H4). by destruct r as [|? [|? ?]]. }
  cbn [Nat.add drop]. rewrite Hk. cbn [Nat.eqb]. exists (S k). rewrite Z.mul_1_l. apply (f_equal (., S (S k))).
  pose proof (long_bits_32 A). unfold clamp.
  pose proof (Z.pow_pos_nonneg 2 (long_bits A - 1) ltac:(lia) ltac:(lia)). lia.
Qed.

(** ** Lemmas on printing *)

Lemma snprintf_length m pos size t m' r :
  snprintf m pos size t = Ret (m', r) -> length m' = length m /\ r = Z.of_nat (length t).
Proof.
  unfold snprintf. destruct size; [by intros [= <- <-]|]. intros H. inv_outcome.
  eauto with cmem.
Qed.

(** A call that is given no more room than the object has is defined. *)
Lemma snprintf_defined m pos size t :
  (pos + size ≤ length m)%nat ->
  exists m', snprintf m pos size t = Ret (m', Z.of_nat (length t)) /\
    length m' = length m /\ take pos m' = take pos m /\
    drop (pos + size) m' = drop (pos + size) m.
Proof.
  intros H. unfold snprintf. destruct size as [|n]; [by eexists|].
  assert (length (take n t ++ [NUL]) ≤ S n)%nat as Hlen by (rewrite length_app, length_take; cbn; lia).
  rewrite mem_write_in_range by lia. cbn. eexists. split; [done|].
  set (c := take n t ++ [NUL]) in *.
  split_and!.
  - rewrite !length_app, length_take, length_drop. lia.
  - rewrite take_app_le by (rewrite length_take; lia). by rewrite take_take, Nat.min_id.
  - rewrite drop_app_ge by (rewrite length_take; lia). rewrite length_take.
    rewrite drop_app_ge by lia. rewrite drop_drop. f_equal. lia.
Qed.

(** A text that fits is in the object as a terminated string. *)
Lemma snprintf_whole m size t :
  (length t < size)%nat -> (size ≤ length m)%nat -> NUL ∉ t ->
  exists m', snprintf m 0 size t = Ret (m', Z.of_nat (length t)) /\ cstr m' = Some t.
Proof.
  intros Ht Hs Hn. unfold snprintf. destruct size as [|n]; [lia|].
  rewrite take_ge by lia. rewrite mem_write_in_range by (rewrite length_app; cbn; lia). cbn.
  eexists. split; [done|]. rewrite take_0, app_nil_l, <- (assoc_L (++)). by apply cstr_app_nul.
Qed.

Lemma fitting_all avail pieces :
  (length (concat pieces) < avail)%nat -> fitting avail pieces = pieces.
Proof.
  revert avail. induction pieces as [|t ts IH]; intros avail H; [done|].
  cbn in *. rewrite length_app in H. rewrite (proj2 (Nat.leb_gt _ _)) by lia.
  f_equal. apply IH. lia.
Qed.

Lemma fitting_fits avail pieces :
  (length (concat (fitting avail pieces)) ≤ avail)%nat.
Proof.
  revert avail. induction pieces as [|t ts IH]; intros avail; cbn; [lia|].
  destruct (Nat.leb_spec avail (length t)); cbn; [lia|].
  rewrite length_app. specialize (IH (avail - length t)%nat). lia.
Qed.

Lemma fitting_prefix avail pieces :
  fitting avail pieces = take (length (fitting avail pieces)) pieces.
Proof.
  revert avail. induction pieces as [|t ts IH]; intros avail; cbn; [done|].
  destruct (avail <=? length t)%nat; cbn; [done|]. f_equal. apply IH.
Qed.

(** Printing stays inside the room it is given, leaves every other byte alone, and
    ends after the pieces that fit. *)
Lemma emit_all_spec m pos fin pieces :
  (pos ≤ fin ≤ length m)%nat ->
  let done := fitting (fin - pos) pieces in
  exists m',
    emit_all m pos fin pieces =
      Ret (m', (pos + length (concat done))%nat, bool_decide (done = pieces)) /\
    length m' = length m /\
    take pos m' = take pos m /\
    drop fin m' = drop fin m.
Proof.
  revert m pos. induction pieces as [|t ts IH]; intros m pos Hpos; cbn.
  { exists m. by rewrite Nat.add_0_r. }
  destruct (snprintf_defined m pos (fin - pos) t) as (m1 & -> & Hl & Ht & Hd); [lia|].
  rewrite Nat.add_comm, Nat.sub_add in Hd by lia. cbn [mbind outcome_bind].
  rewrite (proj2 (Z.ltb_ge _ _)) by lia. cbn [orb].
  destruct (Nat.leb_spec (fin - pos) (length t)).
  - rewrite (proj2 (Z.leb_le _ _)) by lia. exists m1. cbn. by rewrite Nat.add_0_r.
  - rewrite (proj2 (Z.leb_gt _ _)) by lia. rewrite Nat2Z.id.
    destruct (IH m1 (pos + length t)%nat ltac:(lia)) as (m2 & E & Hl2 & Ht2 & Hd2).
    replace (fin - (pos + length t))%nat with (fin - pos - length t)%nat in E by lia.
    exists m2. rewrite E. split_and!; [|congruence| |congruence].
    + cbn. rewrite length_app. f_equal. f_equal; [f_equal; lia|].
      apply bool_decide_ext. split; congruence.
    + apply (f_equal (take pos)) in Ht2. rewrite !take_take in Ht2.
      rewrite Nat.min_l in Ht2 by lia. congruence.
Qed.

(** When everything fits, the text lies at [pos] with its terminator. *)
Lemma emit_all_complete m pos fin pieces :
  pieces <> [] -> (pos + length (concat pieces) < fin ≤ length m)%nat ->
  emit_all m pos fin pieces =
    Ret (take pos m ++ concat pieces ++
           NUL :: drop (pos + length (concat pieces) + 1) m,
         (pos + length (concat pieces))%nat, true).
Proof.
  revert m pos. induction pieces as [|t ts IH]; intros m pos Hne H; [done|].
  cbn in *. rewrite length_app in H.
  unfold snprintf. destruct (fin - pos)%nat as [|n] eqn:En; [lia|].
  rewrite (take_ge t n) by lia.
  rewrite mem_write_in_range by (rewrite length_app; cbn; lia).
  cbn [mbind outcome_bind]. rewrite (proj2 (Z.ltb_ge _ _)) by lia.
  rewrite (proj2 (Z.leb_gt _ _)) by lia. cbn [orb]. rewrite Nat2Z.id.
  rewrite (length_app t [NUL]). cbn [length].
  destruct ts as [|t2 ts].
  - cbn. rewrite !app_nil_r. rewrite <- (assoc_L (++)). cbn.
    by replace (pos + (length t + 1))%nat with (pos + length t + 1)%nat by lia.
  - rewrite IH; [|done|]; cycle 1.
    { rewrite !length_app, length_take, length_drop. cbn [length]. cbn [concat] in *. lia. }
    set (u := concat (t2 :: ts)). change (concat (t :: t2 :: ts)) with (t ++ u).
    rewrite !length_app. f_equal. f_equal. f_equal; [|lia].
    rewrite <- !(assoc_L (++)).
    rewrite (assoc_L (++) (take pos m)), take_app_length'
      by (rewrite length_app, length_take; lia).
    rewrite <- (assoc_L (++)). do 4 f_equal.
    rewrite drop_app_ge by (rewrite length_app, length_take; lia).
    rewrite length_app, length_take. rewrite drop_app_ge by (cbn; lia). rewrite drop_drop.
    f_equal. cbn. lia.
Qed.
