(* ===== verification/Layout.v ===== *)
(** * C structures in memory

    The testmode requests of [lib_driver_cmd_mt66xx] are C structures handed to the
    kernel as raw bytes.  This file lays a structure out by the rules of the ARM
    procedure call standard (natural alignment, little endian, trailing padding to
    the largest alignment), stores values into an existing object and loads them
    back. *)

From S2P Require Import Prelude CString.

(** ** Types and values of members *)

Inductive ctype : Type := U8 | U16 | U32 | U64 | Ptr | Arr (n : nat).

Inductive cval : Type :=
| VI (z : Z)            (* an integer or an address *)
| VA (l : list byte).   (* the bytes of a [u8] array *)

Definition csize (A : abi) (t : ctype) : nat :=
  match t with
  | U8 => 1 | U16 => 2 | U32 => 4 | U64 => 8
  | Ptr => ptr_size A
  | Arr n => n
  end.

Definition calign (A : abi) (t : ctype) : nat :=
  match t with Arr _ => 1 | _ => csize A t end.

(** The bytes needed to bring [off] to a multiple of [a]. *)
Definition pad (off a : nat) : nat := ((a - off mod a) mod a)%nat.

(** The offset after the members [ts] laid out from [off]. *)
Fixpoint end_offset (A : abi) (off : nat) (ts : list ctype) : nat :=
  match ts with
  | [] => off
  | t :: ts' => end_offset A (off + pad off (calign A t) + csize A t) ts'
  end.

Definition max_align (A : abi) (ts : list ctype) : nat :=
  foldr (fun t a => Nat.max (calign A t) a) 1%nat ts.

Definition sizeof (A : abi) (ts : list ctype) : nat :=
  let e := end_offset A 0 ts in (e + pad e (max_align A ts))%nat.

(** The offset of member number [i]. *)
Fixpoint offset_from (A : abi) (off : nat) (ts : list ctype) (i : nat) : nat :=
  match ts with
  | [] => off
  | t :: ts' =>
      let o := (off + pad off (calign A t))%nat in
      match i with O => o | S i' => offset_from A (o + csize A t) ts' i' end
  end.

Definition offset_of (A : abi) (ts : list ctype) (i : nat) : nat := offset_from A 0 ts i.

(** ** Storing and loading *)

Definition val_bytes (A : abi) (t : ctype) (v : cval) : list byte :=
  match v with VI z => le_split (csize A t) z | VA l => l end.

Definition val_of_bytes (t : ctype) (l : list byte) : cval :=
  match t with Arr _ => VA l | _ => VI (le_combine l) end.

(** Assign the members in order; [m] is the object from offset [off] on, and the
    padding keeps the bytes it had. *)
Fixpoint store_from (A : abi) (off : nat) (m : list byte) (ts : list ctype) (vs : list cval)
    : list byte :=
  match ts, vs with
  | t :: ts', v :: vs' =>
      let p := pad off (calign A t) in
      take p m ++ val_bytes A t v ++
        store_from A (off + p + csize A t) (drop (p + csize A t) m) ts' vs'
  | _, _ => m
  end.

Definition store (A : abi) (m : list byte) (ts : list ctype) (vs : list cval) : list byte :=
  store_from A 0 m ts vs.

(** A structure cleared with [memset] before its members are assigned. *)
Definition store_zeroed (A : abi) (ts : list ctype) (vs : list cval) : list byte :=
  store A (zeros (sizeof A ts)) ts vs.

Fixpoint load_from (A : abi) (off : nat) (m : list byte) (ts : list ctype) : list cval :=
  match ts with
  | [] => []
  | t :: ts' =>
      let p := pad off (calign A t) in
      val_of_bytes t (take (csize A t) (drop p m)) ::
        load_from A (off + p + csize A t) (drop (p + csize A t) m) ts'
  end.

Definition load (A : abi) (m : list byte) (ts : list ctype) : list cval := load_from A 0 m ts.

(** Assignment to member number [i] of an object. *)
Definition set_member (A : abi) (ts : list ctype) (m : list byte) (i : nat) (v : cval)
    : outcome (list byte) :=
  mem_write m (offset_of A ts i) (val_bytes A (nth i ts U8) v).

(** A value of the type. *)
Definition typed (A : abi) (t : ctype) (v : cval) : Prop :=
  match t, v with
  | Arr n, VA l => length l = n
  | Arr _, VI _ | _, VA _ => False
  | _, VI z => in_u (Z.of_nat (csize A t) * 8) z
  end.

#[global] Instance typed_dec A t v : Decision (typed A t v).
Proof. destruct t, v; unfold typed, in_u; apply _. Defined.

#[global] Instance cval_eq_dec : EqDecision cval.
Proof. solve_decision. Defined.

(** ** Lemmas *)

Lemma val_bytes_length A t v : typed A t v -> length (val_bytes A t v) = csize A t.
Proof. destruct t, v; cbn; try done; intros _; apply length_le_split. Qed.

Lemma val_of_val_bytes A t v : typed A t v -> val_of_bytes t (val_bytes A t v) = v.
Proof.
  assert (forall n z, in_u (Z.of_nat n * 8) z -> le_combine (le_split n z) = z) as H.
  { intros n z Hz. rewrite le_combine_split. by apply Z.mod_small. }
  destruct t, v; cbn -[le_split le_combine Z.mul]; try done; intros Ht; f_equal; by apply H.
Qed.

Lemma end_offset_mono A off ts : (off ≤ end_offset A off ts)%nat.
Proof.
  revert off. induction ts as [|t ts IH]; intros off; cbn; [lia|]. etrans; [|apply IH]. lia.
Qed.

Lemma store_from_length A off m ts vs :
  Forall2 (typed A) ts vs -> (end_offset A off ts ≤ off + length m)%nat ->
  length (store_from A off m ts vs) = length m.
Proof.
  intros H. revert off m. induction H as [|t v ts vs Ht _ IH]; intros off m Hm; cbn in *; [done|].
  set (p := pad off (calign A t)) in *.
  pose proof (end_offset_mono A (off + p + csize A t) ts).
  rewrite !length_app, length_take, (val_bytes_length A t v Ht), IH, length_drop; [lia|].
  rewrite length_drop. lia.
Qed.

(** What is stored in a large enough object is loaded back. *)
Lemma load_from_store_from A off m ts vs :
  Forall2 (typed A) ts vs -> (end_offset A off ts ≤ off + length m)%nat ->
  load_from A off (store_from A off m ts vs) ts = vs.
Proof.
  intros H. revert off m. induction H as [|t v ts vs Ht _ IH]; intros off m Hm; [done|].
  cbn [load_from store_from end_offset] in *. cbn zeta in *.
  set (p := pad off (calign A t)) in *.
  pose proof (end_offset_mono A (off + p + csize A t) ts).
  pose proof (val_bytes_length A t v Ht) as Hv.
  rewrite drop_app_length' by (rewrite length_take; lia). f_equal.
  - rewrite take_app_length' by lia. by apply val_of_val_bytes.
  - rewrite <- drop_drop. rewrite drop_app_length' by (rewrite length_take; lia).
    rewrite drop_app_length' by lia. apply IH. rewrite length_drop. lia.
Qed.

Lemma load_store A m ts vs :
  Forall2 (typed A) ts vs -> (end_offset A 0 ts ≤ length m)%nat ->
  load A (store A m ts vs) ts = vs.
Proof. intros. by apply load_from_store_from. Qed.

Lemma sizeof_holds_members A ts : (end_offset A 0 ts ≤ sizeof A ts)%nat.
Proof. unfold sizeof. lia. Qed.

Lemma store_zeroed_length A ts vs :
  Forall2 (typed A) ts vs -> length (store_zeroed A ts vs) = sizeof A ts.
Proof.
  intros H. unfold store_zeroed, store. rewrite store_from_length; [apply length_zeros|done|].
  rewrite length_zeros. apply sizeof_holds_members.
Qed.

Lemma load_store_zeroed A ts vs :
  Forall2 (typed A) ts vs -> load A (store_zeroed A ts vs) ts = vs.
Proof.
  intros. apply load_store; [done|]. rewrite length_zeros. apply sizeof_holds_members.
Qed.

Lemma mem_write_app_r p m off src :
  mem_write (p ++ m) (length p + off) src = (fun m' => p ++ m') <$> mem_write m off src.
Proof.
  unfold mem_write. rewrite length_app. case_decide as H1; case_decide as H2; try lia; [|done].
  cbn. f_equal. rewrite take_app_ge by lia. rewrite drop_app_ge by lia.
  rewrite <- (assoc_L (++)). do 3 f_equal; [f_equal; lia|]. f_equal; f_equal; lia.
Qed.

Lemma mem_write_app_head a b r : length a = length b -> mem_write (a ++ r) 0 b = Ret (b ++ r).
Proof.
  intros H. rewrite mem_write_in_range by (rewrite length_app; lia).
  rewrite take_0, app_nil_l. by rewrite drop_app_length' by lia.
Qed.

Lemma offset_from_ge A off ts i : (off ≤ offset_from A off ts i)%nat.
Proof.
  revert off i. induction ts as [|t ts IH]; intros off i; cbn; [lia|].
  destruct i as [|i]; [lia|]. etrans; [|apply IH]. lia.
Qed.

Lemma set_member_store_from A off m ts vs i v t :
  Forall2 (typed A) ts vs -> (end_offset A off ts ≤ off + length m)%nat ->
  ts !! i = Some t -> typed A t v ->
  mem_write (store_from A off m ts vs) (offset_from A off ts i - off) (val_bytes A t v) =
  Ret (store_from A off m ts (<[i := v]> vs)).
Proof.
  intros H. revert off m i. induction H as [|t0 v0 ts vs Ht0 Hts IH]; intros off m i Hm Hi Hv; [done|].
  cbn [store_from end_offset offset_from] in *. cbn zeta in *.
  set (p := pad off (calign A t0)) in *.
  pose proof (end_offset_mono A (off + p + csize A t0) ts).
  pose proof (val_bytes_length A t0 v0 Ht0) as Hl0.
  assert (length (take p m) = p) as Hp by (rewrite length_take; lia).
  destruct i as [|i]; cbn in Hi.
  - injection Hi as ->. replace (off + p - off)%nat with (length (take p m) + 0)%nat by lia.
    rewrite mem_write_app_r, mem_write_app_head; [done|].
    by rewrite (val_bytes_length A t v Hv).
  - cbn. specialize (IH (off + p + csize A t0)%nat (drop (p + csize A t0) m) i
      ltac:(rewrite length_drop; lia) Hi Hv).
    pose proof (offset_from_ge A (off + p + csize A t0) ts i).
    replace (offset_from A (off + p + csize A t0) ts i - off)%nat
      with (length (take p m) + (length (val_bytes A t0 v0) +
            (offset_from A (off + p + csize A t0) ts i - (off + p + csize A t0))))%nat by lia.
    by rewrite !mem_write_app_r, IH.
Qed.

(** Assigning a member of a cleared and filled structure replaces its value. *)
Lemma set_member_store A ts vs i v t :
  Forall2 (typed A) ts vs -> ts !! i = Some t -> typed A t v ->
  set_member A ts (store_zeroed A ts vs) i v = Ret (store_zeroed A ts (<[i := v]> vs)).
Proof.
  intros H Hi Hv. unfold set_member. erewrite nth_lookup_Some by done.
  unfold store_zeroed, store, offset_of.
  rewrite <- (Nat.sub_0_r (offset_from A 0 ts i)).
  apply set_member_store_from; [done| |done|done].
  rewrite length_zeros. apply sizeof_holds_members.
Qed.

Lemma mem_write_prefix m off n old l :
  mem_read m off n = Ret old -> (length l ≤ n)%nat ->
  mem_write m off l = mem_write m off (l ++ drop (length l) old).
Proof.
  unfold mem_read. case_decide as Hn; [|done]. intros [= <-] Hl.
  rewrite !mem_write_in_range;
    [|rewrite length_app, length_drop, length_take, length_drop; lia|lia].
  f_equal. rewrite <- (assoc_L (++)). do 2 f_equal.
  rewrite length_app, length_drop, length_take, length_drop.
  replace (off + (length l + (n `min` (length m - off) - length l)))%nat
    with (off + length l + (n - length l))%nat by lia.
  rewrite <- (take_drop (n - length l) (drop (off + length l) m)) at 1.
  rewrite drop_drop. f_equal. rewrite skipn_firstn_comm, drop_drop. done.
Qed.

(** Copying [l] to the start of an array member changes just that part of it. *)
Lemma set_array_prefix A ts vs i n old l :
  Forall2 (typed A) ts vs -> ts !! i = Some (Arr n) -> vs !! i = Some (VA old) ->
  (length l ≤ n)%nat ->
  mem_write (store_zeroed A ts vs) (offset_of A ts i) l =
  Ret (store_zeroed A ts (<[i := VA (l ++ drop (length l) old)]> vs)).
Proof.
  intros H Hi Hv Hl.
  assert (typed A (Arr n) (VA old)) as Ho by (eapply Forall2_lookup_lr; eauto).
  pose proof (set_member_store A ts vs i (VA old) (Arr n) H Hi Ho) as Hs.
  rewrite list_insert_id in Hs by done. unfold set_member in Hs.
  erewrite nth_lookup_Some in Hs by done. apply mem_read_write in Hs. cbn in Hs, Ho.
  erewrite mem_write_prefix by (rewrite <- ?Ho in *; eauto).
  assert (typed A (Arr n) (VA (l ++ drop (length l) old))) as Hn
    by (cbn; rewrite length_app, length_drop; lia).
  rewrite <- (set_member_store A ts vs i _ (Arr n) H Hi Hn). unfold set_member.
  by erewrite nth_lookup_Some by done.
Qed.

Lemma mem_write_split m off a b :
  mem_write m off (a ++ b) =
  (m' ← mem_write m off a; mem_write m' (off + length a)%nat b).
Proof.
  destruct (decide (off + length (a ++ b) ≤ length m)%nat) as [Hin|Hout].
  - rewrite length_app in Hin. rewrite (mem_write_in_range m off a) by lia. cbn.
    rewrite (mem_write_in_range m off (a ++ b)) by (rewrite length_app; lia).
    rewrite mem_write_in_range by (rewrite !length_app, length_take, length_drop; lia).
    set (p := take off m). assert (length p = off) as Hp by (unfold p; rewrite length_take; lia).
    rewrite (take_app_ge p) by lia. rewrite (drop_app_ge p) by lia. rewrite Hp.
    replace (off + length a - off)%nat with (length a) by lia. rewrite take_app_length.
    rewrite (drop_app_ge a) by lia. rewrite drop_drop, length_app, <- !(assoc_L (++)).
    do 5 f_equal. lia.
  - rewrite length_app in Hout. rewrite mem_write_out_of_range by (rewrite length_app; lia).
    destruct (mem_write m off a) as [m'| |] eqn:E; cbn.
    + pose proof (mem_write_length _ _ _ _ E). rewrite mem_write_out_of_range by lia. done.
    + unfold mem_write in E. case_decide; congruence.
    + unfold mem_write in E. case_decide; congruence.
Qed.

(** Replacing one member keeps a list of values typed. *)
Lemma typed_insert A ts vs i t v :
  Forall2 (typed A) ts vs -> ts !! i = Some t -> typed A t v ->
  Forall2 (typed A) ts (<[i := v]> vs).
Proof.
  intros H Hi Hv. rewrite <- (list_insert_id ts i t Hi). by apply Forall2_insert.
Qed.

(** [m] is a structure that was cleared and then given the members [vs]. *)
Definition built (A : abi) (ts : list ctype) (m : list byte) (vs : list cval) : Prop :=
  m = store_zeroed A ts vs /\ Forall2 (typed A) ts vs.

Lemma built_eq A ts m vs vs' : built A ts m vs -> vs = vs' -> built A ts m vs'.
Proof. by intros ? <-. Qed.

Lemma built_load A ts m vs : built A ts m vs -> load A m ts = vs /\ length m = sizeof A ts.
Proof. intros [-> H]. split; [by apply load_store_zeroed|by apply store_zeroed_length]. Qed.

Lemma built_set A ts m vs i t v :
  built A ts m vs -> ts !! i = Some t -> typed A t v ->
  exists m', set_member A ts m i v = Ret m' /\ built A ts m' (<[i := v]> vs).
Proof.
  intros [-> H] Hi Hv. eexists. split; [by eapply set_member_store|].
  split; [done|by eapply typed_insert].
Qed.

Lemma built_copy A ts m vs i n old l :
  built A ts m vs -> ts !! i = Some (Arr n) -> vs !! i = Some (VA old) -> (length l ≤ n)%nat ->
  exists m', mem_write m (offset_of A ts i) l = Ret m' /\
    built A ts m' (<[i := VA (l ++ drop (length l) old)]> vs).
Proof.
  intros [-> H] Hi Hv Hl. eexists. split; [by eapply set_array_prefix|].
  split; [done|]. eapply typed_insert; [done..|].
  assert (typed A (Arr n) (VA old)) as Ho by (eapply Forall2_lookup_lr; eauto).
  cbn in *. rewrite length_app, length_drop. lia.
Qed.

(** The next assignment or copy of a chain, on a structure known to be [built]. *)
Ltac build_step tac :=
  match goal with
  | B : built ?A ?ts ?m _ |- context [set_member ?A ?ts ?m ?i ?v] =>
      let m' := fresh "m" in let E := fresh "E" in
      destruct (built_set A ts m _ i _ v B eq_refl ltac:(tac)) as (m' & E & ?);
      rewrite E; clear E B; rewrite ?bind_Ret; cbn beta
  | B : built ?A ?ts ?m _ |- context [mem_write ?m (offset_of ?A ?ts ?i) ?l] =>
      let m' := fresh "m" in let E := fresh "E" in
      destruct (built_copy A ts m _ i _ _ l B eq_refl eq_refl ltac:(tac)) as (m' & E & ?);
      rewrite E; clear E B; rewrite ?bind_Ret; cbn beta
  end.

#[export] Hint Resolve val_bytes_length store_zeroed_length load_store_zeroed : cmem.
