(* ===== verification/Structs.v ===== *)
(** * The driver interface header

    [lib_driver_cmd_mt66xx/mediatek_driver_nl80211.h]: the identifiers of the
    testmode commands and of the attributes the kernel answers with, the layouts of
    the request structures, and the structures the answers are decoded into.  The
    build options the sources test with [#ifdef] are the fields of [config]. *)

From Stdlib Require Import SpecFloat.
From S2P Require Import Prelude CString Layout.

Definition ETH_ALEN : nat := 6.

(** ** Build options *)

Record config : Type := {
  MTK_TURNKEY_WLAN : bool;
  MEDIATEK_WIFI_BEAM : bool;
  MTK_POOR_LINK_DETECT : bool;
  MTK_LTE_COEX : bool;
  HOTSPOT_MGR_SUPPORT : bool;
  WAPI_SUPPORT : bool;
  MTK_P2P : bool;
  MTK_TC1_FEATURE : bool;
  MTK_P2P_SIGMA : bool;
  MTK_WFD_SINK : bool;
  MTK_P2P_5G : bool;
  MTK_SCC_MCC : bool;
  MTK_STAGE_SCAN : bool
}.

(** Every option on, every option off. *)
Definition config_all : config :=
  Build_config true true true true true true true true true true true true true.
Definition config_none : config :=
  Build_config false false false false false false false false false false false false false.

(** ** Bit ranges *)

(** [BIT(x)] on 32 bit unsigned integers; the comment of the header gives
    [BIT(16) - 1 = 0x0000FFFF]. *)
Definition BIT (x : Z) : Z := u32 (Z.shiftl 1 x).

(** [(~(BIT(m)-1) & ((BIT(n) - 1) | BIT(n)))]. *)
Definition BITS (m n : Z) : Z :=
  Z.land (u32 (Z.lnot (u32 (BIT m - 1)))) (Z.lor (u32 (BIT n - 1)) (BIT n)).

(** ** Identifiers *)

(** [enum nl80211_testmode_params]. *)
Definition NL80211_TESTMODE_SW_CMD : Z := 1.
Definition NL80211_TESTMODE_WAPI : Z := 2.
Definition NL80211_TESTMODE_HS20 : Z := 3.
Definition NL80211_TESTMODE_POORLINK : Z := 4.
Definition NL80211_TESTMODE_STATISTICS : Z := 16.
Definition NL80211_TESTMODE_LINK_DETECT : Z := 32.
Definition NL80211_TESTMODE_NEW_BEGIN : Z := 100.
Definition NL80211_TESTMODE_SUSPEND : Z := 101.

(** [params.hdr.index = id; params.hdr.index |= (0x01 << 24)], repeated by every
    sender: the identifier with version 1 in the top byte. *)
Definition versioned (id : Z) : Z := Z.lor (u32 id) (Z.shiftl 1 24).

(** [enum nl80211_testmode_sta_link_statistics_attr]. *)
Inductive sta_statistics_attr : Type :=
| STA_STATISTICS_INVALID
| STA_STATISTICS_VERSION
| STA_STATISTICS_MAC
| STA_STATISTICS_LINK_SCORE
| STA_STATISTICS_FLAG
| STA_STATISTICS_PER
| STA_STATISTICS_RSSI
| STA_STATISTICS_PHY_MODE
| STA_STATISTICS_TX_RATE
| STA_STATISTICS_TOTAL_CNT
| STA_STATISTICS_THRESHOLD_CNT
| STA_STATISTICS_AVG_PROCESS_TIME
| STA_STATISTICS_FAIL_CNT
| STA_STATISTICS_TIMEOUT_CNT
| STA_STATISTICS_AVG_AIR_TIME
| STA_STATISTICS_TC_EMPTY_CNT_ARRAY
| STA_STATISTICS_TC_QUE_LEN_ARRAY
| STA_STATISTICS_TC_AVG_QUE_LEN_ARRAY
| STA_STATISTICS_TC_CUR_QUE_LEN_ARRAY
| STA_STATISTICS_RESERVED_ARRAY.

(** The enumerators in order: an enumerator's value is its position. *)
Definition sta_statistics_attrs : list sta_statistics_attr :=
  [STA_STATISTICS_INVALID; STA_STATISTICS_VERSION; STA_STATISTICS_MAC;
   STA_STATISTICS_LINK_SCORE; STA_STATISTICS_FLAG; STA_STATISTICS_PER;
   STA_STATISTICS_RSSI; STA_STATISTICS_PHY_MODE; STA_STATISTICS_TX_RATE;
   STA_STATISTICS_TOTAL_CNT; STA_STATISTICS_THRESHOLD_CNT;
   STA_STATISTICS_AVG_PROCESS_TIME; STA_STATISTICS_FAIL_CNT;
   STA_STATISTICS_TIMEOUT_CNT; STA_STATISTICS_AVG_AIR_TIME;
   STA_STATISTICS_TC_EMPTY_CNT_ARRAY; STA_STATISTICS_TC_QUE_LEN_ARRAY;
   STA_STATISTICS_TC_AVG_QUE_LEN_ARRAY; STA_STATISTICS_TC_CUR_QUE_LEN_ARRAY;
   STA_STATISTICS_RESERVED_ARRAY].

Definition STA_STATISTICS_NUM : nat := 20.

(** [enum nl80211_testmode_link_detect_attr]. *)
Inductive link_detect_attr : Type :=
| LINK_INVALID
| LINK_TX_FAIL_CNT
| LINK_TX_RETRY_CNT
| LINK_TX_MULTI_RETRY_CNT
| LINK_ACK_FAIL_CNT
| LINK_FCS_ERR_CNT
| LINK_TX_CNT
| LINK_TX_OK_CNT
| LINK_TX_OS_CNT.

Definition link_detect_attrs : list link_detect_attr :=
  [LINK_INVALID; LINK_TX_FAIL_CNT; LINK_TX_RETRY_CNT; LINK_TX_MULTI_RETRY_CNT;
   LINK_ACK_FAIL_CNT; LINK_FCS_ERR_CNT; LINK_TX_CNT; LINK_TX_OK_CNT; LINK_TX_OS_CNT].

Definition LINK_DETECT_NUM : nat := 9.

(** [enum nl80211_testmode_available_chan_attr]. *)
Inductive available_chan_attr : Type :=
| AVAILABLE_CHAN_INVALID
| AVAILABLE_CHAN_2G_BASE_1
| AVAILABLE_CHAN_5G_BASE_34
| AVAILABLE_CHAN_5G_BASE_100
| AVAILABLE_CHAN_5G_BASE_149
| AVAILABLE_CHAN_5G_BASE_184.

Definition available_chan_attrs : list available_chan_attr :=
  [AVAILABLE_CHAN_INVALID; AVAILABLE_CHAN_2G_BASE_1; AVAILABLE_CHAN_5G_BASE_34;
   AVAILABLE_CHAN_5G_BASE_100; AVAILABLE_CHAN_5G_BASE_149; AVAILABLE_CHAN_5G_BASE_184].

Definition AVAILABLE_CHAN_NUM : nat := 6.

(** ** Structures the answers are decoded into *)

Definition TC_DATA_NUM : nat := 4.

(** [struct wpa_driver_sta_statistics_s]; the [u32] arrays are kept as the bytes
    the kernel's attributes are copied into. *)
Record wpa_driver_sta_statistics_s : Type := {
  version : Z;
  addr : list byte;
  flag : Z;
  link_score : Z;
  per : Z;
  rssi : Z;
  phy_mode : Z;
  tx_rate : spec_float;
  tx_total_cnt : Z;
  tx_exc_threshold_cnt : Z;
  tx_avg_process_time : Z;
  tx_fail_cnt : Z;
  tx_timeout_cnt : Z;
  tx_avg_air_time : Z;
  tc_buf_full_cnt : list byte;
  tc_que_len : list byte;
  tc_avg_que_len : list byte;
  tc_cur_que_len : list byte;
  reserved : list byte
}.

(** The layout of that structure: member 7 is the [double], the [u32] arrays are given
    by their elements, the last member is [reserved]. *)
Definition sta_statistics_t : list ctype :=
  [U8; Arr ETH_ALEN; U32; U8; U8; U32; U32; U64; U32; U32; U32; U32; U32; U32] ++
  replicate (4 * TC_DATA_NUM) U32 ++ [Arr 32].

(** Element [i] of a [u32] array. *)
Definition u32_elem (a : list byte) (i : nat) : Z := le_combine (take 4 (drop (4 * i) a)).

(** [struct wpa_driver_sta_link_detect_s]. *)
Record wpa_driver_sta_link_detect_s : Type := {
  ld_tx_fail_cnt : Z;
  ld_tx_retry_cnt : Z;
  ld_tx_multi_retry_cnt : Z;
  ld_ack_fail_cnt : Z;
  ld_fcs_err_cnt : Z;
  ld_tx_cnt : Z;
  ld_tx_ok_cnt : Z;
  ld_tx_os_cnt : Z
}.

(** [struct wpa_driver_available_chan_s]. *)
Record wpa_driver_available_chan_s : Type := {
  ch_2g_base1 : Z;
  ch_5g_base34 : Z;
  ch_5g_base100 : Z;
  ch_5g_base149 : Z;
  ch_5g_base184 : Z
}.

(** ** Request structures *)

(** [struct wpa_driver_test_mode_info]: the header [hdr] of every request. *)
Definition test_mode_info_t : list ctype := [U32; U32].

Definition testmode_params_t : list ctype := test_mode_info_t ++ [Ptr].

(** [version], [flag], [addr], [buf]. *)
Definition get_sta_statistics_params_t : list ctype :=
  test_mode_info_t ++ [U32; U32; Arr ETH_ALEN; Ptr].

(** [idx], [value]. *)
Definition p2p_sigma_params_t : list ctype := test_mode_info_t ++ [U32; U32].

Definition get_sta_link_detect_params_t : list ctype := test_mode_info_t ++ [Ptr].

(** [blocked], [bssid]. *)
Definition hotspot_params_t : list ctype := test_mode_info_t ++ [U8; Arr ETH_ALEN].

(** [set], [adr], [data]. *)
Definition sw_cmd_params_t : list ctype := test_mode_info_t ++ [U8; U32; U32].

(** [suspend]. *)
Definition suspendmode_params_t : list ctype := test_mode_info_t ++ [U8].

Definition IW_ENCODE_SEQ_MAX_SIZE : nat := 8.
Definition IW_ENCODE_EXT_GROUP_KEY : Z := 4.
Definition IW_ENCODE_EXT_SET_TX_KEY : Z := 8.
Definition IW_ENCODE_ALG_SMS4 : Z := 32.

(** [struct iw_encode_ext]: [ext_flags], [tx_seq], [rx_seq], [addr], [alg],
    [key_len], [key]. *)
Definition iw_encode_ext_t : list ctype :=
  [U32; Arr IW_ENCODE_SEQ_MAX_SIZE; Arr IW_ENCODE_SEQ_MAX_SIZE; Arr ETH_ALEN; U16; U16; Arr 32].

(** [key_index], [key_len], [extparams]: the nested structure starts with a [u32],
    so its members are aligned as if they were members of the outer one. *)
Definition wapi_key_params_t : list ctype := test_mode_info_t ++ [U8; U8] ++ iw_encode_ext_t.

(** [value]. *)
Definition set_beamplus_params_t : list ctype := test_mode_info_t ++ [U32].

(** [struct wpa_driver_wfd_data_s]. *)
Definition wfd_data_t : list ctype :=
  test_mode_info_t ++
  [U32; U8; U8; U8; U8; U16; U16; U16; U16; Arr ETH_ALEN; Arr ETH_ALEN; Arr 4; Arr 4;
   U16; U16; U32; U32; U32; Arr 192; U16; Arr 2; Arr ETH_ALEN; Arr ETH_ALEN; U32;
   Arr 4; U16; U16; U16; Arr 54; Arr 64; Arr 64].

(** [struct wpa_driver_get_available_channel_params]. *)
Definition get_available_channel_params_t : list ctype := test_mode_info_t ++ [Ptr].

(** ** Wireless extensions

    The structures of an SIOCSIWPRIV request; [IFNAMSIZ] is 16 and a [struct sockaddr] has
    16 bytes. *)

Definition iw_point_t : list ctype := [Ptr; U16; U16].
Definition iw_param_t : list ctype := [U32; U8; U8; U16].
Definition iw_freq_t : list ctype := [U32; U16; U8; U8].
Definition iw_quality_t : list ctype := [U8; U8; U8; U8].

(** The members of [union iwreq_data]. *)
Definition iwreq_data_t : list (list ctype) :=
  [[Arr 16]; iw_point_t; iw_param_t; iw_freq_t;
   iw_param_t; iw_param_t; iw_param_t; iw_param_t; iw_param_t; [U32]; iw_param_t;
   iw_point_t; iw_param_t; iw_quality_t; [Arr 16]; [Arr 16]; iw_param_t; iw_point_t].

(** A union is as large as its largest member. *)
Definition union_size (A : abi) (us : list (list ctype)) : nat :=
  foldr Nat.max 0%nat (sizeof A <$> us).

(** [struct iwreq]: the name and the union. *)
Definition iwreq_size (A : abi) : nat := 16 + union_size A iwreq_data_t.

(** The request has 32 bytes on 32 and 64 bit systems: the pointer of [iw_point] never
    makes the union larger than the name. *)
Lemma iwreq_size_32 A : iwreq_size A = 32%nat.
Proof. by destruct A. Qed.
