(* ===== verification/World.v ===== *)
(** * What the driver library exchanges with its surroundings

    [lib_driver_cmd_mt66xx] is linked into wpa_supplicant and talks to the kernel
    through libnl and ioctls.  None of that code is in the repository: it is the
    parameter of the model.  [Libnl] gives the netlink parsing functions with the laws
    their documentation states; [Kernel] gives the answers of the calls, as functions
    of everything that was exchanged before, so that any stateful behaviour of the
    other side is an instance.  Every call with an effect outside the library is
    recorded as an [event]. *)

From S2P Require Import Prelude CString Structs.

(** ** libnl *)

Inductive nla_type : Type := NLA_UNSPEC | NLA_U8 | NLA_U16 | NLA_U32 | NLA_U64.

(** [struct nla_policy p[]]: the type demanded of each attribute. *)
Definition nla_policy : Type := list nla_type.

Class Libnl : Type := {
  nlattr : Type;                    (* a [struct nlattr *] *)
  nl_msg : Type;                    (* a received [struct nl_msg *] *)
  NL80211_ATTR_IFINDEX : Z;
  NL80211_ATTR_TESTDATA : Z;
  NL80211_CMD_TESTMODE : Z;
  GO_READY_STATE : nat;             (* NL80211_TESTMODE_GO_READY_*: no header of the *)
  GO_READY_NUM : nat;               (* repository declares them *)
  (* [tb[i]] after [nla_parse(tb, NL80211_ATTR_MAX, ...)] without a policy *)
  nla_parse : nl_msg -> Z -> option nlattr;
  (* the result of [nla_parse_nested(sinfo, max, attr, policy)] and [sinfo] *)
  nla_parse_nested : nat -> nlattr -> nla_policy -> Z * (nat -> option nlattr);
  nla_get_u8 : nlattr -> Z;
  nla_get_u16 : nlattr -> Z;
  nla_get_u32 : nlattr -> Z;
  nla_get_u64 : nlattr -> Z;
  (* the bytes [nla_memcpy(dest, attr, count)] copies *)
  nla_memcpy : nlattr -> nat -> list byte
}.

(** What the documentation of libnl promises: the getters return a value of their
    type, [nla_memcpy] copies at most [count] bytes, and the two attributes have
    different numbers. *)
Class LibnlLaws `{Libnl} : Prop := {
  nla_get_u8_range : forall a, in_u 8 (nla_get_u8 a);
  nla_get_u16_range : forall a, in_u 16 (nla_get_u16 a);
  nla_get_u32_range : forall a, in_u 32 (nla_get_u32 a);
  nla_get_u64_range : forall a, in_u 64 (nla_get_u64 a);
  nla_memcpy_bound : forall a n, (length (nla_memcpy a n) ≤ n)%nat;
  nl80211_attrs_distinct : NL80211_ATTR_IFINDEX <> NL80211_ATTR_TESTDATA
}.

(** A callback tells libnl to go on with the next message or to stop. *)
Inductive nl_cb_action : Type := NL_SKIP | NL_STOP.

(** What [nl_recvmsgs] hands to the callbacks. *)
Inductive delivery `{Libnl} : Type :=
| DAck
| DFinish
| DError (error : Z)   (* [struct nlmsgerr]'s [error] *)
| DValid (msg : nl_msg).

(** ** Effects *)

(** [android_wifi_priv_cmd], with the memory behind its [buf]. *)
Record android_wifi_priv_cmd : Type := {
  pc_buf : list byte;
  pc_used_len : Z;
  pc_total_len : Z
}.

(** What an ioctl is given: the data and length of a [struct iw_point], or a private
    command. *)
Inductive ioctl_arg : Type :=
| IwPoint (data : list byte) (length : Z)
| PrivCmd (c : android_wifi_priv_cmd).

Inductive event : Type :=
| EvMsgAlloc                                            (* nlmsg_alloc *)
| EvMsgFree                                             (* nlmsg_free *)
| EvNlSend (cmd : Z) (attrs : list (Z * list byte))     (* nl_send_auto_complete *)
| EvSocket                                              (* socket(PF_INET, SOCK_DGRAM, 0) *)
| EvClose                                               (* close of that socket *)
| EvIoctl (request : Z) (ifname : list byte) (arg : ioctl_arg)
| EvIfaceFlags (ifname : list byte) (up : bool)         (* linux_set_iface_flags *)
| EvDeauth (bssid : list byte)                          (* wpa_drv_deauthenticate *)
| EvWpaMsg (text : list byte)                           (* wpa_msg *)
| EvCancelTimeout (drv ctx : Z)                         (* eloop_cancel_timeout *)
| EvRegisterTimeout (secs usecs drv ctx : Z)            (* eloop_register_timeout *)
| EvExpire (drv ctx : Z)                                (* the event loop runs a timeout *)
| EvOpen (path : list byte)                             (* open(O_CREAT|O_RDWR) and close *)
| EvRemove (path : list byte)                           (* remove *)
| EvChannelListChanged (ctx : Z)                        (* wpa_supplicant_event *)
| EvRandom                                              (* os_get_random *)
| EvSharedFreq.                                         (* wpa_drv_shared_freq *)

Abbreviation trace := (list event).

#[global] Instance android_wifi_priv_cmd_eq_dec : EqDecision android_wifi_priv_cmd.
Proof. solve_decision. Defined.

#[global] Instance ioctl_arg_eq_dec : EqDecision ioctl_arg.
Proof. solve_decision. Defined.

#[global] Instance event_eq_dec : EqDecision event.
Proof. solve_decision. Defined.

(** The answers of the other side. *)
Class Kernel `{Libnl} : Type := {
  nlmsg_alloc_ok : trace -> bool;
  nla_put_ok : trace -> Z -> list byte -> bool;      (* room left in the message *)
  nl_cb_clone_ok : trace -> bool;
  nl_send_result : trace -> Z;                       (* of the message just sent *)
  nl_answers : trace -> list (list delivery);        (* one list per nl_recvmsgs *)
  socket_result : trace -> Z;
  ioctl_country : trace -> Z;                        (* SIOCSIWPRIV "COUNTRY .." *)
  (* SIOCDEVPRIVATE + 1: the result, the answer written to the buffer, used_len *)
  ioctl_private : trace -> android_wifi_priv_cmd -> Z * list byte * Z;
  iface_flags_result : trace -> Z;
  deauth_result : trace -> Z;
  shared_freq : trace -> Z;                          (* wpa_drv_shared_freq *)
  random_u32 : trace -> Z;                           (* os_get_random *)
  open_result : trace -> Z;
  remove_result : trace -> Z
}.

(** Messages allocated and not yet freed. *)
Definition live_messages (tr : trace) : Z :=
  Z.of_nat (length (filter (fun e => e = EvMsgAlloc) tr)) -
  Z.of_nat (length (filter (fun e => e = EvMsgFree) tr)).

(** ** An instance

    An attribute is a payload or a nest of numbered attributes, the last one of a
    number wins, and a payload shorter than its policy demands fails the parse.  It
    shows that the laws can hold and is the ground for the concrete runs of the other
    files. *)

Inductive tree_attr : Type :=
| Leaf (payload : list byte)
| Nest (attrs : list (nat * tree_attr)).

Definition leaf_bytes (a : tree_attr) : list byte :=
  match a with Leaf p => p | Nest _ => [] end.

Definition tree_get (n : nat) (a : tree_attr) : Z := le_combine (take n (leaf_bytes a)).

Definition tree_lookup (l : list (nat * tree_attr)) (i : nat) : option tree_attr :=
  foldl (fun r '(j, a) => if (i =? j)%nat then Some a else r) None l.

Definition min_len (t : nla_type) : nat :=
  match t with NLA_UNSPEC => 0 | NLA_U8 => 1 | NLA_U16 => 2 | NLA_U32 => 4 | NLA_U64 => 8 end.

Definition tree_valid (pol : nla_policy) (l : list (nat * tree_attr)) : bool :=
  forallb (fun '(i, a) =>
    match pol !! i with
    | Some t => (min_len t <=? length (leaf_bytes a))%nat
    | None => true
    end) l.

#[export] Instance tree_libnl : Libnl := {|
  nlattr := tree_attr;
  nl_msg := list (nat * tree_attr);
  NL80211_ATTR_IFINDEX := 3;
  NL80211_ATTR_TESTDATA := 69;
  NL80211_CMD_TESTMODE := 45;
  GO_READY_STATE := 1;
  GO_READY_NUM := 2;
  nla_parse m i := tree_lookup m (Z.to_nat i);
  nla_parse_nested mx a pol :=
    match a with
    | Nest l => if tree_valid pol l
                then (0, fun i => if (i <=? mx)%nat then tree_lookup l i else None)
                else (-34, fun _ => None)
    | Leaf _ => (-22, fun _ => None)
    end;
  nla_get_u8 := tree_get 1;
  nla_get_u16 := tree_get 2;
  nla_get_u32 := tree_get 4;
  nla_get_u64 := tree_get 8;
  nla_memcpy a n := take n (leaf_bytes a)
|}.

Lemma tree_get_range n a : in_u (8 * Z.of_nat n) (tree_get n a).
Proof.
  unfold tree_get, in_u. pose proof (le_combine_bound (take n (leaf_bytes a))) as H.
  rewrite length_take in H. split; [lia|]. eapply Z.lt_le_trans; [apply H|].
  apply Z.pow_le_mono_r; lia.
Qed.

#[export] Instance tree_libnl_laws : @LibnlLaws tree_libnl.
Proof.
  constructor; cbn.
  - apply (tree_get_range 1).
  - apply (tree_get_range 2).
  - apply (tree_get_range 4).
  - apply (tree_get_range 8).
  - intros. rewrite length_take. lia.
  - done.
Qed.

(** A kernel that accepts everything and acknowledges every request after delivering
    the messages [answers]. *)
Definition ack_kernel (answers : list (list (nat * tree_attr))) : @Kernel tree_libnl :=
  @Build_Kernel tree_libnl
    (fun _ => true) (fun _ _ _ => true) (fun _ => true) (fun _ => 0)
    (fun _ => [map DValid answers; [DAck]])
    (fun _ => 3) (fun _ => 0) (fun _ c => (0, pc_buf c, Z.of_nat (length (pc_buf c))))
    (fun _ => 0) (fun _ => 0) (fun _ => 2437) (fun _ => 7) (fun _ => 5) (fun _ => 0).
