(* ===== verification/Handlers.v ===== *)
(** * Decoding the kernel's answers

    The [testmode_*_handler] callbacks of [mediatek_driver_cmd_nl80211.c]: each parses
    the test data of a netlink message against a policy and stores the attributes that
    are present into the structure of the caller.  A member whose attribute is absent
    keeps the value it had, which for the callers of this library is whatever was on
    the stack. *)

From Stdlib Require Import SpecFloat.
From S2P Require Import Prelude CString Layout Structs World.

Section Handlers.
Context `{NL : Libnl}.

(** ** The common shape *)

(** [for (i = 1; i < num; i++) if (sinfo[i]) switch (i) ...]: [arm] is the switch,
    [attrs] gives the enumerator of each index. *)
Fixpoint attr_loop {E S : Type} (attrs : list E) (arm : E -> nlattr -> S -> outcome S)
    (sinfo : nat -> option nlattr) (idxs : list nat) (s : S) : outcome S :=
  match idxs with
  | [] => Ret s
  | i :: idxs' =>
      s' ← match sinfo i, attrs !! i with
           | Some x, Some a => arm a x s
           | _, _ => Ret s
           end;
      attr_loop attrs arm sinfo idxs' s'
  end.

(** Parse the message, leave when there is no test data or it does not satisfy the
    policy, run the loop. *)
Definition run_handler {E S : Type} (attrs : list E) (num : nat) (policy : nla_policy)
    (arm : E -> nlattr -> S -> outcome S) (msg : nl_msg) (s : S) : outcome (nl_cb_action * S) :=
  match nla_parse msg NL80211_ATTR_TESTDATA with
  | None => Ret (NL_SKIP, s)
  | Some td =>
      let '(err, sinfo) := nla_parse_nested (num - 1) td policy in
      if negb (err =? 0) then Ret (NL_SKIP, s)
      else s' ← attr_loop attrs arm sinfo (seq 1 (num - 1)) s; Ret (NL_SKIP, s')
  end.

(** [nla_memcpy(dest, attr, sizeof(dest))]. *)
Definition copy_attr (dest : list byte) (x : nlattr) : list byte :=
  let c := nla_memcpy x (length dest) in c ++ drop (length c) dest.

(** ** Station statistics *)

Definition sta_statistics_policy : nla_policy :=
  [NLA_UNSPEC; NLA_U8; NLA_UNSPEC; NLA_U8; NLA_U32; NLA_U8; NLA_U8; NLA_U32; NLA_U16;
   NLA_U32; NLA_U32; NLA_U32; NLA_U32; NLA_U32; NLA_U32;
   NLA_UNSPEC; NLA_UNSPEC; NLA_UNSPEC; NLA_UNSPEC; NLA_UNSPEC].

(** [((int)nla_get_u8(..) - 220) / 2]: C division rounds towards zero. *)
Definition rssi_of (b : Z) : Z := Z.quot (b - 220) 2.

(** [((double)nla_get_u16(..)) / 2] in IEEE 754 binary64. *)
Definition double_of_Z (z : Z) : spec_float := binary_normalize 53 1024 z 0 false.
Definition tx_rate_of (v : Z) : spec_float := SFdiv 53 1024 (double_of_Z v) (double_of_Z 2).

Definition sta_statistics_arm (a : sta_statistics_attr) (x : nlattr)
    (s : wpa_driver_sta_statistics_s) : wpa_driver_sta_statistics_s :=
  match a with
  | STA_STATISTICS_VERSION => s{{version := nla_get_u8 x}}
  | STA_STATISTICS_MAC => s{{addr := copy_attr (addr s) x}}
  | STA_STATISTICS_LINK_SCORE => s{{link_score := nla_get_u8 x}}
  | STA_STATISTICS_FLAG => s{{flag := nla_get_u32 x}}
  | STA_STATISTICS_PER => s{{per := nla_get_u8 x}}
  | STA_STATISTICS_RSSI => s{{rssi := rssi_of (nla_get_u8 x)}}
  | STA_STATISTICS_PHY_MODE => s{{phy_mode := nla_get_u32 x}}
  | STA_STATISTICS_TX_RATE => s{{tx_rate := tx_rate_of (nla_get_u16 x)}}
  | STA_STATISTICS_FAIL_CNT => s{{tx_fail_cnt := nla_get_u32 x}}
  | STA_STATISTICS_TIMEOUT_CNT => s{{tx_timeout_cnt := nla_get_u32 x}}
  | STA_STATISTICS_AVG_AIR_TIME => s{{tx_avg_air_time := nla_get_u32 x}}
  | STA_STATISTICS_TOTAL_CNT => s{{tx_total_cnt := nla_get_u32 x}}
  | STA_STATISTICS_THRESHOLD_CNT => s{{tx_exc_threshold_cnt := nla_get_u32 x}}
  | STA_STATISTICS_AVG_PROCESS_TIME => s{{tx_avg_process_time := nla_get_u32 x}}
  | STA_STATISTICS_TC_EMPTY_CNT_ARRAY => s{{tc_buf_full_cnt := copy_attr (tc_buf_full_cnt s) x}}
  | STA_STATISTICS_TC_QUE_LEN_ARRAY => s{{tc_que_len := copy_attr (tc_que_len s) x}}
  | STA_STATISTICS_TC_AVG_QUE_LEN_ARRAY => s{{tc_avg_que_len := copy_attr (tc_avg_que_len s) x}}
  | STA_STATISTICS_TC_CUR_QUE_LEN_ARRAY => s{{tc_cur_que_len := copy_attr (tc_cur_que_len s) x}}
  | STA_STATISTICS_RESERVED_ARRAY => s{{reserved := copy_attr (reserved s) x}}
  | STA_STATISTICS_INVALID => s
  end.

Definition testmode_sta_statistics_handler (msg : nl_msg) (s : wpa_driver_sta_statistics_s)
    : outcome (nl_cb_action * wpa_driver_sta_statistics_s) :=
  run_handler sta_statistics_attrs STA_STATISTICS_NUM sta_statistics_policy
    (fun a x s => Ret (sta_statistics_arm a x s)) msg s.

(** ** Beamplus group owner state *)

(** The only arm of the switch is [GO_READY_STATE], so the indices are their own
    enumerators. *)
Definition testmode_beamplus_go_ready_handler (msg : nl_msg) (go_ready : Z)
    : outcome (nl_cb_action * Z) :=
  run_handler (seq 0 GO_READY_NUM) GO_READY_NUM
    (<[GO_READY_STATE := NLA_U32]> (replicate GO_READY_NUM NLA_UNSPEC))
    (fun i x v => Ret (if (i =? GO_READY_STATE)%nat then nla_get_u32 x else v)) msg go_ready.

(** ** Link detection *)

Definition link_detect_policy : nla_policy :=
  [NLA_UNSPEC; NLA_U64; NLA_U64; NLA_U64; NLA_U64; NLA_U64; NLA_U64; NLA_U64; NLA_U64].

(** [ack_cnt] is an [s64]: its absolute value, undefined for the least one. *)
Definition abs_s64 (v : Z) : outcome Z :=
  let ack_cnt := s64 v in
  if ack_cnt <? 0
  then if - ack_cnt <? 2 ^ 63 then Ret (- ack_cnt) else Undef SignedOverflow
  else Ret ack_cnt.

Definition link_detect_arm (a : link_detect_attr) (x : nlattr)
    (s : wpa_driver_sta_link_detect_s) : outcome wpa_driver_sta_link_detect_s :=
  match a with
  | LINK_TX_FAIL_CNT => Ret s{{ld_tx_fail_cnt := nla_get_u64 x}}
  | LINK_TX_RETRY_CNT => Ret s{{ld_tx_retry_cnt := nla_get_u64 x}}
  | LINK_TX_MULTI_RETRY_CNT => Ret s{{ld_tx_multi_retry_cnt := nla_get_u64 x}}
  | LINK_ACK_FAIL_CNT => v ← abs_s64 (nla_get_u64 x); Ret s{{ld_ack_fail_cnt := v}}
  | LINK_FCS_ERR_CNT => Ret s{{ld_fcs_err_cnt := nla_get_u64 x}}
  | LINK_TX_CNT => Ret s{{ld_tx_cnt := nla_get_u64 x}}
  | LINK_TX_OK_CNT => Ret s{{ld_tx_ok_cnt := nla_get_u64 x}}
  | LINK_TX_OS_CNT => Ret s{{ld_tx_os_cnt := nla_get_u64 x}}
  | LINK_INVALID => Ret s
  end.

Definition testmode_sta_link_detect_handler (msg : nl_msg) (s : wpa_driver_sta_link_detect_s)
    : outcome (nl_cb_action * wpa_driver_sta_link_detect_s) :=
  run_handler link_detect_attrs LINK_DETECT_NUM link_detect_policy link_detect_arm msg s.

(** ** Available channels *)

Definition available_chan_policy : nla_policy :=
  [NLA_UNSPEC; NLA_U32; NLA_U32; NLA_U32; NLA_U32; NLA_U32].

Definition available_chan_arm (a : available_chan_attr) (x : nlattr)
    (s : wpa_driver_available_chan_s) : wpa_driver_available_chan_s :=
  match a with
  | AVAILABLE_CHAN_2G_BASE_1 => s{{ch_2g_base1 := nla_get_u32 x}}
  | AVAILABLE_CHAN_5G_BASE_34 => s{{ch_5g_base34 := nla_get_u32 x}}
  | AVAILABLE_CHAN_5G_BASE_100 => s{{ch_5g_base100 := nla_get_u32 x}}
  | AVAILABLE_CHAN_5G_BASE_149 => s{{ch_5g_base149 := nla_get_u32 x}}
  | AVAILABLE_CHAN_5G_BASE_184 => s{{ch_5g_base184 := nla_get_u32 x}}
  | AVAILABLE_CHAN_INVALID => s
  end.

Definition testmode_available_channel_handler (msg : nl_msg) (s : wpa_driver_available_chan_s)
    : outcome (nl_cb_action * wpa_driver_available_chan_s) :=
  run_handler available_chan_attrs AVAILABLE_CHAN_NUM available_chan_policy
    (fun a x s => Ret (available_chan_arm a x s)) msg s.

(** ** Reference definitions *)

(** The value of attribute [i] read by [f], or the old value. *)
Definition attr_or {V} (sinfo : nat -> option nlattr) (i : nat) (f : nlattr -> V) (old : V) : V :=
  match sinfo i with Some x => f x | None => old end.

(** What the statistics structure holds after a message: every member read from its
    own attribute, all at once. *)
Definition sta_statistics_decoded (sinfo : nat -> option nlattr)
    (s : wpa_driver_sta_statistics_s) : wpa_driver_sta_statistics_s :=
  {| version := attr_or sinfo 1 nla_get_u8 (version s);
     addr := attr_or sinfo 2 (copy_attr (addr s)) (addr s);
     flag := attr_or sinfo 4 nla_get_u32 (flag s);
     link_score := attr_or sinfo 3 nla_get_u8 (link_score s);
     per := attr_or sinfo 5 nla_get_u8 (per s);
     rssi := attr_or sinfo 6 (fun x => rssi_of (nla_get_u8 x)) (rssi s);
     phy_mode := attr_or sinfo 7 nla_get_u32 (phy_mode s);
     tx_rate := attr_or sinfo 8 (fun x => tx_rate_of (nla_get_u16 x)) (tx_rate s);
     tx_total_cnt := attr_or sinfo 9 nla_get_u32 (tx_total_cnt s);
     tx_exc_threshold_cnt := attr_or sinfo 10 nla_get_u32 (tx_exc_threshold_cnt s);
     tx_avg_process_time := attr_or sinfo 11 nla_get_u32 (tx_avg_process_time s);
     tx_fail_cnt := attr_or sinfo 12 nla_get_u32 (tx_fail_cnt s);
     tx_timeout_cnt := attr_or sinfo 13 nla_get_u32 (tx_timeout_cnt s);
     tx_avg_air_time := attr_or sinfo 14 nla_get_u32 (tx_avg_air_time s);
     tc_buf_full_cnt := attr_or sinfo 15 (copy_attr (tc_buf_full_cnt s)) (tc_buf_full_cnt s);
     tc_que_len := attr_or sinfo 16 (copy_attr (tc_que_len s)) (tc_que_len s);
     tc_avg_que_len := attr_or sinfo 17 (copy_attr (tc_avg_que_len s)) (tc_avg_que_len s);
     tc_cur_que_len := attr_or sinfo 18 (copy_attr (tc_cur_que_len s)) (tc_cur_que_len s);
     reserved := attr_or sinfo 19 (copy_attr (reserved s)) (reserved s) |}.

(** The attribute table a handler works on, [None] when it leaves early. *)
Definition answer_table (num : nat) (policy : nla_policy) (msg : nl_msg)
    : option (nat -> option nlattr) :=
  match nla_parse msg NL80211_ATTR_TESTDATA with
  | None => None
  | Some td => let '(err, sinfo) := nla_parse_nested (num - 1) td policy in
               if err =? 0 then Some sinfo else None
  end.

(** The magnitude of the 64 bit pattern [v] read as a signed number. *)
Definition magnitude64 (v : Z) : Z := Z.abs (s64 v).

Definition link_detect_decoded (sinfo : nat -> option nlattr)
    (s : wpa_driver_sta_link_detect_s) : wpa_driver_sta_link_detect_s :=
  {| ld_tx_fail_cnt := attr_or sinfo 1 nla_get_u64 (ld_tx_fail_cnt s);
     ld_tx_retry_cnt := attr_or sinfo 2 nla_get_u64 (ld_tx_retry_cnt s);
     ld_tx_multi_retry_cnt := attr_or sinfo 3 nla_get_u64 (ld_tx_multi_retry_cnt s);
     ld_ack_fail_cnt := attr_or sinfo 4 (fun x => magnitude64 (nla_get_u64 x)) (ld_ack_fail_cnt s);
     ld_fcs_err_cnt := attr_or sinfo 5 nla_get_u64 (ld_fcs_err_cnt s);
     ld_tx_cnt := attr_or sinfo 6 nla_get_u64 (ld_tx_cnt s);
     ld_tx_ok_cnt := attr_or sinfo 7 nla_get_u64 (ld_tx_ok_cnt s);
     ld_tx_os_cnt := attr_or sinfo 8 nla_get_u64 (ld_tx_os_cnt s) |}.

Definition available_chan_decoded (sinfo : nat -> option nlattr)
    (s : wpa_driver_available_chan_s) : wpa_driver_available_chan_s :=
  {| ch_2g_base1 := attr_or sinfo 1 nla_get_u32 (ch_2g_base1 s);
     ch_5g_base34 := attr_or sinfo 2 nla_get_u32 (ch_5g_base34 s);
     ch_5g_base100 := attr_or sinfo 3 nla_get_u32 (ch_5g_base100 s);
     ch_5g_base149 := attr_or sinfo 4 nla_get_u32 (ch_5g_base149 s);
     ch_5g_base184 := attr_or sinfo 5 nla_get_u32 (ch_5g_base184 s) |}.

(** The state of the group owner, when its attribute is one the loop visits. *)
Definition go_ready_policy : nla_policy :=
  <[GO_READY_STATE := NLA_U32]> (replicate GO_READY_NUM NLA_UNSPEC).
Definition go_ready_decoded (sinfo : nat -> option nlattr) (v : Z) : Z :=
  if bool_decide (1 ≤ GO_READY_STATE < GO_READY_NUM)%nat
  then attr_or sinfo GO_READY_STATE nla_get_u32 v else v.

(** The members have values of their C types. *)
Record wf_sta_statistics (s : wpa_driver_sta_statistics_s) : Prop := {
  wf_u8 : in_u 8 (version s) /\ in_u 8 (link_score s) /\ in_u 8 (per s);
  wf_u32 : Forall (in_u 32) [flag s; phy_mode s; tx_total_cnt s; tx_exc_threshold_cnt s;
             tx_avg_process_time s; tx_fail_cnt s; tx_timeout_cnt s; tx_avg_air_time s];
  wf_rssi : in_s 32 (rssi s);
  wf_addr : length (addr s) = ETH_ALEN;
  wf_arrays : Forall (fun a => length a = (4 * TC_DATA_NUM)%nat)
                [tc_buf_full_cnt s; tc_que_len s; tc_avg_que_len s; tc_cur_que_len s];
  wf_reserved : length (reserved s) = 32%nat
}.

(** ** Lemmas *)

Lemma attr_loop_cons {E S} (attrs : list E) (arm : E -> nlattr -> S -> outcome S) sinfo i idxs s s' :
  match sinfo i, attrs !! i with Some x, Some a => arm a x s | _, _ => Ret s end = Ret s' ->
  attr_loop attrs arm sinfo (i :: idxs) s = attr_loop attrs arm sinfo idxs s'.
Proof. cbn. by intros ->. Qed.

(** One step of the loop, written as an assignment that is always made. *)
Definition statistics_assign (sinfo : nat -> option nlattr) (i : nat) (a : sta_statistics_attr)
    (s : wpa_driver_sta_statistics_s) : wpa_driver_sta_statistics_s :=
  match a with
  | STA_STATISTICS_VERSION => s{{version := attr_or sinfo i nla_get_u8 (version s)}}
  | STA_STATISTICS_MAC => s{{addr := attr_or sinfo i (copy_attr (addr s)) (addr s)}}
  | STA_STATISTICS_LINK_SCORE => s{{link_score := attr_or sinfo i nla_get_u8 (link_score s)}}
  | STA_STATISTICS_FLAG => s{{flag := attr_or sinfo i nla_get_u32 (flag s)}}
  | STA_STATISTICS_PER => s{{per := attr_or sinfo i nla_get_u8 (per s)}}
  | STA_STATISTICS_RSSI => s{{rssi := attr_or sinfo i (fun x => rssi_of (nla_get_u8 x)) (rssi s)}}
  | STA_STATISTICS_PHY_MODE => s{{phy_mode := attr_or sinfo i nla_get_u32 (phy_mode s)}}
  | STA_STATISTICS_TX_RATE =>
      s{{tx_rate := attr_or sinfo i (fun x => tx_rate_of (nla_get_u16 x)) (tx_rate s)}}
  | STA_STATISTICS_FAIL_CNT => s{{tx_fail_cnt := attr_or sinfo i nla_get_u32 (tx_fail_cnt s)}}
  | STA_STATISTICS_TIMEOUT_CNT => s{{tx_timeout_cnt := attr_or sinfo i nla_get_u32 (tx_timeout_cnt s)}}
  | STA_STATISTICS_AVG_AIR_TIME => s{{tx_avg_air_time := attr_or sinfo i nla_get_u32 (tx_avg_air_time s)}}
  | STA_STATISTICS_TOTAL_CNT => s{{tx_total_cnt := attr_or sinfo i nla_get_u32 (tx_total_cnt s)}}
  | STA_STATISTICS_THRESHOLD_CNT =>
      s{{tx_exc_threshold_cnt := attr_or sinfo i nla_get_u32 (tx_exc_threshold_cnt s)}}
  | STA_STATISTICS_AVG_PROCESS_TIME =>
      s{{tx_avg_process_time := attr_or sinfo i nla_get_u32 (tx_avg_process_time s)}}
  | STA_STATISTICS_TC_EMPTY_CNT_ARRAY =>
      s{{tc_buf_full_cnt := attr_or sinfo i (copy_attr (tc_buf_full_cnt s)) (tc_buf_full_cnt s)}}
  | STA_STATISTICS_TC_QUE_LEN_ARRAY =>
      s{{tc_que_len := attr_or sinfo i (copy_attr (tc_que_len s)) (tc_que_len s)}}
  | STA_STATISTICS_TC_AVG_QUE_LEN_ARRAY =>
      s{{tc_avg_que_len := attr_or sinfo i (copy_attr (tc_avg_que_len s)) (tc_avg_que_len s)}}
  | STA_STATISTICS_TC_CUR_QUE_LEN_ARRAY =>
      s{{tc_cur_que_len := attr_or sinfo i (copy_attr (tc_cur_que_len s)) (tc_cur_que_len s)}}
  | STA_STATISTICS_RESERVED_ARRAY =>
      s{{reserved := attr_or sinfo i (copy_attr (reserved s)) (reserved s)}}
  | STA_STATISTICS_INVALID => s
  end.

Lemma statistics_step (sinfo : nat -> option nlattr) i a s :
  sta_statistics_attrs !! i = Some a ->
  match sinfo i, sta_statistics_attrs !! i with
  | Some x, Some a => Ret (sta_statistics_arm a x s)
  | _, _ => Ret s
  end = Ret (statistics_assign sinfo i a s).
Proof. intros ->. unfold statistics_assign, attr_or. by destruct s, a, (sinfo i). Qed.

Lemma statistics_loop sinfo s :
  attr_loop sta_statistics_attrs (fun a x s => Ret (sta_statistics_arm a x s)) sinfo
    (seq 1 (STA_STATISTICS_NUM - 1)) s = Ret (sta_statistics_decoded sinfo s).
Proof.
  cbn [seq Nat.sub STA_STATISTICS_NUM].
  do 19 (erewrite attr_loop_cons; [|by apply statistics_step]).
  by destruct s.
Qed.

Lemma copy_attr_length `{!LibnlLaws} dest x : length (copy_attr dest x) = length dest.
Proof.
  unfold copy_attr. pose proof (nla_memcpy_bound x (length dest)).
  rewrite length_app, length_drop. lia.
Qed.

Lemma attr_or_ind {V} (P : V -> Prop) sinfo i f old :
  (forall x, P (f x)) -> P old -> P (attr_or sinfo i f old).
Proof. intros. unfold attr_or. by destruct (sinfo i). Qed.

Lemma rssi_of_range b : in_u 8 b -> -110 <= rssi_of b <= 17.
Proof.
  unfold in_u, rssi_of. change (2 ^ 8) with 256. intros.
  Z.to_euclidean_division_equations. lia.
Qed.

Lemma decoded_wf `{!LibnlLaws} sinfo s :
  wf_sta_statistics s -> wf_sta_statistics (sta_statistics_decoded sinfo s).
Proof.
  intros [(? & ? & ?) W32 ? ? WA ?]. unfold sta_statistics_decoded.
  repeat (apply Forall_cons_1 in W32 as [? W32]).
  repeat (apply Forall_cons_1 in WA as [? WA]).
  constructor; cbn.
  - refine (conj _ (conj _ _)); (apply attr_or_ind; [apply nla_get_u8_range|done]).
  - repeat apply Forall_cons_2; try apply Forall_nil_2; (apply attr_or_ind; [apply nla_get_u32_range|done]).
  - apply attr_or_ind; [|done]. intros x. pose proof (rssi_of_range _ (nla_get_u8_range x)).
    unfold in_s. lia.
  - apply (attr_or_ind (fun a => length a = ETH_ALEN)); [|done].
    intros. by rewrite copy_attr_length.
  - repeat apply Forall_cons_2; try apply Forall_nil_2;
      (apply (attr_or_ind (fun a => length a = _)); [intros; by rewrite copy_attr_length|done]).
  - apply (attr_or_ind (fun a => length a = 32%nat)); [|done].
    intros. by rewrite copy_attr_length.
Qed.

(** An arm that always returns makes the whole loop return. *)
Lemma attr_loop_returns {E S} (attrs : list E) (arm : E -> nlattr -> S -> outcome S) sinfo idxs s :
  (forall a x s, exists s', arm a x s = Ret s') ->
  exists s', attr_loop attrs arm sinfo idxs s = Ret s'.
Proof.
  intros Harm. revert s. induction idxs as [|i idxs IH]; intros s; cbn; [eauto|].
  destruct (sinfo i) as [x|]; [|apply IH]. destruct (attrs !! i) as [a|]; [|apply IH].
  destruct (Harm a x s) as [s' ->]. apply IH.
Qed.

Lemma run_handler_table {E S} (attrs : list E) num policy (arm : E -> nlattr -> S -> outcome S) msg s :
  run_handler attrs num policy arm msg s =
  match answer_table num policy msg with
  | None => Ret (NL_SKIP, s)
  | Some sinfo => s' ← attr_loop attrs arm sinfo (seq 1 (num - 1)) s; Ret (NL_SKIP, s')
  end.
Proof.
  unfold run_handler, answer_table. destruct (nla_parse _ _); [|done].
  destruct (nla_parse_nested _ _ _) as [err sinfo]. by destruct (err =? 0).
Qed.

Lemma abs_s64_spec v :
  abs_s64 v = if s64 v =? - 2 ^ 63 then Undef SignedOverflow else Ret (magnitude64 v).
Proof.
  unfold abs_s64, magnitude64. pose proof (swrap_range 64 v ltac:(lia)) as [H1 H2].
  change (swrap 64) with s64 in H1, H2. change (64 - 1) with 63 in H1, H2.
  split_tests; try lia; f_equal; lia.
Qed.

(** The loop of the link detection handler up to and after the one arm that can
    fail. *)
Lemma link_detect_loop sinfo s :
  attr_loop link_detect_attrs link_detect_arm sinfo (seq 1 (LINK_DETECT_NUM - 1)) s =
  if bool_decide (Exists (fun x => s64 (nla_get_u64 x) = - 2 ^ 63) (option_list (sinfo 4%nat)))
  then Undef SignedOverflow else Ret (link_detect_decoded sinfo s).
Proof.
  unfold link_detect_decoded, attr_or. destruct s.
  destruct (sinfo 4%nat) as [x|] eqn:E4; cbn; rewrite E4.
  - destruct (sinfo 1%nat), (sinfo 2%nat), (sinfo 3%nat); cbn; rewrite abs_s64_spec;
      (destruct (Z.eqb_spec (s64 (nla_get_u64 x)) (- 2 ^ 63));
       [rewrite bool_decide_true by (by constructor); done|
        rewrite bool_decide_false by (intros HE; by inversion HE as [? ? ?|? ? HE']; [|inversion HE'])];
       cbn; by destruct (sinfo 5%nat), (sinfo 6%nat), (sinfo 7%nat), (sinfo 8%nat)).
  - destruct (sinfo 1%nat), (sinfo 2%nat), (sinfo 3%nat); cbn;
      by destruct (sinfo 5%nat), (sinfo 6%nat), (sinfo 7%nat), (sinfo 8%nat).
Qed.

(** ** Properties *)

(** The handler as one assignment. *)
Lemma statistics_handler_decodes (msg : nl_msg) (s : wpa_driver_sta_statistics_s) :
  testmode_sta_statistics_handler msg s =
  Ret (NL_SKIP,
       match answer_table STA_STATISTICS_NUM sta_statistics_policy msg with
       | Some sinfo => sta_statistics_decoded sinfo s
       | None => s
       end).
Proof.
  unfold testmode_sta_statistics_handler. rewrite run_handler_table.
  destruct (answer_table _ _ _); [|done]. by rewrite statistics_loop.
Qed.

(** C10: the statistics handler, a loop over a switch, is the parallel assignment of
    every member from its own attribute: whatever the order of the attributes, each
    member is taken from the attribute the header numbers for it and a member without
    one keeps its value; without test data, or when the policy rejects it, the
    structure is unchanged. *)
Theorem sta_statistics_handler_spec (msg : nl_msg) (s : wpa_driver_sta_statistics_s) :
  testmode_sta_statistics_handler msg s =
  Ret (NL_SKIP,
       match answer_table STA_STATISTICS_NUM sta_statistics_policy msg with
       | Some sinfo => sta_statistics_decoded sinfo s
       | None => s
       end).
Proof. by eapply statistics_handler_decodes. Qed.

(** C27: the statistics handler keeps every member inside its C type: bytes, 32 bit
    counters, an [int] RSSI, a six byte address, four element queues and a 32 byte
    reserved area. *)
Theorem sta_statistics_handler_wf `{!LibnlLaws} (msg : nl_msg) (s : wpa_driver_sta_statistics_s)
    (W : wf_sta_statistics s) :
  exists s', testmode_sta_statistics_handler msg s = Ret (NL_SKIP, s') /\ wf_sta_statistics s'.
Proof.
  unfold testmode_sta_statistics_handler. rewrite run_handler_table.
  destruct (answer_table _ _ _) as [sinfo|]; [|by exists s].
  rewrite statistics_loop. eexists. split; [done|]. by apply decoded_wf.
Qed.

(** The link detection handler likewise. *)
Lemma link_handler_decodes (msg : nl_msg) (s : wpa_driver_sta_link_detect_s) :
  testmode_sta_link_detect_handler msg s =
  match answer_table LINK_DETECT_NUM link_detect_policy msg with
  | None => Ret (NL_SKIP, s)
  | Some sinfo =>
      if bool_decide (Exists (fun x => s64 (nla_get_u64 x) = - 2 ^ 63)
                             (option_list (sinfo 4%nat)))
      then Undef SignedOverflow
      else Ret (NL_SKIP, link_detect_decoded sinfo s)
  end.
Proof.
  unfold testmode_sta_link_detect_handler. rewrite run_handler_table.
  destruct (answer_table _ _ _) as [sinfo|]; [|done].
  rewrite link_detect_loop. by case_bool_decide.
Qed.

(** C28: the link detection handler stores the unsigned counters as they are and the
    ACK failure count as the magnitude of its signed reading; its only undefined case
    is the one count whose magnitude has no [s64]. *)
Theorem link_detect_handler_spec (msg : nl_msg) (s : wpa_driver_sta_link_detect_s) :
  testmode_sta_link_detect_handler msg s =
  match answer_table LINK_DETECT_NUM link_detect_policy msg with
  | None => Ret (NL_SKIP, s)
  | Some sinfo =>
      if bool_decide (Exists (fun x => s64 (nla_get_u64 x) = - 2 ^ 63)
                             (option_list (sinfo 4%nat)))
      then Undef SignedOverflow
      else Ret (NL_SKIP, link_detect_decoded sinfo s)
  end.
Proof. by eapply link_handler_decodes. Qed.

(** So do the other two. *)
Lemma chan_handler_decodes (msg : nl_msg) (s : wpa_driver_available_chan_s) :
  testmode_available_channel_handler msg s =
  Ret (NL_SKIP,
       match answer_table AVAILABLE_CHAN_NUM available_chan_policy msg with
       | Some sinfo => available_chan_decoded sinfo s
       | None => s
       end).
Proof.
  unfold testmode_available_channel_handler. rewrite run_handler_table.
  destruct (answer_table _ _ _) as [sinfo|]; [|done]. unfold available_chan_decoded, attr_or. destruct s. cbn.
  by destruct (sinfo 1%nat), (sinfo 2%nat), (sinfo 3%nat), (sinfo 4%nat), (sinfo 5%nat).
Qed.

Lemma go_ready_loop sinfo n idxs v :
  Forall (fun i => i < n)%nat idxs ->
  attr_loop (seq 0 n) (fun i x v => Ret (if (i =? GO_READY_STATE)%nat then nla_get_u32 x else v))
    sinfo idxs v =
  Ret (if bool_decide (GO_READY_STATE ∈ idxs) then attr_or sinfo GO_READY_STATE nla_get_u32 v else v).
Proof.
  intros Hi. revert v. induction Hi as [|i idxs Hi _ IH]; intros v; cbn [attr_loop]; [done|].
  rewrite lookup_seq_lt by done. cbn [Nat.add].
  assert (match sinfo i with
          | Some x => Ret (if (i =? GO_READY_STATE)%nat then nla_get_u32 x else v)
          | None => Ret v
          end = Ret (if (i =? GO_READY_STATE)%nat then attr_or sinfo GO_READY_STATE nla_get_u32 v else v)) as ->.
  { unfold attr_or. destruct (Nat.eqb_spec i GO_READY_STATE) as [->|]; by destruct (sinfo _). }
  rewrite bind_Ret, IH. f_equal. destruct (Nat.eqb_spec i GO_READY_STATE) as [->|Hne].
  - rewrite (bool_decide_true (_ ∈ _ :: _)) by (apply elem_of_cons; by left).
    case_bool_decide; [|done]. unfold attr_or. by destruct (sinfo _).
  - rewrite (bool_decide_ext (GO_READY_STATE ∈ i :: idxs) (GO_READY_STATE ∈ idxs)); [done|].
    rewrite elem_of_cons. naive_solver.
Qed.

Lemma go_ready_handler_decodes (msg : nl_msg) (v : Z) :
  testmode_beamplus_go_ready_handler msg v =
  Ret (NL_SKIP,
       match answer_table GO_READY_NUM go_ready_policy msg with
       | Some sinfo => go_ready_decoded sinfo v
       | None => v
       end).
Proof.
  unfold testmode_beamplus_go_ready_handler. rewrite run_handler_table. fold go_ready_policy.
  destruct (answer_table _ _ _) as [sinfo|]; [|done].
  rewrite go_ready_loop, bind_Ret.
  - unfold go_ready_decoded. erewrite bool_decide_ext; [done|]. rewrite elem_of_seq. lia.
  - apply Forall_forall. intros i Hi%list_elem_of_In. apply elem_of_seq in Hi. lia.
Qed.

End Handlers.

(** ** Concrete runs *)

Definition stack_stats : wpa_driver_sta_statistics_s :=
  {| version := 170; addr := replicate 6 Byte.xaa; flag := 0; link_score := 170; per := 170;
     rssi := 0; phy_mode := 0; tx_rate := S754_zero false; tx_total_cnt := 0;
     tx_exc_threshold_cnt := 0; tx_avg_process_time := 0; tx_fail_cnt := 0;
     tx_timeout_cnt := 0; tx_avg_air_time := 0; tc_buf_full_cnt := zeros 16;
     tc_que_len := zeros 16; tc_avg_que_len := zeros 16; tc_cur_que_len := zeros 16;
     reserved := zeros 32 |}.

Definition stats_answer : list (nat * tree_attr) :=
  [(69%nat, Nest [(6%nat, Leaf [Byte.x64]); (8%nat, Leaf [Byte.x6d; Byte.x00]);
                  (2%nat, Leaf (zeros 6))])].

Example stats_answer_run :
  testmode_sta_statistics_handler (NL := tree_libnl) stats_answer stack_stats =
  Ret (NL_SKIP, stack_stats{{addr := zeros 6; rssi := -60; tx_rate := tx_rate_of 109}}).
Proof. by vm_compute. Qed.

Lemma stack_stats_wf : wf_sta_statistics stack_stats.
Proof.
  constructor; unfold in_u, in_s; cbn -[Z.pow];
    repeat apply Forall_cons_2; try apply Forall_nil_2; first [reflexivity|lia].
Qed.

Lemma sta_statistics_handler_wf_witness :
  exists s', testmode_sta_statistics_handler (NL := tree_libnl) stats_answer stack_stats
             = Ret (NL_SKIP, s') /\ wf_sta_statistics s'.
Proof. exact (@sta_statistics_handler_wf tree_libnl _ stats_answer stack_stats stack_stats_wf). Defined.
