(* ===== verification/Testmode.v ===== *)
(** * The testmode channel

    [send_and_recv_msgs] and [wpa_driver_nl80211_testmode] of
    [mediatek_driver_cmd_nl80211.c]: a request is put into a netlink message, sent, and
    the answers are read until a callback clears the error.  [TestmodeChannel] is what
    the senders of requests rely on; the last section shows that the code provides
    it. *)

From S2P Require Import Prelude CString Layout Structs World Handlers.

Definition ENOMEM : Z := 12.
Definition ENOBUFS : Z := 105.

(** The object a request's answer is stored into: [buf] of the request, or the
    [value] member for the beamplus query. *)
Inductive out_obj : Type :=
| OutNone
| OutStats (s : wpa_driver_sta_statistics_s)
| OutGoReady (v : Z)
| OutLink (l : wpa_driver_sta_link_detect_s)
| OutChan (c : wpa_driver_available_chan_s).

(** ** The contract of the channel *)

(** The requests handed to the kernel so far: the payloads of the test data. *)
Definition request_of (testdata : Z) (e : event) : list (list byte) :=
  match e with
  | EvNlSend _ attrs => snd <$> filter (fun a => fst a = testdata) attrs
  | _ => []
  end.

Definition sent_requests (testdata : Z) (tr : trace) : list (list byte) :=
  tr ≫= request_of testdata.

(** The same kind of object: a call replaces the contents, never the type. *)
Definition same_kind (o o' : out_obj) : Prop :=
  match o, o' with
  | OutNone, OutNone | OutStats _, OutStats _ | OutGoReady _, OutGoReady _
  | OutLink _, OutLink _ | OutChan _, OutChan _ => True
  | _, _ => False
  end.

Definition channel `{Libnl} : Type := trace -> list byte -> out_obj -> outcome (Z * out_obj * trace).

(** The events of a netlink exchange. *)
Definition netlink_event (e : event) : Prop :=
  match e with EvMsgAlloc | EvMsgFree | EvNlSend _ _ => True | _ => False end.

(** What a client may rely on when a call returns: the history grows by events of a
    netlink exchange, at most the given request is sent, the result is 0 or negative, and
    the caller's object is still of its type. *)
Class TestmodeChannel `{Libnl} (tm : channel) : Prop := {
  tm_history : forall tr d o r o' tr', tm tr d o = Ret (r, o', tr') ->
    exists l, tr' = tr ++ l /\ Forall netlink_event l;
  tm_sends : forall tr d o r o' tr', tm tr d o = Ret (r, o', tr') ->
    sent_requests NL80211_ATTR_TESTDATA tr' = sent_requests NL80211_ATTR_TESTDATA tr \/
    sent_requests NL80211_ATTR_TESTDATA tr' = sent_requests NL80211_ATTR_TESTDATA tr ++ [d];
  tm_nonpos : forall tr d o r o' tr', tm tr d o = Ret (r, o', tr') -> r <= 0;
  tm_kind : forall tr d o r o' tr', tm tr d o = Ret (r, o', tr') -> same_kind o o'
}.

Section Testmode.
Context {NL : Libnl} {K : Kernel}.

(** ** Receiving *)

Definition ack_handler : nl_cb_action * Z := (NL_STOP, 0).
Definition finish_handler : nl_cb_action * Z := (NL_SKIP, 0).
Definition error_handler (error : Z) : nl_cb_action * Z := (NL_SKIP, error).

Definition valid_handler : Type := nl_msg -> out_obj -> outcome (nl_cb_action * out_obj).

(** One [nl_recvmsgs]: the callbacks on each delivery in turn, until one stops.  A
    message without a valid handler is passed over. *)
Fixpoint nl_recvmsgs (vh : option valid_handler) (ds : list delivery) (err : Z) (o : out_obj)
    : outcome (Z * out_obj) :=
  match ds with
  | [] => Ret (err, o)
  | DAck :: ds' =>
      match ack_handler with
      | (NL_STOP, e) => Ret (e, o)
      | (NL_SKIP, e) => nl_recvmsgs vh ds' e o
      end
  | DFinish :: ds' =>
      match finish_handler with
      | (NL_STOP, e) => Ret (e, o)
      | (NL_SKIP, e) => nl_recvmsgs vh ds' e o
      end
  | DError error :: ds' =>
      match error_handler error with
      | (NL_STOP, e) => Ret (e, o)
      | (NL_SKIP, e) => nl_recvmsgs vh ds' e o
      end
  | DValid msg :: ds' =>
      match vh with
      | None => nl_recvmsgs vh ds' err o
      | Some h =>
          '(act, o') ← h msg o;
          match act with
          | NL_STOP => Ret (err, o')
          | NL_SKIP => nl_recvmsgs vh ds' err o'
          end
      end
  end.

(** [while (err > 0) nl_recvmsgs(...)]: with nothing left to receive the call
    blocks. *)
Fixpoint recv_loop (vh : option valid_handler) (batches : list (list delivery)) (err : Z)
    (o : out_obj) : outcome (Z * out_obj) :=
  if 0 <? err then
    match batches with
    | [] => Hang
    | b :: bs => '(err', o') ← nl_recvmsgs vh b err o; recv_loop vh bs err' o'
    end
  else Ret (err, o).

Definition send_and_recv_msgs (tr : trace) (attrs : list (Z * list byte))
    (vh : option valid_handler) (o : out_obj) : outcome (Z * out_obj * trace) :=
  if negb (nl_cb_clone_ok tr) then Ret (- ENOMEM, o, tr ++ [EvMsgFree])
  else
    let tr1 := tr ++ [EvNlSend NL80211_CMD_TESTMODE attrs] in
    let err := nl_send_result tr1 in
    if err <? 0 then Ret (err, o, tr1 ++ [EvMsgFree])
    else
      '(err', o') ← recv_loop vh (nl_answers tr1) 1 o;
      Ret (err', o', tr1 ++ [EvMsgFree]).

(** ** Sending *)

Definition stats_callback : valid_handler := fun msg o =>
  match o with
  | OutStats s => '(a, s') ← testmode_sta_statistics_handler msg s; Ret (a, OutStats s')
  | _ => Undef NullDeref
  end.

Definition go_ready_callback : valid_handler := fun msg o =>
  match o with
  | OutGoReady v => '(a, v') ← testmode_beamplus_go_ready_handler msg v; Ret (a, OutGoReady v')
  | _ => Undef NullDeref
  end.

Definition link_callback : valid_handler := fun msg o =>
  match o with
  | OutLink l => '(a, l') ← testmode_sta_link_detect_handler msg l; Ret (a, OutLink l')
  | _ => Undef NullDeref
  end.

Definition chan_callback : valid_handler := fun msg o =>
  match o with
  | OutChan c => '(a, c') ← testmode_available_channel_handler msg c; Ret (a, OutChan c')
  | _ => Undef NullDeref
  end.

(** The switch on the command identifier. *)
Definition select_handler (cfg : config) (index : Z) : option valid_handler :=
  if index =? 16 then Some stats_callback
  else if MEDIATEK_WIFI_BEAM cfg && (index =? 18) then Some go_ready_callback
  else if MTK_POOR_LINK_DETECT cfg && (index =? 32) then Some link_callback
  else if MTK_LTE_COEX cfg && (index =? 48) then Some chan_callback
  else None.

(** [index = params->hdr.index & BITS(0, 23)]. *)
Definition request_index (data : list byte) : outcome Z :=
  hdr ← mem_read data 0 4; Ret (Z.land (le_combine hdr) (BITS 0 23)).

Definition wpa_driver_nl80211_testmode (cfg : config) (ifindex : Z) : channel := fun tr data o =>
  if negb (MTK_TURNKEY_WLAN cfg) then Ret (0, o, tr)
  else if negb (nlmsg_alloc_ok tr) then Ret (-1, o, tr)
  else
    let tr1 := tr ++ [EvMsgAlloc] in
    let ifidx := le_split 4 ifindex in
    if negb (nla_put_ok tr1 NL80211_ATTR_IFINDEX ifidx) then Ret (- ENOBUFS, o, tr1)
    else if negb (nla_put_ok tr1 NL80211_ATTR_TESTDATA data) then Ret (- ENOBUFS, o, tr1)
    else
      index ← request_index data;
      send_and_recv_msgs tr1 [(NL80211_ATTR_IFINDEX, ifidx); (NL80211_ATTR_TESTDATA, data)]
        (select_handler cfg index) o.

(** ** Reference definitions *)

(** The error left by one batch of deliveries when the valid handlers only skip. *)
Fixpoint batch_status (ds : list delivery) (err : Z) : Z :=
  match ds with
  | [] => err
  | DAck :: _ => 0
  | DFinish :: ds' => batch_status ds' 0
  | DError e :: ds' => batch_status ds' e
  | DValid _ :: ds' => batch_status ds' err
  end.

(** On messages satisfying [Q] and objects satisfying [P] the valid handler, if any,
    returns and skips. *)
Definition skips (Q : nl_msg -> Prop) (P : out_obj -> Prop) (vh : option valid_handler) : Prop :=
  match vh with
  | None => True
  | Some h => forall msg o, Q msg -> P o -> exists o', h msg o = Ret (NL_SKIP, o') /\ P o'
  end.

(** The messages among the deliveries satisfy [Q]. *)
Definition delivers (Q : nl_msg -> Prop) (ds : list delivery) : Prop :=
  Forall (fun d => match d with DValid msg => Q msg | _ => True end) ds.

(** What a message of the kernel leaves in the caller's object: the decoded attributes of
    the answer the request with identifier [id] asks for; every other request has no
    answer. *)
Definition store_answer (cfg : config) (id : Z) (o : out_obj) (msg : nl_msg) : out_obj :=
  match o with
  | OutStats s =>
      if id =? 16
      then match answer_table STA_STATISTICS_NUM sta_statistics_policy msg with
           | Some sinfo => OutStats (sta_statistics_decoded sinfo s)
           | None => o
           end
      else o
  | OutGoReady v =>
      if MEDIATEK_WIFI_BEAM cfg && (id =? 18)
      then match answer_table GO_READY_NUM go_ready_policy msg with
           | Some sinfo => OutGoReady (go_ready_decoded sinfo v)
           | None => o
           end
      else o
  | OutLink l =>
      if MTK_POOR_LINK_DETECT cfg && (id =? 32)
      then match answer_table LINK_DETECT_NUM link_detect_policy msg with
           | Some sinfo => OutLink (link_detect_decoded sinfo l)
           | None => o
           end
      else o
  | OutChan c =>
      if MTK_LTE_COEX cfg && (id =? 48)
      then match answer_table AVAILABLE_CHAN_NUM available_chan_policy msg with
           | Some sinfo => OutChan (available_chan_decoded sinfo c)
           | None => o
           end
      else o
  | OutNone => OutNone
  end.

(** The messages of one batch that are delivered: those before an acknowledgement. *)
Fixpoint batch_messages (ds : list delivery) : list nl_msg :=
  match ds with
  | [] | DAck :: _ => []
  | DValid msg :: ds' => msg :: batch_messages ds'
  | _ :: ds' => batch_messages ds'
  end.

(** The batches are read until one settles the request: the messages that arrive until
    then, and the status that settles it. *)
Fixpoint settled (batches : list (list delivery)) (err : Z) : list nl_msg * Z :=
  match batches with
  | [] => ([], err)
  | b :: bs =>
      if 0 <? err
      then let '(msgs, e) := settled bs (batch_status b err) in (batch_messages b ++ msgs, e)
      else ([], err)
  end.

(** The kernel's side takes the request [data] after the history [tr]. *)
Definition sending (ifindex : Z) (tr : trace) (data : list byte) : trace :=
  tr ++ [EvMsgAlloc;
         EvNlSend NL80211_CMD_TESTMODE
           [(NL80211_ATTR_IFINDEX, le_split 4 ifindex); (NL80211_ATTR_TESTDATA, data)]].

Definition accepts (cfg : config) (ifindex : Z) (tr : trace) (data : list byte) : bool :=
  let tr1 := tr ++ [EvMsgAlloc] in
  MTK_TURNKEY_WLAN cfg && nlmsg_alloc_ok tr &&
  nla_put_ok tr1 NL80211_ATTR_IFINDEX (le_split 4 ifindex) &&
  nla_put_ok tr1 NL80211_ATTR_TESTDATA data && nl_cb_clone_ok tr1 &&
  (0 <=? nl_send_result (sending ifindex tr data)).

(** ** Lemmas *)

(** A callback that skips and stores what [f] says. *)
Definition stores (f : out_obj -> nl_msg -> out_obj) (vh : option valid_handler) : Prop :=
  match vh with
  | Some h => forall msg o a o', h msg o = Ret (a, o') -> a = NL_SKIP /\ o' = f o msg
  | None => forall msg o, f o msg = o
  end.

Lemma nl_recvmsgs_stores f vh ds err o e o' :
  stores f vh -> nl_recvmsgs vh ds err o = Ret (e, o') ->
  e = batch_status ds err /\ o' = foldl f o (batch_messages ds).
Proof.
  intros Hf. revert err o. induction ds as [|d ds IH]; intros err o Hr; cbn in *; [by inv_outcome|].
  destruct d; cbn in *; [by inv_outcome|by apply IH|by apply IH|].
  destruct vh as [h|]; cbn in Hf; [|rewrite Hf; by apply IH].
  inv_outcome. destruct a as [act o1]. apply Hf in E as [-> ->]. by apply IH.
Qed.

Lemma recv_loop_stores f vh batches err o e o' :
  stores f vh -> recv_loop vh batches err o = Ret (e, o') ->
  (foldl f o (fst (settled batches err)), snd (settled batches err)) = (o', e).
Proof.
  intros Hf. revert err o. induction batches as [|b bs IH]; intros err o Hr; cbn in *;
    (destruct (0 <? err); [|by inv_outcome]); [done|].
  inv_outcome. destruct a as [e1 o1].
  destruct (nl_recvmsgs_stores f vh b err o e1 o1 Hf E) as [-> ->].
  specialize (IH _ _ Hr). destruct (settled bs (batch_status b err)) as [msgs e2]. cbn in *.
  by rewrite foldl_app.
Qed.

(** The switch installs the handler of the answer that belongs to the identifier. *)
Lemma select_handler_stores cfg id : stores (store_answer cfg id) (select_handler cfg id).
Proof.
  unfold select_handler, store_answer, stores.
  destruct (Z.eqb_spec id 16) as [->|H16].
  { intros msg [] a o' Hr; cbn in Hr; try done. rewrite statistics_handler_decodes, bind_Ret in Hr.
    inv_outcome. split; [done|]. by destruct (answer_table _ _ _). }
  destruct (MEDIATEK_WIFI_BEAM cfg && (id =? 18)) eqn:H18.
  { intros msg [] a o' Hr; cbn in Hr; try done. rewrite go_ready_handler_decodes, bind_Ret in Hr.
    inv_outcome. split; [done|]. by destruct (answer_table _ _ _). }
  destruct (MTK_POOR_LINK_DETECT cfg && (id =? 32)) eqn:H32.
  { intros msg [] a o' Hr; cbn in Hr; try done. rewrite link_handler_decodes in Hr.
    destruct (answer_table _ _ _); [|by inv_outcome]. destruct (bool_decide _); by inv_outcome. }
  destruct (MTK_LTE_COEX cfg && (id =? 48)) eqn:H48; [|by intros msg []].
  intros msg [] a o' Hr; cbn in Hr; try done. rewrite chan_handler_decodes, bind_Ret in Hr.
  inv_outcome. split; [done|]. by destruct (answer_table _ _ _).
Qed.

(** A call that returns, by what the kernel did. *)
Lemma testmode_answer cfg ifindex tr data o r o' tr' :
  wpa_driver_nl80211_testmode cfg ifindex tr data o = Ret (r, o', tr') ->
  if accepts cfg ifindex tr data
  then exists id, request_index data = Ret id /\
    let '(msgs, status) := settled (nl_answers (sending ifindex tr data)) 1 in
    r = status /\ o' = foldl (store_answer cfg id) o msgs
  else o' = o /\ (MTK_TURNKEY_WLAN cfg = true -> r < 0).
Proof.
  unfold wpa_driver_nl80211_testmode, accepts, send_and_recv_msgs. intros Hr.
  destruct (MTK_TURNKEY_WLAN cfg); cbn [negb andb] in *; [|by inv_outcome].
  destruct (nlmsg_alloc_ok tr); cbn [negb andb] in *; [|by inv_outcome].
  do 2 (destruct (nla_put_ok _ _ _); cbn [negb andb] in *; [|by inv_outcome]).
  inv_outcome. rename a into id. destruct (nl_cb_clone_ok _); cbn [negb andb] in *; [|by inv_outcome].
  rewrite <- !(assoc_L (++)) in Hr. cbn [app] in Hr. fold (sending ifindex tr data) in Hr.
  destruct (Z.ltb_spec (nl_send_result (sending ifindex tr data)) 0) as [Hs|Hs].
  - rewrite (proj2 (Z.leb_gt _ _) Hs). by inv_outcome.
  - rewrite (proj2 (Z.leb_le _ _) Hs). inv_outcome. destruct a as [e o1]. inv_outcome.
    exists id. split; [done|].
    match goal with H : recv_loop _ _ _ _ = _ |- _ =>
      apply (recv_loop_stores _ _ _ _ _ _ _ (select_handler_stores cfg id)) in H end.
    destruct (settled _ _) as [msgs e2]. cbn in *. by simplify_eq.
Qed.

Lemma nl_recvmsgs_skips Q P vh ds err o :
  skips Q P vh -> delivers Q ds -> P o ->
  exists o', nl_recvmsgs vh ds err o = Ret (batch_status ds err, o') /\ P o'.
Proof.
  intros Hs Hd. revert err o. induction Hd as [|d ds Hm Hd IH]; intros err o Ho; cbn; [eauto|].
  destruct d; cbn; [eauto| | |]; try by apply IH.
  destruct vh as [h|]; [|by apply IH]. cbn in Hs.
  destruct (Hs msg o Hm Ho) as (o' & -> & Ho'). cbn. by apply IH.
Qed.

(** Whether a batch settles the call does not depend on the positive error it
    starts from. *)
Lemma batch_status_settles ds e e' :
  0 < e -> 0 < e' -> batch_status ds e <= 0 <-> batch_status ds e' <= 0.
Proof. intros He He'. induction ds as [|[] ds IH]; cbn; first [done|lia]. Qed.

Lemma batch_status_ack ds err : DAck ∈ ds -> batch_status ds err = 0.
Proof.
  revert err. induction ds as [|d ds IH]; intros err Hin; [by apply not_elem_of_nil in Hin|].
  apply elem_of_cons in Hin as [<-|Hin]; [done|]. destruct d; cbn; auto.
Qed.

Lemma recv_loop_nonpos vh batches err o e o' :
  recv_loop vh batches err o = Ret (e, o') -> e <= 0.
Proof.
  revert err o. induction batches as [|b bs IH]; intros err o; cbn;
    destruct (Z.ltb_spec 0 err); try done; intros Hr; inv_outcome; try lia.
  destruct a as [err1 o1]. by apply (IH err1 o1).
Qed.

Lemma recv_loop_iff Q P vh batches err o :
  skips Q P vh -> Forall (delivers Q) batches -> P o -> 0 < err ->
  (exists e o', recv_loop vh batches err o = Ret (e, o')) <->
  Exists (fun b => batch_status b 1 <= 0) batches.
Proof.
  intros Hs Hd. revert err o. induction Hd as [|b bs Hb' Hd IH]; intros err o Ho He; cbn;
    rewrite (proj2 (Z.ltb_lt 0 err) He).
  - split; [by intros (? & ? & ?)|]. intros H; inversion H.
  - destruct (nl_recvmsgs_skips Q P vh b err o Hs Hb' Ho) as (o1 & -> & Ho1).
    cbn. rewrite Exists_cons. destruct (Z.le_gt_cases (batch_status b err) 0) as [Hb|Hb].
    + split; [intros _; left; by apply (batch_status_settles b err 1)|]. intros _.
      exists (batch_status b err), o1. destruct bs; cbn; by rewrite (proj2 (Z.ltb_ge _ _) Hb).
    + rewrite (IH _ _ Ho1) by lia. split; [by right|]. intros [H|H]; [|done].
      apply (batch_status_settles b 1 err) in H; lia.
Qed.

Lemma recv_loop_kind vh batches err o e o' :
  (forall h, vh = Some h -> forall msg o a o', h msg o = Ret (a, o') -> same_kind o o') ->
  recv_loop vh batches err o = Ret (e, o') -> same_kind o o'.
Proof.
  intros Hh.
  assert (forall o, same_kind o o) as Hrefl by by intros [].
  assert (forall a b c, same_kind a b -> same_kind b c -> same_kind a c) as Htrans
    by by intros [] [] [].
  assert (forall ds err o e o', nl_recvmsgs vh ds err o = Ret (e, o') -> same_kind o o') as Hb.
  { induction ds as [|d ds IH]; cbn; intros err0 o0 e0 o0' H; [by inv_outcome|].
    destruct d; cbn in H; [by inv_outcome|eauto|eauto|].
    destruct vh as [h|]; [|eauto]. inv_outcome. destruct a as [act o1].
    pose proof (Hh h eq_refl _ _ _ _ E) as Hk.
    destruct act; inv_outcome; [|done]. eapply Htrans; eauto. }
  revert err o. induction batches as [|b bs IH]; intros err o; cbn; destruct (0 <? err);
    intros H; inv_outcome; try done.
  destruct a as [err1 o1]. eapply Htrans; eauto.
Qed.

Lemma select_handler_kind cfg index h :
  select_handler cfg index = Some h ->
  forall msg o a o', h msg o = Ret (a, o') -> same_kind o o'.
Proof.
  unfold select_handler. intros H msg o a o' Hr.
  repeat case_match; simplify_eq;
    (destruct o; cbn in Hr; try discriminate; inv_outcome;
     match goal with x : _ * _ |- _ => destruct x end; by inv_outcome).
Qed.

(** The ways a testmode call can return, by what it leaves in the history. *)
Inductive testmode_result (cfg : config) (ifindex : Z) (tr : trace) (data : list byte)
    (o : out_obj) : Z -> out_obj -> trace -> Prop :=
| TrOff : MTK_TURNKEY_WLAN cfg = false -> testmode_result cfg ifindex tr data o 0 o tr
| TrAlloc : testmode_result cfg ifindex tr data o (-1) o tr
| TrPut : testmode_result cfg ifindex tr data o (- ENOBUFS) o (tr ++ [EvMsgAlloc])
| TrClone : testmode_result cfg ifindex tr data o (- ENOMEM) o (tr ++ [EvMsgAlloc; EvMsgFree])
| TrSent r o' : r <= 0 -> same_kind o o' ->
    testmode_result cfg ifindex tr data o r o'
      (tr ++ [EvMsgAlloc;
              EvNlSend NL80211_CMD_TESTMODE
                [(NL80211_ATTR_IFINDEX, le_split 4 ifindex); (NL80211_ATTR_TESTDATA, data)];
              EvMsgFree]).

Lemma testmode_result_of cfg ifindex tr data o r o' tr' :
  wpa_driver_nl80211_testmode cfg ifindex tr data o = Ret (r, o', tr') ->
  testmode_result cfg ifindex tr data o r o' tr'.
Proof.
  unfold wpa_driver_nl80211_testmode, send_and_recv_msgs. intros Hr.
  destruct (MTK_TURNKEY_WLAN cfg) eqn:Et; cbn in Hr; [|inv_outcome; by apply TrOff].
  destruct (nlmsg_alloc_ok tr); cbn in Hr; [|inv_outcome; apply TrAlloc].
  do 2 (destruct (nla_put_ok _ _ _) in Hr; cbn in Hr; [|inv_outcome; apply TrPut]).
  inv_outcome. destruct (nl_cb_clone_ok _) in Hr; cbn in Hr; cycle 1.
  { inv_outcome. rewrite <- (assoc_L (++)). apply TrClone. }
  set (e := nl_send_result _) in Hr. clearbody e.
  destruct (Z.ltb_spec e 0) as [Hs|Hs]; inv_outcome.
  - rewrite <- !(assoc_L (++)). apply TrSent; [lia|by destruct o'].
  - destruct a0 as [e1 o1]. inv_outcome. rewrite <- !(assoc_L (++)).
    apply TrSent; [eapply recv_loop_nonpos; eauto|].
    eapply recv_loop_kind; [|eauto]. intros h Hh. by eapply select_handler_kind.
Qed.

Lemma sent_requests_app td tr tr' :
  sent_requests td (tr ++ tr') = sent_requests td tr ++ sent_requests td tr'.
Proof. unfold sent_requests. apply bind_app. Qed.

Lemma request_of_send `{!LibnlLaws} cmd x d :
  request_of NL80211_ATTR_TESTDATA
    (EvNlSend cmd [(NL80211_ATTR_IFINDEX, x); (NL80211_ATTR_TESTDATA, d)]) = [d].
Proof.
  unfold request_of. rewrite filter_cons_False by apply nl80211_attrs_distinct.
  by rewrite filter_cons_True.
Qed.

Lemma sent_requests_sent `{!LibnlLaws} tr cmd x d :
  sent_requests NL80211_ATTR_TESTDATA
    (tr ++ [EvMsgAlloc;
            EvNlSend cmd [(NL80211_ATTR_IFINDEX, x); (NL80211_ATTR_TESTDATA, d)];
            EvMsgFree]) = sent_requests NL80211_ATTR_TESTDATA tr ++ [d].
Proof.
  rewrite sent_requests_app. f_equal. unfold sent_requests.
  by rewrite !bind_cons, request_of_send.
Qed.

#[global] Instance testmode_is_channel `{!LibnlLaws} cfg ifindex :
  TestmodeChannel (wpa_driver_nl80211_testmode cfg ifindex).
Proof.
  split; intros tr d o r o' tr' Hr; apply testmode_result_of in Hr; destruct Hr;
    try (exists []; by rewrite app_nil_r);
    try (eexists; split; [done|]; repeat constructor); eauto; try (unfold ENOBUFS, ENOMEM; lia);
    try (by destruct o).
  1, 2: left; rewrite sent_requests_app; apply app_nil_r.
  right. apply sent_requests_sent.
Qed.

Lemma live_messages_app tr l : live_messages (tr ++ l) = live_messages tr + live_messages l.
Proof. unfold live_messages. rewrite !list.filter_app, !length_app. lia. Qed.

Lemma live_messages_alloc : live_messages [EvMsgAlloc] = 1.
Proof. done. Qed.
Lemma live_messages_free : live_messages [EvMsgFree] = -1.
Proof. done. Qed.
Lemma live_messages_send cmd attrs : live_messages [EvNlSend cmd attrs] = 0.
Proof. done. Qed.

(** The bits a mask of [BITS] keeps. *)
Lemma BITS_testbit m n i :
  0 <= m <= n -> n < 32 -> 0 <= i ->
  Z.testbit (BITS m n) i = (m <=? i) && (i <=? n).
Proof.
  intros Hm Hn Hi.
  assert (forallb (fun m => forallb (fun n => forallb (fun i =>
    Bool.eqb (Z.testbit (BITS m n) i) ((m <=? i) && (i <=? n)))
      (seqZ 0 32)) (seqZ m (32 - m))) (seqZ 0 32) = true) as H by by vm_compute.
  destruct (Z.lt_ge_cases i 32) as [Hi32|Hi32].
  - rewrite forallb_forall in H. specialize (H m). rewrite forallb_forall in H.
    specialize (H ltac:(apply list_elem_of_In, elem_of_seqZ; lia) n).
    rewrite forallb_forall in H.
    specialize (H ltac:(apply list_elem_of_In, elem_of_seqZ; lia) i
                  ltac:(apply list_elem_of_In, elem_of_seqZ; lia)).
    by apply eqb_prop.
  - rewrite (proj2 (Z.leb_gt i n)) by lia. rewrite andb_false_r.
    unfold BITS. rewrite Z.land_spec. apply andb_false_intro1.
    unfold u32 at 1, uwrap. rewrite <- Z.land_ones, Z.land_spec by lia.
    by rewrite Z.ones_spec_high, andb_false_r by lia.
Qed.

Lemma stats_callback_skips Q :
  skips Q (fun o => same_kind (OutStats stack_stats) o) (Some stats_callback).
Proof.
  intros msg o _ Ho. destruct o as [|s| | |]; try done. cbn.
  unfold testmode_sta_statistics_handler. rewrite run_handler_table.
  destruct (answer_table _ _ _) as [sinfo|]; [|by exists (OutStats s)].
  rewrite statistics_loop. by eexists.
Qed.

Lemma versioned_value id : 0 <= id < 2 ^ 24 -> versioned id = id + 2 ^ 24.
Proof.
  intros. unfold versioned, u32. rewrite uwrap_id by (unfold in_u; lia).
  rewrite Z.add_nocarry_lxor, Z.lxor_lor; try done.
  all: change (Z.shiftl 1 24) with (2 ^ 24); apply Z.bits_inj'; intros n Hn;
    rewrite Z.land_spec, Z.pow2_bits_eqb, Z.bits_0 by lia;
    destruct (Z.eqb_spec 24 n) as [<-|]; [|apply andb_false_r].
  all: rewrite Z.bits_above_log2; [done|lia|];
    destruct (Z.eq_dec id 0) as [->|]; [done|]; apply Z.log2_lt_pow2; lia.
Qed.

(** The messages a call leaves behind. *)
Lemma testmode_live (cfg : config) (ifindex : Z) (tr : trace) (data : list byte)
    (o : out_obj) (r : Z) (o' : out_obj) (tr' : trace)
    (Hret : wpa_driver_nl80211_testmode cfg ifindex tr data o = Ret (r, o', tr')) :
  live_messages tr' = live_messages tr +
    (if MTK_TURNKEY_WLAN cfg && nlmsg_alloc_ok tr &&
        negb (nla_put_ok (tr ++ [EvMsgAlloc]) NL80211_ATTR_IFINDEX (le_split 4 ifindex) &&
              nla_put_ok (tr ++ [EvMsgAlloc]) NL80211_ATTR_TESTDATA data)
     then 1 else 0).
Proof.
  revert Hret. unfold wpa_driver_nl80211_testmode, send_and_recv_msgs. intros Hr.
  destruct (MTK_TURNKEY_WLAN cfg); cbn [negb andb] in *; [|inv_outcome; lia].
  destruct (nlmsg_alloc_ok tr); cbn [negb andb] in *; [|inv_outcome; lia].
  do 2 (destruct (nla_put_ok _ _ _); cbn [negb andb] in *;
        [|inv_outcome; by rewrite live_messages_app]).
  inv_outcome. destruct (nl_cb_clone_ok _); cbn [negb] in Hr;
    [destruct (_ <? _) in Hr|]; inv_outcome;
    try match goal with x : _ * out_obj |- _ => destruct x; inv_outcome end;
    rewrite !live_messages_app, ?live_messages_send, live_messages_alloc, live_messages_free; lia.
Qed.

(** ** Properties *)

(** The identifier of a stored request, whatever the object held before. *)
Lemma request_index_store (A : abi) (m : list byte) (id : Z) (ts : list ctype) (vs : list cval)
    (Hid : 0 <= id < 2 ^ 24) :
  request_index (store A m (U32 :: ts) (VI (versioned id) :: vs)) = Ret id.
Proof.
  unfold request_index, mem_read, store. cbn -[le_split BITS versioned].
  rewrite take_0, app_nil_l.
  rewrite decide_True by (rewrite length_app, length_le_split; lia).
  rewrite drop_0, take_app_length' by (symmetry; apply length_le_split). cbn -[BITS le_split versioned].
  rewrite le_combine_split, versioned_value by done.
  change (BITS 0 23) with (Z.ones 24). rewrite Z.land_ones by lia. f_equal.
  change (2 ^ (Z.of_nat 4 * 8)) with (2 ^ 32).
  rewrite (Z.mod_small (id + 2 ^ 24)) by lia.
  rewrite <- (Z.mul_1_l (2 ^ 24)) at 1. rewrite Z.mod_add by lia. apply Z.mod_small. lia.
Qed.

Lemma request_index_stored (A : abi) (id : Z) (ts : list ctype) (vs : list cval)
    (Hid : 0 <= id < 2 ^ 24) :
  request_index (store_zeroed A (U32 :: ts) (VI (versioned id) :: vs)) = Ret id.
Proof. by apply request_index_store. Qed.

(** C22: the identifier a sender writes into the header, with the version byte above
    it, is what the switch of [wpa_driver_nl80211_testmode] sees, whatever the rest of
    the request holds: masking with [BITS(0,23)] removes exactly the version. *)
Theorem request_index_roundtrip (A : abi) (id : Z) (ts : list ctype) (vs : list cval)
    (Hid : 0 <= id < 2 ^ 24) :
  request_index (store_zeroed A (U32 :: ts) (VI (versioned id) :: vs)) = Ret id.
Proof. by eapply request_index_stored. Qed.

(** C8: [send_and_recv_msgs] returns exactly when the kernel settles the request: with a
    callback that returns [NL_SKIP] on the messages that arrive, as those of this library
    do, a call that was sent comes back if and only if some batch of answers ends in an
    acknowledgement, an end marker or an error code that is not positive; otherwise the
    receive loop never ends. *)
Theorem send_and_recv_returns_iff (tr : trace) (attrs : list (Z * list byte))
    (Q : nl_msg -> Prop) (P : out_obj -> Prop) (vh : option valid_handler) (o : out_obj)
    (Hvh : skips Q P vh)
    (Hmsgs : Forall (delivers Q) (nl_answers (tr ++ [EvNlSend NL80211_CMD_TESTMODE attrs])))
    (Ho : P o) (Hclone : nl_cb_clone_ok tr = true)
    (Hsend : 0 <= nl_send_result (tr ++ [EvNlSend NL80211_CMD_TESTMODE attrs])) :
  (exists r o' tr', send_and_recv_msgs tr attrs vh o = Ret (r, o', tr')) <->
  Exists (fun b => batch_status b 1 <= 0)
         (nl_answers (tr ++ [EvNlSend NL80211_CMD_TESTMODE attrs])).
Proof.
  rewrite <- (recv_loop_iff Q P vh _ 1 o) by (done || lia).
  unfold send_and_recv_msgs. rewrite Hclone. cbn [negb].
  rewrite (proj2 (Z.ltb_ge _ _) Hsend). split.
  - intros (r & o' & tr' & Hr). inv_outcome. destruct a as [e o1]. eauto.
  - intros (e & o' & ->). cbn. eauto.
Qed.

(** C7: the testmode routine keeps the promise its callers rely on.  A call that returns
    has only extended the history, has sent the given request at most once and no other,
    returns 0 or a negative code and keeps the type of the caller's object.  When the
    request could be sent, the result is the status that settles it, and the caller's
    object holds the decoded answer: every message that arrived before was stored by the
    decoding that belongs to the identifier in the request (statistics for 16, group owner
    state for 18, link counters for 32, channels for 48, as far as the build has them), and
    any other request leaves the object alone.  When it could not be sent the object is
    unchanged, and the result negative unless the routine is compiled out. *)
Theorem testmode_refines_channel `{!LibnlLaws} (cfg : config) (ifindex : Z) :
  TestmodeChannel (wpa_driver_nl80211_testmode cfg ifindex) /\
  forall tr data o r o' tr',
    wpa_driver_nl80211_testmode cfg ifindex tr data o = Ret (r, o', tr') ->
    if accepts cfg ifindex tr data
    then exists id, request_index data = Ret id /\
      let '(msgs, status) := settled (nl_answers (sending ifindex tr data)) 1 in
      r = status /\ o' = foldl (store_answer cfg id) o msgs
    else o' = o /\ (MTK_TURNKEY_WLAN cfg = true -> r < 0).
Proof.
  split; [apply testmode_is_channel|]. intros tr data o r o' tr' Hr. by apply testmode_answer in Hr.
Qed.

(** C19: every netlink message a returning testmode call allocates is freed, except when
    an attribute does not fit: that path returns without [nlmsg_free] and leaks one. *)
Theorem testmode_message_accounting (cfg : config) (ifindex : Z) (tr : trace) (data : list byte)
    (o : out_obj) (r : Z) (o' : out_obj) (tr' : trace)
    (Hret : wpa_driver_nl80211_testmode cfg ifindex tr data o = Ret (r, o', tr')) :
  live_messages tr' = live_messages tr +
    (if MTK_TURNKEY_WLAN cfg && nlmsg_alloc_ok tr &&
        negb (nla_put_ok (tr ++ [EvMsgAlloc]) NL80211_ATTR_IFINDEX (le_split 4 ifindex) &&
              nla_put_ok (tr ++ [EvMsgAlloc]) NL80211_ATTR_TESTDATA data)
     then 1 else 0).
Proof. by eapply testmode_live. Qed.

End Testmode.

(** ** Witnesses *)

Lemma request_index_roundtrip_witness :
  request_index (store_zeroed Arm64 (U32 :: [U32; U8; U32; U32])
    (VI (versioned 1) :: [VI 20; VI 1; VI 5; VI 6])) = Ret 1.
Proof. apply (request_index_roundtrip Arm64 1). lia. Defined.

Lemma send_and_recv_returns_iff_witness :
  (exists r o' tr',
    send_and_recv_msgs (K := ack_kernel [stats_answer]) [EvMsgAlloc] []
      (Some (stats_callback (NL := tree_libnl))) (OutStats stack_stats) = Ret (r, o', tr')) <->
  Exists (fun b => batch_status (NL := tree_libnl) b 1 <= 0)
    (@nl_answers _ (ack_kernel [stats_answer]) ([EvMsgAlloc] ++ [EvNlSend 45 []])).
Proof.
  apply (@send_and_recv_returns_iff _ (ack_kernel [stats_answer]) [EvMsgAlloc] []
    (fun _ => True) (fun o => same_kind (OutStats stack_stats) o)).
  - apply stats_callback_skips.
  - repeat constructor.
  - exact I.
  - reflexivity.
  - vm_compute. discriminate.
Defined.

(** The request of a statistics query, sent on interface 7. *)
Definition stats_request : list byte :=
  store_zeroed Arm64 get_sta_statistics_params_t
    [VI (versioned 16); VI 32; VI 0; VI 0; VA (zeros 6); VI 0].

Definition nl_request (data : list byte) : event :=
  EvNlSend 45 [(3, le_split 4 7); (69, data)].

(** The answer of the kernel to that query, in the object of the caller. *)
Definition answered_stats : out_obj :=
  OutStats stack_stats{{addr := zeros 6; rssi := -60; tx_rate := tx_rate_of 109}}.

Lemma testmode_refines_channel_witness :
  TestmodeChannel (@wpa_driver_nl80211_testmode _ (ack_kernel [stats_answer]) config_all 7) /\
  exists id, request_index stats_request = Ret id /\
    let '(msgs, status) := settled (NL := tree_libnl) [[DValid stats_answer]; [DAck]] 1 in
    0 = status /\
    answered_stats = foldl (store_answer (NL := tree_libnl) config_all id) (OutStats stack_stats) msgs.
Proof.
  destruct (@testmode_refines_channel _ (ack_kernel [stats_answer]) _ config_all 7) as [H1 H2].
  split; [exact H1|].
  exact (H2 [] stats_request (OutStats stack_stats) 0 answered_stats
    [EvMsgAlloc; nl_request stats_request; EvMsgFree] ltac:(vm_compute; reflexivity)).
Defined.

Lemma testmode_message_accounting_witness :
  live_messages [EvMsgAlloc; nl_request stats_request; EvMsgFree] = live_messages [] + 0.
Proof.
  apply (@testmode_message_accounting _ (ack_kernel [stats_answer]) config_all 7 [] stats_request
    (OutStats stack_stats) 0 answered_stats).
  vm_compute. reflexivity.
Defined.
