(* ===== verification/Requests.v ===== *)
(** * Building testmode requests

    The functions of [mediatek_driver_cmd_nl80211.c] that fill a request structure and
    hand it to the testmode channel.  They are written and verified against
    [TestmodeChannel]: any channel with that contract will do, [Testmode] provides the
    one of the code. *)

From S2P Require Import Prelude CString Layout Structs World Testmode.

(** [hwaddr_aton] of wpa_supplicant: a MAC address, [None] when the text is none. *)
Class WpaCommon : Type := {
  hwaddr_aton : list byte -> option (list byte)
}.

(** A parsed MAC address has six bytes. *)
Class WpaCommonLaws `{WpaCommon} : Prop := {
  hwaddr_aton_length : forall s a, hwaddr_aton s = Some a -> length a = ETH_ALEN
}.

(** [struct wfd_data_s] of wpa_supplicant, as far as this library reads it; the last
    array is the memory readable from its start. *)
Record wfd_data_s : Type := {
  WfdCmdType : Z; WfdEnable : Z; WfdCoupleSinkStatus : Z; WfdSessionAvailable : Z;
  WfdSigmaMode : Z; WfdDevInfo : Z; WfdControlPort : Z; WfdMaximumTp : Z; WfdExtendCap : Z;
  WfdCoupleSinkAddress : list byte; WfdAssociatedBssid : list byte;
  WfdVideoIp : list byte; WfdAudioIp : list byte; WfdVideoPort : Z; WfdAudioPort : Z;
  WfdFlag : Z; WfdPolicy : Z; WfdState : Z; WfdSessionInformationIELen : Z;
  WfdPrimarySinkMac : list byte; WfdSecondarySinkMac : list byte; WfdAdvancedFlag : Z;
  WfdLocalIp : list byte; WfdSessionInformationIE : list byte
}.

Section Requests.
Context {NL : Libnl} (tm : channel) (A : abi) `{WpaCommon}.

(** [sizeof(struct ...)] as the sources store it in [hdr.buflen]. *)
Definition struct_len (ts : list ctype) : Z := Z.of_nat (sizeof A ts).

(** ** Software commands *)

Definition sw_cmd_request (set adr dat : Z) : list byte :=
  store_zeroed A sw_cmd_params_t
    [VI (versioned NL80211_TESTMODE_SW_CMD); VI (struct_len sw_cmd_params_t);
     VI (if set =? 0 then 0 else 1); VI adr; VI dat].

Definition wpa_driver_nl80211_driver_sw_cmd (tr : trace) (set adr dat : Z) : outcome (Z * trace) :=
  '(_, _, tr') ← tm tr (sw_cmd_request set adr dat) OutNone; Ret (0, tr').

(** ** Hotspot clients *)

Definition hotspot_request (bssid : option (list byte)) (blocked : Z) : list byte :=
  store_zeroed A hotspot_params_t
    [VI (versioned NL80211_TESTMODE_HS20); VI (struct_len hotspot_params_t);
     VI (u8 blocked); VA (default (zeros ETH_ALEN) bssid)].

Definition wpa_driver_hotspot_block_list_update (tr : trace) (bssid : option (list byte))
    (blocked : Z) : outcome (Z * trace) :=
  '(r, _, tr') ← tm tr (hotspot_request bssid blocked) OutNone; Ret (r, tr').

Definition wpa_driver_sta_block (tr : trace) (cmd : list byte) : outcome (Z * trace) :=
  match hwaddr_aton cmd with
  | None => Ret (-1, tr)
  | Some bssid => wpa_driver_hotspot_block_list_update tr (Some bssid) 1
  end.

Definition wpa_driver_sta_unblock (tr : trace) (cmd : list byte) : outcome (Z * trace) :=
  match hwaddr_aton cmd with
  | None => Ret (-1, tr)
  | Some bssid => wpa_driver_hotspot_block_list_update tr (Some bssid) 0
  end.

(** ** WAPI *)

Definition broadcast : list byte := replicate ETH_ALEN Byte.xff.

(** [ext_flags]. *)
Definition wapi_flags (addr : option (list byte)) (set_tx : Z) : Z :=
  Z.lor (match addr with
         | None => IW_ENCODE_EXT_GROUP_KEY
         | Some a => if bool_decide (take ETH_ALEN a = broadcast) then IW_ENCODE_EXT_GROUP_KEY else 0
         end)
        (if set_tx =? 0 then 0 else IW_ENCODE_EXT_SET_TX_KEY).

(** The request: [addr], [seq] and [key] are null or the memory behind the pointer,
    the lengths are [size_t].  The scalar members do not overlap what the copies
    write, so they are assigned first. *)
Definition wapi_key_request (addr : option (list byte)) (key_idx set_tx : Z)
    (seq : option (list byte)) (seq_len : Z) (key : option (list byte)) (key_len : Z)
    : outcome (list byte) :=
  let set := set_member A wapi_key_params_t in
  let m := store_zeroed A wapi_key_params_t
    [VI (versioned NL80211_TESTMODE_WAPI); VI (struct_len wapi_key_params_t);
     VI (u8 (key_idx + 1)); VI (u8 key_len);
     VI (wapi_flags addr set_tx); VA (zeros 8); VA (zeros 8); VA (zeros 6);
     VI 0; VI 0; VA (zeros 32)] in
  a ← match addr with Some a => mem_read a 0 ETH_ALEN | None => Ret broadcast end;
  m ← set m 7%nat (VA a);
  m ← match key with
      | Some k =>
          if key_len =? 0 then Ret m
          else
            kb ← mem_read k 0 (Z.to_nat key_len);
            m ← mem_write m (offset_of A wapi_key_params_t 10) kb;
            set m 9%nat (VI (u16 key_len))
      | None => Ret m
      end;
  m ← set m 8%nat (VI IW_ENCODE_ALG_SMS4);
  match seq with
  | Some s =>
      if seq_len =? 0 then Ret m
      else
        sb ← mem_read s 0 (Z.to_nat seq_len);
        mem_write m (offset_of A wapi_key_params_t 5) sb
  | None => Ret m
  end.

Definition wpa_driver_nl80211_set_wapi_key (tr : trace) (addr : option (list byte))
    (key_idx set_tx : Z) (seq : option (list byte)) (seq_len : Z)
    (key : option (list byte)) (key_len : Z) : outcome (Z * trace) :=
  if Z.of_nat IW_ENCODE_SEQ_MAX_SIZE * 2 <? seq_len then Ret (-1, tr)
  else if 2 ^ 31 - 1 <=? key_idx then Undef SignedOverflow
  else
    m ← wapi_key_request addr key_idx set_tx seq seq_len key key_len;
    '(_, _, tr') ← tm tr m OutNone;
    Ret (0, tr').

Definition wpa_driver_nl80211_send_msg (msg_in_len : Z) : Z :=
  if 1024 <? msg_in_len then -1 else 0.

(** ** Wi-Fi Display *)

(** The request; [wfd_size] is [sizeof(struct wfd_data_s)], which the code stores as
    the length. *)
Definition wfd_request (wfd_size : Z) (p : wfd_data_s) : outcome (list byte) :=
  let set m i v := set_member A wfd_data_t m i v in
  let cpy m i l := mem_write m (offset_of A wfd_data_t i) l in
  let mac l := mem_read l 0 ETH_ALEN in
  let m := zeros (sizeof A wfd_data_t) in
  m ← set m 0%nat (VI (versioned 2));
  m ← set m 1%nat (VI wfd_size);
  m ← set m 2%nat (VI (WfdCmdType p));
  m ← set m 3%nat (VI (WfdEnable p));
  m ← set m 4%nat (VI (WfdCoupleSinkStatus p));
  m ← set m 7%nat (VI (WfdDevInfo p));
  m ← set m 8%nat (VI (WfdControlPort p));
  m ← set m 9%nat (VI (WfdMaximumTp p));
  m ← set m 10%nat (VI (WfdExtendCap p));
  l ← mac (WfdCoupleSinkAddress p); m ← cpy m 11%nat l;
  l ← mac (WfdAssociatedBssid p); m ← cpy m 12%nat l;
  m ← cpy m 13%nat (WfdVideoIp p);
  m ← cpy m 14%nat (WfdAudioIp p);
  m ← set m 15%nat (VI (WfdVideoPort p));
  m ← set m 16%nat (VI (WfdAudioPort p));
  m ← set m 17%nat (VI (WfdFlag p));
  m ← set m 18%nat (VI (WfdPolicy p));
  m ← set m 19%nat (VI (WfdState p));
  m ← set m 21%nat (VI (WfdSessionInformationIELen p));
  l ← mem_read (WfdSessionInformationIE p) 0 (Z.to_nat (WfdSessionInformationIELen p));
  m ← cpy m 20%nat l;
  l ← mac (WfdPrimarySinkMac p); m ← cpy m 23%nat l;
  l ← mac (WfdSecondarySinkMac p); m ← cpy m 24%nat l;
  m ← set m 25%nat (VI (WfdAdvancedFlag p));
  m ← set m 5%nat (VI (WfdSessionAvailable p));
  m ← set m 6%nat (VI (WfdSigmaMode p));
  cpy m 26%nat (WfdLocalIp p).

Definition wpas_wfd_data_update (wfd_size : Z) (tr : trace) (p : wfd_data_s)
    : outcome (Z * trace) :=
  m ← wfd_request wfd_size p;
  '(r, _, tr') ← tm tr m OutNone;
  Ret (r, tr').

(** ** Beamplus *)

Definition beamplus_request (id value : Z) : list byte :=
  store_zeroed A set_beamplus_params_t
    [VI (versioned id); VI (struct_len set_beamplus_params_t); VI (u32 value)].

Definition wpas_driver_get_beamplus_go_ready (tr : trace) : outcome (Z * trace) :=
  '(_, o, tr') ← tm tr (beamplus_request 18 0) (OutGoReady 0);
  Ret (match o with OutGoReady v => v | _ => 0 end, tr').

Definition wpas_driver_set_beamplus (tr : trace) (value : Z) : outcome (Z * trace) :=
  '(r, _, tr') ← tm tr (beamplus_request 17 value) OutNone; Ret (r, tr').

(** ** P2P sigma test mode *)

Definition p2p_sigma_request (index value : Z) : list byte :=
  store_zeroed A p2p_sigma_params_t
    [VI (versioned 1); VI (struct_len p2p_sigma_params_t); VI (u32 index); VI (u32 value)].

Definition wpas_p2p_sigma_test_mode (tr : trace) (index value : Z) : outcome (Z * trace) :=
  '(r, _, tr') ← tm tr (p2p_sigma_request index value) OutNone; Ret (r, tr').

(** ** Queries *)

(** [buf] is the address of the statistics structure, [s] what it holds. *)
Definition wpas_get_sta_statistics (tr : trace) (sta_addr : option (list byte)) (buf : Z)
    (s : wpa_driver_sta_statistics_s) : outcome (Z * wpa_driver_sta_statistics_s * trace) :=
  a ← match sta_addr with Some a => mem_read a 0 ETH_ALEN | None => Ret (zeros ETH_ALEN) end;
  '(r, o, tr') ← tm tr
    (store_zeroed A get_sta_statistics_params_t
      [VI (versioned NL80211_TESTMODE_STATISTICS); VI (struct_len get_sta_statistics_params_t);
       VI 0; VI 0; VA a; VI buf]) (OutStats s);
  Ret (r, match o with OutStats s' => s' | _ => s end, tr').

Definition wpas_get_sta_link_detect (tr : trace) (buf : Z) (l : wpa_driver_sta_link_detect_s)
    : outcome (Z * wpa_driver_sta_link_detect_s * trace) :=
  '(r, o, tr') ← tm tr
    (store_zeroed A get_sta_link_detect_params_t
      [VI (versioned NL80211_TESTMODE_LINK_DETECT); VI (struct_len get_sta_link_detect_params_t);
       VI buf]) (OutLink l);
  Ret (r, match o with OutLink l' => l' | _ => l end, tr').

(** ** Lemmas *)

Abbreviation sent := (sent_requests NL80211_ATTR_TESTDATA).

Lemma u32_in_u z : in_u 32 (u32 z).
Proof. apply uwrap_range. lia. Qed.
Lemma u8_in_u z : in_u 8 (u8 z).
Proof. apply uwrap_range. lia. Qed.
Lemma u16_in_u z : in_u 16 (u16 z).
Proof. apply uwrap_range. lia. Qed.

Lemma versioned_in_u id : in_u 32 (versioned id).
Proof.
  unfold versioned, in_u. split; [apply Z.lor_nonneg; split; [apply u32_in_u|done]|].
  apply Z.log2_lt_cancel. rewrite Z.log2_lor by (first [apply u32_in_u|done]).
  change (Z.log2 (2 ^ 32)) with 32. apply Z.max_lub_lt; [|done].
  destruct (Z.eq_dec (u32 id) 0) as [->|]; [done|].
  apply Z.log2_lt_pow2; pose proof (u32_in_u id) as []; lia.
Qed.

(** The value fits its type: by the lemmas above or by evaluation. *)
Ltac solve_typed :=
  repeat match goal with |- Forall2 _ _ _ => constructor end;
  cbn [typed csize Z.of_nat]; unfold ETH_ALEN, IW_ENCODE_SEQ_MAX_SIZE;
  first [ apply versioned_in_u | apply u32_in_u | apply u8_in_u | apply u16_in_u
        | done | (unfold in_u; cbn; lia) | idtac ].

(** A channel call sends at most its request, and the request says what was stored. *)
Lemma channel_request `{!TestmodeChannel tm} tr ts vs o r o' tr' :
  Forall2 (typed A) ts vs ->
  tm tr (store_zeroed A ts vs) o = Ret (r, o', tr') ->
  sent tr' = sent tr \/
  exists req, sent tr' = sent tr ++ [req] /\ load A req ts = vs /\ length req = sizeof A ts.
Proof.
  intros Ht Hr. apply tm_sends in Hr as [Hr|Hr]; [by left|]. right. eexists. split; [exact Hr|].
  split; [by apply load_store_zeroed|by apply store_zeroed_length].
Qed.

Lemma wapi_size : sizeof A wapi_key_params_t = 76%nat.
Proof. by destruct A. Qed.
Lemma wapi_key_offset : offset_of A wapi_key_params_t 10 = 42%nat.
Proof. by destruct A. Qed.

Lemma wapi_seq_offset : offset_of A wapi_key_params_t 5 = 16%nat.
Proof. by destruct A. Qed.

Lemma mem_read_whole l n : (n ≤ length l)%nat -> mem_read l 0 n = Ret (take n l).
Proof. intros. unfold mem_read. by rewrite decide_True by lia. Qed.

(** Sixteen bytes of sequence number fill [tx_seq] and run on into [rx_seq]. *)
Lemma write_seq vs tx rx sb :
  Forall2 (typed A) wapi_key_params_t vs ->
  vs !! 5%nat = Some (VA tx) -> vs !! 6%nat = Some (VA rx) -> (length sb ≤ 16)%nat ->
  mem_write (store_zeroed A wapi_key_params_t vs) (offset_of A wapi_key_params_t 5) sb =
  Ret (store_zeroed A wapi_key_params_t
         (<[6%nat := VA (drop 8 sb ++ drop (length sb - 8) rx)]>
           (<[5%nat := VA (take 8 sb ++ drop (length sb) tx)]> vs))).
Proof.
  intros Ht H5 H6 Hs. rewrite <- (take_drop 8 sb) at 1. rewrite mem_write_split.
  rewrite (set_array_prefix A _ vs 5 8 tx); [|done|done|done|rewrite length_take; lia]. cbn [mbind outcome_bind].
  assert (length tx = 8%nat) as Htx
    by (by apply (Forall2_lookup_lr _ _ _ 5%nat (Arr 8) (VA tx)) in Ht).
  rewrite length_take.
  replace (drop (8 `min` length sb) tx) with (drop (length sb) tx); cycle 1.
  { destruct (Nat.min_spec 8 (length sb)) as [[? ->]|[? ->]]; [|done].
    rewrite !drop_ge by lia. done. }
  set (vs' := <[5%nat := _]> vs).
  assert (Forall2 (typed A) wapi_key_params_t vs') as Ht'.
  { apply typed_insert with (Arr 8); [done|done|]. cbn.
    rewrite length_app, length_take, length_drop. lia. }
  destruct (Nat.le_gt_cases (length sb) 8).
  - rewrite (drop_ge sb) by lia. replace (length sb - 8)%nat with 0%nat by lia.
    rewrite drop_0, app_nil_l, (list_insert_id vs').
    + rewrite mem_write_in_range;
        [|rewrite store_zeroed_length, wapi_size, wapi_seq_offset by done; cbn [length]; lia].
      cbn [length]. rewrite Nat.add_0_r, app_nil_l. by rewrite take_drop.
    + unfold vs'. by rewrite list_lookup_insert_ne.
  - replace (offset_of A wapi_key_params_t 5 + 8 `min` length sb)%nat
      with (offset_of A wapi_key_params_t 6) by (rewrite Nat.min_l by lia; by destruct A).
    rewrite (set_array_prefix A _ vs' 6 8 rx);
      [|done|done|unfold vs'; by rewrite list_lookup_insert_ne|rewrite length_drop; lia].
    by rewrite length_drop.
Qed.

(** The structure before the variable parts are copied into it. *)
Definition wapi_initial (key_idx key_len flags : Z) : list cval :=
  [VI (versioned NL80211_TESTMODE_WAPI); VI (struct_len wapi_key_params_t);
   VI (u8 (key_idx + 1)); VI (u8 key_len); VI flags; VA (zeros 8); VA (zeros 8);
   VA (zeros 6); VI 0; VI 0; VA (zeros 32)].

Lemma wapi_flags_in_u addr set_tx : in_u 32 (wapi_flags addr set_tx).
Proof.
  unfold wapi_flags. destruct addr; [case_bool_decide|]; destruct (set_tx =? 0); done.
Qed.

Lemma wapi_initial_typed key_idx key_len addr set_tx :
  Forall2 (typed A) wapi_key_params_t (wapi_initial key_idx key_len (wapi_flags addr set_tx)).
Proof.
  unfold wapi_initial, struct_len. rewrite wapi_size. solve_typed. apply wapi_flags_in_u.
Qed.

(** The address member after its assignment. *)
Definition wapi_addr (addr : option (list byte)) : list byte :=
  match addr with Some a => take ETH_ALEN a | None => broadcast end.

Lemma wapi_addr_read addr :
  (forall a, addr = Some a -> (ETH_ALEN ≤ length a)%nat) ->
  match addr with Some a => mem_read a 0 ETH_ALEN | None => Ret broadcast end =
    Ret (wapi_addr addr) /\ length (wapi_addr addr) = ETH_ALEN.
Proof.
  intros Ha. destruct addr as [a|]; [|done]. specialize (Ha a eq_refl).
  rewrite mem_read_whole by done. split; [done|]. unfold ETH_ALEN in *. cbn.
  rewrite length_take. lia.
Qed.

(** The members of the finished request. *)
Definition wapi_members (addr : option (list byte)) (key_idx set_tx : Z) (sb kb : list byte) : list cval :=
  [VI (versioned NL80211_TESTMODE_WAPI); VI 76; VI (u8 (key_idx + 1));
   VI (Z.of_nat (length kb)); VI (wapi_flags addr set_tx);
   VA (take 8 sb ++ zeros (8 - length sb)); VA (drop 8 sb ++ zeros (8 - (length sb - 8)));
   VA (wapi_addr addr); VI IW_ENCODE_ALG_SMS4; VI (Z.of_nat (length kb));
   VA (kb ++ zeros (32 - length kb))].

Lemma wapi_members_typed addr key_idx set_tx sb kb :
  length (wapi_addr addr) = ETH_ALEN -> (length sb ≤ 16)%nat -> (length kb ≤ 32)%nat ->
  Forall2 (typed A) wapi_key_params_t (wapi_members addr key_idx set_tx sb kb).
Proof.
  intros Ha Hs Hk. solve_typed.
  - apply wapi_flags_in_u.
  - rewrite length_app, length_take, length_zeros. lia.
  - rewrite length_app, length_drop, length_zeros. lia.
  - rewrite length_app, length_zeros. lia.
Qed.

Lemma wapi_key_request_built addr key_idx set_tx s seq_len k key_len :
  (forall a, addr = Some a -> (ETH_ALEN ≤ length a)%nat) ->
  0 < seq_len <= 16 -> seq_len <= Z.of_nat (length s) ->
  0 < key_len <= 32 -> key_len <= Z.of_nat (length k) ->
  wapi_key_request addr key_idx set_tx (Some s) seq_len (Some k) key_len =
  Ret (store_zeroed A wapi_key_params_t
         (wapi_members addr key_idx set_tx (take (Z.to_nat seq_len) s) (take (Z.to_nat key_len) k))).
Proof.
  intros Haddr Hseq Hs Hkey Hk. unfold wapi_key_request.
  fold (wapi_initial key_idx key_len (wapi_flags addr set_tx)).
  destruct (wapi_addr_read addr Haddr) as [-> Hal]. cbn [mbind outcome_bind].
  rewrite (proj2 (Z.eqb_neq key_len 0)), (proj2 (Z.eqb_neq seq_len 0)) by lia.
  rewrite !mem_read_whole by lia. cbn [mbind outcome_bind].
  set (sb := take (Z.to_nat seq_len) s). set (kb := take (Z.to_nat key_len) k).
  assert (length sb = Z.to_nat seq_len) as Hsb by (unfold sb; rewrite length_take; lia).
  assert (length kb = Z.to_nat key_len) as Hkb by (unfold kb; rewrite length_take; lia).
  pose proof (wapi_initial_typed key_idx key_len addr set_tx) as T.
  rewrite (set_member_store A _ _ 7 _ (Arr 6)) by done. cbn [mbind outcome_bind].
  apply (typed_insert A _ _ 7 (Arr 6) (VA (wapi_addr addr))) in T; [|done|done].
  rewrite (set_array_prefix A _ _ 10 32 (zeros 32)); [|done|done|done|lia]. cbn [mbind outcome_bind].
  apply (typed_insert A _ _ 10 (Arr 32) (VA (kb ++ drop (length kb) (zeros 32)))) in T;
    [|done|cbn [typed]; rewrite length_app, length_drop, length_zeros; lia].
  rewrite (set_member_store A _ _ 9 _ U16) by (done || apply u16_in_u). cbn [mbind outcome_bind].
  apply (typed_insert A _ _ 9 U16 (VI (u16 key_len))) in T; [|done|apply u16_in_u].
  rewrite (set_member_store A _ _ 8 _ U16) by done. cbn [mbind outcome_bind].
  apply (typed_insert A _ _ 8 U16 (VI IW_ENCODE_ALG_SMS4)) in T; [|done|done].
  rewrite (write_seq _ (zeros 8) (zeros 8)); [|done|done|done|lia].
  unfold wapi_initial, wapi_members, struct_len. rewrite wapi_size. cbn [insert list_insert].
  unfold zeros. rewrite !drop_replicate, Hkb, Z2Nat.id by lia.
  unfold u8, u16. by rewrite !(uwrap_id _ key_len) by (unfold in_u; lia).
Qed.

(** ** The Wi-Fi Display request *)

(** The structure's values have the C types of the request's members. *)
Record wf_wfd_data (p : wfd_data_s) : Prop := {
  wf_wfd_u32 : Forall (in_u 32) [WfdCmdType p; WfdFlag p; WfdPolicy p; WfdState p; WfdAdvancedFlag p];
  wf_wfd_u16 : Forall (in_u 16) [WfdDevInfo p; WfdControlPort p; WfdMaximumTp p; WfdExtendCap p;
                                 WfdVideoPort p; WfdAudioPort p; WfdSessionInformationIELen p];
  wf_wfd_u8 : Forall (in_u 8) [WfdEnable p; WfdCoupleSinkStatus p; WfdSessionAvailable p; WfdSigmaMode p];
  wf_wfd_mac : Forall (fun l => length l = ETH_ALEN)
    [WfdCoupleSinkAddress p; WfdAssociatedBssid p; WfdPrimarySinkMac p; WfdSecondarySinkMac p];
  wf_wfd_ip : Forall (fun l => length l = 4%nat) [WfdVideoIp p; WfdAudioIp p; WfdLocalIp p]
}.

(** The members of the finished request, with the information element [ie]. *)
Definition wfd_members (wfd_size : Z) (p : wfd_data_s) (ie : list byte) : list cval :=
  [VI (versioned 2); VI wfd_size; VI (WfdCmdType p); VI (WfdEnable p); VI (WfdCoupleSinkStatus p);
   VI (WfdSessionAvailable p); VI (WfdSigmaMode p); VI (WfdDevInfo p); VI (WfdControlPort p);
   VI (WfdMaximumTp p); VI (WfdExtendCap p); VA (WfdCoupleSinkAddress p);
   VA (WfdAssociatedBssid p); VA (WfdVideoIp p); VA (WfdAudioIp p); VI (WfdVideoPort p);
   VI (WfdAudioPort p); VI (WfdFlag p); VI (WfdPolicy p); VI (WfdState p);
   VA (ie ++ zeros (192 - length ie)); VI (WfdSessionInformationIELen p); VA (zeros 2);
   VA (WfdPrimarySinkMac p); VA (WfdSecondarySinkMac p); VI (WfdAdvancedFlag p);
   VA (WfdLocalIp p); VI 0; VI 0; VI 0; VA (zeros 54); VA (zeros 64); VA (zeros 64)].

Definition wfd_blank : list cval :=
  map (fun t => match t with Arr n => VA (zeros n) | _ => VI 0 end) wfd_data_t.

Lemma wfd_blank_typed : Forall2 (typed A) wfd_data_t wfd_blank.
Proof. solve_typed. Qed.

Lemma wfd_blank_zeros : zeros (sizeof A wfd_data_t) = store_zeroed A wfd_data_t wfd_blank.
Proof. by destruct A; vm_compute. Qed.

Lemma sw_cmd_sent `{!TestmodeChannel tm} tr set adr dat r tr' :
  in_u 32 adr -> in_u 32 dat ->
  wpa_driver_nl80211_driver_sw_cmd tr set adr dat = Ret (r, tr') ->
  r = 0 /\
  (sent tr' = sent tr \/
   exists req, sent tr' = sent tr ++ [req] /\ length req = 20%nat /\
     load A req sw_cmd_params_t =
       [VI (versioned 1); VI 20; VI (if set =? 0 then 0 else 1); VI adr; VI dat]).
Proof.
  intros Hadr Hdat Hret.
  unfold wpa_driver_nl80211_driver_sw_cmd in Hret. inv_outcome. destruct a as [[r1 o1] tr1].
  inv_outcome. split; [done|].
  assert (sizeof A sw_cmd_params_t = 20%nat) as Hsz by by destruct A.
  apply channel_request in E as [E|(req & E & Hl & Hn)]; [by left| |].
  - right. exists req. unfold struct_len in Hl. rewrite Hsz in Hl. by rewrite Hn, Hsz.
  - unfold struct_len. rewrite Hsz. solve_typed. by destruct (set =? 0).
Qed.

(** ** Properties *)

(** A software command returns 0 whatever the kernel answers, and sends at most one
    request, which carries the version 1 identifier of software commands, its own
    length (20 bytes on both ABIs), the flag normalised to 0 or 1, and the address and
    data unchanged. *)
Theorem sw_cmd_sends `{!TestmodeChannel tm} (tr : trace) (set adr dat r : Z) (tr' : trace)
    (Hadr : in_u 32 adr) (Hdat : in_u 32 dat)
    (Hret : wpa_driver_nl80211_driver_sw_cmd tr set adr dat = Ret (r, tr')) :
  r = 0 /\
  (sent tr' = sent tr \/
   exists req, sent tr' = sent tr ++ [req] /\ length req = 20%nat /\
     load A req sw_cmd_params_t =
       [VI (versioned 1); VI 20; VI (if set =? 0 then 0 else 1); VI adr; VI dat]).
Proof. by apply sw_cmd_sent. Qed.

(** C11: setting a WAPI key, when the key and the sequence number are given (no null
    pointers, lengths above 0, as many readable bytes as the lengths say), with a key of at
    most 32 bytes and a sequence number of at most 16, returns 0 and sends at most one request, of 76 bytes, that holds the key
    index plus one, the group and transmit flags, the peer or broadcast address, the
    SMS4 algorithm, the key padded with zeros, and the sequence number in [tx_seq]
    with its second half in [rx_seq]. *)
Theorem wapi_key_sends `{!TestmodeChannel tm} (tr : trace) (addr : option (list byte))
    (key_idx set_tx : Z) (s : list byte) (seq_len : Z) (k : list byte) (key_len r : Z) (tr' : trace)
    (Haddr : forall a, addr = Some a -> (ETH_ALEN ≤ length a)%nat)
    (Hseq : 0 < seq_len <= 16) (Hs : seq_len <= Z.of_nat (length s))
    (Hkey : 0 < key_len <= 32) (Hk : key_len <= Z.of_nat (length k))
    (Hret : wpa_driver_nl80211_set_wapi_key tr addr key_idx set_tx (Some s) seq_len
              (Some k) key_len = Ret (r, tr')) :
  r = 0 /\
  (sent tr' = sent tr \/
   exists req, sent tr' = sent tr ++ [req] /\ length req = 76%nat /\
     load A req wapi_key_params_t =
       wapi_members addr key_idx set_tx (take (Z.to_nat seq_len) s) (take (Z.to_nat key_len) k)).
Proof.
  revert Hret. unfold wpa_driver_nl80211_set_wapi_key.
  rewrite wapi_key_request_built by done.
  change (Z.of_nat IW_ENCODE_SEQ_MAX_SIZE * 2) with 16.
  rewrite (proj2 (Z.ltb_ge 16 seq_len)) by lia.
  destruct (2 ^ 31 - 1 <=? key_idx); [done|]. cbn [mbind outcome_bind]. intros Hret.
  inv_outcome. destruct a as [[r1 o1] tr1]. inv_outcome. split; [done|].
  apply channel_request in E as [E|(req & E & Hl & Hn)]; [by left| |].
  - right. exists req. by rewrite Hn, wapi_size.
  - apply wapi_members_typed; [by apply wapi_addr_read| |]; rewrite length_take; lia.
Qed.

(** C39: the length of a WAPI key is not checked against the 32 byte array it is copied
    into: a key of more than 34 bytes (the array and the two bytes of padding behind
    it) writes past the end of the request on the stack. *)
Theorem wapi_key_overflow (tr : trace) (addr : option (list byte)) (key_idx set_tx : Z)
    (seq : option (list byte)) (seq_len : Z) (k : list byte) (key_len : Z)
    (Haddr : forall a, addr = Some a -> (ETH_ALEN ≤ length a)%nat)
    (Hidx : key_idx < 2 ^ 31 - 1) (Hseq : seq_len <= 16)
    (Hkey : 34 < key_len) (Hk : key_len <= Z.of_nat (length k)) :
  wpa_driver_nl80211_set_wapi_key tr addr key_idx set_tx seq seq_len (Some k) key_len =
  Undef OutOfBounds.
Proof.
  unfold wpa_driver_nl80211_set_wapi_key, wapi_key_request.
  change (Z.of_nat IW_ENCODE_SEQ_MAX_SIZE * 2) with 16.
  rewrite (proj2 (Z.ltb_ge 16 seq_len)), (proj2 (Z.leb_gt (2 ^ 31 - 1) key_idx)) by lia.
  fold (wapi_initial key_idx key_len (wapi_flags addr set_tx)).
  destruct (wapi_addr_read addr Haddr) as [-> Hal]. cbn [mbind outcome_bind].
  pose proof (wapi_initial_typed key_idx key_len addr set_tx) as T.
  rewrite (set_member_store A _ _ 7 _ (Arr 6)) by done. cbn [mbind outcome_bind].
  apply (typed_insert A _ _ 7 (Arr 6) (VA (wapi_addr addr))) in T; [|done|done].
  rewrite (proj2 (Z.eqb_neq key_len 0)), mem_read_whole by lia. cbn [mbind outcome_bind].
  rewrite mem_write_out_of_range; [done|].
  rewrite store_zeroed_length, wapi_size, wapi_key_offset, length_take by done. lia.
Qed.

(** Blocking or unblocking a hotspot client with text that is no MAC address
    fails with -1 and sends nothing; otherwise the call returns 0 or a negative code
    and sends at most one request, which names the parsed address and carries the
    blocked flag 1 or 0. *)
Theorem sta_block_sends `{!WpaCommonLaws} `{!TestmodeChannel tm} (block : bool) (tr : trace)
    (cmd : list byte) (r : Z) (tr' : trace)
    (Hret : (if block then wpa_driver_sta_block else wpa_driver_sta_unblock) tr cmd = Ret (r, tr')) :
  match hwaddr_aton cmd with
  | None => r = -1 /\ tr' = tr
  | Some bssid =>
      r <= 0 /\
      (sent tr' = sent tr \/
       exists req, sent tr' = sent tr ++ [req] /\ length req = 16%nat /\
         load A req hotspot_params_t =
           [VI (versioned 3); VI 16; VI (if block then 1 else 0); VA bssid])
  end.
Proof.
  assert (sizeof A hotspot_params_t = 16%nat) as Hsz by by destruct A.
  destruct block; unfold wpa_driver_sta_block, wpa_driver_sta_unblock in Hret;
    (destruct (hwaddr_aton cmd) as [bssid|] eqn:Ea; [|by inv_outcome]);
    apply hwaddr_aton_length in Ea;
    unfold wpa_driver_hotspot_block_list_update in Hret; inv_outcome;
    destruct a as [[r1 o1] tr1]; inv_outcome; (split; [by eapply tm_nonpos|]);
    (apply channel_request in E as [E|(req & E & Hl & Hn)]; [by left| |]);
    try (right; exists req; rewrite Hn, Hsz; unfold struct_len in Hl; by rewrite Hsz in Hl);
    unfold struct_len; rewrite Hsz; solve_typed.
Qed.

Lemma mem_read_exact l n : length l = n -> mem_read l 0 n = Ret l.
Proof. intros <-. rewrite mem_read_whole by done. by rewrite firstn_all. Qed.

(** The request as a structure built member by member. *)
Lemma wfd_request_built wfd_size p :
  in_u 32 wfd_size -> wf_wfd_data p -> WfdSessionInformationIELen p <= 192 ->
  WfdSessionInformationIELen p <= Z.of_nat (length (WfdSessionInformationIE p)) ->
  exists m, wfd_request wfd_size p = Ret m /\
    built A wfd_data_t m
      (wfd_members wfd_size p
        (take (Z.to_nat (WfdSessionInformationIELen p)) (WfdSessionInformationIE p))).
Proof.
  intros Hsize [W32 W16 W8 WM WI] Hie Hlen. unfold wfd_request. cbn zeta.
  repeat match goal with W : Forall _ (_ :: _) |- _ => apply Forall_cons_1 in W as [? W] end.
  assert (built A wfd_data_t (zeros (sizeof A wfd_data_t)) wfd_blank) as B
    by (split; [apply wfd_blank_zeros|apply wfd_blank_typed]).
  set (m0 := zeros _) in *. clearbody m0.
  let v := eval cbn [wfd_blank map wfd_data_t test_mode_info_t app] in wfd_blank in
    change wfd_blank with v in B.
  unfold ETH_ALEN in *.
  rewrite (mem_read_whole (WfdSessionInformationIE p)) by lia. rewrite !mem_read_exact by done.
  set (ie := take _ (WfdSessionInformationIE p)).
  assert (length ie ≤ 192)%nat by (unfold ie; rewrite length_take; lia). clearbody ie.
  repeat (rewrite ?bind_Ret; cbn beta;
          build_step ltac:(first [done | apply versioned_in_u
                                  | unfold ETH_ALEN; rewrite ?length_take; lia])).
  eexists. split; [done|]. eapply built_eq; [done|].
  cbn [insert list_insert]. unfold wfd_members, zeros. rewrite !drop_replicate.
  repeat match goal with H : length _ = _ |- _ => rewrite H; clear H end.
  rewrite !Nat.sub_diag. cbn [replicate]. by rewrite !app_nil_r.
Qed.

(** The same chain seen as writes into 464 bytes: an access inside them is defined,
    whatever members it crosses. *)
Lemma wfd_bytes : sizeof A wfd_data_t = 464%nat.
Proof. by destruct A. Qed.

Lemma sized_copy m off l :
  length m = 464%nat -> (off + length l ≤ 464)%nat ->
  exists m', mem_write m off l = Ret m' /\ length m' = 464%nat.
Proof.
  intros Hm Hl. rewrite mem_write_in_range by lia. eexists. split; [done|].
  rewrite !length_app, length_take, length_drop. lia.
Qed.

Lemma sized_set m i t v :
  length m = 464%nat -> wfd_data_t !! i = Some t -> typed A t v ->
  exists m', set_member A wfd_data_t m i v = Ret m' /\ length m' = 464%nat.
Proof.
  intros Hm Hi Hv. unfold set_member. rewrite (nth_lookup_Some _ _ U8 t Hi).
  apply sized_copy; [done|]. rewrite (val_bytes_length A t v Hv).
  assert (Forall (fun '(i, t) => (offset_of A wfd_data_t i + csize A t <=? 464)%nat = true)
            (imap pair wfd_data_t)) as HF by (by destruct A; repeat constructor).
  apply (Forall_lookup_1 _ _ i (i, t)) in HF; [by apply Nat.leb_le|].
  by rewrite list_lookup_imap, Hi.
Qed.

Ltac sized_step :=
  match goal with
  | Hm : length ?m = 464%nat |- context [set_member A wfd_data_t ?m ?i ?v] =>
      let m' := fresh "m" in let E := fresh "E" in let Hm' := fresh "Hm" in
      destruct (sized_set m i _ v Hm eq_refl ltac:(first [done|apply versioned_in_u])) as (m' & E & Hm');
      rewrite E; clear E Hm; rewrite ?bind_Ret; cbn beta
  | Hm : length ?m = 464%nat |- context [mem_write ?m (offset_of A wfd_data_t ?i) ?l] =>
      let m' := fresh "m" in let E := fresh "E" in let Hm' := fresh "Hm" in
      let o := eval vm_compute in (offset_of Arm32 wfd_data_t i) in
      assert (offset_of A wfd_data_t i = o) as E by (by destruct A); rewrite E; clear E;
      destruct (sized_copy m o l Hm ltac:(rewrite ?length_take; lia)) as (m' & E & Hm');
      rewrite E; clear E Hm; rewrite ?bind_Ret; cbn beta
  end.

(** The element [ie] lies in the request from the start of its array on, except for the
    20 bytes of the members 23 to 26, which are assigned after it. *)
Definition element_at (ie m : list byte) : Prop :=
  length m = 464%nat /\
  forall i, (i < length ie)%nat -> ~ (196 ≤ i < 216)%nat -> m !! (60 + i)%nat = ie !! i.

Lemma element_copied ie m :
  length m = 464%nat -> (length ie ≤ 404)%nat ->
  exists m', mem_write m 60 ie = Ret m' /\ element_at ie m'.
Proof.
  intros Hm Hl. rewrite mem_write_in_range by lia. eexists. split; [done|]. split.
  - rewrite !length_app, length_take, length_drop. lia.
  - intros i Hi _. rewrite lookup_app_r; rewrite length_take_le by lia; [|lia].
    replace (60 + i - 60)%nat with i by lia. by rewrite lookup_app_l.
Qed.

Lemma element_kept ie m off l :
  element_at ie m -> (off + length l ≤ 60 \/ 256 ≤ off /\ off + length l ≤ 276)%nat ->
  exists m', mem_write m off l = Ret m' /\ element_at ie m'.
Proof.
  intros [Hm He] Hoff. rewrite mem_write_in_range by lia. eexists. split; [done|]. split.
  - rewrite !length_app, length_take, length_drop. lia.
  - intros i Hi Hn. rewrite <- He by done. destruct (decide (60 + i < off)%nat).
    + rewrite lookup_app_l by (rewrite length_take; lia). by apply lookup_take_lt.
    + rewrite lookup_app_r by (rewrite length_take; lia). rewrite length_take_le by lia.
      rewrite lookup_app_r by lia. rewrite lookup_drop. f_equal. lia.
Qed.

(** A step of the assignments behind the element. *)
Ltac element_step :=
  match goal with
  | He : element_at ?ie ?m |- context [mem_write ?m (offset_of A wfd_data_t ?i) ?l] =>
      let m' := fresh "m" in let E := fresh "E" in let He' := fresh "He" in
      let o := eval vm_compute in (offset_of Arm32 wfd_data_t i) in
      assert (offset_of A wfd_data_t i = o) as E by (by destruct A); rewrite E; clear E;
      destruct (element_kept ie m o l He ltac:(rewrite ?length_le_split; cbn [length] in *; lia))
        as (m' & E & He'); rewrite E; clear E He; rewrite ?bind_Ret; cbn beta
  end.

Lemma wfd_request_sized wfd_size p :
  in_u 32 wfd_size -> wf_wfd_data p ->
  WfdSessionInformationIELen p <= Z.of_nat (length (WfdSessionInformationIE p)) ->
  WfdSessionInformationIELen p <= 404 ->
  exists m, wfd_request wfd_size p = Ret m /\
    element_at (take (Z.to_nat (WfdSessionInformationIELen p)) (WfdSessionInformationIE p)) m.
Proof.
  intros Hsize [W32 W16 W8 WM WI] Hread HL. unfold wfd_request. cbn zeta.
  repeat match goal with W : Forall _ (_ :: _) |- _ => apply Forall_cons_1 in W as [? W] end.
  assert (length (zeros (sizeof A wfd_data_t)) = 464%nat) as Hm by (rewrite length_zeros; apply wfd_bytes).
  set (m0 := zeros _) in *. clearbody m0. unfold ETH_ALEN in *.
  rewrite (mem_read_whole (WfdSessionInformationIE p)) by lia. rewrite !mem_read_exact by done.
  do 19 (rewrite ?bind_Ret; cbn beta; sized_step).
  replace (offset_of A wfd_data_t 20) with 60%nat by (by destruct A).
  set (ie := take _ (WfdSessionInformationIE p)).
  match goal with Hm : length ?m = 464%nat |- context [mem_write ?m 60 ie] =>
    destruct (element_copied ie m Hm ltac:(unfold ie; rewrite length_take; lia)) as (m' & E & He) end.
  rewrite E. clear E. rewrite ?bind_Ret. cbn beta. clearbody ie.
  unfold set_member. change (nth 25 wfd_data_t U8) with U32. change (nth 5 wfd_data_t U8) with U8.
  change (nth 6 wfd_data_t U8) with U8. cbn [val_bytes csize].
  repeat element_step. by eexists.
Qed.

Lemma wfd_request_overflows wfd_size p :
  in_u 32 wfd_size -> wf_wfd_data p ->
  WfdSessionInformationIELen p <= Z.of_nat (length (WfdSessionInformationIE p)) ->
  404 < WfdSessionInformationIELen p ->
  wfd_request wfd_size p = Undef OutOfBounds.
Proof.
  intros Hsize [W32 W16 W8 WM WI] Hread HL. unfold wfd_request. cbn zeta.
  repeat match goal with W : Forall _ (_ :: _) |- _ => apply Forall_cons_1 in W as [? W] end.
  assert (length (zeros (sizeof A wfd_data_t)) = 464%nat) as Hm by (rewrite length_zeros; apply wfd_bytes).
  set (m0 := zeros _) in *. clearbody m0. unfold ETH_ALEN in *.
  rewrite (mem_read_whole (WfdSessionInformationIE p)) by lia. rewrite !mem_read_exact by done.
  do 19 (rewrite ?bind_Ret; cbn beta; sized_step).
  rewrite mem_write_out_of_range; [reflexivity|].
  replace (offset_of A wfd_data_t 20) with 60%nat by (by destruct A). rewrite length_take. lia.
Qed.

(** The conversion test should not evaluate the chain of assignments. *)
Strategy 100 [wfd_request].

(** C12: a Wi-Fi Display update whose session information element has at most 192 bytes
    sends at most one request, in which every member equals the one it was copied
    from, the element is padded with zeros and the reserved areas are zero; the length
    in the header is that of the caller's structure, not of the request. *)
Theorem wfd_data_update_sends `{!TestmodeChannel tm} (wfd_size : Z) (tr : trace) (p : wfd_data_s)
    (r : Z) (tr' : trace)
    (Hsize : in_u 32 wfd_size) (Hwf : wf_wfd_data p)
    (Hie : WfdSessionInformationIELen p <= 192)
    (Hlen : WfdSessionInformationIELen p <= Z.of_nat (length (WfdSessionInformationIE p)))
    (Hret : wpas_wfd_data_update wfd_size tr p = Ret (r, tr')) :
  r <= 0 /\
  (sent tr' = sent tr \/
   exists req, sent tr' = sent tr ++ [req] /\ length req = sizeof A wfd_data_t /\
     load A req wfd_data_t =
       wfd_members wfd_size p
         (take (Z.to_nat (WfdSessionInformationIELen p)) (WfdSessionInformationIE p))).
Proof.
  destruct (wfd_request_built wfd_size p) as (m & Em & B); [assumption..|].
  apply built_load in B as [Bl Bn].
  unfold wpas_wfd_data_update in Hret. rewrite Em, bind_Ret in Hret. inv_outcome.
  destruct a as [[r1 o1] tr1]. inv_outcome. split; [by eapply tm_nonpos|].
  apply tm_sends in E as [E|E]; [by left|]. right. exists m. split_and!; assumption.
Qed.

(** C29: the length of the session information element is not checked against its 192 byte
    array: filling the request is defined exactly up to 404 bytes, the distance from the
    array to the end of the structure; a longer element is copied over the stack.  An
    element that is not longer lies whole in the request from the start of its array on,
    over whatever members are behind the array, the member with its own length first; only
    the members 23 to 26, the sink addresses, the flag and the local address, are
    assigned after it. *)
Theorem wfd_ie_bound (wfd_size : Z) (p : wfd_data_s)
    (Hsize : in_u 32 wfd_size) (Hwf : wf_wfd_data p)
    (Hread : WfdSessionInformationIELen p <= Z.of_nat (length (WfdSessionInformationIE p))) :
  let offset := offset_of A wfd_data_t in
  (offset 20 + 192 = offset 21)%nat /\
  if WfdSessionInformationIELen p <=? 404
  then exists m, wfd_request wfd_size p = Ret m /\ length m = sizeof A wfd_data_t /\
    forall i, (i < Z.to_nat (WfdSessionInformationIELen p))%nat ->
      ~ (offset 23 ≤ offset 20 + i < offset 27)%nat ->
      m !! (offset 20 + i)%nat = WfdSessionInformationIE p !! i
  else wfd_request wfd_size p = Undef OutOfBounds.
Proof.
  intros offset.
  replace (offset 20%nat) with 60%nat by (unfold offset; by destruct A).
  replace (offset 21%nat) with 252%nat by (unfold offset; by destruct A).
  replace (offset 23%nat) with 256%nat by (unfold offset; by destruct A).
  replace (offset 27%nat) with 276%nat by (unfold offset; by destruct A).
  split; [done|]. destruct (Z.leb_spec (WfdSessionInformationIELen p) 404).
  - destruct (wfd_request_sized wfd_size p) as (m & -> & Hm & He); [assumption..|].
    exists m. rewrite wfd_bytes. split_and!; [done|done|]. intros i Hi Hn.
    rewrite He; [by apply lookup_take_lt|rewrite length_take; lia|lia].
  - by apply wfd_request_overflows.
Qed.

End Requests.

(** ** Witnesses *)

(** An address parser: six pairs of hexadecimal digits separated by colons. *)
Fixpoint parse_mac (n : nat) (s : list byte) : option (list byte) :=
  match n, s with
  | O, _ => Some []
  | S n', a :: b :: r =>
      if (digit_value a <? 16) && (digit_value b <? 16)
      then
        match n', r with
        | O, _ => Some [byte.of_Z (16 * digit_value a + digit_value b)]
        | _, c :: r' =>
            if code c =? 58
            then cons (byte.of_Z (16 * digit_value a + digit_value b)) <$> parse_mac n' r'
            else None
        | _, [] => None
        end
      else None
  | _, _ => None
  end.

Definition colon_mac : WpaCommon := {| hwaddr_aton := parse_mac ETH_ALEN |}.

Lemma parse_mac_length n s a : parse_mac n s = Some a -> length a = n.
Proof.
  revert s a. induction n as [|n IH]; intros s a; cbn; [by intros [= <-]|].
  destruct s as [|x [|y r]]; try done. destruct (_ && _); [|done].
  destruct n as [|n]; [by intros [= <-]|]. destruct r as [|c r]; [done|].
  destruct (_ =? _); [|done]. intros (l & Hl & ->)%fmap_Some. cbn. f_equal. eauto.
Qed.

Lemma colon_mac_laws : @WpaCommonLaws colon_mac.
Proof. constructor. apply parse_mac_length. Qed.

(** The library on a kernel that acknowledges everything, on interface 7. *)
Definition quiet_channel : channel :=
  @wpa_driver_nl80211_testmode _ (ack_kernel []) config_all 7.

(** The history of one request. *)
Definition one_request (data : list byte) : trace :=
  [EvMsgAlloc; nl_request data; EvMsgFree].

Lemma sw_cmd_sends_witness :
  let req := sw_cmd_request Arm64 1 2667577344 9437696 in
  0 = 0 /\
  (sent_requests 69 (one_request req) = sent_requests 69 [] \/
   exists r, sent_requests 69 (one_request req) = sent_requests 69 [] ++ [r] /\
     length r = 20%nat /\
     load Arm64 r sw_cmd_params_t =
       [VI (versioned 1); VI 20; VI 1; VI 2667577344; VI 9437696]).
Proof.
  refine (sw_cmd_sends (NL := tree_libnl) quiet_channel Arm64 [] 1 2667577344 9437696 0
            (one_request (sw_cmd_request Arm64 1 2667577344 9437696)) _ _ _).
  - split; vm_compute; [discriminate|reflexivity].
  - split; vm_compute; [discriminate|reflexivity].
  - vm_compute. reflexivity.
Defined.

Definition wapi_demo : list byte :=
  store_zeroed Arm64 wapi_key_params_t
    (wapi_members None 0 1 (zeros 12) (replicate 16 Byte.x2a)).

Lemma wapi_key_sends_witness :
  0 = 0 /\
  (sent_requests 69 (one_request wapi_demo) = sent_requests 69 [] \/
   exists r, sent_requests 69 (one_request wapi_demo) = sent_requests 69 [] ++ [r] /\
     length r = 76%nat /\
     load Arm64 r wapi_key_params_t =
       wapi_members None 0 1 (take 12 (zeros 12)) (take 16 (replicate 16 Byte.x2a))).
Proof.
  refine (wapi_key_sends (NL := tree_libnl) quiet_channel Arm64 [] None 0 1 (zeros 12) 12
            (replicate 16 Byte.x2a) 16 0 (one_request wapi_demo) _ _ _ _ _ _).
  - discriminate.
  - lia.
  - vm_compute. discriminate.
  - lia.
  - vm_compute. discriminate.
  - vm_compute. reflexivity.
Defined.

Lemma wapi_key_overflow_witness :
  wpa_driver_nl80211_set_wapi_key (NL := tree_libnl) quiet_channel Arm64 [] None 0 1 None 0
    (Some (zeros 64)) 64 = Undef OutOfBounds.
Proof.
  apply (wapi_key_overflow (NL := tree_libnl) quiet_channel Arm64 [] None 0 1 None 0 (zeros 64) 64);
    [discriminate|lia|lia|lia|vm_compute; discriminate].
Defined.

Definition block_demo : list byte :=
  store_zeroed Arm32 hotspot_params_t
    [VI (versioned 3); VI 16; VI 1;
     VA [Byte.x00; Byte.x11; Byte.x22; Byte.x33; Byte.x44; Byte.x5f]].

Lemma sta_block_sends_witness :
  0 <= 0 /\
  (sent_requests 69 (one_request block_demo) = sent_requests 69 [] \/
   exists r, sent_requests 69 (one_request block_demo) = sent_requests 69 [] ++ [r] /\
     length r = 16%nat /\
     load Arm32 r hotspot_params_t =
       [VI (versioned 3); VI 16; VI 1;
        VA [Byte.x00; Byte.x11; Byte.x22; Byte.x33; Byte.x44; Byte.x5f]]).
Proof.
  refine (@sta_block_sends tree_libnl quiet_channel Arm32 colon_mac colon_mac_laws _ true []
            (str "00:11:22:33:44:5f") 0 (one_request block_demo) _).
  vm_compute. reflexivity.
Defined.

Definition wfd_demo : wfd_data_s :=
  {| WfdCmdType := 1; WfdEnable := 1; WfdCoupleSinkStatus := 0; WfdSessionAvailable := 1;
     WfdSigmaMode := 0; WfdDevInfo := 17; WfdControlPort := 7236; WfdMaximumTp := 50;
     WfdExtendCap := 0; WfdCoupleSinkAddress := zeros 6; WfdAssociatedBssid := broadcast;
     WfdVideoIp := zeros 4; WfdAudioIp := zeros 4; WfdVideoPort := 0; WfdAudioPort := 0;
     WfdFlag := 0; WfdPolicy := 3; WfdState := 0; WfdSessionInformationIELen := 24;
     WfdPrimarySinkMac := zeros 6; WfdSecondarySinkMac := zeros 6; WfdAdvancedFlag := 0;
     WfdLocalIp := zeros 4; WfdSessionInformationIE := replicate 192 Byte.x41 |}.

Definition wfd_demo_request : list byte :=
  store_zeroed Arm64 wfd_data_t (wfd_members 308 wfd_demo (replicate 24 Byte.x41)).

Lemma wfd_demo_wf : wf_wfd_data wfd_demo.
Proof. constructor; repeat constructor; vm_compute; first [discriminate|reflexivity]. Qed.

Lemma wfd_data_update_sends_witness :
  0 <= 0 /\
  (sent_requests 69 (one_request wfd_demo_request) = sent_requests 69 [] \/
   exists r, sent_requests 69 (one_request wfd_demo_request) = sent_requests 69 [] ++ [r] /\
     length r = sizeof Arm64 wfd_data_t /\
     load Arm64 r wfd_data_t =
       wfd_members 308 wfd_demo (take (Z.to_nat 24) (WfdSessionInformationIE wfd_demo))).
Proof.
  refine (wfd_data_update_sends (NL := tree_libnl) quiet_channel Arm64 308 [] wfd_demo 0
            (one_request wfd_demo_request) _ _ _ _ _).
  - split; vm_compute; [discriminate|reflexivity].
  - apply wfd_demo_wf.
  - vm_compute. discriminate.
  - vm_compute. discriminate.
  - vm_compute. reflexivity.
Defined.

(** An element of 300 bytes, which ends inside the structure. *)
Definition wfd_medium : wfd_data_s :=
  wfd_demo{{WfdSessionInformationIELen := 300; WfdSessionInformationIE := replicate 512 Byte.x41}}.

Lemma wfd_ie_bound_witness :
  let offset := offset_of Arm64 wfd_data_t in
  (offset 20 + 192 = offset 21)%nat /\
  exists m, wfd_request Arm64 308 wfd_medium = Ret m /\ length m = sizeof Arm64 wfd_data_t /\
    forall i, (i < Z.to_nat 300)%nat -> ~ (offset 23 ≤ offset 20 + i < offset 27)%nat ->
      m !! (offset 20 + i)%nat = replicate 512 Byte.x41 !! i.
Proof.
  apply (wfd_ie_bound Arm64 308 wfd_medium).
  - split; vm_compute; [discriminate|reflexivity].
  - constructor; repeat constructor; vm_compute; first [discriminate|reflexivity].
  - vm_compute. discriminate.
Defined.
