(* ===== verification/Statistics.v ===== *)
(** * Reporting statistics

    [print_sta_statistics], [wpa_driver_get_sta_statistics] and
    [wpa_driver_get_sta_link_detect] of [mediatek_driver_cmd_nl80211.c]: the answers of
    the kernel as text in the buffer of the control interface. *)

From Stdlib Require Import SpecFloat.
From S2P Require Import Prelude CString Printf Layout Structs World Handlers Testmode Requests.

(** ** The text of the station statistics *)

(** [%d:%d:%d:%d] of the elements TC0 to TC3. *)
Definition fmt_tc (a : list byte) : list byte :=
  fmt_d (u32_elem a 0) ++ str ":" ++ fmt_d (u32_elem a 1) ++ str ":" ++
  fmt_d (u32_elem a 2) ++ str ":" ++ fmt_d (u32_elem a 3).

(** One call of [snprintf]: its text, and the index of the element of [reserved] that
    is evaluated as its argument, if any. *)
Definition print_call : Type := list byte * option nat.

Definition call (t : list byte) : print_call := (t, None).

(** [for (i = lo; i < hi; i++)]: the byte in two digits, a blank after every fourth,
    and after the loop the newline, whose unused argument is element [hi]. *)
Definition reserved_calls (r : list byte) (lo hi : nat) : list print_call :=
  (seq lo (hi - lo) ≫= fun i =>
    (fmt_x true 2 (code (nth i r NUL)), Some i) ::
    (if ((i + 1) mod 4 =? 0)%nat then [(str " ", Some i)] else [])) ++
  [([NL], Some hi)].

Definition statistics_calls (s : wpa_driver_sta_statistics_s) : list print_call :=
  [call (str "sta_addr=" ++ fmt_mac (addr s) ++ [NL]);
   call (str "link_score=" ++ fmt_d (link_score s) ++ [NL]);
   call (str "per=" ++ fmt_d (per s) ++ [NL]);
   call (str "rssi=" ++ fmt_d (rssi s) ++ [NL]);
   call (str "phy=0x" ++ fmt_x true 8 (phy_mode s) ++ [NL]);
   call (str "rate=" ++ fmt_f1 (tx_rate s) ++ [NL]);
   call (str "total_cnt=" ++ fmt_d (tx_total_cnt s) ++ [NL]);
   call (str "threshold_cnt=" ++ fmt_d (tx_exc_threshold_cnt s) ++ [NL]);
   call (str "fail_cnt=" ++ fmt_d (tx_fail_cnt s) ++ [NL]);
   call (str "timeout_cnt=" ++ fmt_d (tx_timeout_cnt s) ++ [NL]);
   call (str "apt=" ++ fmt_d (tx_avg_process_time s) ++ [NL]);
   call (str "aat=" ++ fmt_d (tx_avg_air_time s) ++ [NL]);
   call (str "TC_buf_full_cnt=" ++ fmt_tc (tc_buf_full_cnt s) ++ [NL]);
   call (str "TC_sta_que_len=" ++ fmt_tc (tc_que_len s) ++ [NL]);
   call (str "TC_avg_que_len=" ++ fmt_tc (tc_avg_que_len s) ++ [NL]);
   call (str "TC_cur_que_len=" ++ fmt_tc (tc_cur_que_len s) ++ [NL]);
   call (str "flag=0x" ++ fmt_x true 8 (flag s) ++ [NL]);
   call (str "reserved0=")] ++
  reserved_calls (reserved s) 0 16 ++
  [call (str "reserved1=")] ++
  reserved_calls (reserved s) 16 32 ++
  [call (str "====" ++ [NL])].

Definition statistics_pieces (s : wpa_driver_sta_statistics_s) : list (list byte) :=
  fst <$> statistics_calls s.

Definition statistics_text (s : wpa_driver_sta_statistics_s) : list byte :=
  concat (statistics_pieces s).

(** The evaluation of [sta_stats->reserved[i]]: the array has 32 elements and ends the
    structure.  Element 32 lies behind the structure: reading it is undefined in C, where
    [behind] is [None]; [Some b] stands for a program that finds [b] on its stack there. *)
Definition reserved_arg (s : wpa_driver_sta_statistics_s) (behind : option byte) (i : nat)
    : outcome byte :=
  if (i <? 32)%nat then Ret (nth i (reserved s) NUL)
  else match behind with
       | Some b => if (i =? 32)%nat then Ret b else Undef OutOfBounds
       | None => Undef OutOfBounds
       end.

(** The calls in turn, each after its argument was evaluated; otherwise as [emit_all]. *)
Fixpoint emit_calls (s : wpa_driver_sta_statistics_s) (behind : option byte) (m : list byte)
    (pos fin : nat) (calls : list print_call) : outcome (list byte * nat * bool) :=
  match calls with
  | [] => Ret (m, pos, true)
  | (t, arg) :: calls' =>
      _ ← match arg with Some i => reserved_arg s behind i | None => Ret NUL end;
      '(m', ret) ← snprintf m pos (fin - pos) t;
      if (ret <? 0) || (Z.of_nat fin - Z.of_nat pos <=? ret) then Ret (m', pos, false)
      else emit_calls s behind m' (pos + Z.to_nat ret) fin calls'
  end.

(** [m] is the memory from [buf] on.  A piece that does not fit ends the function with
    0. *)
Definition print_sta_statistics (s : wpa_driver_sta_statistics_s) (behind : option byte)
    (m : list byte) (buflen : nat) : outcome (Z * list byte) :=
  '(m', pos, complete) ← emit_calls s behind m 0 buflen (statistics_calls s);
  Ret (if complete : bool then Z.of_nat pos else 0, m').

Section Reports.
Context {LN : Libnl} (tm : channel) (A : abi) `{WpaCommon}.

(** [buf] is the address of the local structure, [garbage] its contents: it is not
    initialised; [behind] is the byte behind it. *)
Definition wpa_driver_get_sta_statistics (buf : Z) (garbage : wpa_driver_sta_statistics_s)
    (behind : option byte) (tr : trace) (cmd m : list byte) (buflen : nat) : outcome (Z * list byte * trace) :=
  match hwaddr_aton cmd with
  | None => Ret (-1, m, tr)
  | Some a =>
      '(r, s, tr') ← wpas_get_sta_statistics tm A tr (Some a) buf garbage;
      if r <? 0 then Ret (-1, m, tr')
      else '(len, m') ← print_sta_statistics s behind m buflen; Ret (len, m', tr')
  end.

(** ** The text of the link detection counters *)

Definition link_pieces (l : wpa_driver_sta_link_detect_s) : list (list byte) :=
  [str "rFailedCount=" ++ fmt_u (ld_tx_fail_cnt l) ++ [NL];
   str "rRetryCount=" ++ fmt_u (ld_tx_retry_cnt l) ++ [NL];
   str "rMultipleRetryCount=" ++ fmt_u (ld_tx_multi_retry_cnt l) ++ [NL];
   str "rACKFailureCount=" ++ fmt_u (ld_ack_fail_cnt l) ++ [NL];
   str "rFCSErrorCount=" ++ fmt_u (ld_fcs_err_cnt l) ++ [NL];
   str "tx_total=" ++ fmt_u (ld_tx_cnt l) ++ [NL];
   str "tx_ok=" ++ fmt_u (ld_tx_ok_cnt l) ++ [NL];
   str "tx_os=" ++ fmt_u (ld_tx_os_cnt l) ++ [NL]].

(** A piece that does not fit ends the function with what was printed before it. *)
Definition wpa_driver_get_sta_link_detect (buf : Z) (garbage : wpa_driver_sta_link_detect_s)
    (tr : trace) (m : list byte) (buflen : nat) : outcome (Z * list byte * trace) :=
  '(r, l, tr') ← wpas_get_sta_link_detect tm A tr buf garbage;
  if r <? 0 then Ret (-1, m, tr')
  else
    '(m', pos, _) ← emit_all m 0 buflen (link_pieces l);
    Ret (Z.of_nat pos, m', tr').

End Reports.

(** ** The transmit rate *)

Lemma digits2_size p : digits2_pos p = Pos.size p.
Proof. induction p; cbn; congruence. Qed.

Lemma size_bounds p : 2 ^ (Zpos (Pos.size p) - 1) <= Zpos p < 2 ^ Zpos (Pos.size p).
Proof.
  pose proof (Pos.size_gt p). pose proof (Pos.size_le p) as Hle.
  split; [|by rewrite <- Pos2Z.inj_pow; lia].
  assert (2 ^ Zpos (Pos.size p) <= 2 * Zpos p) as H2.
  { rewrite <- Pos2Z.inj_pow. change (2 * Zpos p) with (Zpos p~0). lia. }
  replace (Zpos (Pos.size p)) with (Z.succ (Zpos (Pos.size p) - 1)) in H2 by lia.
  rewrite Z.pow_succ_r in H2 by lia. lia.
Qed.

(** A mantissa of 53 bits is not shifted; one bit too many, and it is zero: it is
    dropped. *)
Lemma shr_fexp_53 m e :
  digits2_pos m = 53%positive -> -1074 <= e ->
  shr_fexp 53 1024 (Zpos m) e loc_Exact =
  ({| shr_m := Zpos m; shr_r := false; shr_s := false |}, e).
Proof.
  intros Hd He. unfold shr_fexp, Zdigits2. rewrite Hd. unfold fexp, emin.
  by replace (Z.max _ _ - e) with 0 by lia.
Qed.

Lemma shr_fexp_54 m e :
  digits2_pos m = 53%positive -> -1074 <= e ->
  shr_fexp 53 1024 (Zpos m~0) e loc_Exact =
  ({| shr_m := Zpos m; shr_r := false; shr_s := false |}, e + 1).
Proof.
  intros Hd He. unfold shr_fexp, Zdigits2. cbn [digits2_pos]. rewrite Hd. unfold fexp, emin.
  by replace (Z.max _ _ - e) with 1 by lia.
Qed.

Lemma round_exact m e :
  digits2_pos m = 53%positive -> -1074 <= e <= 971 ->
  binary_round_aux 53 1024 false (Zpos m) e loc_Exact = S754_finite false m e.
Proof.
  intros Hd He. unfold binary_round_aux. rewrite shr_fexp_53 by (done || lia).
  cbn [shr_m loc_of_shr_record round_nearest_even]. rewrite shr_fexp_53 by (done || lia).
  cbn [shr_m]. by rewrite (proj2 (Z.leb_le e (1024 - 53))) by lia.
Qed.

Lemma round_exact_succ m e :
  digits2_pos m = 53%positive -> -1074 <= e < 971 ->
  binary_round_aux 53 1024 false (Zpos m~0) e loc_Exact = S754_finite false m (e + 1).
Proof.
  intros Hd He. unfold binary_round_aux. rewrite shr_fexp_54 by (done || lia).
  cbn [shr_m loc_of_shr_record round_nearest_even]. rewrite shr_fexp_53 by (done || lia).
  cbn [shr_m]. by rewrite (proj2 (Z.leb_le (e + 1) (1024 - 53))) by lia.
Qed.

Lemma iter_xO p n : Zpos (Pos.iter xO p n) = Zpos p * 2 ^ Zpos n.
Proof.
  induction n as [|n IH] using Pos.peano_ind; [cbn; lia|].
  rewrite Pos.iter_succ, Pos2Z.inj_xO, IH, Pos2Z.inj_succ, Z.pow_succ_r by lia. lia.
Qed.

Lemma digits2_iter_xO p n : digits2_pos (Pos.iter xO p n) = (digits2_pos p + n)%positive.
Proof.
  induction n as [|n IH] using Pos.peano_ind; [cbn; lia|].
  rewrite Pos.iter_succ. cbn [digits2_pos]. rewrite IH. lia.
Qed.

(** A positive integer of fewer than 53 bits as a double: its bits shifted up. *)
Lemma double_of_small p :
  Zpos (Pos.size p) < 53 ->
  exists m, double_of_Z (Zpos p) = S754_finite false m (Zpos (Pos.size p) - 53) /\
    digits2_pos m = 53%positive /\ Zpos m = Zpos p * 2 ^ (53 - Zpos (Pos.size p)).
Proof.
  intros Hp. unfold double_of_Z, binary_normalize, binary_round, shl_align.
  rewrite digits2_size. unfold fexp, emin.
  replace (Z.max _ _) with (Zpos (Pos.size p) - 53) by lia.
  destruct (53 - Zpos (Pos.size p)) as [|n|] eqn:En; [lia| |lia].
  replace (Zpos (Pos.size p) - 53 - 0) with (Zneg n) by lia.
  exists (Pos.iter xO p n).
  assert (digits2_pos (Pos.iter xO p n) = 53%positive) as Hd
    by (rewrite digits2_iter_xO, digits2_size; lia).
  rewrite round_exact by (done || lia). split_and!; [done|done|]. apply iter_xO.
Qed.

Lemma half_double m e :
  digits2_pos m = 53%positive -> -900 <= e <= 900 ->
  SFdiv 53 1024 (S754_finite false m e) (double_of_Z 2) = S754_finite false m (e - 1).
Proof.
  intros Hd He. change (double_of_Z 2) with (S754_finite false (2 ^ 52) (-51)).
  unfold SFdiv, SFdiv_core_binary, Zdigits2. rewrite Hd.
  change (digits2_pos (2 ^ 52)) with 53%positive. unfold fexp, emin.
  replace (Z.min (Z.max (53 + e - (53 + -51) - 53) (3 - 1024 - 53)) (e - -51)) with (e - 2) by lia.
  replace (e - -51 - (e - 2)) with 53 by lia. rewrite Z.shiftl_mul_pow2 by lia.
  change (Zpos (2 ^ 52)) with (2 ^ 52).
  replace (Zpos m * 2 ^ 53) with (Zpos m~0 * 2 ^ 52) by lia.
  pose proof (Z.div_mul (Zpos m~0) (2 ^ 52) ltac:(lia)) as Hq.
  pose proof (Z.mod_mul (Zpos m~0) (2 ^ 52) ltac:(lia)) as Hr.
  unfold Z.div in Hq. unfold Z.modulo in Hr.
  destruct (Z.div_eucl (Zpos m~0 * 2 ^ 52) (2 ^ 52)) as [q r]. subst q r.
  change (new_location (2 ^ 52) 0) with loc_Exact. cbn [xorb].
  rewrite round_exact_succ by (done || lia). f_equal. lia.
Qed.

Lemma tenths_exact p k :
  0 <= k -> round_half_even (Zpos p * 2 ^ k * 10 * 1) (2 ^ (k + 1)) = 5 * Zpos p.
Proof.
  intros Hk. unfold round_half_even. rewrite Z.pow_add_r by lia.
  replace (Zpos p * 2 ^ k * 10 * 1) with (5 * Zpos p * (2 ^ k * 2 ^ 1)) by lia.
  rewrite Z.div_mul, Z.mod_mul by lia. rewrite (proj2 (Z.ltb_lt _ _)); lia.
Qed.

(** ** Lengths *)

Lemma fmt_mac_length a : length (fmt_mac a) = (3 * length a - 1)%nat.
Proof.
  induction a as [|b a IH]; [done|].
  assert (length (fmt_x false 2 (code b)) = 2%nat) as Hb
    by (apply fmt_x_length; [apply byte_unsigned_bounds|lia]).
  destruct a as [|c a]; [done|].
  change (fmt_mac (b :: c :: a)) with (fmt_x false 2 (code b) ++ str ":" ++ fmt_mac (c :: a)).
  rewrite !length_app, IH, Hb. cbn. lia.
Qed.

Lemma fmt_tc_length a : (length (fmt_tc a) ≤ 47)%nat.
Proof.
  unfold fmt_tc. rewrite !length_app.
  pose proof (fmt_d_length (u32_elem a 0)). pose proof (fmt_d_length (u32_elem a 1)).
  pose proof (fmt_d_length (u32_elem a 2)). pose proof (fmt_d_length (u32_elem a 3)).
  cbn [length str list_byte_of_string] in *. cbn. lia.
Qed.

Lemma fmt_byte_length b : length (fmt_x true 2 (code b)) = 2%nat.
Proof. apply fmt_x_length; [apply byte_unsigned_bounds|lia]. Qed.

(** A row of 16 bytes: 32 digits, four blanks, the newline. *)
Lemma reserved_calls_length r lo :
  (lo = 0 \/ lo = 16)%nat -> length (concat (fst <$> reserved_calls r lo (lo + 16))) = 37%nat.
Proof.
  intros [-> | ->]; unfold reserved_calls; cbn -[fmt_x nth];
    repeat (rewrite ?length_app, ?fmt_byte_length; cbn -[fmt_x nth]); done.
Qed.

Lemma statistics_text_length s :
  wf_sta_statistics s -> (length (fmt_f1 (tx_rate s)) ≤ 7)%nat ->
  (length (statistics_text s) ≤ 604)%nat.
Proof.
  intros [_ H32 _ Ha _ _] Hr.
  repeat match goal with W : Forall _ (_ :: _) |- _ => apply Forall_cons_1 in W as [? W] end.
  assert (forall z, in_u 32 z -> length (fmt_x true 8 z) = 8%nat) as Hx
    by (intros z Hz; apply fmt_x_length; [exact Hz|lia]).
  unfold statistics_text, statistics_pieces, statistics_calls.
  rewrite !fmap_app, !concat_app, !length_app.
  rewrite (reserved_calls_length _ 0), (reserved_calls_length _ 16) by auto.
  repeat (cbn -[fmt_d fmt_f1 fmt_x fmt_tc fmt_mac]; rewrite ?length_app).
  rewrite !Hx, fmt_mac_length, Ha by done. unfold ETH_ALEN.
  repeat match goal with
  | |- context [length (fmt_d ?z)] =>
      pose proof (fmt_d_length z); generalize dependent (length (fmt_d z)); intros
  | |- context [length (fmt_tc ?z)] =>
      pose proof (fmt_tc_length z); generalize dependent (length (fmt_tc z)); intros
  end.
  lia.
Qed.

Lemma half_text v :
  in_u 16 v ->
  fmt_f1 (tx_rate_of v) = fmt_u (v / 2) ++ str "." ++ (if Z.even v then str "0" else str "5").
Proof.
  intros Hv. destruct v as [|p|p]; [done| |by destruct Hv].
  assert (Zpos (Pos.size p) <= 16) as Hs.
  { destruct Hv as [_ Hv]. destruct (size_bounds p) as [Hlo _].
    assert (2 ^ (Zpos (Pos.size p) - 1) < 2 ^ 16) as H%Z.pow_lt_mono_r_iff by lia; lia. }
  destruct (double_of_small p) as (m & Em & Hd & Hm); [lia|].
  unfold tx_rate_of. rewrite Em, half_double by (done || lia).
  unfold fmt_f1. rewrite Z.max_l, Z.max_r by lia. rewrite Hm.
  replace (- (Zpos (Pos.size p) - 53 - 1)) with (53 - Zpos (Pos.size p) + 1) by lia.
  change (2 ^ 0) with 1. rewrite tenths_exact by lia. cbn [app].
  replace (5 * Zpos p / 10) with (Zpos p / 2) by (Z.to_euclidean_division_equations; lia).
  f_equal. f_equal. destruct (Z.even (Zpos p)) eqn:Ev.
  - apply Z.even_spec in Ev as [k ->]. by replace (5 * (2 * k) mod 10) with 0 by (Z.to_euclidean_division_equations; lia).
  - rewrite <- Z.negb_odd in Ev. apply negb_false_iff, Z.odd_spec in Ev as [k ->].
    by replace (5 * (2 * k + 1) mod 10) with 5 by (Z.to_euclidean_division_equations; lia).
Qed.

(** ** No terminator inside the text *)

Lemma fmt_x_no_nul upper w n : NUL ∉ fmt_x upper w n.
Proof.
  unfold fmt_x. apply not_elem_of_app. split.
  - intros [E _]%elem_of_replicate. by destruct upper.
  - apply digits_fuel_no_nul; [lia|apply not_elem_of_nil].
Qed.

Lemma fmt_mac_no_nul a : NUL ∉ fmt_mac a.
Proof.
  induction a as [|b a IH]; [apply not_elem_of_nil|]. destruct a as [|c a]; [apply fmt_x_no_nul|].
  change (fmt_mac (b :: c :: a)) with (fmt_x false 2 (code b) ++ str ":" ++ fmt_mac (c :: a)).
  rewrite !not_elem_of_app. split_and!; [apply fmt_x_no_nul|decide_now|done].
Qed.

Lemma fmt_tc_no_nul a : NUL ∉ fmt_tc a.
Proof.
  unfold fmt_tc. rewrite !not_elem_of_app. split_and!; try apply fmt_d_no_nul; decide_now.
Qed.

Lemma fmt_f1_no_nul x : NUL ∉ fmt_f1 x.
Proof.
  destruct x as [[]|[]| |b m e]; [decide_now..|]. unfold fmt_f1. cbn zeta.
  rewrite !not_elem_of_app. split_and!; [by destruct b; decide_now|apply fmt_u_no_nul|decide_now|
    apply fmt_u_no_nul].
Qed.

Lemma concat_no_nul (ts : list (list byte)) : Forall (fun t => NUL ∉ t) ts -> NUL ∉ concat ts.
Proof.
  induction 1 as [|t ts Ht _ IH]; [apply not_elem_of_nil|]. cbn.
  by apply not_elem_of_app.
Qed.

Ltac solve_no_nul :=
  lazymatch goal with
  | |- Forall _ (_ ++ _) => apply Forall_app; split; solve_no_nul
  | |- Forall _ (_ :: _) => constructor; solve_no_nul
  | |- Forall _ [] => constructor
  | |- _ ∉ _ ++ _ => apply not_elem_of_app; split; solve_no_nul
  | |- _ ∉ fmt_d _ => apply fmt_d_no_nul
  | |- _ ∉ fmt_u _ => apply fmt_u_no_nul
  | |- _ ∉ fmt_x _ _ _ => apply fmt_x_no_nul
  | |- _ ∉ fmt_f1 _ => apply fmt_f1_no_nul
  | |- _ ∉ fmt_tc _ => apply fmt_tc_no_nul
  | |- _ ∉ fmt_mac _ => apply fmt_mac_no_nul
  | _ => decide_now
  end.

Lemma reserved_calls_no_nul r lo hi :
  Forall (fun t => NUL ∉ t) (fst <$> reserved_calls r lo hi).
Proof.
  unfold reserved_calls. rewrite fmap_app. apply Forall_app. split; [|cbn [fmap list_fmap fst]; solve_no_nul].
  apply Forall_fmap, Forall_bind, Forall_true. intros i.
  constructor; [cbn [compose fst]; apply fmt_x_no_nul|].
  destruct (_ =? _)%nat; [|constructor]. constructor; [decide_now|constructor].
Qed.

Lemma statistics_text_no_nul s : NUL ∉ statistics_text s.
Proof.
  apply concat_no_nul. unfold statistics_pieces, statistics_calls. rewrite !fmap_app.
  repeat (apply Forall_app; split); try apply reserved_calls_no_nul;
    cbn [fmap list_fmap fst call]; solve_no_nul.
Qed.

Lemma link_text_no_nul l : NUL ∉ concat (link_pieces l).
Proof. apply concat_no_nul. unfold link_pieces. solve_no_nul. Qed.

Lemma drop_behind_text (m t : list byte) (n : nat) :
  (length t < n)%nat -> drop n (take 0 m ++ t ++ NUL :: drop (0 + length t + 1) m) = drop n m.
Proof.
  intros H. rewrite take_0, app_nil_l, drop_app_ge by lia.
  destruct (n - length t)%nat as [|k] eqn:Ek; [lia|].
  cbn [drop]. rewrite drop_drop. f_equal. lia.
Qed.

(** The eight counters. *)
Definition link_counters (l : wpa_driver_sta_link_detect_s) : list Z :=
  [ld_tx_fail_cnt l; ld_tx_retry_cnt l; ld_tx_multi_retry_cnt l; ld_ack_fail_cnt l;
   ld_fcs_err_cnt l; ld_tx_cnt l; ld_tx_ok_cnt l; ld_tx_os_cnt l].

Lemma link_text_length l :
  Forall (in_u 64) (link_counters l) -> (length (concat (link_pieces l)) ≤ 266)%nat.
Proof.
  intros W. unfold link_counters in W.
  assert (forall z, in_u 64 z -> length (fmt_u z) ≤ 20)%nat as Hu.
  { intros z Hz. apply fmt_u_length; [|lia]. unfold in_u in Hz. lia. }
  repeat match goal with W : Forall _ (_ :: _) |- _ => apply Forall_cons_1 in W as [?%Hu W] end.
  unfold link_pieces. cbn [concat]. rewrite !length_app. cbn -[fmt_u]. lia.
Qed.

(** *** Arguments *)

(** The calls before the last newline read inside the structure. *)
Definition calls_inside (s : wpa_driver_sta_statistics_s) : list print_call :=
  take (length (statistics_calls s) - 2) (statistics_calls s).

Definition inside (c : print_call) : Prop :=
  match snd c with Some i => (i < 32)%nat | None => True end.

#[global] Instance inside_dec c : Decision (inside c).
Proof. unfold inside. destruct (snd c); apply _. Defined.

Lemma statistics_calls_split s :
  statistics_calls s = calls_inside s ++ [([NL], Some 32%nat); call (str "====" ++ [NL])].
Proof. reflexivity. Qed.

Lemma calls_inside_args s : Forall inside (calls_inside s).
Proof.
  apply Forall_fold_right. vm_compute. repeat split; lia.
Qed.

Lemma emit_calls_inside s behind m pos fin calls :
  Forall inside calls -> emit_calls s behind m pos fin calls = emit_all m pos fin (fst <$> calls).
Proof.
  intros Hc. revert m pos. induction Hc as [|[t arg] calls Ha _ IH]; intros m pos; [done|].
  cbn [emit_calls fmap list_fmap fst emit_all].
  assert (exists b, match arg with Some i => reserved_arg s behind i | None => Ret NUL end = Ret b) as [b ->].
  { destruct arg as [i|]; [|eauto]. cbn in Ha. unfold reserved_arg.
    rewrite (proj2 (Nat.ltb_lt i 32)) by done. eauto. }
  rewrite bind_Ret. destruct (snprintf m pos (fin - pos) t) as [[m' ret]| |]; [|done|done].
  rewrite !bind_Ret. destruct (_ || _); [done|]. apply IH.
Qed.

Lemma emit_calls_app s behind m pos fin calls calls' :
  emit_calls s behind m pos fin (calls ++ calls') =
  ('(m', pos', complete) ← emit_calls s behind m pos fin calls;
   if complete : bool then emit_calls s behind m' pos' fin calls' else Ret (m', pos', false)).
Proof.
  revert m pos. induction calls as [|[t arg] calls IH]; intros m pos; cbn [app emit_calls]; [done|].
  destruct (match arg with Some i => _ | None => _ end); [|done|done]. rewrite !bind_Ret.
  destruct (snprintf m pos (fin - pos) t) as [[m' ret]| |]; [|done|done].
  rewrite !bind_Ret. destruct (_ || _); [done|]. apply IH.
Qed.

Lemma emit_all_app m pos fin ts ts' :
  emit_all m pos fin (ts ++ ts') =
  ('(m', pos', complete) ← emit_all m pos fin ts;
   if complete : bool then emit_all m' pos' fin ts' else Ret (m', pos', false)).
Proof.
  revert m pos. induction ts as [|t ts IH]; intros m pos; cbn [app emit_all]; [done|].
  destruct (snprintf m pos (fin - pos) t) as [[m' ret]| |]; [|done|done].
  rewrite !bind_Ret. destruct (_ || _); [done|]. apply IH.
Qed.

(** With a byte behind the structure the report is that of [emit_all]; without one
    printing ends before the last newline, or is undefined. *)
Lemma emit_statistics s behind m fin :
  emit_calls s behind m 0 fin (statistics_calls s) =
  match behind with
  | Some _ => emit_all m 0 fin (statistics_pieces s)
  | None => '(m', pos', complete) ← emit_all m 0 fin (fst <$> calls_inside s);
            if complete : bool then Undef OutOfBounds else Ret (m', pos', false)
  end.
Proof.
  unfold statistics_pieces. rewrite statistics_calls_split, fmap_app, emit_calls_app, emit_all_app.
  rewrite emit_calls_inside by apply calls_inside_args. generalize (fst <$> calls_inside s). intros ts.
  destruct behind as [b|]; destruct (emit_all m 0 fin ts) as [[[m' pos'] complete]| |]; done.
Qed.

Lemma print_within s behind m buflen :
  (buflen ≤ length m)%nat ->
  (behind = None /\ print_sta_statistics s behind m buflen = Undef OutOfBounds) \/
  exists r m', print_sta_statistics s behind m buflen = Ret (r, m') /\ 0 <= r <= Z.of_nat buflen /\
    length m' = length m /\ drop buflen m' = drop buflen m /\
    (r = 0 \/ r = Z.of_nat (length (statistics_text s))).
Proof.
  intros Hb. unfold print_sta_statistics. rewrite emit_statistics. destruct behind as [b|].
  - right. destruct (emit_all_spec m 0 buflen (statistics_pieces s)) as (m' & -> & Hl & _ & Hd); [lia|].
    pose proof (fitting_fits (buflen - 0) (statistics_pieces s)) as Hf. rewrite bind_Ret.
    case_bool_decide as Hc; [|do 2 eexists; split_and!; [done|lia|lia|done|done|by left]].
    rewrite Hc in *. fold (statistics_text s) in *.
    do 2 eexists. split_and!; [done|lia|lia|done|done|by right].
  - generalize (fst <$> calls_inside s). intros ts.
    destruct (emit_all_spec m 0 buflen ts) as (m' & -> & Hl & _ & Hd); [lia|]. rewrite !bind_Ret.
    case_bool_decide; [by left|right]. rewrite bind_Ret.
    do 2 eexists. split_and!; [done|lia|lia|done|done|by left].
Qed.

(** ** Properties *)

(** C18: the rate of the kernel, in units of 500 kb/s, is halved and printed exactly:
    for every 16 bit value the text is the half, with one decimal 0 or 5. *)
Theorem tx_rate_text (v : Z) (Hv : in_u 16 v) :
  fmt_f1 (tx_rate_of v) = fmt_u (v / 2) ++ str "." ++ (if Z.even v then str "0" else str "5").
Proof. by apply half_text. Qed.

(** For well formed statistics with a decoded rate a buffer of 605 bytes is always
    enough for the report, and then the element behind the structure is reached: without a
    readable byte there the call is undefined; with one the function returns the length of
    the text, the buffer holds exactly the text as a terminated string, and nothing behind
    the buffer changes. *)
Theorem print_complete (s : wpa_driver_sta_statistics_s) (v : Z) (behind : option byte) (m : list byte)
    (buflen : nat) (Hwf : wf_sta_statistics s) (Hv : in_u 16 v) (Hrate : tx_rate s = tx_rate_of v)
    (Hlo : (605 ≤ buflen)%nat) (Hhi : (buflen ≤ length m)%nat) :
  match behind with
  | None => print_sta_statistics s behind m buflen = Undef OutOfBounds
  | Some _ =>
      exists m', print_sta_statistics s behind m buflen =
          Ret (Z.of_nat (length (statistics_text s)), m') /\
        cstr m' = Some (statistics_text s) /\ drop buflen m' = drop buflen m
  end.
Proof.
  assert (length (statistics_text s) ≤ 604)%nat as Hl.
  { apply statistics_text_length; [done|]. rewrite Hrate, half_text by done.
    rewrite !length_app. assert (length (fmt_u (v / 2)) ≤ 5)%nat.
    { apply fmt_u_length; [|lia]. destruct Hv. Z.to_euclidean_division_equations. lia. }
    destruct (Z.even v); cbn -[fmt_u]; lia. }
  unfold print_sta_statistics. rewrite emit_statistics. destruct behind as [b|].
  - rewrite emit_all_complete; [|done|fold (statistics_text s); lia].
    fold (statistics_text s). rewrite bind_Ret. eexists. split_and!; [done| |].
    + rewrite take_0. apply cstr_app_nul, statistics_text_no_nul.
    + by apply drop_behind_text; lia.
  - unfold statistics_text, statistics_pieces in Hl.
    rewrite statistics_calls_split, fmap_app, concat_app, length_app in Hl.
    rewrite emit_all_complete; [|done|lia]. by rewrite !bind_Ret.
Qed.

(** Printing never writes outside the buffer, whatever the structure holds and however
    small the buffer is: the call reads the byte behind the structure where that is
    undefined, or it returns, the bytes behind the buffer keep their value, and the result
    is 0 or the length of the whole text, which then fits. *)
Theorem print_statistics_safe (s : wpa_driver_sta_statistics_s) (behind : option byte) (m : list byte)
    (buflen : nat) (Hbuf : (buflen ≤ length m)%nat) :
  (behind = None /\ print_sta_statistics s behind m buflen = Undef OutOfBounds) \/
  exists r m', print_sta_statistics s behind m buflen = Ret (r, m') /\ 0 <= r <= Z.of_nat buflen /\
    length m' = length m /\ drop buflen m' = drop buflen m /\
    (r = 0 \/ r = Z.of_nat (length (statistics_text s))).
Proof. by apply print_within. Qed.

(** The calls that print the reserved bytes evaluate the elements 0 to 31 and, for
    the unused argument of the last newline, element 32: that is the byte behind the
    structure on both ABIs. *)
Theorem reserved_read_past_end (A : abi) (s : wpa_driver_sta_statistics_s) :
  exists l, omap snd (statistics_calls s) = l ++ [32%nat] /\
    Forall (fun i : nat => (i < 32)%nat) l /\
    (offset_of A sta_statistics_t 30 + 32)%nat = sizeof A sta_statistics_t.
Proof.
  set (row := fun lo => seq lo 16 ≫= fun i => i :: (if ((i + 1) mod 4 =? 0)%nat then [i] else [])).
  exists (row 0%nat ++ [16%nat] ++ row 16%nat). split_and!; [reflexivity| |by destruct A].
  apply Forall_forall. intros i Hi. vm_compute in Hi. lia.
Qed.

(** The report of the link counters with enough room. *)
Lemma link_report_printed {LN : Libnl} (tm : channel) (A : abi) (buf : Z)
    (garbage : wpa_driver_sta_link_detect_s) (tr : trace) (m : list byte) (buflen : nat)
    (l : wpa_driver_sta_link_detect_s) (r : Z) (tr' : trace)
    (Hq : wpas_get_sta_link_detect tm A tr buf garbage = Ret (r, l, tr'))
    (Hwf : Forall (in_u 64) (link_counters l))
    (Hlo : (267 ≤ buflen)%nat) (Hhi : (buflen ≤ length m)%nat) :
  exists r' m', wpa_driver_get_sta_link_detect tm A buf garbage tr m buflen = Ret (r', m', tr') /\
    if r <? 0 then r' = -1 /\ m' = m
    else r' = Z.of_nat (length (concat (link_pieces l))) /\
         cstr m' = Some (concat (link_pieces l)) /\ drop buflen m' = drop buflen m.
Proof.
  unfold wpa_driver_get_sta_link_detect. rewrite Hq. cbn [mbind outcome_bind].
  destruct (r <? 0); [by do 2 eexists|].
  pose proof (link_text_length l Hwf) as Hl.
  rewrite emit_all_complete; [|done|lia]. cbn [mbind outcome_bind].
  do 2 eexists. split_and!; [done|done| |].
  - rewrite take_0. apply cstr_app_nul, link_text_no_nul.
  - by apply drop_behind_text; lia.
Qed.

(** The report of the link counters needs at most 267 bytes: with that much room
    every returning call either fails with -1 and leaves the buffer alone, or returns
    the length of the whole text, which is in the buffer as a terminated string. *)
Theorem link_report_complete {LN : Libnl} (tm : channel) (A : abi) (buf : Z)
    (garbage : wpa_driver_sta_link_detect_s) (tr : trace) (m : list byte) (buflen : nat)
    (l : wpa_driver_sta_link_detect_s) (r : Z) (tr' : trace)
    (Hq : wpas_get_sta_link_detect tm A tr buf garbage = Ret (r, l, tr'))
    (Hwf : Forall (in_u 64) (link_counters l))
    (Hlo : (267 ≤ buflen)%nat) (Hhi : (buflen ≤ length m)%nat) :
  exists r' m', wpa_driver_get_sta_link_detect tm A buf garbage tr m buflen = Ret (r', m', tr') /\
    if r <? 0 then r' = -1 /\ m' = m
    else r' = Z.of_nat (length (concat (link_pieces l))) /\
         cstr m' = Some (concat (link_pieces l)) /\ drop buflen m' = drop buflen m.
Proof. by apply link_report_printed. Qed.

(** When the buffer is too small the report is cut at a line: the result is the
    length of the lines that fit, a prefix of the eight, and the bytes behind the
    buffer keep their value. *)
Theorem link_report_truncates {LN : Libnl} (tm : channel) (A : abi) (buf : Z)
    (garbage : wpa_driver_sta_link_detect_s) (tr : trace) (m : list byte) (buflen : nat)
    (l : wpa_driver_sta_link_detect_s) (r : Z) (tr' : trace)
    (Hq : wpas_get_sta_link_detect tm A tr buf garbage = Ret (r, l, tr'))
    (Hr : 0 <= r) (Hbuf : (buflen ≤ length m)%nat) :
  exists n m',
    wpa_driver_get_sta_link_detect tm A buf garbage tr m buflen =
      Ret (Z.of_nat (length (concat (take n (link_pieces l)))), m', tr') /\
    (length (concat (take n (link_pieces l))) ≤ buflen)%nat /\
    length m' = length m /\ drop buflen m' = drop buflen m.
Proof.
  unfold wpa_driver_get_sta_link_detect. rewrite Hq. cbn [mbind outcome_bind].
  rewrite (proj2 (Z.ltb_ge r 0)) by lia.
  destruct (emit_all_spec m 0 buflen (link_pieces l)) as (m' & -> & Hlen & _ & Hd); [lia|].
  rewrite Nat.sub_0_r in *. pose proof (fitting_fits buflen (link_pieces l)) as Hle.
  rewrite (fitting_prefix buflen) in *.
  exists (length (fitting buflen (link_pieces l))), m'. cbn [mbind outcome_bind].
  by rewrite Nat.add_0_l.
Qed.

(** A statistics query that returns has either failed with -1 and left the buffer
    alone, or parsed the address, asked the kernel, and printed within the buffer. *)
Theorem get_sta_statistics_outcomes {LN : Libnl} (tm : channel) (A : abi) `{!WpaCommon}
    (buf : Z) (garbage : wpa_driver_sta_statistics_s) (behind : option byte) (tr : trace)
    (cmd m : list byte) (buflen : nat) (r : Z) (m' : list byte) (tr' : trace)
    (Hbuf : (buflen ≤ length m)%nat)
    (Hret : wpa_driver_get_sta_statistics tm A buf garbage behind tr cmd m buflen = Ret (r, m', tr')) :
  (r = -1 /\ m' = m) \/
  (is_Some (hwaddr_aton cmd) /\ 0 <= r <= Z.of_nat buflen /\
   length m' = length m /\ drop buflen m' = drop buflen m).
Proof.
  unfold wpa_driver_get_sta_statistics in Hret.
  destruct (hwaddr_aton cmd) as [a|]; [|left; by inv_outcome].
  inv_outcome. destruct a0 as [[r1 s] tr1]. destruct (r1 <? 0); [left; by inv_outcome|].
  right. destruct (print_within s behind m buflen Hbuf) as [[_ Ep]|(r2 & m2 & Ep & Hr & Hl & Hd & _)];
    rewrite Ep in Hret; [done|]. rewrite bind_Ret in Hret. inv_outcome. split_and!; eauto; lia.
Qed.

(** The statistics structure lives on the stack and is not initialised: when the
    kernel acknowledges the query without an answer, the call succeeds and prints
    whatever the structure held. *)
Theorem statistics_uninitialised (garbage : wpa_driver_sta_statistics_s) (behind : option byte)
    (m : list byte) (buflen : nat) :
  wpa_driver_get_sta_statistics (H := colon_mac) quiet_channel Arm64 0 garbage behind []
    (str "00:11:22:33:44:5f") m buflen =
  ('(len, m') ← print_sta_statistics garbage behind m buflen;
   Ret (len, m',
        one_request (store_zeroed Arm64 get_sta_statistics_params_t
          [VI (versioned 16); VI 32; VI 0; VI 0;
           VA [Byte.x00; Byte.x11; Byte.x22; Byte.x33; Byte.x44; Byte.x5f]; VI 0]))).
Proof. reflexivity. Qed.

(** ** Witnesses *)

Lemma tx_rate_text_witness :
  fmt_f1 (tx_rate_of 109) = fmt_u (109 / 2) ++ str "." ++ str "5".
Proof. apply (tx_rate_text 109). split; vm_compute; [discriminate|reflexivity]. Defined.

Definition demo_stats : wpa_driver_sta_statistics_s := stack_stats{{tx_rate := tx_rate_of 109}}.

Lemma demo_stats_wf : wf_sta_statistics demo_stats.
Proof. destruct stack_stats_wf. by constructor. Qed.

Lemma print_statistics_safe_witness :
  (@None byte = None /\ print_sta_statistics demo_stats None (zeros 100) 64 = Undef OutOfBounds) \/
  exists r m', print_sta_statistics demo_stats None (zeros 100) 64 = Ret (r, m') /\ 0 <= r <= Z.of_nat 64 /\
    length m' = length (zeros 100) /\ drop 64 m' = drop 64 (zeros 100) /\
    (r = 0 \/ r = Z.of_nat (length (statistics_text demo_stats))).
Proof. apply (print_statistics_safe demo_stats None). rewrite length_zeros. lia. Defined.

Definition demo_link : wpa_driver_sta_link_detect_s :=
  {| ld_tx_fail_cnt := 1; ld_tx_retry_cnt := 22; ld_tx_multi_retry_cnt := 3; ld_ack_fail_cnt := 4;
     ld_fcs_err_cnt := 5; ld_tx_cnt := 18446744073709551615; ld_tx_ok_cnt := 7; ld_tx_os_cnt := 8 |}.

Definition link_demo_trace : trace :=
  one_request (store_zeroed Arm32 get_sta_link_detect_params_t [VI (versioned 32); VI 12; VI 0]).

Lemma link_report_complete_witness :
  exists r' m', wpa_driver_get_sta_link_detect quiet_channel Arm32 0 demo_link [] (zeros 300) 280 =
      Ret (r', m', link_demo_trace) /\
    (r' = Z.of_nat (length (concat (link_pieces demo_link))) /\
     cstr m' = Some (concat (link_pieces demo_link)) /\ drop 280 m' = drop 280 (zeros 300)).
Proof.
  apply (link_report_complete quiet_channel Arm32 0 demo_link [] (zeros 300) 280 demo_link 0).
  - vm_compute. reflexivity.
  - repeat constructor; vm_compute; first [discriminate|reflexivity].
  - lia.
  - rewrite length_zeros. lia.
Defined.

Lemma link_report_truncates_witness :
  exists n m',
    wpa_driver_get_sta_link_detect quiet_channel Arm32 0 demo_link [] (zeros 300) 40 =
      Ret (Z.of_nat (length (concat (take n (link_pieces demo_link)))), m', link_demo_trace) /\
    (length (concat (take n (link_pieces demo_link))) ≤ 40)%nat /\
    length m' = length (zeros 300) /\ drop 40 m' = drop 40 (zeros 300).
Proof.
  apply (link_report_truncates quiet_channel Arm32 0 demo_link [] (zeros 300) 40 demo_link 0).
  - vm_compute. reflexivity.
  - lia.
  - rewrite length_zeros. lia.
Defined.

Lemma get_sta_statistics_outcomes_witness :
  (-1 = -1 /\ zeros 8 = zeros 8) \/
  (is_Some (parse_mac ETH_ALEN (str "nonsense")) /\ 0 <= -1 <= Z.of_nat 8 /\
   length (zeros 8) = length (zeros 8) /\ drop 8 (zeros 8) = drop 8 (zeros 8)).
Proof.
  apply (@get_sta_statistics_outcomes tree_libnl quiet_channel Arm64 colon_mac 0 demo_stats None []
           (str "nonsense") (zeros 8) 8 (-1) (zeros 8) []).
  - rewrite length_zeros. lia.
  - vm_compute. reflexivity.
Defined.
