(* ===== verification/P2pSink.v ===== *)
(** * P2P and Wi-Fi Display sink commands

    The helpers of [mediatek_driver_cmd_nl80211.c] that work on wpa_supplicant's P2P
    state: device capability, the frequency table, switching between single channel
    (SCC) and multi channel (MCC) operation, and the P2P sigma commands. *)

From S2P Require Import Prelude CString Printf Layout Structs World Testmode Requests.

(** ** The part of wpa_supplicant's state the library works on *)

(** [struct p2p_reg_class] and [struct p2p_channels]: arrays with the number of valid
    entries beside them. *)
Record p2p_reg_class : Type := {
  rc_class : Z;
  rc_channel : list Z;
  rc_channels : nat
}.

Record p2p_channels : Type := {
  reg_class : list p2p_reg_class;
  reg_classes : nat
}.

(** [struct p2p_config]. *)
Record p2p_config : Type := {
  cfg_op_channel : Z;
  cfg_channels : p2p_channels;
  concurrent_operations : Z
}.

(** [struct p2p_data]; [cfg] may be null. *)
Record p2p_data : Type := {
  dev_capab : Z;
  op_reg_class : Z;
  op_channel : Z;
  channels : p2p_channels;
  p2p_use_mcc : Z;
  p2p_cfg : option p2p_config
}.

(** [struct wpa_supplicant] as an interface of [global->ifaces]. *)
Record iface : Type := {
  num_multichan_concurrent : Z;
  drv_flags : Z
}.

(** [struct wpa_supplicant] with its [conf] and [global]: [conf] and [global->p2p] may
    be null. *)
Record supplicant : Type := {
  own_addr : list byte;
  conf : option (Z * Z);          (* p2p_oper_reg_class, p2p_oper_channel *)
  p2p : option p2p_data;
  ifaces : list iface;
  drv_priv : bool;                (* not null *)
  p2p_scan_res_cache : Z
}.

(** The channels in use: the valid entries of the arrays. *)
Definition allowed (c : p2p_channels) : list (Z * list Z) :=
  (fun r => (rc_class r, take (rc_channels r) (rc_channel r))) <$> take (reg_classes c) (reg_class c).

(** ** Frequencies *)

(** The operating class and channel, [None] for the result -1; the divisions of the
    source are on unsigned integers that do not underflow in their ranges. *)
Definition priv_p2p_freq_to_channel (cfg : config) (freq : Z) : option (Z * Z) :=
  if (2412 <=? freq) && (freq <=? 2472) then
    if negb ((freq - 2407) mod 5 =? 0) then None else Some (81, u8 ((freq - 2407) / 5))
  else if freq =? 2484 then Some (82, 14)
  else if (5180 <=? freq) && (freq <=? 5240) then
    if negb ((freq - 5000) mod 5 =? 0) then None else Some (115, u8 ((freq - 5000) / 5))
  else if MTK_P2P_5G cfg && (5260 <=? freq) && (freq <=? 5320) then
    Some (118, u8 ((freq - 5000) / 5))
  else if MTK_P2P_5G cfg && (5500 <=? freq) && (freq <=? 5700) then
    Some (121, u8 ((freq - 5000) / 5))
  else if (5745 <=? freq) && (freq <=? 5805) then
    if negb ((freq - 5000) mod 5 =? 0) then None else Some (124, u8 ((freq - 5000) / 5))
  else if MTK_P2P_5G cfg && (5825 <=? freq) && (freq <=? 5845) then
    Some (125, u8 ((freq - 5000) / 5))
  else None.

Section P2pSink.
Context {NL : Libnl} {K : Kernel} (tm : channel) (A : abi) `{WpaCommon} (cfg : config).

(** ** Device capability *)

(** [m] is the memory from [buf] on. *)
Definition p2p_get_capability (w : supplicant) (cmd m : list byte) (buflen : nat)
    : outcome (Z * list byte) :=
  p ← deref (p2p w);
  if starts_with (str "p2p_dev_capa") cmd then
    '(m', ret) ← snprintf m 0 buflen (str "p2p_dev_capa=" ++ fmt_d (dev_capab p) ++ [Byte.x0a]);
    Ret (ret, m')
  else if starts_with (str "p2p_group_capa") cmd then Ret (-1, m)
  else Ret (0, m).

Definition p2p_set_capability (w : supplicant) (cmd : list byte) : outcome (Z * supplicant) :=
  if starts_with (str "p2p_dev_capa ") cmd then
    p ← deref (p2p w);
    let dev_cap := atoi A (drop (length (str "p2p_dev_capa ")) cmd) in
    Ret (0, w{{p2p := Some p{{dev_capab := Z.land dev_cap 255}}}})
  else if starts_with (str "p2p_group_capa ") cmd then Ret (-1, w)
  else Ret (0, w).

(** ** Single and multi channel operation *)

(** [reg_class[0]] with one channel. *)
Definition set_first_class (c ch : Z) (cs : p2p_channels) : p2p_channels :=
  {| reg_classes := 1;
     reg_class := match reg_class cs with
                  | r :: rs => r{{rc_class := c; rc_channels := 1%nat;
                                  rc_channel := <[0%nat := ch]> (rc_channel r)}} :: rs
                  | [] => []
                  end |}.

(** [garbage] is what the locals [op_reg_class] and [op_channel] hold when they are not
    assigned: the result of the conversion is not tested. *)
Definition p2p_wfd_sink_config_scc (garbage : Z * Z) (tr : trace) (w : supplicant)
    (scc oper_freq : Z) : outcome (supplicant * trace) :=
  match p2p w with
  | None => Ret (w, tr)
  | Some p =>
      if negb (scc =? 0) && negb (oper_freq =? 0) then
        let '(c, ch) := default garbage (priv_p2p_freq_to_channel cfg oper_freq) in
        Ret (w{{p2p := Some p{{op_channel := ch; op_reg_class := c;
                              channels := set_first_class c ch (channels p)}}}}, tr)
      else
        '(oper_class, oper_channel) ← deref (conf w);
        pc ← deref (p2p_cfg p);
        if negb (oper_class =? 0) && negb (oper_channel =? 0) then
          Ret (w{{p2p := Some p{{op_reg_class := u8 oper_class; op_channel := u8 oper_channel;
                                p2p_cfg := Some pc{{cfg_op_channel := 1}};
                                channels := cfg_channels pc}}}}, tr)
        else
          let r := random_u32 tr in
          Ret (w{{p2p := Some p{{op_reg_class := 81; op_channel := u8 (1 + r mod 3 * 5);
                                p2p_cfg := Some pc{{cfg_op_channel := 0}};
                                channels := cfg_channels pc}}}}, tr ++ [EvRandom])
  end.

(** ** P2P sigma commands *)

(** [strchr(s, ' ')] whose result is dereferenced without a test: the text behind the
    blank. *)
Definition after_blank (s : list byte) : outcome (list byte) :=
  match strchr s SP with
  | Some i => Ret (drop (S i) s)
  | None => Undef NullDeref
  end.

(** The SSID is parsed for a log message only. *)
Definition p2p_ctrl_iface_set_opps (tr : trace) (cmd : list byte) : outcome (Z * trace) :=
  let CTWin := atoi A cmd in
  s ← after_blank cmd;
  match hwaddr_aton s with
  | None => Ret (-1, tr)
  | Some _ =>
      _ ← after_blank s;
      '(_, tr') ← wpas_p2p_sigma_test_mode tm A tr 107 CTWin;
      Ret (0, tr')
  end.

Definition p2p_ctrl_iface_set_power_save (tr : trace) (cmd : list byte) : outcome (Z * trace) :=
  '(_, tr') ← wpas_p2p_sigma_test_mode tm A tr 108 (atoi A cmd); Ret (0, tr').

Definition p2p_ctrl_iface_set_sleep (tr : trace) (cmd : list byte) : outcome (Z * trace) :=
  match hwaddr_aton cmd with
  | None => Ret (-1, tr)
  | Some _ =>
      _ ← after_blank cmd;
      '(_, tr') ← wpas_p2p_sigma_test_mode tm A tr 106 0;
      Ret (0, tr')
  end.

(** ** Reference definitions *)

(** The centre frequency of a channel of an operating class, in MHz. *)
Definition centre_freq (c ch : Z) : Z :=
  if c =? 82 then 2484 else if c =? 81 then 2407 + 5 * ch else 5000 + 5 * ch.

(** The channels the comments of the source give for each class it produces. *)
Definition class_channels : list (Z * list Z) :=
  [(81, seqZ 1 13); (82, [14]); (115, [36; 40; 44; 48]); (124, [149; 153; 157; 161])] ++
  (if MTK_P2P_5G cfg then [(118, [52; 56; 60; 64]);
     (121, [100; 104; 108; 112; 116; 120; 124; 128; 132; 136; 140]);
     (125, [149; 153; 157; 161; 165; 169])] else []).

(** The class a channel of class [c] comes back with: the comment of class 125 also names
    the channels of class 124, whose range is tested first. *)
Definition class_found (c ch : Z) : Z := if (c =? 125) && (ch <=? 161) then 124 else c.

(** ** Lemmas *)

Lemma u8_small z : 0 <= z < 256 -> u8 z = z.
Proof. intros. by apply uwrap_id. Qed.

(** Case analysis on the ranges of the frequency table. *)
Ltac freq_cases :=
  repeat match goal with
  | H : context [if ?b then _ else _] |- _ => destruct b eqn:?
  | H : Some _ = Some _ |- _ => injection H as <- <-
  end;
  rewrite ?andb_true_iff, ?negb_false_iff in *;
  rewrite ?Z.leb_le, ?Z.eqb_eq in *; try done.

Lemma freq_to_channel_range freq c ch :
  priv_p2p_freq_to_channel cfg freq = Some (c, ch) ->
  1 <= ch <= 169 /\ centre_freq c ch <= freq < centre_freq c ch + 5 /\
  (c = 81 \/ c = 82 \/ c = 115 \/ c = 124 -> centre_freq c ch = freq).
Proof.
  unfold priv_p2p_freq_to_channel. intros Hf. freq_cases;
    unfold centre_freq; cbn [Z.eqb Pos.eqb];
    rewrite ?u8_small by (Z.to_euclidean_division_equations; lia);
    (Z.to_euclidean_division_equations; lia).
Qed.

(** The table ends at 5845 MHz. *)
Lemma freq_above_table freq : 5845 < freq -> priv_p2p_freq_to_channel cfg freq = None.
Proof.
  intros. unfold priv_p2p_freq_to_channel.
  repeat match goal with |- context [freq <=? ?k] => rewrite (proj2 (Z.leb_gt freq k)) by lia end.
  rewrite (proj2 (Z.eqb_neq freq 2484)) by lia. by rewrite !andb_false_r.
Qed.

Lemma s32_low_byte v : Z.land (s32 v) 255 = v mod 256.
Proof.
  change 255 with (Z.ones 8). rewrite Z.land_ones by lia. unfold s32, swrap.
  change (32 - 1) with 31. Z.to_euclidean_division_equations. lia.
Qed.

Lemma fmt_d_byte v : (length (fmt_d (v mod 256)) ≤ 3)%nat.
Proof.
  pose proof (Z.mod_pos_bound v 256 ltac:(lia)). unfold fmt_d.
  replace (s32 (v mod 256)) with (v mod 256) by (symmetry; apply swrap_id; [lia|split; lia]).
  rewrite (proj2 (Z.ltb_ge _ _)) by lia. apply fmt_u_length; lia.
Qed.

Lemma mcc_channel r : u8 (1 + r mod 3 * 5) ∈ [1; 6; 11].
Proof.
  pose proof (Z.mod_pos_bound r 3 ltac:(lia)).
  assert (r mod 3 = 0 \/ r mod 3 = 1 \/ r mod 3 = 2) as [-> | [-> | ->]] by lia; decide_now.
Qed.

(** ** Properties *)

(** C16: a frequency the table accepts belongs to the channel it returns: the channel
    number is between 1 and 169, the frequency lies within the 5 MHz of the channel's
    centre, and for the classes 81, 82, 115 and 124, whose grid is tested, it is the
    centre itself. *)
Theorem freq_to_channel_sound (freq c ch : Z)
    (Hf : priv_p2p_freq_to_channel cfg freq = Some (c, ch)) :
  1 <= ch <= 169 /\ centre_freq c ch <= freq < centre_freq c ch + 5 /\
  (c = 81 \/ c = 82 \/ c = 115 \/ c = 124 -> centre_freq c ch = freq).
Proof. by apply freq_to_channel_range. Qed.

(** C17: the table knows every channel its comments name, as far as the build has their
    classes: converting the centre
    frequency of a listed channel gives back its number, and the class it is listed under,
    with one exception: the channels 149 to 161, which the comments name for the classes
    124 and 125, always come back with class 124. *)
Theorem freq_to_channel_complete :
  Forall (fun '(c, chs) =>
    Forall (fun ch =>
      priv_p2p_freq_to_channel cfg (centre_freq c ch) = Some (class_found c ch, ch)) chs)
    class_channels.
Proof.
  unfold class_channels, priv_p2p_freq_to_channel. destruct (MTK_P2P_5G cfg);
    repeat constructor.
Qed.

(** C26: setting the device capability and reading it back gives the low byte of the
    number that was set, whatever other state there is. *)
Theorem capability_roundtrip (w : supplicant) (p : p2p_data) (v : Z) (m : list byte) (buflen : nat)
    (Hp : p2p w = Some p) (Hlo : (18 ≤ buflen)%nat) (Hhi : (buflen ≤ length m)%nat) :
  exists w' m',
    p2p_set_capability w (str "p2p_dev_capa " ++ fmt_d v) = Ret (0, w') /\
    p2p_get_capability w' (str "p2p_dev_capa") m buflen =
      Ret (Z.of_nat (length (str "p2p_dev_capa=" ++ fmt_d (v mod 256) ++ [Byte.x0a])), m') /\
    cstr m' = Some (str "p2p_dev_capa=" ++ fmt_d (v mod 256) ++ [Byte.x0a]).
Proof.
  set (t := str "p2p_dev_capa=" ++ fmt_d (v mod 256) ++ [Byte.x0a]).
  assert (length t ≤ 17)%nat as Ht
    by (pose proof (fmt_d_byte v); unfold t; rewrite !length_app; cbn -[fmt_d]; lia).
  assert (NUL ∉ t) as Hn.
  { unfold t. rewrite !not_elem_of_app. split_and!; [decide_now|apply fmt_d_no_nul|decide_now]. }
  destruct (snprintf_whole m buflen t) as (m' & Es & Hm); [lia..|done|].
  unfold p2p_set_capability. rewrite starts_with_app, Hp, drop_app_length, atoi_fmt_d, s32_low_byte.
  eexists _, m'. split; [done|]. split; [|done].
  unfold p2p_get_capability. cbn -[fmt_d snprintf str starts_with length app Z.modulo].
  cbv [constant]. fold t. by rewrite Es.
Qed.

(** C30: switching to a single channel with a known frequency leaves exactly that
    channel allowed and operating, and leaves the rest of the state alone: of the P2P
    state only the operating class and channel and the channel list change (so the device
    capability, the MCC mode and the configuration stay), of the supplicant's only the
    P2P state, and nothing is sent. *)
Theorem scc_selects_channel (garbage : Z * Z) (tr : trace) (w : supplicant) (p : p2p_data)
    (freq c ch : Z) (r : p2p_reg_class) (rs : list p2p_reg_class)
    (Hp : p2p w = Some p) (Hf : priv_p2p_freq_to_channel cfg freq = Some (c, ch))
    (Hr : reg_class (channels p) = r :: rs) (Hc : rc_channel r <> []) :
  exists cs,
    p2p_wfd_sink_config_scc garbage tr w 1 freq =
      Ret (w{{p2p := Some p{{op_reg_class := c; op_channel := ch; channels := cs}}}}, tr) /\
    allowed cs = [(c, [ch])].
Proof.
  assert (freq <> 0) as H0.
  { intros ->. apply freq_to_channel_range in Hf. unfold centre_freq in Hf.
    destruct (c =? 82), (c =? 81); lia. }
  unfold p2p_wfd_sink_config_scc. rewrite Hp, (proj2 (Z.eqb_neq freq 0)), Hf by done.
  eexists. split; [by destruct p|].
  unfold allowed, set_first_class. cbn. rewrite Hr. cbn.
  by destruct (rc_channel r).
Qed.

(** C15: switching back to several channels restores the configured channel list, so a
    round of single channel operation leaves no trace in it; the operating channel is
    the configured one, as 8 bit numbers, or 1, 6 or 11 of class 81 when none is
    configured. *)
Theorem mcc_restores_channels (garbage : Z * Z) (tr : trace) (w : supplicant) (p : p2p_data)
    (pc : p2p_config) (oc och freq : Z)
    (Hp : p2p w = Some p) (Hc : p2p_cfg p = Some pc) (Hconf : conf w = Some (oc, och)) :
  exists w1 tr1 w2 p2 tr2,
    p2p_wfd_sink_config_scc garbage tr w 1 freq = Ret (w1, tr1) /\
    p2p_wfd_sink_config_scc garbage tr1 w1 0 0 = Ret (w2, tr2) /\
    p2p w2 = Some p2 /\ channels p2 = cfg_channels pc /\
    (if (oc =? 0) || (och =? 0)
     then op_reg_class p2 = 81 /\ op_channel p2 ∈ [1; 6; 11]
     else op_reg_class p2 = u8 oc /\ op_channel p2 = u8 och).
Proof.
  assert (exists w1 tr1, p2p_wfd_sink_config_scc garbage tr w 1 freq = Ret (w1, tr1) /\
    exists p1 pc1, p2p w1 = Some p1 /\ p2p_cfg p1 = Some pc1 /\ cfg_channels pc1 = cfg_channels pc /\
      conf w1 = Some (oc, och)) as (w1 & tr1 & E1 & p1 & pc1 & Hp1 & Hc1 & Hch & Hconf1).
  { unfold p2p_wfd_sink_config_scc. rewrite Hp. cbn [negb andb Z.eqb].
    destruct (freq =? 0); cbn [negb andb].
    - rewrite Hconf, Hc. cbn. destruct (_ && _); do 2 eexists; (split; [done|]); do 2 eexists; done.
    - destruct (default _ _). do 2 eexists; (split; [done|]); do 2 eexists; done. }
  exists w1, tr1. unfold p2p_wfd_sink_config_scc at 2. rewrite E1, Hp1, Hconf1, Hc1.
  cbn [negb andb Z.eqb deref mbind outcome_bind].
  destruct (oc =? 0); [|destruct (och =? 0)]; cbn [negb andb orb];
    do 3 eexists; (split; [done|]; split; [done|]; split; [done|]); cbn; try by split_and!.
  all: split; [done|]; split; [done|]; apply mcc_channel.
Qed.

(** The result of the frequency conversion is not tested: for a frequency outside
    the table the operating class and channel become whatever the uninitialised locals
    held, and that becomes the only allowed channel. *)
Theorem scc_uninitialised (garbage : Z * Z) (tr : trace) (w : supplicant) (p : p2p_data) (freq : Z)
    (Hp : p2p w = Some p) (Hfreq : freq <> 0) (Hf : priv_p2p_freq_to_channel cfg freq = None) :
  exists p', p2p_wfd_sink_config_scc garbage tr w 1 freq = Ret (w{{p2p := Some p'}}, tr) /\
    op_reg_class p' = fst garbage /\ op_channel p' = snd garbage.
Proof.
  unfold p2p_wfd_sink_config_scc. rewrite Hp, (proj2 (Z.eqb_neq freq 0)), Hf by done.
  destruct garbage as [c ch]. by eexists.
Qed.

(** The sigma commands search for a blank and use the result untested: a command
    without one dereferences a null pointer. *)
Theorem sigma_null_deref (tr : trace) (cmd a : list byte) (Hb : SP ∉ cmd)
    (Ha : hwaddr_aton cmd = Some a) :
  p2p_ctrl_iface_set_opps tr cmd = Undef NullDeref /\
  p2p_ctrl_iface_set_sleep tr cmd = Undef NullDeref.
Proof.
  unfold p2p_ctrl_iface_set_opps, p2p_ctrl_iface_set_sleep, after_blank.
  by rewrite Ha, (proj2 (strchr_None cmd SP) Hb).
Qed.

End P2pSink.

(** ** Witnesses *)

Definition demo_class (c : Z) (chs : list Z) : p2p_reg_class :=
  {| rc_class := c; rc_channel := chs; rc_channels := length chs |}.

Definition demo_p2p : p2p_data :=
  {| dev_capab := 37; op_reg_class := 81; op_channel := 6;
     channels := {| reg_class := [demo_class 81 [1; 6; 11]; demo_class 115 [36; 40]]; reg_classes := 2 |};
     p2p_use_mcc := 0;
     p2p_cfg := Some {| cfg_op_channel := 0; concurrent_operations := 0;
       cfg_channels := {| reg_class := [demo_class 81 [1; 6; 11]]; reg_classes := 1 |} |} |}.

Definition demo_supplicant : supplicant :=
  {| own_addr := zeros 6; conf := Some (0, 0); p2p := Some demo_p2p;
     ifaces := [{| num_multichan_concurrent := 0; drv_flags := 0 |}]; drv_priv := true;
     p2p_scan_res_cache := 0 |}.

Lemma freq_to_channel_sound_witness :
  1 <= 6 <= 169 /\ centre_freq 81 6 <= 2437 < centre_freq 81 6 + 5 /\
  (81 = 81 \/ 81 = 82 \/ 81 = 115 \/ 81 = 124 -> centre_freq 81 6 = 2437).
Proof. apply (freq_to_channel_sound config_none 2437 81 6). reflexivity. Defined.

Lemma capability_roundtrip_witness :
  exists w' m',
    p2p_set_capability Arm64 demo_supplicant (str "p2p_dev_capa " ++ fmt_d 300) = Ret (0, w') /\
    p2p_get_capability w' (str "p2p_dev_capa") (zeros 32) 32 =
      Ret (Z.of_nat (length (str "p2p_dev_capa=" ++ fmt_d (300 mod 256) ++ [Byte.x0a])), m') /\
    cstr m' = Some (str "p2p_dev_capa=" ++ fmt_d (300 mod 256) ++ [Byte.x0a]).
Proof.
  apply (capability_roundtrip Arm64 demo_supplicant demo_p2p 300 (zeros 32) 32);
    [reflexivity|lia|rewrite length_zeros; lia].
Defined.

Lemma scc_selects_channel_witness :
  exists cs,
    p2p_wfd_sink_config_scc (K := ack_kernel []) config_all (1, 2) [] demo_supplicant 1 5180 =
      Ret (demo_supplicant{{p2p := Some demo_p2p{{op_reg_class := 115; op_channel := 36;
                                                channels := cs}}}}, []) /\
    allowed cs = [(115, [36])].
Proof.
  apply (scc_selects_channel (K := ack_kernel []) config_all (1, 2) [] demo_supplicant demo_p2p 5180 115 36
           (demo_class 81 [1; 6; 11]) [demo_class 115 [36; 40]]);
    [reflexivity|reflexivity|reflexivity|discriminate].
Defined.

Lemma mcc_restores_channels_witness :
  exists w1 tr1 w2 p2 tr2,
    p2p_wfd_sink_config_scc (K := ack_kernel []) config_all (1, 2) [] demo_supplicant 1 5180 = Ret (w1, tr1) /\
    p2p_wfd_sink_config_scc (K := ack_kernel []) config_all (1, 2) tr1 w1 0 0 = Ret (w2, tr2) /\
    p2p w2 = Some p2 /\ channels p2 = {| reg_class := [demo_class 81 [1; 6; 11]]; reg_classes := 1 |} /\
    (op_reg_class p2 = 81 /\ op_channel p2 ∈ [1; 6; 11]).
Proof.
  apply (mcc_restores_channels (K := ack_kernel []) config_all (1, 2) [] demo_supplicant demo_p2p
    {| cfg_op_channel := 0; concurrent_operations := 0;
       cfg_channels := {| reg_class := [demo_class 81 [1; 6; 11]]; reg_classes := 1 |} |} 0 0 5180);
    reflexivity.
Defined.

Lemma scc_uninitialised_witness :
  exists p', p2p_wfd_sink_config_scc (K := ack_kernel []) config_all (170, 187) [] demo_supplicant 1 4294967295 =
      Ret (demo_supplicant{{p2p := Some p'}}, []) /\
    op_reg_class p' = fst (170, 187) /\ op_channel p' = snd (170, 187).
Proof.
  apply (scc_uninitialised (K := ack_kernel []) config_all (170, 187) [] demo_supplicant demo_p2p 4294967295);
    [reflexivity|discriminate|reflexivity].
Defined.

Lemma sigma_null_deref_witness :
  p2p_ctrl_iface_set_opps (H := colon_mac) quiet_channel Arm64 [] (str "ff:ff:ff:ff:ff:ff") = Undef NullDeref /\
  p2p_ctrl_iface_set_sleep (H := colon_mac) quiet_channel Arm64 [] (str "ff:ff:ff:ff:ff:ff") = Undef NullDeref.
Proof.
  apply (sigma_null_deref (H := colon_mac) quiet_channel Arm64 [] (str "ff:ff:ff:ff:ff:ff")
           (replicate 6 Byte.xff)); [decide_now|reflexivity].
Defined.
