(* ===== verification/DriverCmd.v ===== *)
(** * The driver command dispatcher

    [wpa_driver_nl80211_driver_cmd] of [mediatek_driver_cmd_nl80211.c]: the text of a
    [DRIVER ...] command selects a branch; the branches the library handles itself
    build testmode requests or change wpa_supplicant's state, everything else is handed
    to the kernel driver with a private ioctl.  The dispatcher is a table of patterns
    in the order of the source and one definition per branch. *)

From S2P Require Import Prelude CString Printf Layout Structs World Testmode Requests.
From S2P Require Import Statistics P2pSink.

(** ** State *)

(** [struct wpa_driver_nl80211_data]: its address, [ctx] (0 for a null pointer),
    [first_bss->ifname], [associated], [bssid]. *)
Record driver_data : Type := {
  drv_addr : Z;
  drv_ctx : Z;
  first_ifname : list byte;
  associated : bool;
  drv_bssid : list byte
}.

(** [struct i802_bss], the [priv] argument. *)
Record i802_bss : Type := {
  bss_ifname : list byte;
  bss_drv : option driver_data
}.

(** What a command may change: the history, the memory from [buf] on ([None] for a null
    pointer), wpa_supplicant's state and the static counter [drv_errors]. *)
Record cmd_state : Type := {
  st_trace : trace;
  st_buf : option (list byte);
  st_wpa : supplicant;
  drv_errors : Z
}.

(** The structures some commands expect at [buf].  Two of them are declared in the
    branches that use them; their pointers are kept with the memory behind them. *)
Record wapi_key_param_type : Type := {
  wk_addr : option (list byte);
  wk_key_idx : Z;
  wk_set_tx : Z;
  wk_seq : option (list byte);
  wk_seq_len : Z;
  wk_key : option (list byte);
  wk_key_len : Z
}.

Definition wapi_key_param_t : list ctype := [Ptr; U32; U32; Ptr; Ptr; Ptr; Ptr].
Definition wapi_msg_send_param_t : list ctype := [Ptr; U32; Ptr; Ptr].

(** What is needed to read them from the bytes at [buf]: the memory readable from an
    address on, and the layout of [struct wfd_data_s], which wpa_supplicant declares: its
    size, and its members given the memory from its start on. *)
Record overlays : Type := {
  ov_memory : Z -> list byte;
  ov_wfd : list byte -> wfd_data_s;
  ov_wfd_size : nat
}.

(** The contents of locals that are read before they are assigned, the addresses of the
    structures the kernel's answers are stored into, and the byte behind the statistics:
    [None] when reading it is undefined, as it is in C. *)
Record stack : Type := {
  g_stats : wpa_driver_sta_statistics_s;
  g_stats_addr : Z;
  g_behind : option byte;
  g_link : wpa_driver_sta_link_detect_s;
  g_link_addr : Z;
  g_channel : Z * Z;
  g_suspend : list byte
}.

(** ** The table of commands *)

Inductive pattern : Type :=
| PrefixCase (p : list byte)   (* strncasecmp(cmd, p, strlen(p)) == 0 *)
| Prefix (p : list byte)       (* strncmp(cmd, p, strlen(p)) == 0 *)
| ExactCase (p : list byte).   (* strcasecmp(cmd, p) == 0 *)

#[global] Instance pattern_eq_dec : EqDecision pattern.
Proof. solve_decision. Defined.

Definition matches (pat : pattern) (cmd : list byte) : bool :=
  match pat with
  | PrefixCase p => starts_with_ci p cmd
  | Prefix p => starts_with p cmd
  | ExactCase p => str_eq_ci p cmd
  end.

Inductive command : Type :=
| CPowerMode | CGetStaStatistics | CGetStaLinkDetect | CMacAddr | CCountry | CStart | CStop
| CGetPower | CGetRts | CSetRts | CRxFilterAdd | CRxFilterRemove | CRxFilterStop | CRxFilterStart
| CBtcoexScanStart | CBtcoexScanStop | CBtcoexMode | CSmtRate | CSmtTestOn | CSmtTestOff
| CStaBlock | CStaUnblock | CSetWapiKey | CWapiMsgSend | CP2pGetCap | CP2pSetCap | CMiracast
| CUseMcc | CMcc | CSetOpps | CSetPowerSave | CSetSleepArg | CSetSleep | CScanCache
| CWfdDataUpdate | CGetBeamplus | CSetBeamplus | CBandDual | CBand2g4 | CBand5g | CScanLoading
| CSuspendMode.

#[global] Instance command_eq_dec : EqDecision command.
Proof. solve_decision. Defined.

(** The branches in order, each with the option that compiles it in. *)
Definition command_table (cfg : config) : list (bool * pattern * command) :=
  [(true, PrefixCase (str "POWERMODE "), CPowerMode);
   (true, PrefixCase (str "GET_STA_STATISTICS "), CGetStaStatistics);
   (MTK_POOR_LINK_DETECT cfg, PrefixCase (str "GET_STA_LINK_DETECT"), CGetStaLinkDetect);
   (true, Prefix (str "MACADDR"), CMacAddr);
   (true, PrefixCase (str "COUNTRY"), CCountry);
   (true, ExactCase (str "start"), CStart);
   (true, ExactCase (str "stop"), CStop);
   (true, PrefixCase (str "getpower"), CGetPower);
   (true, PrefixCase (str "get-rts-threshold"), CGetRts);
   (true, PrefixCase (str "set-rts-threshold"), CSetRts);
   (true, PrefixCase (str "rxfilter-add"), CRxFilterAdd);
   (true, PrefixCase (str "rxfilter-remove"), CRxFilterRemove);
   (true, PrefixCase (str "rxfilter-stop"), CRxFilterStop);
   (true, PrefixCase (str "rxfilter-start"), CRxFilterStart);
   (true, ExactCase (str "btcoexscan-start"), CBtcoexScanStart);
   (true, ExactCase (str "btcoexscan-stop"), CBtcoexScanStop);
   (true, PrefixCase (str "btcoexmode"), CBtcoexMode);
   (true, PrefixCase (str "smt-rate"), CSmtRate);
   (true, PrefixCase (str "smt-test-on"), CSmtTestOn);
   (true, PrefixCase (str "smt-test-off"), CSmtTestOff);
   (HOTSPOT_MGR_SUPPORT cfg, Prefix (str "STA-BLOCK "), CStaBlock);
   (HOTSPOT_MGR_SUPPORT cfg, Prefix (str "STA-UNBLOCK "), CStaUnblock);
   (WAPI_SUPPORT cfg, PrefixCase (str "set-wapi-key"), CSetWapiKey);
   (WAPI_SUPPORT cfg, PrefixCase (str "wapi-msg-send"), CWapiMsgSend);
   (MTK_WFD_SINK cfg, Prefix (str "p2p_get_cap "), CP2pGetCap);
   (MTK_WFD_SINK cfg, Prefix (str "p2p_set_cap "), CP2pSetCap);
   (MTK_WFD_SINK cfg, Prefix (str "MIRACAST "), CMiracast);
   (MTK_SCC_MCC cfg, PrefixCase (str "p2p_use_mcc="), CUseMcc);
   (MTK_P2P_SIGMA cfg, PrefixCase (str "mcc"), CMcc);
   (MTK_P2P_SIGMA cfg, Prefix (str "p2p_set_opps "), CSetOpps);
   (MTK_P2P_SIGMA cfg, Prefix (str "p2p_set_power_save "), CSetPowerSave);
   (MTK_P2P_SIGMA cfg, Prefix (str "p2p_set_sleep "), CSetSleepArg);
   (MTK_P2P_SIGMA cfg, Prefix (str "p2p_set_sleep"), CSetSleep);
   (MTK_P2P_SIGMA cfg, Prefix (str "set_p2p_scan_cache "), CScanCache);
   (MTK_P2P cfg, Prefix (str "wfd_data_update"), CWfdDataUpdate);
   (MEDIATEK_WIFI_BEAM cfg, Prefix (str "get_beamplus_go_ready"), CGetBeamplus);
   (MEDIATEK_WIFI_BEAM cfg, Prefix (str "set_beamplus"), CSetBeamplus);
   (MTK_STAGE_SCAN cfg, PrefixCase (str "set_band_dual"), CBandDual);
   (MTK_STAGE_SCAN cfg, PrefixCase (str "set_band_2g4"), CBand2g4);
   (MTK_STAGE_SCAN cfg, PrefixCase (str "set_band_5g"), CBand5g);
   (MTK_STAGE_SCAN cfg, PrefixCase (str "set_scan_loading"), CScanLoading);
   (true, PrefixCase (str "SETSUSPENDMODE "), CSuspendMode)].

(** The first enabled entry that matches; [None] is the final [else]. *)
Fixpoint first_match (cmd : list byte) (t : list (bool * pattern * command)) : option command :=
  match t with
  | [] => None
  | (on, pat, c) :: t' => if on && matches pat cmd then Some c else first_match cmd t'
  end.

Definition classify (cfg : config) (cmd : list byte) : option command :=
  first_match cmd (command_table cfg).

(** ** The branches *)

(** A branch leaves with a result, or hands the command to the private ioctl
    ([handled = 0]), possibly rewritten. *)
Inductive verdict : Type :=
| Handled (ret : Z) (s : cmd_state)
| Private (cmd : list byte) (s : cmd_state).

Definition IFNAMSIZ : nat := 16.
Definition SIOCSIWPRIV : Z := 0x8B0C.
Definition PRIVATE_COMMAND : Z := 0x89F1.          (* SIOCDEVPRIVATE + 1 *)
Definition P2P_CACHE_FILE : list byte := str "/data/misc/wifi/p2p_devices.cache".

Section DriverCmd.
Context {NL : Libnl} {K : Kernel} (tm : channel) (A : abi) `{WpaCommon} (cfg : config).
Context (ov : overlays) (g : stack).
(** Constants of wpa_supplicant. *)
Context (WPA_DRIVER_FLAGS_P2P_CONCURRENT DRV_NUMBER_SEQUENTIAL_ERRORS : Z).
Context (bss : i802_bss) (drv : driver_data).

(** [wpa_s] is assigned on every interface but "ap0". *)
Definition use_wpa_s (s : cmd_state) : outcome supplicant :=
  if str_eq (bss_ifname bss) (str "ap0") then Undef NullDeref else Ret (st_wpa s).

Definition wpa_driver_send_hang_msg (errors : Z) : Z :=
  let errors' := errors + 1 in if DRV_NUMBER_SEQUENTIAL_ERRORS <? errors' then 0 else errors'.

(** The handler of the timeout of "set_scan_loading": [eloop_ctx] is the driver data, whose
    context is read when the timeout expires. *)
Definition wpa_driver_nl80211_scan_loading_timeout (eloop_ctx : driver_data) (timeout_ctx : Z)
    (tr : trace) : trace :=
  tr ++ [EvChannelListChanged (drv_ctx eloop_ctx)].

(** The memory at [buf]: a null pointer has none, so that any access through it is
    undefined. *)
Definition buf_mem (s : cmd_state) : list byte := default [] (st_buf s).
Definition put_buf (s : cmd_state) (m : list byte) : cmd_state :=
  s{{st_buf := (fun _ => m) <$> st_buf s}}.

(** *** Country *)

(** [sprintf] into the local [buf[11]]. *)
Definition wpa_driver_mediatek_set_country (tr : trace) (alpha2_arg : list byte)
    : outcome (Z * trace) :=
  let sock := socket_result tr in
  let tr1 := tr ++ [EvSocket] in
  if sock <? 0 then Ret (-1, tr1)
  else
    let ifname :=
      if MTK_TC1_FEATURE cfg && starts_with (str "p2p0") (first_ifname drv)
      then str "wlan0" else first_ifname drv in
    let text := str "COUNTRY " ++ alpha2_arg in
    _ ← mem_write (zeros 11) 0 (text ++ [NUL]);
    let tr2 := tr1 ++ [EvIoctl SIOCSIWPRIV (take (IFNAMSIZ - 1) ifname)
                         (IwPoint text (Z.of_nat (length text)))] in
    let ret := ioctl_country tr2 in
    let tr3 := tr2 ++ [EvClose] in
    if ret <? 0 then Ret (ret, tr3) else Ret (0, tr3).

(** *** Reports *)

Definition cmd_get_sta_statistics (cmd : list byte) (buf_len : nat) (s : cmd_state)
    : outcome verdict :=
  _ ← use_wpa_s s;
  '(r, m', tr') ← wpa_driver_get_sta_statistics tm A (g_stats_addr g) (g_stats g) (g_behind g)
                    (st_trace s) (drop 19 cmd) (buf_mem s) buf_len;
  Ret (Handled r (put_buf s m'){{st_trace := tr'}}).

Definition cmd_get_sta_link_detect (buf_len : nat) (s : cmd_state) : outcome verdict :=
  _ ← use_wpa_s s;
  '(r, m', tr') ← wpa_driver_get_sta_link_detect tm A (g_link_addr g) (g_link g) (st_trace s)
                    (buf_mem s) buf_len;
  Ret (Handled r (put_buf s m'){{st_trace := tr'}}).

Definition cmd_macaddr (buf_len : nat) (s : cmd_state) : outcome verdict :=
  w ← use_wpa_s s;
  a ← mem_read (own_addr w) 0 ETH_ALEN;
  '(m', r) ← snprintf (buf_mem s) 0 buf_len (str "Macaddr = " ++ fmt_mac a ++ [Byte.x0a]);
  Ret (Handled r (put_buf s m')).

(** [cmd] is the memory of the command, with its terminator. *)
Definition cmd_country (cmd : list byte) (s : cmd_state) : outcome verdict :=
  arg ← cstr_at cmd 8;
  '(r, tr') ← wpa_driver_mediatek_set_country (st_trace s) arg;
  Ret (Handled r s{{st_trace := tr'}}).

(** *** Interface state *)

(** [linux_set_iface_flags], and the message when it succeeds. *)
Definition set_iface (up : bool) (s : cmd_state) : verdict :=
  let ret := iface_flags_result (st_trace s) in
  let tr1 := st_trace s ++ [EvIfaceFlags (first_ifname drv) up] in
  let msg := if up then str "CTRL-EVENT-DRIVER-STATE STARTED"
             else str "CTRL-EVENT-DRIVER-STATE STOPPED" in
  Handled ret s{{st_trace := (if ret =? 0 then tr1 ++ [EvWpaMsg msg] else tr1)}}.

Definition cmd_start (s : cmd_state) : outcome verdict := Ret (set_iface true s).

(** The result of the deauthentication is overwritten. *)
Definition cmd_stop (s : cmd_state) : outcome verdict :=
  if associated drv then
    _ ← use_wpa_s s;
    Ret (set_iface false s{{st_trace := (st_trace s ++ [EvDeauth (drv_bssid drv)])}})
  else Ret (set_iface false s).

(** *** Software commands *)

Definition fixed_sw_cmd (adr idx : Z) (s : cmd_state) : outcome verdict :=
  '(_, tr') ← wpa_driver_nl80211_driver_sw_cmd tm A (st_trace s) 1 adr idx;
  Ret (Handled 0 s{{st_trace := tr'}}).

(** [idx = (u32)strtol(cp, &endp, 0)] on the text behind the name, plus [base]. *)
Definition numeric_sw_cmd (adr base : Z) (cp : list byte) (s : cmd_state) : outcome verdict :=
  match cp with
  | [] => Ret (Handled (-1) s)
  | _ =>
      let '(v, consumed) := strtol A cp 0 in
      if (consumed =? 0)%nat then Ret (Handled (-1) s)
      else fixed_sw_cmd adr (u32 (u32 v + base)) s
  end.

Definition cmd_rxfilter_add (cmd : list byte) : cmd_state -> outcome verdict :=
  numeric_sw_cmd 0x9F000000 0x00900200 (drop 12 cmd).
Definition cmd_rxfilter_remove (cmd : list byte) : cmd_state -> outcome verdict :=
  numeric_sw_cmd 0x9F000000 0x00900300 (drop 15 cmd).
Definition cmd_rxfilter_stop : cmd_state -> outcome verdict :=
  fixed_sw_cmd 0x9F000000 0x00900000.
Definition cmd_rxfilter_start : cmd_state -> outcome verdict :=
  fixed_sw_cmd 0x9F000000 0x00900100.
Definition cmd_smt_rate (cmd : list byte) : cmd_state -> outcome verdict :=
  numeric_sw_cmd 0xFFFF0123 0 (drop 8 cmd).
Definition cmd_smt_test_on : cmd_state -> outcome verdict := fixed_sw_cmd 0xFFFF1234 0.
Definition cmd_smt_test_off : cmd_state -> outcome verdict := fixed_sw_cmd 0xFFFF1235 0.
Definition cmd_set_band_dual : cmd_state -> outcome verdict := fixed_sw_cmd 0xFFFF1250 0.
Definition cmd_set_band_2g4 : cmd_state -> outcome verdict := fixed_sw_cmd 0xFFFF1251 0.
Definition cmd_set_band_5g : cmd_state -> outcome verdict := fixed_sw_cmd 0xFFFF1252 0.

Definition cmd_set_scan_loading (s : cmd_state) : outcome verdict :=
  '(_, tr') ← wpa_driver_nl80211_driver_sw_cmd tm A (st_trace s) 1 0xFFFF1253 0;
  Ret (Handled 0 s{{st_trace := (tr' ++ [EvCancelTimeout (drv_addr drv) (drv_ctx drv);
                                          EvRegisterTimeout 10 0 (drv_addr drv) (drv_ctx drv)])}}).

(** *** Hotspot and WAPI *)

Definition cmd_sta_block (cmd : list byte) (s : cmd_state) : outcome verdict :=
  '(r, tr') ← wpa_driver_sta_block tm A (st_trace s) (drop 10 cmd);
  Ret (Handled (if r =? 0 then 0 else -1) s{{st_trace := tr'}}).

Definition cmd_sta_unblock (cmd : list byte) (s : cmd_state) : outcome verdict :=
  '(r, tr') ← wpa_driver_sta_unblock tm A (st_trace s) (drop 12 cmd);
  Ret (Handled (if r =? 0 then 0 else -1) s{{st_trace := tr'}}).

(** Member number [i] of a structure, an integer or an address. *)
Definition word_member (ts : list ctype) (m : list byte) (i : nat) : Z :=
  match load A m ts !! i with Some (VI z) => z | _ => 0 end.

(** The memory behind a pointer. *)
Definition pointee (p : Z) : option (list byte) := if p =? 0 then None else Some (ov_memory ov p).

(** [(struct wapi_key_param_type * )buf] with all its members read: a buffer shorter than
    the structure is left. *)
Definition read_wapi_key_param (m : list byte) : outcome wapi_key_param_type :=
  b ← mem_read m 0 (sizeof A wapi_key_param_t);
  let member := word_member wapi_key_param_t b in
  Ret {| wk_addr := pointee (member 0%nat); wk_key_idx := s32 (member 1%nat);
         wk_set_tx := s32 (member 2%nat); wk_seq := pointee (member 3%nat);
         wk_seq_len := member 4%nat; wk_key := pointee (member 5%nat); wk_key_len := member 6%nat |}.

Definition cmd_set_wapi_key (s : cmd_state) : outcome verdict :=
  m ← deref (st_buf s);
  k ← read_wapi_key_param m;
  '(r, tr') ← wpa_driver_nl80211_set_wapi_key tm A (st_trace s) (wk_addr k) (wk_key_idx k)
                (wk_set_tx k) (wk_seq k) (wk_seq_len k) (wk_key k) (wk_key_len k);
  Ret (Handled r s{{st_trace := tr'}}).

Definition cmd_wapi_msg_send (s : cmd_state) : outcome verdict :=
  m ← deref (st_buf s);
  b ← mem_read m 0 (sizeof A wapi_msg_send_param_t);
  Ret (Handled (wpa_driver_nl80211_send_msg (s32 (word_member wapi_msg_send_param_t b 1))) s).

(** *** Wi-Fi Display sink *)

Definition set_wpa (s : cmd_state) (r : supplicant * trace) : cmd_state :=
  s{{st_wpa := fst r; st_trace := snd r}}.

Definition config_scc (s : cmd_state) (w : supplicant) (scc freq : Z) : outcome cmd_state :=
  set_wpa s <$> p2p_wfd_sink_config_scc cfg (g_channel g) (st_trace s) w scc freq.

Definition cmd_p2p_get_cap (cmd : list byte) (buf_len : nat) (s : cmd_state) : outcome verdict :=
  w ← use_wpa_s s;
  match p2p w with
  | None => Ret (Handled (-1) s)
  | Some _ =>
      '(r, m') ← p2p_get_capability w (drop (length (str "p2p_get_cap ")) cmd) (buf_mem s) buf_len;
      Ret (Handled r (put_buf s m'))
  end.

Definition cmd_p2p_set_cap (cmd : list byte) (s : cmd_state) : outcome verdict :=
  w ← use_wpa_s s;
  match p2p w with
  | None => Ret (Handled (-1) s)
  | Some _ =>
      '(r, w') ← p2p_set_capability A w (drop (length (str "p2p_set_cap ")) cmd);
      Ret (Handled r s{{st_wpa := w'}})
  end.

(** [freq] is unsigned: a negative answer of [wpa_drv_shared_freq] counts as a
    frequency. *)
Definition miracast_follow_ais (cmd : list byte) (s : cmd_state) (w : supplicant)
    : outcome verdict :=
  let freq := u32 (shared_freq (st_trace s)) in
  let s1 := s{{st_trace := (st_trace s ++ [EvSharedFreq])}} in
  Private cmd <$> (if 0 <? freq then config_scc s1 w 1 freq else config_scc s1 w 0 0).

Definition cmd_miracast (cmd : list byte) (s : cmd_state) : outcome verdict :=
  let miracast := u8 (atoi A (drop (length (str "MIRACAST ")) cmd)) in
  if (miracast =? 0) || (miracast =? 1) then
    w ← use_wpa_s s; miracast_follow_ais cmd s w
  else if miracast =? 2 then
    w ← use_wpa_s s;
    match strstr cmd (str " freq=") with
    | Some pos =>
        let freq := u32 (atoi A (drop (pos + 6) cmd)) in
        Private (str "MIRACAST 2") <$> config_scc s w 1 freq
    | None => miracast_follow_ais cmd s w
    end
  else Ret (Private cmd s).

(** Here the frequency is an [int]; it is asked for twice and the second answer
    counts. *)
Definition cmd_p2p_use_mcc (cmd : list byte) (s : cmd_state) : outcome verdict :=
  let use_mcc := u8 (atoi A (drop (length (str "p2p_use_mcc=")) cmd)) in
  w ← use_wpa_s s;
  p ← deref (p2p w);
  let w1 := w{{p2p := Some p{{p2p_use_mcc := use_mcc}}}} in
  if negb (use_mcc =? 0) then Handled (-1) <$> config_scc s w1 0 0
  else
    let tr1 := st_trace s ++ [EvSharedFreq] in
    let freq := shared_freq tr1 in
    let s1 := s{{st_trace := (tr1 ++ [EvSharedFreq])}} in
    Handled (-1) <$> (if 0 <? freq then config_scc s1 w1 1 freq else config_scc s1 w1 0 0).

(** *** P2P sigma *)

(** The body of the loop over [global->ifaces], on the interface. *)
Definition mcc_iface (mcc : Z) (i : iface) : iface :=
  if negb (mcc =? 0)
  then {| num_multichan_concurrent := 2;
          drv_flags := Z.lor (drv_flags i) WPA_DRIVER_FLAGS_P2P_CONCURRENT |}
  else {| num_multichan_concurrent := 0;
          drv_flags := Z.ldiff (drv_flags i) WPA_DRIVER_FLAGS_P2P_CONCURRENT |}.

(** The same body on the shared [global->p2p]: it runs once per interface. *)
Definition mcc_p2p (mcc : Z) (p : option p2p_data) : option p2p_data :=
  (fun p => match p2p_cfg p with
            | Some pc => p{{p2p_cfg := Some pc{{concurrent_operations := (if mcc =? 0 then 0 else 1)}}}}
            | None => p
            end) <$> p.

Definition cmd_mcc (cmd : list byte) (s : cmd_state) : outcome verdict :=
  w ← use_wpa_s s;
  if negb (drv_priv w) then Ret (Handled (-1) s)
  else
    match strchr cmd SP with
    | None => Ret (Handled (-1) s)
    | Some i =>
        let mcc := atoi A (drop (S i) cmd) in
        Ret (Handled 0
          s{{st_wpa := w{{ifaces := mcc_iface mcc <$> ifaces w;
                          p2p := foldl (fun p _ => mcc_p2p mcc p) (p2p w) (ifaces w)}}}})
    end.

(** The sigma commands on the text [arg] behind the name. *)
Definition sigma (f : trace -> list byte -> outcome (Z * trace)) (arg : list byte) (s : cmd_state)
    : outcome verdict :=
  _ ← use_wpa_s s;
  '(r, tr') ← f (st_trace s) arg;
  Ret (Handled r s{{st_trace := tr'}}).

Definition cmd_p2p_set_opps (cmd : list byte) : cmd_state -> outcome verdict :=
  sigma (p2p_ctrl_iface_set_opps tm A) (drop 13 cmd).
Definition cmd_p2p_set_power_save (cmd : list byte) : cmd_state -> outcome verdict :=
  sigma (p2p_ctrl_iface_set_power_save tm A) (drop 19 cmd).
Definition cmd_p2p_set_sleep_arg (cmd : list byte) : cmd_state -> outcome verdict :=
  sigma (p2p_ctrl_iface_set_sleep tm A) (drop 14 cmd).
(** With the constant argument: broadcast and an empty quoted SSID. *)
Definition cmd_p2p_set_sleep : cmd_state -> outcome verdict :=
  sigma (p2p_ctrl_iface_set_sleep tm A) (str "ff:ff:ff:ff:ff:ff " ++ [Byte.x22; Byte.x22]).

Definition cmd_set_p2p_scan_cache (cmd : list byte) (s : cmd_state) : outcome verdict :=
  let onoff := atoi A (drop 19 cmd) in
  if negb (onoff =? 0) then
    let fd := open_result (st_trace s) in
    let s1 := s{{st_trace := (st_trace s ++ [EvOpen P2P_CACHE_FILE])}} in
    if fd <? 0 then Ret (Handled 0 s1)
    else w ← use_wpa_s s; Ret (Handled 0 s1{{st_wpa := w{{p2p_scan_res_cache := 1}}}})
  else
    w ← use_wpa_s s;
    Ret (Handled 0 s{{st_trace := (st_trace s ++ [EvRemove P2P_CACHE_FILE]);
                      st_wpa := w{{p2p_scan_res_cache := 0}}}}).

(** *** Structures passed in [buf] *)

Definition cmd_wfd_data_update (s : cmd_state) : outcome verdict :=
  _ ← use_wpa_s s;
  m ← deref (st_buf s);
  _ ← mem_read m 0 (ov_wfd_size ov);
  '(r, tr') ← wpas_wfd_data_update tm A (Z.of_nat (ov_wfd_size ov)) (st_trace s) (ov_wfd ov m);
  Ret (Handled r s{{st_trace := tr'}}).

(** [*(int * )buf]: the answer is stored in the buffer, the result stays -1. *)
Definition cmd_get_beamplus (s : cmd_state) : outcome verdict :=
  match st_buf s with
  | None => Ret (Handled (-1) s)
  | Some m =>
      _ ← use_wpa_s s;
      '(v, tr') ← wpas_driver_get_beamplus_go_ready tm A (st_trace s);
      m' ← mem_write m 0 (le_split 4 v);
      Ret (Handled (-1) s{{st_trace := tr'; st_buf := Some m'}})
  end.

Definition cmd_set_beamplus (s : cmd_state) : outcome verdict :=
  match st_buf s with
  | None => Ret (Handled (-1) s)
  | Some m =>
      b ← mem_read m 0 4;
      _ ← use_wpa_s s;
      '(_, tr') ← wpas_driver_set_beamplus tm A (st_trace s) (le_combine b);
      Ret (Handled (-1) s{{st_trace := tr'}})
  end.

(** *** Suspend *)

(** The request is not cleared: its padding keeps what was on the stack. *)
Definition suspend_request (cmd : list byte) : list byte :=
  store A (g_suspend g) suspendmode_params_t
    [VI (versioned NL80211_TESTMODE_SUSPEND); VI (struct_len A suspendmode_params_t);
     VI (u8 (code (nth 15 cmd NUL) - 48))].

Definition cmd_setsuspendmode (cmd : list byte) (s : cmd_state) : outcome verdict :=
  '(_, _, tr') ← tm (st_trace s) (suspend_request cmd) OutNone;
  Ret (Private cmd s{{st_trace := tr'}}).

(** *** The private ioctl *)

(** [priv_cmd]: both lengths are the length of the caller's buffer, as an [int]. *)
Definition priv_cmd (m : list byte) (buf_len : nat) : android_wifi_priv_cmd :=
  {| pc_buf := m; pc_used_len := s32 (Z.of_nat buf_len); pc_total_len := s32 (Z.of_nat buf_len) |}.

(** The kernel may answer in the buffer and reports how much of it is used. *)
Definition private_command (cmd : list byte) (buf_len : nat) (s : cmd_state)
    : outcome (Z * cmd_state) :=
  m1 ← mem_write (buf_mem s) 0 (cmd ++ [NUL]);
  let c := priv_cmd m1 buf_len in
  let tr1 := st_trace s ++ [EvIoctl PRIVATE_COMMAND (take IFNAMSIZ (bss_ifname bss)) (PrivCmd c)] in
  let '(ret, answer, used_len) := ioctl_private tr1 c in
  m2 ← mem_write m1 0 answer;
  let s1 := (put_buf s m2){{st_trace := tr1}} in
  if ret <? 0 then
    Ret (ret, s1{{drv_errors := wpa_driver_send_hang_msg (drv_errors s)}})
  else
    let s2 := s1{{drv_errors := 0}} in
    if starts_with_ci (str "WLS_BATCHING") cmd
    then t ← cstr_at m2 0; Ret (Z.of_nat (length t), s2)
    else Ret (used_len, s2).

(** ** The dispatcher *)

(** [mem] is the memory of the command, [cmd] its text. *)
Definition run_command (c : command) (mem cmd : list byte) (buf_len : nat) (s : cmd_state)
    : outcome verdict :=
  match c with
  | CPowerMode | CGetPower | CGetRts | CSetRts => Ret (Handled (-1) s)
  | CGetStaStatistics => cmd_get_sta_statistics cmd buf_len s
  | CGetStaLinkDetect => cmd_get_sta_link_detect buf_len s
  | CMacAddr => cmd_macaddr buf_len s
  | CCountry => cmd_country mem s
  | CStart => cmd_start s
  | CStop => cmd_stop s
  | CRxFilterAdd => cmd_rxfilter_add cmd s
  | CRxFilterRemove => cmd_rxfilter_remove cmd s
  | CRxFilterStop => cmd_rxfilter_stop s
  | CRxFilterStart => cmd_rxfilter_start s
  | CBtcoexScanStart | CBtcoexScanStop | CBtcoexMode => Ret (Handled 0 s)
  | CSmtRate => cmd_smt_rate cmd s
  | CSmtTestOn => cmd_smt_test_on s
  | CSmtTestOff => cmd_smt_test_off s
  | CStaBlock => cmd_sta_block cmd s
  | CStaUnblock => cmd_sta_unblock cmd s
  | CSetWapiKey => cmd_set_wapi_key s
  | CWapiMsgSend => cmd_wapi_msg_send s
  | CP2pGetCap => cmd_p2p_get_cap cmd buf_len s
  | CP2pSetCap => cmd_p2p_set_cap cmd s
  | CMiracast => cmd_miracast cmd s
  | CUseMcc => cmd_p2p_use_mcc cmd s
  | CMcc => cmd_mcc cmd s
  | CSetOpps => cmd_p2p_set_opps cmd s
  | CSetPowerSave => cmd_p2p_set_power_save cmd s
  | CSetSleepArg => cmd_p2p_set_sleep_arg cmd s
  | CSetSleep => cmd_p2p_set_sleep s
  | CScanCache => cmd_set_p2p_scan_cache cmd s
  | CWfdDataUpdate => cmd_wfd_data_update s
  | CGetBeamplus => cmd_get_beamplus s
  | CSetBeamplus => cmd_set_beamplus s
  | CBandDual => cmd_set_band_dual s
  | CBand2g4 => cmd_set_band_2g4 s
  | CBand5g => cmd_set_band_5g s
  | CScanLoading => cmd_set_scan_loading s
  | CSuspendMode => cmd_setsuspendmode cmd s
  end.

(** From the first branch on. *)
Definition dispatch (mem : list byte) (buf_len : nat) (s : cmd_state) : outcome (Z * cmd_state) :=
  cmd ← cstr_at mem 0;
  v ← match classify cfg cmd with
      | Some c => run_command c mem cmd buf_len s
      | None => Ret (Private cmd s)
      end;
  match v with
  | Handled r s' => Ret (r, s')
  | Private cmd' s' => private_command cmd' buf_len s'
  end.

End DriverCmd.

(** The entry point with its guards. *)
Definition wpa_driver_nl80211_driver_cmd {NL : Libnl} {K : Kernel} (tm : channel) (A : abi)
    `{WpaCommon} (cfg : config) (ov : overlays) (g : stack)
    (WPA_DRIVER_FLAGS_P2P_CONCURRENT DRV_NUMBER_SEQUENTIAL_ERRORS : Z) (bss : i802_bss)
    (mem : list byte) (buf_len : nat) (s : cmd_state) : outcome (Z * cmd_state) :=
  match bss_drv bss with
  | None => Ret (-1, s)
  | Some drv =>
      if drv_ctx drv =? 0 then Ret (-1, s)
      else if negb (str_eq (bss_ifname bss) (str "ap0")) && bool_decide (conf (st_wpa s) = None)
      then Ret (-1, s)
      else dispatch tm A cfg ov g WPA_DRIVER_FLAGS_P2P_CONCURRENT DRV_NUMBER_SEQUENTIAL_ERRORS
             bss drv mem buf_len s
  end.

(** The remaining driver operations ignore their arguments. *)
Definition wpa_driver_set_p2p_noa (count start duration : Z) : Z := -1.
Definition wpa_driver_get_p2p_noa (len : Z) : Z := -1.
Definition wpa_driver_set_p2p_ps (legacy_ps opp_ps ctwindow : Z) : Z := -1.
Definition wpa_driver_set_ap_wps_p2p_ie : Z := 0.
