(* ===== verification/DriverLogs.v ===== *)
(** * What the driver commands leave in the history

    Every branch of the dispatcher appends its events to the history.  A property of
    what is appended is proved once and for all: [LogPred] says that a predicate on
    lists of events holds of what the testmode channel appends, of every other event a
    branch produces, and of concatenations; the lemmas of this file then give it for
    every branch.  The instances are at the end: no branch issues a private ioctl, and a
    timer is only ever armed right after it was cancelled. *)

From S2P Require Import Prelude CString Printf Layout Structs World Handlers Testmode.
From S2P Require Import Requests Statistics P2pSink DriverCmd.

(** ** Histories *)

(** The events of a branch outside the testmode channel and the timer. *)
Definition plain (e : event) : Prop :=
  match e with
  | EvIoctl r _ _ => r <> PRIVATE_COMMAND
  | EvMsgAlloc | EvMsgFree | EvNlSend _ _ => False
  | EvCancelTimeout _ _ | EvRegisterTimeout _ _ _ _ | EvExpire _ _ | EvChannelListChanged _ => False
  | _ => True
  end.

(** What "set_scan_loading" does to the timeout of the interface. *)
Definition rearm (drv ctx : Z) : trace := [EvCancelTimeout drv ctx; EvRegisterTimeout 10 0 drv ctx].

(** The history grew by a list that satisfies [P]. *)
Definition extends (P : trace -> Prop) (tr tr' : trace) : Prop := exists l, tr' = tr ++ l /\ P l.

(** Closed under everything a branch does on its own. *)
Class LogClosed (P : trace -> Prop) : Prop := {
  log_nil : P [];
  log_app : forall l l', P l -> P l' -> P (l ++ l');
  log_plain : forall e, plain e -> P [e];
  log_rearm : forall drv ctx, P (rearm drv ctx)
}.

(** And under the calls of the channel [tm]. *)
Class LogPred `{Libnl} (tm : channel) (P : trace -> Prop) : Prop := {
  log_closed :: LogClosed P;
  log_channel : forall tr d o r o' tr', tm tr d o = Ret (r, o', tr') -> extends P tr tr'
}.

#[global] Instance extends_preorder `{LogClosed P} : PreOrder (extends P).
Proof.
  split.
  - intros tr. exists []. rewrite app_nil_r. split; [done|apply log_nil].
  - intros a b c (l & -> & Hl) (l' & -> & Hl'). exists (l ++ l').
    rewrite (assoc_L (++)). split; [done|by apply log_app].
Qed.

Lemma log_plains `{LogClosed P} l : Forall plain l -> P l.
Proof.
  induction 1 as [|e l He _ IH]; [apply log_nil|].
  apply (log_app [e]); [by apply log_plain|done].
Qed.

Lemma extends_plain `{LogClosed P} tr l : Forall plain l -> extends P tr (tr ++ l).
Proof. intros Hl. exists l. split; [done|by apply log_plains]. Qed.

Lemma extends_rearm `{LogClosed P} tr drv ctx : extends P tr (tr ++ rearm drv ctx).
Proof. exists (rearm drv ctx). split; [done|apply log_rearm]. Qed.

Create HintDb history.
#[export] Hint Extern 1 (extends _ _ _) => reflexivity : history.
#[export] Hint Extern 2 (extends _ _ _) => apply extends_plain; repeat constructor; discriminate : history.
#[export] Hint Resolve extends_rearm log_channel : history.

(** Run a branch that is known to return. *)
Ltac run_branch :=
  repeat (inv_outcome; try match goal with
  | x : _ * _ |- _ => destruct x
  | H : fmap _ ?m = Ret _ |- _ => destruct m eqn:?; cbn [fmap outcome_fmap] in H
  | H : (let '(_, _) := ?p in _) = Ret _ |- _ => destruct p
  | H : (if ?b then _ else _) = Ret _ |- _ => destruct b eqn:?
  | H : match ?o with Some _ => _ | None => _ end = Ret _ |- _ => destruct o eqn:?
  end).

Section Histories.
Context {NL : Libnl} {K : Kernel} (tm : channel) (P : trace -> Prop) `{!LogPred tm P}.
Context (A : abi) `{WpaCommon}.

Lemma sw_cmd_extends tr set adr dat r tr' :
  wpa_driver_nl80211_driver_sw_cmd tm A tr set adr dat = Ret (r, tr') -> extends P tr tr'.
Proof. intros Hr. unfold wpa_driver_nl80211_driver_sw_cmd in Hr. run_branch. eauto with history. Qed.

Lemma sta_block_extends tr cmd r tr' : wpa_driver_sta_block tm A tr cmd = Ret (r, tr') -> extends P tr tr'.
Proof.
  intros Hr. unfold wpa_driver_sta_block, wpa_driver_hotspot_block_list_update in Hr.
  run_branch; eauto with history.
Qed.

Lemma sta_unblock_extends tr cmd r tr' :
  wpa_driver_sta_unblock tm A tr cmd = Ret (r, tr') -> extends P tr tr'.
Proof.
  intros Hr. unfold wpa_driver_sta_unblock, wpa_driver_hotspot_block_list_update in Hr.
  run_branch; eauto with history.
Qed.

Lemma wapi_key_extends tr addr idx tx seq sl key kl r tr' :
  wpa_driver_nl80211_set_wapi_key tm A tr addr idx tx seq sl key kl = Ret (r, tr') -> extends P tr tr'.
Proof.
  intros Hr. unfold wpa_driver_nl80211_set_wapi_key in Hr. generalize dependent (wapi_key_request A).
  intros req Hr. run_branch; eauto with history.
Qed.

Lemma wfd_update_extends size tr p r tr' :
  wpas_wfd_data_update tm A size tr p = Ret (r, tr') -> extends P tr tr'.
Proof.
  intros Hr. unfold wpas_wfd_data_update in Hr. generalize dependent (wfd_request A).
  intros req Hr. run_branch; eauto with history.
Qed.

Lemma beamplus_get_extends tr r tr' :
  wpas_driver_get_beamplus_go_ready tm A tr = Ret (r, tr') -> extends P tr tr'.
Proof. intros Hr. unfold wpas_driver_get_beamplus_go_ready in Hr. run_branch. eauto with history. Qed.

Lemma beamplus_set_extends tr v r tr' :
  wpas_driver_set_beamplus tm A tr v = Ret (r, tr') -> extends P tr tr'.
Proof. intros Hr. unfold wpas_driver_set_beamplus in Hr. run_branch. eauto with history. Qed.

Lemma sigma_test_mode_extends tr i v r tr' :
  wpas_p2p_sigma_test_mode tm A tr i v = Ret (r, tr') -> extends P tr tr'.
Proof. intros Hr. unfold wpas_p2p_sigma_test_mode in Hr. run_branch. eauto with history. Qed.
Hint Resolve sigma_test_mode_extends : history.

Lemma opps_extends tr cmd r tr' : p2p_ctrl_iface_set_opps tm A tr cmd = Ret (r, tr') -> extends P tr tr'.
Proof. intros Hr. unfold p2p_ctrl_iface_set_opps in Hr. run_branch; eauto with history. Qed.

Lemma power_save_extends tr cmd r tr' :
  p2p_ctrl_iface_set_power_save tm A tr cmd = Ret (r, tr') -> extends P tr tr'.
Proof. intros Hr. unfold p2p_ctrl_iface_set_power_save in Hr. run_branch; eauto with history. Qed.

Lemma sleep_extends tr cmd r tr' : p2p_ctrl_iface_set_sleep tm A tr cmd = Ret (r, tr') -> extends P tr tr'.
Proof. intros Hr. unfold p2p_ctrl_iface_set_sleep in Hr. run_branch; eauto with history. Qed.

Lemma statistics_extends buf garbage behind tr cmd m n r m' tr' :
  wpa_driver_get_sta_statistics tm A buf garbage behind tr cmd m n = Ret (r, m', tr') -> extends P tr tr'.
Proof.
  intros Hr. unfold wpa_driver_get_sta_statistics, wpas_get_sta_statistics in Hr.
  generalize dependent print_sta_statistics. intros print Hr. run_branch; eauto with history.
Qed.

Lemma link_extends buf garbage tr m n r m' tr' :
  wpa_driver_get_sta_link_detect tm A buf garbage tr m n = Ret (r, m', tr') -> extends P tr tr'.
Proof.
  intros Hr. unfold wpa_driver_get_sta_link_detect, wpas_get_sta_link_detect in Hr.
  run_branch; eauto with history.
Qed.

Lemma scc_extends cfg garbage tr w scc freq w' tr' :
  p2p_wfd_sink_config_scc cfg garbage tr w scc freq = Ret (w', tr') -> extends P tr tr'.
Proof. intros Hr. unfold p2p_wfd_sink_config_scc in Hr. run_branch; eauto with history. Qed.

Lemma country_extends cfg drv tr arg r tr' :
  wpa_driver_mediatek_set_country cfg drv tr arg = Ret (r, tr') -> extends P tr tr'.
Proof.
  intros Hr. unfold wpa_driver_mediatek_set_country in Hr. run_branch;
    rewrite <- ?(assoc_L (++)); eauto with history.
Qed.

End Histories.

#[export] Hint Resolve sw_cmd_extends sta_block_extends sta_unblock_extends
  wapi_key_extends wfd_update_extends beamplus_get_extends beamplus_set_extends opps_extends
  power_save_extends sleep_extends statistics_extends link_extends scc_extends country_extends
  : history.

Definition verdict_state (v : verdict) : cmd_state :=
  match v with Handled _ s | Private _ s => s end.

Definition is_private (v : verdict) : bool :=
  match v with Handled _ _ => false | Private _ _ => true end.

(** The commands the kernel driver gets to see although the library knows them. *)
Definition shared_commands : list command := [CMiracast; CSuspendMode].

(** What every branch does to the history and the error counter. *)
Definition quiet (P : trace -> Prop) (s : cmd_state) (private : bool) (v : verdict) : Prop :=
  extends P (st_trace s) (st_trace (verdict_state v)) /\
  drv_errors (verdict_state v) = drv_errors s /\ is_private v = private.

Section Dispatch.
Context {NL : Libnl} {K : Kernel} (tm : channel) (P : trace -> Prop) `{!LogPred tm P}.
Context (A : abi) `{WpaCommon}.
Context (cfg : config) (ov : overlays) (g : stack).
Context (P2P_CONCURRENT MAX_ERRORS : Z) (bss : i802_bss) (drv : driver_data).

Abbreviation run := (run_command tm A cfg ov g P2P_CONCURRENT bss drv).
Abbreviation private := (private_command MAX_ERRORS bss).
Abbreviation disp := (dispatch tm A cfg ov g P2P_CONCURRENT MAX_ERRORS bss drv).

Lemma quiet_step s s' p v :
  extends P (st_trace s) (st_trace s') -> drv_errors s' = drv_errors s -> quiet P s' p v -> quiet P s p v.
Proof. intros He Hd (Ha & Hb & Hc). split_and!; [by etrans|congruence|done]. Qed.

Lemma config_scc_quiet s w scc freq s' :
  config_scc cfg g s w scc freq = Ret s' ->
  extends P (st_trace s) (st_trace s') /\ drv_errors s' = drv_errors s.
Proof.
  unfold config_scc. intros Hr.
  destruct (p2p_wfd_sink_config_scc _ _ _ _ _ _) as [[w' tr']| |] eqn:E; [|done|done].
  cbn [fmap outcome_fmap] in Hr. inv_outcome. split; [by eapply scc_extends|done].
Qed.

Lemma config_scc_verdict s s0 w scc freq (mk : cmd_state -> verdict) p v :
  extends P (st_trace s) (st_trace s0) -> drv_errors s0 = drv_errors s ->
  (forall s, verdict_state (mk s) = s /\ is_private (mk s) = p) ->
  mk <$> config_scc cfg g s0 w scc freq = Ret v -> quiet P s p v.
Proof.
  intros He Hd Hmk Hr. destruct (config_scc cfg g s0 w scc freq) as [s1| |] eqn:E; [|done|done].
  apply config_scc_quiet in E as [E1 E2]. cbn [fmap outcome_fmap] in Hr. inv_outcome.
  unfold quiet. destruct (Hmk s1) as [-> ->]. split_and!; [by etrans|congruence|done].
Qed.

Lemma miracast_quiet cmd s v : cmd_miracast A cfg g bss cmd s = Ret v -> quiet P s true v.
Proof.
  unfold cmd_miracast, miracast_follow_ais. generalize (u8 (atoi A (drop (length (str "MIRACAST ")) cmd))).
  intros k Hr.
  repeat match type of Hr with
  | (if ?b then _ else _) = _ => destruct b
  | mbind _ _ = _ => inv_outcome
  | match ?o with _ => _ end = _ => destruct o
  end; try (inv_outcome; split_and!; cbn; eauto with history; done).
  all: match type of Hr with context [0 <? ?f] => destruct (0 <? f) | _ => idtac end.
  all: eapply config_scc_verdict in Hr; [exact Hr| |reflexivity|by intros].
  all: cbn; eauto with history.
Qed.

Lemma use_mcc_quiet cmd s v : cmd_p2p_use_mcc A cfg g bss cmd s = Ret v -> quiet P s false v.
Proof.
  unfold cmd_p2p_use_mcc. generalize (u8 (atoi A (drop (length (str "p2p_use_mcc=")) cmd))).
  intros k Hr. inv_outcome. destruct (negb (k =? 0)).
  - eapply config_scc_verdict in Hr; [exact Hr|reflexivity|reflexivity|by intros].
  - match type of Hr with context [0 <? ?f] => destruct (0 <? f) end;
      (eapply config_scc_verdict in Hr; [exact Hr| |reflexivity|by intros]);
      cbn; rewrite <- (assoc_L (++)); eauto with history.
Qed.

Lemma fixed_sw_cmd_quiet adr idx s v : fixed_sw_cmd tm A adr idx s = Ret v -> quiet P s false v.
Proof. unfold fixed_sw_cmd. intros Hr. run_branch. split_and!; cbn; eauto with history. Qed.

Lemma numeric_sw_cmd_quiet adr base cp s v :
  numeric_sw_cmd tm A adr base cp s = Ret v -> quiet P s false v.
Proof.
  unfold numeric_sw_cmd. destruct cp as [|b cp].
  - intros Hr. inv_outcome. split_and!; cbn; eauto with history.
  - destruct (strtol A (b :: cp) 0) as [k n]. destruct (n =? 0)%nat; [|apply fixed_sw_cmd_quiet].
    intros Hr. inv_outcome. split_and!; cbn; eauto with history.
Qed.

Lemma sigma_quiet f arg s v :
  (forall tr a r tr', f tr a = Ret (r, tr') -> extends P tr tr') ->
  sigma bss f arg s = Ret v -> quiet P s false v.
Proof. unfold sigma. intros Hf Hr. run_branch. split_and!; cbn; eauto. Qed.

Lemma set_iface_quiet up s v : set_iface drv up s = v -> quiet P s false v.
Proof.
  intros <-. unfold set_iface, quiet. cbn. destruct (_ =? 0); cbn;
    rewrite <- ?(assoc_L (++)); eauto with history.
Qed.

Lemma stop_quiet s v : cmd_stop bss drv s = Ret v -> quiet P s false v.
Proof.
  unfold cmd_stop. destruct (associated drv); intros Hr; inv_outcome; [|by eapply set_iface_quiet].
  eapply quiet_step; [| |by eapply set_iface_quiet]; cbn; eauto with history.
Qed.

Lemma mcc_quiet cmd s v : cmd_mcc A P2P_CONCURRENT bss cmd s = Ret v -> quiet P s false v.
Proof. unfold cmd_mcc. intros Hr. run_branch; split_and!; cbn; eauto with history. Qed.

Lemma scan_loading_quiet s v : cmd_set_scan_loading tm A drv s = Ret v -> quiet P s false v.
Proof.
  unfold cmd_set_scan_loading. intros Hr. run_branch. split_and!; cbn; [|done|done].
  etrans; [by eapply sw_cmd_extends|]. apply extends_rearm.
Qed.

Lemma get_sta_statistics_quiet cmd n s v :
  cmd_get_sta_statistics tm A g bss cmd n s = Ret v -> quiet P s false v.
Proof. unfold cmd_get_sta_statistics. intros Hr. run_branch; split_and!; cbn; eauto with history. Qed.

Lemma get_sta_link_detect_quiet n s v :
  cmd_get_sta_link_detect tm A g bss n s = Ret v -> quiet P s false v.
Proof. unfold cmd_get_sta_link_detect. intros Hr. run_branch; split_and!; cbn; eauto with history. Qed.

Lemma macaddr_quiet n s v :
  cmd_macaddr bss n s = Ret v -> quiet P s false v.
Proof. unfold cmd_macaddr. intros Hr. run_branch; split_and!; cbn; eauto with history. Qed.

Lemma country_quiet cmd s v :
  cmd_country cfg drv cmd s = Ret v -> quiet P s false v.
Proof. unfold cmd_country. intros Hr. run_branch; split_and!; cbn; eauto with history. Qed.

Lemma sta_block_quiet cmd s v :
  cmd_sta_block tm A cmd s = Ret v -> quiet P s false v.
Proof. unfold cmd_sta_block. intros Hr. run_branch; split_and!; cbn; eauto with history. Qed.

Lemma sta_unblock_quiet cmd s v :
  cmd_sta_unblock tm A cmd s = Ret v -> quiet P s false v.
Proof. unfold cmd_sta_unblock. intros Hr. run_branch; split_and!; cbn; eauto with history. Qed.

Lemma set_wapi_key_quiet s v :
  cmd_set_wapi_key tm A ov s = Ret v -> quiet P s false v.
Proof.
  unfold cmd_set_wapi_key. generalize (read_wapi_key_param A ov). intros read Hr.
  run_branch; split_and!; cbn; eauto with history. Qed.

Lemma wapi_msg_send_quiet s v :
  cmd_wapi_msg_send A s = Ret v -> quiet P s false v.
Proof. unfold cmd_wapi_msg_send. intros Hr. run_branch; split_and!; cbn; eauto with history. Qed.

Lemma p2p_get_cap_quiet cmd n s v :
  cmd_p2p_get_cap bss cmd n s = Ret v -> quiet P s false v.
Proof. unfold cmd_p2p_get_cap. intros Hr. run_branch; split_and!; cbn; eauto with history. Qed.

Lemma p2p_set_cap_quiet cmd s v :
  cmd_p2p_set_cap A bss cmd s = Ret v -> quiet P s false v.
Proof. unfold cmd_p2p_set_cap. intros Hr. run_branch; split_and!; cbn; eauto with history. Qed.

Lemma set_p2p_scan_cache_quiet cmd s v :
  cmd_set_p2p_scan_cache A bss cmd s = Ret v -> quiet P s false v.
Proof. unfold cmd_set_p2p_scan_cache. intros Hr. run_branch; split_and!; cbn; eauto with history. Qed.

Lemma wfd_data_update_quiet s v :
  cmd_wfd_data_update tm A ov bss s = Ret v -> quiet P s false v.
Proof.
  unfold cmd_wfd_data_update. intros Hr.
  pose proof (wfd_update_extends tm P A (Z.of_nat (ov_wfd_size ov)) (st_trace s)) as Hx.
  generalize dependent (wpas_wfd_data_update tm A (Z.of_nat (ov_wfd_size ov)) (st_trace s)).
  intros update Hr Hx. run_branch; split_and!; cbn; eauto.
Qed.

Lemma get_beamplus_quiet s v :
  cmd_get_beamplus tm A bss s = Ret v -> quiet P s false v.
Proof. unfold cmd_get_beamplus. intros Hr. run_branch; split_and!; cbn; eauto with history. Qed.

Lemma set_beamplus_quiet s v :
  cmd_set_beamplus tm A bss s = Ret v -> quiet P s false v.
Proof. unfold cmd_set_beamplus. intros Hr. run_branch; split_and!; cbn; eauto with history. Qed.

Lemma setsuspendmode_quiet cmd s v :
  cmd_setsuspendmode tm A g cmd s = Ret v -> quiet P s true v.
Proof. unfold cmd_setsuspendmode. intros Hr. run_branch; split_and!; cbn; eauto with history. Qed.

Lemma run_command_quiet c mem cmd n s v :
  run c mem cmd n s = Ret v -> quiet P s (bool_decide (c ∈ shared_commands)) v.
Proof.
  destruct c; cbn [run_command]; intros Hr;
    first [ by eapply fixed_sw_cmd_quiet | by eapply numeric_sw_cmd_quiet
          | by eapply miracast_quiet | by eapply use_mcc_quiet | by eapply stop_quiet
          | by eapply mcc_quiet | by eapply scan_loading_quiet
          | by eapply get_sta_statistics_quiet | by eapply get_sta_link_detect_quiet
          | by eapply macaddr_quiet | by eapply country_quiet | by eapply sta_block_quiet
          | by eapply sta_unblock_quiet | by eapply set_wapi_key_quiet
          | by eapply wapi_msg_send_quiet | by eapply p2p_get_cap_quiet
          | by eapply p2p_set_cap_quiet | by eapply set_p2p_scan_cache_quiet
          | by eapply wfd_data_update_quiet | by eapply get_beamplus_quiet
          | by eapply set_beamplus_quiet | by eapply setsuspendmode_quiet
          | by (eapply sigma_quiet in Hr; [exact Hr|eauto with history])
          | by (unfold cmd_start in Hr; inv_outcome; eapply set_iface_quiet)
          | inv_outcome; split_and!; cbn; eauto with history ].
Qed.

(** The text that goes to the kernel: that of the command, except that a MIRACAST command
    of mode 2 with a frequency is cut to its short form. *)
Definition private_text (c : option command) (cmd : list byte) : list byte :=
  match c with
  | Some CMiracast =>
      if (u8 (atoi A (drop 9 cmd)) =? 2) && bool_decide (is_Some (strstr cmd (str " freq=")))
      then str "MIRACAST 2" else cmd
  | _ => cmd
  end.

(** Invert [f <$> m = Ret v]. *)
Ltac private_inv H :=
  match type of H with fmap _ ?m = _ => destruct m; cbn [fmap outcome_fmap] in H; inv_outcome end.

Lemma miracast_text cmd s cmd' s' :
  cmd_miracast A cfg g bss cmd s = Ret (Private cmd' s') -> cmd' = private_text (Some CMiracast) cmd.
Proof.
  unfold cmd_miracast, miracast_follow_ais, private_text. change (length (str "MIRACAST ")) with 9%nat.
  generalize (u8 (atoi A (drop 9 cmd))). intros k Hr.
  destruct (k =? 2) eqn:Ek.
  - apply Z.eqb_eq in Ek as ->. change ((2 =? 0) || (2 =? 1)) with false in Hr. change (2 =? 2) with true in Hr. cbv iota in Hr.
    inv_outcome. generalize dependent (str "MIRACAST 2"). intros t Hr.
    destruct (strstr cmd (str " freq=")) as [pos|].
    + rewrite bool_decide_true by eauto. cbn [andb].
      by private_inv Hr.
    + rewrite bool_decide_false by (by intros []). cbn [andb].
      by private_inv Hr.
  - cbn [andb]. destruct (_ || _); [|by inv_outcome]. inv_outcome.
    by private_inv Hr.
Qed.

Lemma run_command_private c mem cmd n s cmd' s' :
  run c mem cmd n s = Ret (Private cmd' s') -> cmd' = private_text (Some c) cmd.
Proof.
  intros Hr. pose proof (run_command_quiet _ _ _ _ _ _ Hr) as (_ & _ & Hp). cbn in Hp.
  symmetry in Hp. apply bool_decide_eq_true in Hp.
  apply elem_of_cons in Hp as [->|[->|[]%not_elem_of_nil]%elem_of_cons]; cbn [run_command] in Hr.
  - by eapply miracast_text.
  - unfold cmd_setsuspendmode in Hr. by run_branch.
Qed.

Lemma private_text_no_nul c cmd : NUL ∉ cmd -> NUL ∉ private_text c cmd.
Proof.
  intros Hn. unfold private_text. destruct c as [[]|]; try done.
  destruct (_ && _); [decide_now|done].
Qed.

(** Whether the selected branch ends in the private ioctl. *)
Definition reaches_kernel (c : option command) : bool :=
  match c with None => true | Some c => bool_decide (c ∈ shared_commands) end.

(** The event of a private ioctl on the interface of the call. *)
Definition private_event (m : list byte) (n : nat) : event :=
  EvIoctl PRIVATE_COMMAND (take IFNAMSIZ (bss_ifname bss)) (PrivCmd (priv_cmd m n)).

(** A private command leaves one event, its ioctl, and the answer to it decides what
    becomes of the error counter. *)
Lemma private_effect cmd n s r s' :
  private cmd n s = Ret (r, s') ->
  exists data rest,
    st_trace s' = st_trace s ++ [private_event data n] /\
    data = cmd ++ [NUL] ++ rest /\
    drv_errors s' = if fst (fst (ioctl_private (st_trace s') (priv_cmd data n))) <? 0
                    then wpa_driver_send_hang_msg MAX_ERRORS (drv_errors s) else 0.
Proof.
  intros Hr. unfold private_command in Hr. inv_outcome.
  destruct (ioctl_private _ _) as [[ret answer] used] eqn:Ei. inv_outcome.
  unfold mem_write in E. case_decide; [|done]. apply Ret_inj in E as <-.
  rewrite take_0, app_nil_l, <- (assoc_L (++)) in *.
  remember (cmd ++ [NUL] ++ drop _ _) as data. exists data. eexists.
  assert (forall (b : bool) (x y : Z), (ret <? 0) = b -> (if b then x else y) =
    if fst (fst (ioctl_private (st_trace s ++ [private_event data n]) (priv_cmd data n))) <? 0
    then x else y) as Hif
    by (intros b x y <-; unfold private_event; by rewrite Ei).
  destruct (ret <? 0); [inv_outcome; split_and!; [done|reflexivity|exact (Hif true _ _ eq_refl)]|].
  destruct (starts_with_ci _ _); inv_outcome; (split_and!; [done|reflexivity|exact (Hif false _ _ eq_refl)]).
Qed.

Lemma private_trace cmd n s r s' :
  NUL ∉ cmd -> private cmd n s = Ret (r, s') ->
  exists data, st_trace s' = st_trace s ++ [private_event data n] /\ cstr data = Some cmd.
Proof.
  intros Hn (data & rest & Htr & -> & _)%private_effect. eexists. split; [exact Htr|].
  by apply cstr_app_nul.
Qed.

(** The two ways a dispatch can end. *)
Lemma dispatch_cases mem n s r s' :
  disp mem n s = Ret (r, s') ->
  exists cmd, cstr_at mem 0 = Ret cmd /\
  (if reaches_kernel (classify cfg cmd)
   then let cmd' := private_text (classify cfg cmd) cmd in
        exists s1, quiet P s true (Private cmd' s1) /\ private cmd' n s1 = Ret (r, s')
   else quiet P s false (Handled r s')).
Proof.
  unfold dispatch. intros Hr. inv_outcome. rename a into cmd, a0 into v, E0 into Ev.
  exists cmd. split; [done|].
  destruct (classify cfg cmd) as [c|] eqn:Ec; cbn [reaches_kernel].
  - pose proof (run_command_quiet _ _ _ _ _ _ Ev) as (Ha & Hb & Hc).
    destruct v as [r1 s1|cmd' s1]; cbn in Ha, Hb, Hc; rewrite <- Hc.
    + inv_outcome. by split_and!.
    + apply run_command_private in Ev as ->. exists s1. split; [by split_and!|exact Hr].
  - apply Ret_inj in Ev as <-. exists s. split; [|exact Hr].
    split_and!; [reflexivity|done|done].
Qed.

End Dispatch.

(** ** Instances *)

(** No private ioctl. *)
Definition not_private (e : event) : Prop :=
  match e with EvIoctl r _ _ => r <> PRIVATE_COMMAND | _ => True end.

Definition no_private : trace -> Prop := Forall not_private.

#[global] Instance no_private_closed : LogClosed no_private.
Proof.
  split; unfold no_private; [constructor|by intros; apply Forall_app|by intros [] He; repeat constructor|].
  by repeat constructor.
Qed.

#[global] Instance no_private_log `{Libnl} tm `{!TestmodeChannel tm} : LogPred tm no_private.
Proof.
  split; [apply _|]. intros * (l & -> & Hl)%tm_history. exists l. split; [done|].
  revert Hl. apply Forall_impl. by intros [].
Qed.

(** A timeout is registered only right after the one of the same interface was cancelled,
    and no branch lets one expire. *)
Inductive timer_log : trace -> Prop :=
| tl_nil : timer_log []
| tl_event e l : plain e \/ netlink_event e -> timer_log l -> timer_log (e :: l)
| tl_rearm drv ctx l : timer_log l -> timer_log (rearm drv ctx ++ l).

Lemma timer_log_app l l' : timer_log l -> timer_log l' -> timer_log (l ++ l').
Proof. induction 1; intros Hl'; cbn; [done|constructor; auto|]. apply tl_rearm. auto. Qed.

Lemma timer_log_events l : Forall (fun e => plain e \/ netlink_event e) l -> timer_log l.
Proof. induction 1; by constructor. Qed.

#[global] Instance timer_log_closed : LogClosed timer_log.
Proof.
  split; [constructor|apply timer_log_app| |].
  - intros e He. apply timer_log_events. constructor; [by left|constructor].
  - intros drv ctx. rewrite <- (app_nil_r (rearm drv ctx)). apply tl_rearm, tl_nil.
Qed.

#[global] Instance timer_log_channel `{Libnl} tm `{!TestmodeChannel tm} : LogPred tm timer_log.
Proof.
  split; [apply _|]. intros * (l & -> & Hl)%tm_history. exists l. split; [done|].
  apply timer_log_events. revert Hl. apply Forall_impl. by right.
Qed.

(** Netlink messages are freed as often as they are allocated. *)
Definition balanced (l : trace) : Prop := live_messages l = 0.

#[global] Instance balanced_closed : LogClosed balanced.
Proof.
  split; unfold balanced; [done| |intros []; cbn; try done|done].
  intros l l' Hl Hl'. rewrite live_messages_app. lia.
Qed.
