(* ===== verification/DriverProps.v ===== *)
(** * Properties of the driver commands

    What [wpa_driver_nl80211_driver_cmd] guarantees: which branch a text selects,
    which commands reach the kernel's private ioctl, the counter of consecutive
    failures, and the branches whose effects matter most.  The theorems hold for every
    channel with the contract [TestmodeChannel], every kernel and every build
    configuration. *)

From S2P Require Import Prelude CString Printf Layout Structs World Handlers Testmode.
From S2P Require Import Requests Statistics P2pSink DriverCmd DriverLogs.

(** ** The table *)

(** The text of a pattern in lower case. *)
Definition pattern_text (pat : pattern) : list byte :=
  match pat with PrefixCase p | Prefix p | ExactCase p => tolower <$> p end.

Lemma matches_text pat cmd :
  matches pat cmd = true -> starts_with (pattern_text pat) (tolower <$> cmd) = true.
Proof.
  destruct pat as [p|p|p]; cbn.
  - done.
  - apply starts_with_weaken_ci.
  - intros ->%bool_decide_eq_true. rewrite <- (app_nil_r (tolower <$> cmd)) at 2.
    apply starts_with_app.
Qed.

(** One pattern is a prefix of the other, in either order. *)
Definition texts_overlap (p q : pattern) : bool :=
  starts_with (pattern_text p) (pattern_text q) || starts_with (pattern_text q) (pattern_text p).

Lemma matches_overlap p q cmd :
  matches p cmd = true -> matches q cmd = true -> texts_overlap p q = true.
Proof.
  intros Hp%matches_text Hq%matches_text. unfold texts_overlap. apply orb_true_iff.
  by apply (starts_with_comparable _ _ (tolower <$> cmd)).
Qed.

(** The patterns without the options. *)
Definition table_patterns : list (pattern * command) :=
  (fun e => (snd (fst e), snd e)) <$> command_table config_all.

Lemma table_patterns_cfg cfg :
  (fun e => (snd (fst e), snd e)) <$> command_table cfg = table_patterns.
Proof. reflexivity. Qed.

Definition sleep_commands : list command := [CSetSleepArg; CSetSleep].

(** Entries that overlap are the same, or the two forms of "p2p_set_sleep". *)
Lemma table_overlaps :
  forallb (fun e1 => forallb (fun e2 =>
    negb (texts_overlap (fst e1) (fst e2)) || bool_decide (snd e1 = snd e2) ||
    (bool_decide (snd e1 ∈ sleep_commands) && bool_decide (snd e2 ∈ sleep_commands)))
    table_patterns) table_patterns = true.
Proof. by vm_compute. Qed.

Lemma commands_disjoint cfg cmd on1 p1 c1 on2 p2 c2 :
  (on1, p1, c1) ∈ command_table cfg -> (on2, p2, c2) ∈ command_table cfg ->
  matches p1 cmd = true -> matches p2 cmd = true ->
  c1 = c2 \/ (c1 ∈ sleep_commands /\ c2 ∈ sleep_commands).
Proof.
  assert (forall on p c, (on, p, c) ∈ command_table cfg -> In (p, c) table_patterns) as Hin.
  { intros on p c Hc. rewrite <- (table_patterns_cfg cfg). apply list_elem_of_In.
    apply list_elem_of_fmap. by exists (on, p, c). }
  intros H1%Hin H2%Hin M1 M2. pose proof table_overlaps as Ht.
  rewrite forallb_forall in Ht. specialize (Ht _ H1). rewrite forallb_forall in Ht.
  specialize (Ht _ H2). cbn [fst snd] in Ht. rewrite (matches_overlap p1 p2 cmd M1 M2) in Ht.
  cbn [negb orb] in Ht. apply orb_true_iff in Ht as [Ht|Ht].
  - left. by apply bool_decide_eq_true in Ht.
  - right. apply andb_true_iff in Ht as [Ha Hb].
    by apply bool_decide_eq_true in Ha; apply bool_decide_eq_true in Hb.
Qed.

Lemma first_match_Some cmd t c :
  first_match cmd t = Some c -> exists p, (true, p, c) ∈ t /\ matches p cmd = true.
Proof.
  induction t as [|[[on p] c'] t IH]; cbn; [done|].
  destruct on; cbn [andb]; [destruct (matches p cmd) eqn:Em|].
  - intros [= ->]. exists p. split; [by apply elem_of_cons; left|done].
  - intros (q & Hq & Mq)%IH. exists q. split; [by apply elem_of_cons; right|done].
  - intros (q & Hq & Mq)%IH. exists q. split; [by apply elem_of_cons; right|done].
Qed.

Lemma first_match_exists cmd t p c :
  (true, p, c) ∈ t -> matches p cmd = true -> exists c', first_match cmd t = Some c'.
Proof.
  intros Hin Hm. induction t as [|[[on q] c'] t IH]; [by apply not_elem_of_nil in Hin|]. cbn.
  apply elem_of_cons in Hin as [[= <- <- <-]|Hin]; [rewrite Hm; eauto|].
  destruct (on && matches q cmd); eauto.
Qed.

Lemma first_match_app cmd t t' :
  first_match cmd (t ++ t') =
  match first_match cmd t with Some c => Some c | None => first_match cmd t' end.
Proof. induction t as [|[[on p] c] t IH]; cbn; [done|]. by destruct (on && _). Qed.

(** Which commands the first 32 entries and the others have does not depend on the
    options. *)
Lemma table_split_commands cfg on p c :
  ((on, p, c) ∈ take 32 (command_table cfg) -> c <> CSetSleep) /\
  ((on, p, c) ∈ drop 32 (command_table cfg) -> c <> CSetSleepArg).
Proof.
  split; intros Hin ->; apply (list_elem_of_fmap_2 snd) in Hin; revert Hin.
  - change (snd <$> take 32 (command_table cfg)) with (snd <$> take 32 (command_table config_all)).
    change (CSetSleep ∉ snd <$> take 32 (command_table config_all)). decide_now.
  - change (snd <$> drop 32 (command_table cfg)) with (snd <$> drop 32 (command_table config_all)).
    change (CSetSleepArg ∉ snd <$> drop 32 (command_table config_all)). decide_now.
Qed.

(** The form of "p2p_set_sleep" with an argument comes first. *)
Lemma sleep_first cfg cmd p :
  (true, p, CSetSleepArg) ∈ command_table cfg -> matches p cmd = true ->
  first_match cmd (command_table cfg) <> Some CSetSleep.
Proof.
  rewrite <- (take_drop 32 (command_table cfg)). intros [Hin|Hin]%elem_of_app Hm Hf.
  - rewrite first_match_app in Hf.
    destruct (first_match_exists cmd _ p _ Hin Hm) as [c Hc]. rewrite Hc in Hf.
    injection Hf as ->. apply first_match_Some in Hc as (q & Hq & _).
    by apply (proj1 (table_split_commands cfg true q CSetSleep)) in Hq.
  - by apply (proj2 (table_split_commands cfg true p CSetSleepArg)) in Hin.
Qed.

Section Dispatch.
Context {NL : Libnl} {K : Kernel} (tm : channel) `{!TestmodeChannel tm} (A : abi) `{WpaCommon}.
Context (cfg : config) (ov : overlays) (g : stack).
Context (P2P_CONCURRENT MAX_ERRORS : Z) (bss : i802_bss) (drv : driver_data).

Abbreviation disp := (dispatch tm A cfg ov g P2P_CONCURRENT MAX_ERRORS bss drv).

(** ** Properties of the dispatcher *)

(** C2: the order of the branches does not matter, with one exception: an enabled
    command whose pattern matches the text is the one that is selected, unless it is
    the short form of "p2p_set_sleep", which the form with an argument precedes. *)
Theorem classify_complete (cmd : list byte) (p : pattern) (c : command)
    (Hin : (true, p, c) ∈ command_table cfg) (Hm : matches p cmd = true) :
  classify cfg cmd = Some c \/ (c = CSetSleep /\ classify cfg cmd = Some CSetSleepArg).
Proof.
  destruct (first_match_exists cmd _ p c Hin Hm) as [c' Hc']. unfold classify. rewrite Hc'.
  destruct (first_match_Some _ _ _ Hc') as (q & Hq & Mq).
  destruct (commands_disjoint cfg cmd _ _ _ _ _ _ Hin Hq Hm Mq) as [->|[H1 H2]]; [by left|].
  apply elem_of_cons in H1 as [->|[->|[]%not_elem_of_nil]%elem_of_cons];
    apply elem_of_cons in H2 as [->|[->|[]%not_elem_of_nil]%elem_of_cons]; auto.
  exfalso. revert Hc'. apply sleep_first with p; done.
Qed.

(** C1: a command of the table is handled by the library alone and changes neither the
    error counter nor issues a private ioctl; the other commands, MIRACAST and
    SETSUSPENDMODE end in exactly one private ioctl, the last event of the call, on the
    interface of the call, with the length of the caller's buffer as its used and its total
    length.  Its buffer holds, as a terminated string, the text of the command; only for a
    MIRACAST command whose mode byte is 2 and that names a frequency it is the short form
    "MIRACAST 2". *)
Theorem private_ioctl_iff (mem : list byte) (n : nat) (s : cmd_state) (r : Z) (s' : cmd_state)
    (cmd : list byte) (Hcmd : cstr_at mem 0 = Ret cmd) (Hret : disp mem n s = Ret (r, s')) :
  if reaches_kernel (classify cfg cmd)
  then exists tr1 data, extends no_private (st_trace s) tr1 /\
         st_trace s' = tr1 ++
           [EvIoctl PRIVATE_COMMAND (take IFNAMSIZ (bss_ifname bss))
              (PrivCmd {| pc_buf := data; pc_used_len := s32 (Z.of_nat n);
                          pc_total_len := s32 (Z.of_nat n) |})] /\
         cstr data = Some
           (if bool_decide (classify cfg cmd = Some CMiracast) && (u8 (atoi A (drop 9 cmd)) =? 2) &&
               bool_decide (is_Some (strstr cmd (str " freq=")))
            then str "MIRACAST 2" else cmd)
  else extends no_private (st_trace s) (st_trace s') /\ drv_errors s' = drv_errors s.
Proof.
  destruct (dispatch_cases tm no_private A cfg ov g _ _ bss drv _ _ _ _ _ Hret) as (cmd0 & Hc & Hd).
  assert (cmd0 = cmd) as -> by congruence.
  destruct (reaches_kernel _); [|by destruct Hd as (? & ? & _)].
  destruct Hd as (s1 & (Hext & _ & _) & Hp).
  apply private_trace in Hp as (data & Htr & Hdata).
  - exists (st_trace s1), data. split_and!; [done|done|]. rewrite Hdata. f_equal.
    unfold private_text. destruct (classify cfg cmd) as [c|]; [|done]. by destruct c.
  - apply private_text_no_nul. by apply (cstr_at_no_nul mem 0).
Qed.

End Dispatch.

(** ** Properties of the branches *)

Section Branches.
Context {NL : Libnl} {K : Kernel} (tm : channel) (A : abi) `{WpaCommon}.
Context (cfg : config) (ov : overlays) (g : stack).
Context (P2P_CONCURRENT MAX_ERRORS : Z) (bss : i802_bss) (drv : driver_data).

Abbreviation sent := (sent_requests NL80211_ATTR_TESTDATA).

(** C24: "rxfilter-add" and "rxfilter-remove" with a decimal number return 0 and send at
    most one software command, to register 0x9F000000, whose data is the base of the
    operation plus the number, modulo 2^32; a number above the largest [long] counts as
    the largest [long]. *)
Theorem rxfilter_sends `{!TestmodeChannel tm} (add : bool) (n : Z) (s : cmd_state) (v : verdict)
    (Hn : 0 <= n)
    (Hret : (if add then cmd_rxfilter_add tm A (str "rxfilter-add " ++ fmt_u n) s
             else cmd_rxfilter_remove tm A (str "rxfilter-remove " ++ fmt_u n) s) = Ret v) :
  exists s', v = Handled 0 s' /\
    (sent (st_trace s') = sent (st_trace s) \/
     exists req, sent (st_trace s') = sent (st_trace s) ++ [req] /\
       load A req sw_cmd_params_t =
         [VI (versioned 1); VI 20; VI 1; VI 0x9F000000;
          VI (u32 ((if add then 0x00900200 else 0x00900300) +
                   Z.min n (2 ^ (long_bits A - 1) - 1)))]).
Proof.
  destruct (strtol_blank_fmt_u A n Hn) as [k Hk].
  unfold cmd_rxfilter_add, cmd_rxfilter_remove in Hret.
  change (drop 12 (str "rxfilter-add " ++ fmt_u n)) with (SP :: fmt_u n) in Hret.
  change (drop 15 (str "rxfilter-remove " ++ fmt_u n)) with (SP :: fmt_u n) in Hret.
  unfold numeric_sw_cmd in Hret. rewrite Hk in Hret. cbn [Nat.eqb] in Hret.
  set (x := Z.min n _) in *.
  destruct add; unfold fixed_sw_cmd in Hret; inv_outcome; destruct a as [r tr']; inv_outcome;
    eexists; (split; [done|]); cbn [st_trace]; rewrite (Z.add_comm _ x);
    setoid_rewrite u32_add_l in E;
    (apply sw_cmd_sent in E as [_ [E|(req & E & _ & Hl)]]; [by left|by right; exists req|..];
    first [apply u32_in_u|done]).
Qed.

(** A two letter country code goes to the driver as "COUNTRY XX" in one SIOCSIWPRIV
    request between opening and closing the socket, on wlan0 instead of p2p0 when the
    build asks for it; the call returns 0 or the negative result of the request. *)
Theorem country_sends (tr : trace) (arg : list byte)
    (Hsock : 0 <= socket_result tr) (Harg : (length arg ≤ 2)%nat) :
  exists ifname r,
    wpa_driver_mediatek_set_country cfg drv tr arg =
      Ret (r, tr ++ [EvSocket; EvIoctl SIOCSIWPRIV ifname
                                       (IwPoint (str "COUNTRY " ++ arg) (8 + Z.of_nat (length arg)));
                            EvClose]) /\
    r <= 0 /\
    ifname = take 15 (if MTK_TC1_FEATURE cfg && starts_with (str "p2p0") (first_ifname drv)
                      then str "wlan0" else first_ifname drv).
Proof.
  unfold wpa_driver_mediatek_set_country. rewrite (proj2 (Z.ltb_ge _ _) Hsock).
  rewrite mem_write_in_range by (rewrite length_zeros, !length_app; cbn; lia).
  cbn [mbind outcome_bind]. rewrite <- !(assoc_L (++)). cbn [app IFNAMSIZ Nat.sub].
  match goal with |- context [ioctl_country ?t] => generalize (ioctl_country t) end. intros r.
  replace (Z.of_nat (length (str "COUNTRY " ++ arg))) with (8 + Z.of_nat (length arg))
    by (rewrite length_app; cbn; lia).
  destruct (Z.ltb_spec r 0); do 2 eexists; (split; [done|]); (split; [|done]); lia.
Qed.

(** A longer country argument is written past the end of the eleven byte buffer. *)
Theorem country_overflow (tr : trace) (arg : list byte)
    (Hsock : 0 <= socket_result tr) (Harg : (2 < length arg)%nat) :
  wpa_driver_mediatek_set_country cfg drv tr arg = Undef OutOfBounds.
Proof.
  unfold wpa_driver_mediatek_set_country. rewrite (proj2 (Z.ltb_ge _ _) Hsock).
  rewrite mem_write_out_of_range; [done|]. rewrite length_zeros, !length_app. cbn. lia.
Qed.

(** C25: after "mcc <n>" every interface has the concurrency flag exactly when [n] is
    not 0, and a channel budget of 2 or 0; no other flag changes. *)
Theorem mcc_sets_flags (cmd : list byte) (s s' : cmd_state) (i : nat)
    (Hi : strchr cmd SP = Some i)
    (Hret : cmd_mcc A P2P_CONCURRENT bss cmd s = Ret (Handled 0 s')) :
  let on := negb (atoi A (drop (S i) cmd) =? 0) in
  Forall2 (fun f f' =>
    num_multichan_concurrent f' = (if on then 2 else 0) /\
    forall b, 0 <= b -> Z.testbit (drv_flags f') b =
      if Z.testbit P2P_CONCURRENT b then on else Z.testbit (drv_flags f) b)
    (ifaces (st_wpa s)) (ifaces (st_wpa s')).
Proof.
  intros on. unfold cmd_mcc in Hret. rewrite Hi in Hret. unfold use_wpa_s in Hret.
  destruct (str_eq _ _); [done|]. cbn [mbind outcome_bind] in Hret.
  destruct (negb _); [done|]. injection Hret as <-. cbn.
  apply Forall2_fmap_r, Forall_Forall2_diag, Forall_true. intros f. unfold mcc_iface. fold on.
  destruct on; cbn; (split; [done|]); intros b Hb.
  - rewrite Z.lor_spec. destruct (Z.testbit P2P_CONCURRENT b); [apply orb_true_r|apply orb_false_r].
  - rewrite Z.ldiff_spec. destruct (Z.testbit P2P_CONCURRENT b); [apply andb_false_r|apply andb_true_r].
Qed.

(** The suspend request carries the digit of the command, and its three bytes of
    padding are handed to the kernel as they were on the stack. *)
Theorem suspend_request_leaks (cmd : list byte) (Hg : length (g_suspend g) = 12%nat) :
  load A (suspend_request A g cmd) suspendmode_params_t =
    [VI (versioned 101); VI 12; VI (u8 (code (nth 15 cmd NUL) - 48))] /\
  drop 9 (suspend_request A g cmd) = drop 9 (g_suspend g).
Proof.
  unfold suspend_request. assert (sizeof A suspendmode_params_t = 12%nat) as Hsz by by destruct A.
  unfold struct_len. rewrite Hsz. split.
  - apply load_store; [|rewrite Hg; destruct A; cbn; lia].
    repeat constructor; cbn; first [apply versioned_in_u|apply u8_in_u|done].
  - unfold store, suspendmode_params_t, test_mode_info_t. cbn -[le_split drop versioned u8].
    rewrite !take_0, !app_nil_l, !(assoc_L (++)), drop_app_length', !drop_drop; [done|].
    by rewrite !length_app, !length_le_split.
Qed.

(** On the interface "ap0" the pointer to wpa_supplicant is never assigned: the
    commands that use it are undefined there. *)
Theorem ap0_uninitialised (mem cmd : list byte) (n : nat) (s : cmd_state)
    (Hap : bss_ifname bss = str "ap0") :
  Forall (fun c => run_command tm A cfg ov g P2P_CONCURRENT bss drv c mem cmd n s = Undef NullDeref)
    [CGetStaStatistics; CGetStaLinkDetect; CMacAddr; CP2pGetCap; CP2pSetCap; CUseMcc; CMcc;
     CSetOpps; CSetPowerSave; CSetSleepArg; CSetSleep; CWfdDataUpdate].
Proof.
  assert (use_wpa_s bss s = Undef NullDeref) as Hu by (unfold use_wpa_s; by rewrite Hap).
  repeat constructor; cbn [run_command];
    unfold cmd_get_sta_statistics, cmd_get_sta_link_detect, cmd_macaddr, cmd_p2p_get_cap,
      cmd_p2p_set_cap, cmd_p2p_use_mcc, cmd_mcc, cmd_p2p_set_opps, cmd_p2p_set_power_save,
      cmd_p2p_set_sleep_arg, cmd_p2p_set_sleep, cmd_wfd_data_update, sigma; by rewrite Hu.
Qed.

(** C40: the frequency of a MIRACAST command is kept in an unsigned integer: a negative
    answer of wpa_supplicant (no shared frequency) is taken for a frequency, and the
    operating class and channel become what the uninitialised locals held. *)
Theorem miracast_negative_frequency (cmd : list byte) (s : cmd_state) (p : p2p_data)
    (Hmode : u8 (atoi A (drop 9 cmd)) = 1) (Hif : bss_ifname bss <> str "ap0")
    (Hp : p2p (st_wpa s) = Some p)
    (Hfreq : - 2 ^ 31 <= shared_freq (st_trace s) < 0) :
  exists s' p', cmd_miracast A cfg g bss cmd s = Ret (Private cmd s') /\
    p2p (st_wpa s') = Some p' /\
    op_reg_class p' = fst (g_channel g) /\ op_channel p' = snd (g_channel g).
Proof.
  unfold cmd_miracast. change (length (str "MIRACAST ")) with 9%nat. rewrite Hmode.
  change ((1 =? 0) || (1 =? 1)) with true. unfold use_wpa_s, str_eq.
  rewrite bool_decide_false by done. cbn [mbind outcome_bind]. unfold miracast_follow_ais.
  assert (u32 (shared_freq (st_trace s)) = shared_freq (st_trace s) + 2 ^ 32) as ->.
  { unfold u32, uwrap. symmetry. apply Z.mod_unique with (-1); lia. }
  rewrite (proj2 (Z.ltb_lt 0 _)) by lia. unfold config_scc, p2p_wfd_sink_config_scc.
  change (1 =? 0) with false. rewrite Hp, (proj2 (Z.eqb_neq _ 0)) by lia.
  rewrite freq_above_table by lia.
  cbn [negb andb Z.eqb default]. destruct (g_channel g) as [c ch].
  eexists _, _. split; [reflexivity|]. split; [reflexivity|done].
Qed.

(** The command is copied into the caller's buffer without regard to its size: a
    command that is not handled by the library and is longer than the buffer is
    written past its end. *)
Theorem private_copy_unchecked (mem cmd m : list byte) (n : nat) (s : cmd_state)
    (Hcmd : cstr_at mem 0 = Ret cmd) (Hclass : classify cfg cmd = None)
    (Hbuf : st_buf s = Some m) (Hlen : (length m < length cmd + 1)%nat) :
  dispatch tm A cfg ov g P2P_CONCURRENT MAX_ERRORS bss drv mem n s = Undef OutOfBounds.
Proof.
  unfold dispatch. rewrite Hcmd, bind_Ret, Hclass, bind_Ret. unfold private_command, buf_mem.
  rewrite Hbuf. cbn [default]. rewrite mem_write_out_of_range; [done|].
  rewrite length_app. cbn. lia.
Qed.


End Branches.

(** ** Witnesses *)

Definition demo_drv : driver_data :=
  {| drv_addr := 4096; drv_ctx := 8192; first_ifname := str "p2p0"; associated := false; drv_bssid := zeros 6 |}.
Definition demo_bss : i802_bss := {| bss_ifname := str "wlan0"; bss_drv := Some demo_drv |}.
Definition ap0_bss : i802_bss := {| bss_ifname := str "ap0"; bss_drv := Some demo_drv |}.
Definition demo_stack : stack :=
  {| g_stats := stack_stats; g_stats_addr := 0; g_behind := None; g_link := demo_link; g_link_addr := 0;
     g_channel := (170, 187); g_suspend := replicate 12 Byte.xaa |}.
Definition demo_ov : overlays :=
  {| ov_memory := fun _ => zeros 64; ov_wfd := fun _ => wfd_demo; ov_wfd_size := 308 |}.
Definition demo_state : cmd_state :=
  {| st_trace := []; st_buf := Some (zeros 24); st_wpa := demo_supplicant; drv_errors := 3 |}.

(** A kernel whose private ioctl fails and a supplicant without a shared frequency. *)
Definition lonely_kernel : @Kernel tree_libnl :=
  @Build_Kernel tree_libnl
    (fun _ => true) (fun _ _ _ => true) (fun _ => true) (fun _ => 0) (fun _ => [[DAck]])
    (fun _ => 3) (fun _ => 0) (fun _ _ => (-5, [], 0)) (fun _ => 0) (fun _ => 0)
    (fun _ => -1) (fun _ => 7) (fun _ => 5) (fun _ => 0).

(** The buffer with the unknown command "RSSI" in it. *)
Definition rssi_buf : list byte := str "RSSI" ++ zeros 20.
Definition rssi_state : cmd_state :=
  demo_state{{st_trace := [private_event demo_bss rssi_buf 24]; st_buf := Some rssi_buf; drv_errors := 4}}.

Lemma rssi_run :
  @dispatch tree_libnl lonely_kernel quiet_channel Arm64 colon_mac config_all demo_ov demo_stack 1 4
    demo_bss demo_drv (lit "RSSI") 24 demo_state = Ret (-5, rssi_state).
Proof. by vm_compute. Qed.

Lemma classify_complete_witness :
  classify config_all (str "Country DE") = Some CCountry \/
  (CCountry = CSetSleep /\ classify config_all (str "Country DE") = Some CSetSleepArg).
Proof.
  apply (classify_complete config_all (str "Country DE") (PrefixCase (str "COUNTRY")) CCountry);
    [decide_now|reflexivity].
Defined.

Lemma private_ioctl_iff_witness :
  exists tr1 data, extends no_private [] tr1 /\
    [private_event demo_bss rssi_buf 24] =
      tr1 ++ [EvIoctl PRIVATE_COMMAND (take IFNAMSIZ (bss_ifname demo_bss))
                (PrivCmd {| pc_buf := data; pc_used_len := s32 24; pc_total_len := s32 24 |})] /\
    cstr data = Some (str "RSSI").
Proof.
  exact (@private_ioctl_iff tree_libnl lonely_kernel quiet_channel _ Arm64 colon_mac config_all demo_ov
    demo_stack 1 4 demo_bss demo_drv (lit "RSSI") 24 demo_state (-5) rssi_state (str "RSSI") eq_refl
    rssi_run).
Defined.

Lemma rxfilter_sends_witness :
  exists s', Handled 0 demo_state{{st_trace := one_request (sw_cmd_request Arm64 1 0x9F000000 0x00900203)}}
      = Handled 0 s' /\
    (sent_requests 69 (st_trace s') = sent_requests 69 [] \/
     exists req, sent_requests 69 (st_trace s') = sent_requests 69 [] ++ [req] /\
       load Arm64 req sw_cmd_params_t =
         [VI (versioned 1); VI 20; VI 1; VI 0x9F000000;
          VI (u32 (0x00900200 + Z.min 3 (2 ^ (long_bits Arm64 - 1) - 1)))]).
Proof.
  apply (rxfilter_sends (NL := tree_libnl) quiet_channel Arm64 true 3 demo_state); [lia|].
  vm_compute. reflexivity.
Defined.

Lemma country_sends_witness :
  exists ifname r,
    wpa_driver_mediatek_set_country (K := lonely_kernel) config_all demo_drv [] (str "DE") =
      Ret (r, [] ++ [EvSocket; EvIoctl SIOCSIWPRIV ifname (IwPoint (str "COUNTRY " ++ str "DE") (8 + Z.of_nat 2));
                      EvClose]) /\
    r <= 0 /\ ifname = take 15 (str "wlan0").
Proof.
  apply (country_sends (K := lonely_kernel) config_all demo_drv [] (str "DE"));
    [vm_compute; discriminate|cbn; lia].
Defined.

Lemma country_overflow_witness :
  wpa_driver_mediatek_set_country (K := lonely_kernel) config_all demo_drv [] (str "DEU") =
  Undef OutOfBounds.
Proof.
  apply (country_overflow (K := lonely_kernel) config_all demo_drv [] (str "DEU"));
    [vm_compute; discriminate|cbn; lia].
Defined.

Definition mcc_state : cmd_state :=
  match cmd_mcc Arm64 4096 demo_bss (str "mcc 1") demo_state with
  | Ret (Handled _ s) => s
  | _ => demo_state
  end.

Lemma mcc_sets_flags_witness :
  Forall2 (fun f f' =>
    num_multichan_concurrent f' = 2 /\
    forall b, 0 <= b -> Z.testbit (drv_flags f') b =
      if Z.testbit 4096 b then true else Z.testbit (drv_flags f) b)
    (ifaces demo_supplicant) (ifaces (st_wpa mcc_state)).
Proof.
  exact (mcc_sets_flags Arm64 4096 demo_bss (str "mcc 1") demo_state mcc_state 3 eq_refl eq_refl).
Defined.

Lemma suspend_request_leaks_witness :
  load Arm64 (suspend_request Arm64 demo_stack (str "SETSUSPENDMODE 1")) suspendmode_params_t =
    [VI (versioned 101); VI 12; VI (u8 (code (nth 15 (str "SETSUSPENDMODE 1") NUL) - 48))] /\
  drop 9 (suspend_request Arm64 demo_stack (str "SETSUSPENDMODE 1")) = drop 9 (replicate 12 Byte.xaa).
Proof. exact (suspend_request_leaks Arm64 demo_stack (str "SETSUSPENDMODE 1") eq_refl). Defined.

Lemma ap0_uninitialised_witness :
  Forall (fun c => @run_command tree_libnl lonely_kernel quiet_channel Arm64 colon_mac config_all demo_ov
      demo_stack 1 ap0_bss demo_drv c (lit "MACADDR") (str "MACADDR") 24 demo_state = Undef NullDeref)
    [CGetStaStatistics; CGetStaLinkDetect; CMacAddr; CP2pGetCap; CP2pSetCap; CUseMcc; CMcc;
     CSetOpps; CSetPowerSave; CSetSleepArg; CSetSleep; CWfdDataUpdate].
Proof.
  apply (@ap0_uninitialised tree_libnl lonely_kernel quiet_channel Arm64 colon_mac config_all demo_ov
    demo_stack 1 ap0_bss demo_drv (lit "MACADDR") (str "MACADDR") 24 demo_state). reflexivity.
Defined.

Lemma miracast_negative_frequency_witness :
  exists s' p', cmd_miracast (K := lonely_kernel) Arm64 config_all demo_stack demo_bss (str "MIRACAST 1")
      demo_state = Ret (Private (str "MIRACAST 1") s') /\
    p2p (st_wpa s') = Some p' /\ op_reg_class p' = 170 /\ op_channel p' = 187.
Proof.
  apply (miracast_negative_frequency (K := lonely_kernel) Arm64 config_all demo_stack demo_bss
    (str "MIRACAST 1") demo_state demo_p2p);
    [reflexivity|discriminate|reflexivity|split; vm_compute; [discriminate|reflexivity]].
Defined.

Lemma private_copy_unchecked_witness :
  @dispatch tree_libnl lonely_kernel quiet_channel Arm64 colon_mac config_all demo_ov demo_stack 1 4
    demo_bss demo_drv (lit "SETROAMING aa:bb:cc:dd:ee:ff 1") 24 demo_state = Undef OutOfBounds.
Proof.
  apply (@private_copy_unchecked tree_libnl lonely_kernel quiet_channel Arm64 colon_mac config_all demo_ov
    demo_stack 1 4 demo_bss demo_drv _ (str "SETROAMING aa:bb:cc:dd:ee:ff 1") (zeros 24));
    [reflexivity|reflexivity|reflexivity|cbn; lia].
Defined.

