(* ===== verification/Session.v ===== *)
(** * Sessions

    The library is called again and again by wpa_supplicant's control interface, its
    timer expires in between, and the rest of wpa_supplicant works on the state they
    share.  A session is a sequence of such steps; this file shows what holds in every
    state a session can reach. *)

From stdpp Require Import relations.
From S2P Require Import Prelude CString Layout Structs World Testmode Requests P2pSink.
From S2P Require Import DriverCmd DriverLogs DriverProps.

(** ** Reference definitions *)

(** The timeouts of this library pending in the event loop for one interface, from the
    history.  The event loop tells its timeouts apart by the addresses they were registered
    with, here the driver data and its context: cancelling removes all with the same pair,
    an expired one is removed before its handler runs. *)
Definition timer_event (key : Z * Z) (k : nat) (e : event) : nat :=
  match e with
  | EvCancelTimeout d c => if decide ((d, c) = key) then 0 else k
  | EvRegisterTimeout _ _ d c => if decide ((d, c) = key) then S k else k
  | EvExpire d c => if decide ((d, c) = key) then pred k else k
  | _ => k
  end.

Definition pending (key : Z * Z) (tr : trace) : nat := foldl (timer_event key) 0%nat tr.

(** The event loop ran a timeout of the interface, whose handler sent the channel list
    event. *)
Definition notified (key : Z * Z) (l : trace) : Prop :=
  exists l1 l2 ctx, l = l1 ++ [EvExpire (fst key) (snd key); EvChannelListChanged ctx] ++ l2.

(** The timeout "set_scan_loading" registers on an interface. *)
Definition timeout_key (drv : driver_data) : Z * Z := (drv_addr drv, drv_ctx drv).

Section Session.
Context {NL : Libnl} {K : Kernel} (tm : channel) (A : abi) `{WpaCommon} (cfg : config).
Context (P2P_CONCURRENT MAX_ERRORS : Z).

(** The private ioctls that failed since the last successful one, read off the history:
    the kernel's answer to each is a function of what was exchanged up to it. *)
Fixpoint failures_from (before : trace) (k : Z) (l : trace) : Z :=
  match l with
  | [] => k
  | e :: l' =>
      let now := before ++ [e] in
      failures_from now
        match e with
        | EvIoctl r _ (PrivCmd c) =>
            if r =? PRIVATE_COMMAND
            then if fst (fst (ioctl_private now c)) <? 0 then k + 1 else 0
            else k
        | _ => k
        end l'
  end.

Definition consecutive_failures (tr : trace) : Z := failures_from [] 0 tr.

(** ** Steps *)

(** A command on some interface with a buffer of the caller, the expiry of a pending
    timeout, whose handler finds the driver data as they are then, or another part of
    wpa_supplicant changing the shared state. *)
Inductive step : cmd_state -> cmd_state -> Prop :=
| StepCommand bss ov g buf mem n s r s' :
    wpa_driver_nl80211_driver_cmd tm A cfg ov g P2P_CONCURRENT MAX_ERRORS bss mem n
      s{{st_buf := buf}} = Ret (r, s') ->
    step s s'
| StepTimeout drv ctx s :
    (0 < pending (drv_addr drv, ctx) (st_trace s))%nat ->
    step s s{{st_trace := wpa_driver_nl80211_scan_loading_timeout drv ctx
                            (st_trace s ++ [EvExpire (drv_addr drv) ctx])}}
| StepSupplicant s w : step s s{{st_wpa := w}}.

(** The library is loaded with an empty history and [drv_errors = 0]. *)
Definition initial (s : cmd_state) : Prop := st_trace s = [] /\ drv_errors s = 0.

Definition reachable (s : cmd_state) : Prop := exists s0, initial s0 /\ rtc step s0 s.

(** ** Lemmas *)

(** An invariant of the initial states that every step keeps holds in every reachable
    state. *)
Lemma reachable_invariant (I : cmd_state -> Prop) s :
  (forall s0, initial s0 -> I s0) -> (forall s1 s2, step s1 s2 -> I s1 -> I s2) ->
  reachable s -> I s.
Proof.
  intros H0 Hstep (s0 & Hi & Hr). apply H0 in Hi. induction Hr as [|s1 s2 s3 Hs _ IH]; eauto.
Qed.

(** A call that returns was refused by the guards or went through the dispatcher. *)
Lemma entry_cases ov g bss mem n s r s' :
  wpa_driver_nl80211_driver_cmd tm A cfg ov g P2P_CONCURRENT MAX_ERRORS bss mem n s = Ret (r, s') ->
  (r = -1 /\ s' = s) \/
  exists drv, dispatch tm A cfg ov g P2P_CONCURRENT MAX_ERRORS bss drv mem n s = Ret (r, s').
Proof.
  unfold wpa_driver_nl80211_driver_cmd. intros Hr.
  destruct (bss_drv bss) as [drv|]; [|inv_outcome; by left].
  destruct (drv_ctx drv =? 0); [inv_outcome; by left|].
  destruct (negb _ && _); [inv_outcome; by left|]. right. by exists drv.
Qed.

(** A command the guards let through runs its branch. *)
Lemma entry_branch ov g bss drv cmd c n s :
  bss_drv bss = Some drv -> drv_ctx drv <> 0 -> is_Some (conf (st_wpa s)) -> NUL ∉ cmd ->
  classify cfg cmd = Some c ->
  wpa_driver_nl80211_driver_cmd tm A cfg ov g P2P_CONCURRENT MAX_ERRORS bss (cmd ++ [NUL]) n s =
  (v ← run_command tm A cfg ov g P2P_CONCURRENT bss drv c (cmd ++ [NUL]) cmd n s;
   match v with
   | Handled r s' => Ret (r, s')
   | Private cmd' s' => private_command MAX_ERRORS bss cmd' n s'
   end).
Proof.
  intros Hdrv Hctx Hconf Hn Hc. unfold wpa_driver_nl80211_driver_cmd.
  rewrite Hdrv, (proj2 (Z.eqb_neq _ _) Hctx).
  rewrite (bool_decide_false (conf (st_wpa s) = None)), andb_false_r by (by destruct Hconf as [? ->]).
  unfold dispatch, cstr_at. rewrite drop_0, cstr_app_nul by done. by rewrite bind_Ret, Hc.
Qed.

(** What a command adds to the history, for a predicate on logs: a log of its branch,
    followed by at most one private ioctl, whose answer decides about the counter. *)
Lemma entry_log (P : trace -> Prop) `{!LogPred tm P} ov g bss mem n s r s' :
  wpa_driver_nl80211_driver_cmd tm A cfg ov g P2P_CONCURRENT MAX_ERRORS bss mem n s = Ret (r, s') ->
  (extends P (st_trace s) (st_trace s') /\ drv_errors s' = drv_errors s) \/
  exists tr1 ifname c, extends P (st_trace s) tr1 /\
    st_trace s' = tr1 ++ [EvIoctl PRIVATE_COMMAND ifname (PrivCmd c)] /\
    drv_errors s' = if fst (fst (ioctl_private (st_trace s') c)) <? 0
                    then wpa_driver_send_hang_msg MAX_ERRORS (drv_errors s) else 0.
Proof.
  intros [[_ ->]|[drv Hd]]%entry_cases; [by left; split|].
  destruct (dispatch_cases tm P A cfg ov g _ _ bss drv _ _ _ _ _ Hd) as (cmd & _ & Hc).
  destruct (reaches_kernel _).
  - destruct Hc as (s1 & (He & Hn & _) & Hp). right.
    apply private_effect in Hp as (data & rest & Htr & _ & Herr).
    cbn in He, Hn. rewrite Hn in Herr. by eexists _, _, (priv_cmd data n).
  - left. by destruct Hc as (He & Hn & _).
Qed.

Lemma pending_app key tr l : pending key (tr ++ l) = foldl (timer_event key) (pending key tr) l.
Proof. apply foldl_app. Qed.

Lemma pending_event key k e : plain e \/ netlink_event e -> timer_event key k e = k.
Proof. by destruct e; intros [He|He]; cbn in He. Qed.

(** Arming leaves one timeout of the interface and those of the others. *)
Lemma pending_rearm key k drv ctx :
  foldl (timer_event key) k (rearm drv ctx) = if decide ((drv, ctx) = key) then 1%nat else k.
Proof. cbn. by destruct (decide _). Qed.

Lemma pending_timer_log key l k : timer_log l -> (k ≤ 1)%nat -> (foldl (timer_event key) k l ≤ 1)%nat.
Proof.
  intros Hl. revert k. induction Hl as [|e l He _ IH|drv ctx l _ IH]; intros k Hk; [done| |].
  - cbn. rewrite pending_event by done. by apply IH.
  - rewrite foldl_app, pending_rearm. apply IH. destruct (decide _); lia.
Qed.

(** A pending timeout survives the commands: one of them may arm it again, none removes
    it. *)
Lemma pending_timer_log_one key l : timer_log l -> foldl (timer_event key) 1%nat l = 1%nat.
Proof.
  induction 1 as [|e l He _ IH|drv ctx l _ IH]; [done| |].
  - cbn. by rewrite pending_event.
  - rewrite foldl_app, pending_rearm. by destruct (decide _).
Qed.

Lemma entry_pending `{!TestmodeChannel tm} key ov g bss mem n s r s' :
  wpa_driver_nl80211_driver_cmd tm A cfg ov g P2P_CONCURRENT MAX_ERRORS bss mem n s = Ret (r, s') ->
  exists l, st_trace s' = st_trace s ++ l /\
    (pending key (st_trace s) = 1%nat -> pending key (st_trace s') = 1%nat).
Proof.
  intros [[(l & Htr & Hl) _]|(tr1 & ifname & c & (l & -> & Hl) & Htr & _)]%(entry_log timer_log).
  - exists l. split; [done|]. intros Hp. rewrite Htr, pending_app, Hp. by apply pending_timer_log_one.
  - rewrite <- (assoc_L (++)) in Htr. eexists. split; [exact Htr|]. intros Hp.
    rewrite Htr, pending_app, foldl_app, Hp, pending_timer_log_one by done. done.
Qed.

(** The expiry of a timeout. *)
Lemma pending_expired key tr drv ctx :
  pending key (wpa_driver_nl80211_scan_loading_timeout drv ctx (tr ++ [EvExpire (drv_addr drv) ctx])) =
  if decide ((drv_addr drv, ctx) = key) then pred (pending key tr) else pending key tr.
Proof. unfold wpa_driver_nl80211_scan_loading_timeout. by rewrite !pending_app. Qed.

(** What the commands of a session leave to be done: since [tr] the notification was sent,
    or its timeout is pending. *)
Definition notified_or_pending (key : Z * Z) (tr : trace) (s : cmd_state) : Prop :=
  exists l, st_trace s = tr ++ l /\ (notified key l \/ pending key (st_trace s) = 1%nat).

Lemma notified_app key l l' : notified key l -> notified key (l ++ l').
Proof.
  intros (l1 & l2 & ctx & ->). exists l1, (l2 ++ l'), ctx. by rewrite <- !(assoc_L (++)).
Qed.

Lemma notified_or_pending_step `{!TestmodeChannel tm} key tr s s' :
  step s s' -> notified_or_pending key tr s -> notified_or_pending key tr s'.
Proof.
  intros [bss ov g buf mem n [tr0 b w e] r s4 Hr|drv ctx [tr0 b w e] Hp|[tr0 b w e] w'] (l & Htr & Hor); cbn in *.
  - apply (entry_pending key) in Hr as (l' & Htr' & Hp'). cbn in Htr', Hp'. exists (l ++ l').
    split; [by rewrite Htr', Htr, (assoc_L (++))|].
    destruct Hor as [Hin|Hone]; [left; by apply notified_app|right; by apply Hp'].
  - exists (l ++ [EvExpire (drv_addr drv) ctx; EvChannelListChanged (drv_ctx drv)]).
    split; [cbn; unfold wpa_driver_nl80211_scan_loading_timeout; by rewrite Htr, <- !(assoc_L (++))|].
    destruct Hor as [Hin|Hone]; [left; by apply notified_app|].
    destruct (decide ((drv_addr drv, ctx) = key)) as [<-|Hne].
    + left. by exists l, [], (drv_ctx drv).
    + right. etransitivity; [apply pending_expired|]. by rewrite decide_False.
  - by exists l.
Qed.

Lemma failures_app before k l l' :
  failures_from before k (l ++ l') = failures_from (before ++ l) (failures_from before k l) l'.
Proof.
  revert before k. induction l as [|e l IH]; intros before k; cbn; [by rewrite app_nil_r|].
  by rewrite IH, <- (assoc_L (++)).
Qed.

Lemma failures_no_private before k l : no_private l -> failures_from before k l = k.
Proof.
  intros Hl. revert before k. induction Hl as [|e l He _ IH]; intros before k; cbn; [done|].
  rewrite IH. destruct e; try done. destruct arg; [done|]. by rewrite (proj2 (Z.eqb_neq _ _) He).
Qed.

Lemma consecutive_failures_extends tr tr' :
  extends no_private tr tr' -> consecutive_failures tr' = consecutive_failures tr.
Proof.
  intros (l & -> & Hl). unfold consecutive_failures. rewrite failures_app. by apply failures_no_private.
Qed.

Lemma consecutive_failures_private tr ifname c (e := EvIoctl PRIVATE_COMMAND ifname (PrivCmd c)) :
  consecutive_failures (tr ++ [e]) =
  if fst (fst (ioctl_private (tr ++ [e]) c)) <? 0 then consecutive_failures tr + 1 else 0.
Proof. unfold consecutive_failures. by rewrite failures_app. Qed.

Lemma consecutive_failures_nonneg tr : 0 <= consecutive_failures tr.
Proof.
  unfold consecutive_failures. generalize (Z.le_refl 0). generalize 0 at 2 4. generalize ([] : trace).
  induction tr as [|e tr IH]; intros before k Hk; [done|]. apply IH.
  repeat case_match; lia.
Qed.

(** The counter of the code is the number of failures modulo the limit plus one. *)
Lemma hang_msg_mod k :
  0 <= MAX_ERRORS ->
  wpa_driver_send_hang_msg MAX_ERRORS (k mod (MAX_ERRORS + 1)) = (k + 1) mod (MAX_ERRORS + 1).
Proof.
  intros Hmax. pose proof (Z.mod_pos_bound k (MAX_ERRORS + 1) ltac:(lia)).
  unfold wpa_driver_send_hang_msg. rewrite <- (Zplus_mod_idemp_l k).
  destruct (Z.ltb_spec MAX_ERRORS (k mod (MAX_ERRORS + 1) + 1)).
  - replace (k mod (MAX_ERRORS + 1) + 1) with (MAX_ERRORS + 1) by lia. by rewrite Z_mod_same_full.
  - by rewrite (Z.mod_small (_ + 1)) by lia.
Qed.

(** ** Properties *)

(** C9: in every state a session can reach the static counter of the library equals the
    number of private ioctls that failed since the last one that succeeded, modulo the
    limit plus one, as an observer of the exchange with the kernel counts them; nothing
    but private ioctls moves it, so it stays between 0 and the limit. *)
Theorem errors_count_failures `{!TestmodeChannel tm} (s : cmd_state)
    (Hmax : 0 <= MAX_ERRORS) (Hreach : reachable s) :
  drv_errors s = consecutive_failures (st_trace s) mod (MAX_ERRORS + 1) /\
  0 <= drv_errors s <= MAX_ERRORS.
Proof.
  enough (drv_errors s = consecutive_failures (st_trace s) mod (MAX_ERRORS + 1)) as Heq.
  { split; [done|]. pose proof (Z.mod_pos_bound (consecutive_failures (st_trace s)) (MAX_ERRORS + 1)). lia. }
  revert Hreach. apply (reachable_invariant (fun s =>
    drv_errors s = consecutive_failures (st_trace s) mod (MAX_ERRORS + 1))); [by intros s0 [-> ->]|].
  intros s1 s2 [bss ov g buf mem n [tr b w e] r s4 Hr|drv ctx [tr b w e] Hp|[tr b w e] w'] Hinv; cbn in *.
  - apply (entry_log no_private) in Hr as [[He ->]|(tr1 & ifname & data & He & Htr & ->)]; cbn in He |- *.
    + rewrite (consecutive_failures_extends _ _ He). exact Hinv.
    + rewrite Htr, consecutive_failures_private, (consecutive_failures_extends _ _ He), Hinv.
      destruct (_ <? 0); [by apply hang_msg_mod|done].
  - rewrite (consecutive_failures_extends tr); [exact Hinv|].
    eexists. unfold wpa_driver_nl80211_scan_loading_timeout. rewrite <- (assoc_L (++)).
    split; [done|]. by repeat constructor.
  - done.
Qed.

(** C21: at most one timeout of the library is pending for each interface at any time:
    however often "set_scan_loading" is repeated on an interface (the same driver data and
    context), and whatever happens on the others, the event loop calls back once for it. *)
Theorem one_timeout_pending `{!TestmodeChannel tm} (s : cmd_state) (key : Z * Z)
    (Hreach : reachable s) :
  (pending key (st_trace s) ≤ 1)%nat.
Proof.
  revert Hreach. apply (reachable_invariant (fun s => pending key (st_trace s) ≤ 1)%nat);
    [intros s0 [-> _]; cbn; lia|].
  intros s1 s2 [bss ov g buf mem n [tr b w e] r s4 Hr|drv ctx [tr b w e] Hp|[tr b w e] w'] Hinv; cbn in *; [| |done].
  - apply (entry_log timer_log) in Hr as [[(l & -> & Hl) _]|(tr1 & ifname & data & (l & -> & Hl) & -> & _)];
      cbn [st_trace]; rewrite ?pending_app; exact (pending_timer_log key l _ Hl Hinv).
  - etransitivity; [apply Nat.eq_le_incl, pending_expired|].
    destruct (decide _); [etransitivity; [apply Nat.le_pred_l|]|]; exact Hinv.
Qed.

(** C6: "set_scan_loading" leads to its notification: once the command has returned on an
    interface, at every later point of every session, whatever happens on this and on
    other interfaces, either the event loop has run the timeout of this interface since,
    followed by the channel list event, or exactly one timeout of this interface is still
    pending: no command can have removed it, and its expiry is a possible next step that
    delivers the event to the context the driver data have then. *)
Theorem scan_loading_notified `{!TestmodeChannel tm} (ov : overlays) (g : stack) (bss : i802_bss)
    (drv : driver_data) (cmd : list byte) (n : nat) (s0 s1 s2 : cmd_state) (r : Z)
    (Hdrv : bss_drv bss = Some drv) (Hctx : drv_ctx drv <> 0) (Hconf : is_Some (conf (st_wpa s0)))
    (Hcmd : NUL ∉ cmd) (Hclass : classify cfg cmd = Some CScanLoading)
    (Hret : wpa_driver_nl80211_driver_cmd tm A cfg ov g P2P_CONCURRENT MAX_ERRORS bss (cmd ++ [NUL]) n s0 =
            Ret (r, s1))
    (Hlater : rtc step s1 s2) :
  exists since, st_trace s2 = st_trace s1 ++ since /\
    (notified (timeout_key drv) since \/
     pending (timeout_key drv) (st_trace s2) = 1%nat /\
     forall drv', drv_addr drv' = drv_addr drv ->
       exists s3, step s2 s3 /\
         st_trace s3 = st_trace s2 ++ [EvExpire (drv_addr drv) (drv_ctx drv);
                                       EvChannelListChanged (drv_ctx drv')] /\
         pending (timeout_key drv) (st_trace s3) = 0%nat).
Proof.
  assert (notified_or_pending (timeout_key drv) (st_trace s1) s2) as (l & Htr & Hor).
  { assert (notified_or_pending (timeout_key drv) (st_trace s1) s1) as H1.
    { exists []. split; [by rewrite app_nil_r|]. right.
      rewrite (entry_branch ov g bss drv cmd CScanLoading n s0 Hdrv Hctx Hconf Hcmd Hclass) in Hret.
      cbn [run_command] in Hret. unfold cmd_set_scan_loading in Hret. inv_outcome.
      match goal with x : Z * trace |- _ => destruct x as [x tr1] end. inv_outcome. cbn [st_trace].
      fold (rearm (drv_addr drv) (drv_ctx drv)).
      etransitivity; [apply (pending_app _ tr1)|]. by rewrite pending_rearm, decide_True. }
    revert H1. generalize (st_trace s1). intros tr. clear Hret.
    induction Hlater; eauto using notified_or_pending_step. }
  exists l. split; [done|]. destruct Hor as [Hin|Hone]; [by left|right]. split; [done|].
  intros drv' Haddr. unfold timeout_key in *. rewrite <- Haddr in *.
  eexists. split; [apply (StepTimeout drv' (drv_ctx drv)); lia|]. cbn. split.
  - unfold wpa_driver_nl80211_scan_loading_timeout. by rewrite <- (assoc_L (++)).
  - etransitivity; [apply pending_expired|]. by rewrite decide_True, Hone.
Qed.

End Session.

(** ** The channel of the library *)

Section Accounting.
Context {NL : Libnl} {K : Kernel} `{!LibnlLaws} (A : abi) `{WpaCommon} (cfg : config).
Context (P2P_CONCURRENT MAX_ERRORS ifindex : Z).

(** When every attribute fits, the testmode routine frees what it allocates. *)
Lemma testmode_balanced :
  (forall tr attr data, nla_put_ok tr attr data = true) ->
  LogPred (wpa_driver_nl80211_testmode cfg ifindex) balanced.
Proof.
  intros Hput. split; [apply _|]. intros * Hr.
  destruct (tm_history _ _ _ _ _ _ Hr) as (l & -> & _). exists l. split; [done|].
  apply testmode_live in Hr. rewrite live_messages_app, !Hput, andb_false_r in Hr.
  unfold balanced. lia.
Qed.

(** C20: a session over the testmode routine of the library leaks no netlink message as
    long as the attributes fit their messages: in every reachable state as many messages
    were freed as allocated. *)
Theorem session_leaks_nothing (s : cmd_state)
    (Hput : forall tr attr data, nla_put_ok tr attr data = true)
    (Hreach : reachable (wpa_driver_nl80211_testmode cfg ifindex) A cfg P2P_CONCURRENT MAX_ERRORS s) :
  live_messages (st_trace s) = 0.
Proof.
  pose proof (testmode_balanced Hput) as Hlog.
  revert Hreach. apply (reachable_invariant _ _ _ _ _
    (fun s => live_messages (st_trace s) = 0)); [by intros s0 [-> _]|].
  intros s1 s2 [bss ov g buf mem n [tr b w e] r s4 Hr|drv ctx [tr b w e] Hp|[tr b w e] w'] Hinv; cbn in *; [| |done].
  - apply (entry_log _ _ _ _ _ balanced) in Hr
      as [[(l & -> & Hl) _]|(tr1 & ifname & data & (l & -> & Hl) & -> & _)];
      cbn [st_trace]; rewrite !live_messages_app, Hl, Hinv; done.
  - unfold wpa_driver_nl80211_scan_loading_timeout. by rewrite !live_messages_app, Hinv.
Qed.

End Accounting.

(** ** Witnesses *)

(** A session on the interface "wlan0": an unknown command the kernel refuses, the
    arming of the timer and its expiry. *)
#[local] Existing Instance lonely_kernel.

Definition lone_channel : channel := wpa_driver_nl80211_testmode config_all 7.

Definition run_text (text : string) (s : cmd_state) : outcome (Z * cmd_state) :=
  wpa_driver_nl80211_driver_cmd (H := colon_mac) lone_channel Arm64 config_all demo_ov demo_stack 1 4
    demo_bss (lit text) 24 s{{st_buf := Some (zeros 24)}}.

Definition after (text : string) (s : cmd_state) : cmd_state :=
  match run_text text s with Ret (_, s') => s' | _ => s end.

Definition session_start : cmd_state := demo_state{{drv_errors := 0}}.
Definition session_armed : cmd_state := after "set_scan_loading" (after "RSSI" session_start).
Definition session_end : cmd_state :=
  session_armed{{st_trace := wpa_driver_nl80211_scan_loading_timeout demo_drv (drv_ctx demo_drv)
                    (st_trace session_armed ++ [EvExpire (drv_addr demo_drv) (drv_ctx demo_drv)])}}.

Lemma session_reachable :
  reachable (H := colon_mac) lone_channel Arm64 config_all 1 4 session_end.
Proof.
  exists session_start. split; [done|].
  eapply rtc_l; [apply (StepCommand _ _ _ _ _ demo_bss demo_ov demo_stack (Some (zeros 24)) (lit "RSSI") 24
    session_start (-5)); vm_compute; reflexivity|].
  eapply rtc_l; [eapply (StepCommand _ _ _ _ _ demo_bss demo_ov demo_stack (Some (zeros 24))
    (lit "set_scan_loading") 24 _ 0); vm_compute; reflexivity|].
  eapply rtc_once. refine (StepTimeout _ _ _ _ _ demo_drv (drv_ctx demo_drv) session_armed _). vm_compute. lia.
Qed.

Lemma errors_count_failures_witness :
  drv_errors session_end = consecutive_failures (st_trace session_end) mod (4 + 1) /\
  0 <= drv_errors session_end <= 4.
Proof.
  apply (errors_count_failures (H := colon_mac) lone_channel Arm64 config_all 1 4 session_end);
    [lia|apply session_reachable].
Defined.

Lemma one_timeout_pending_witness : (pending (timeout_key demo_drv) (st_trace session_end) ≤ 1)%nat.
Proof.
  exact (one_timeout_pending (H := colon_mac) lone_channel Arm64 config_all 1 4 session_end
    (timeout_key demo_drv) session_reachable).
Defined.

Lemma session_leaks_nothing_witness : live_messages (st_trace session_end) = 0.
Proof.
  exact (session_leaks_nothing (H0 := colon_mac) Arm64 config_all 1 4 7 session_end
    (fun _ _ _ => eq_refl) session_reachable).
Defined.

(** The timer is armed, and an unknown command follows. *)
Definition session_waiting : cmd_state := after "RSSI" session_armed.

Lemma scan_loading_notified_witness :
  exists since, st_trace session_waiting = st_trace session_armed ++ since /\
    (notified (timeout_key demo_drv) since \/
     pending (timeout_key demo_drv) (st_trace session_waiting) = 1%nat /\
     forall drv', drv_addr drv' = drv_addr demo_drv ->
       exists s3, step (H := colon_mac) lone_channel Arm64 config_all 1 4 session_waiting s3 /\
         st_trace s3 = st_trace session_waiting ++ [EvExpire (drv_addr demo_drv) (drv_ctx demo_drv);
                                                    EvChannelListChanged (drv_ctx drv')] /\
         pending (timeout_key demo_drv) (st_trace s3) = 0%nat).
Proof.
  apply (scan_loading_notified (H := colon_mac) lone_channel Arm64 config_all 1 4 demo_ov demo_stack demo_bss
           demo_drv (str "set_scan_loading") 24 (after "RSSI" session_start){{st_buf := Some (zeros 24)}}
           session_armed session_waiting 0).
  - reflexivity.
  - discriminate.
  - by eexists.
  - decide_now.
  - reflexivity.
  - vm_compute. reflexivity.
  - apply rtc_once. apply (StepCommand _ _ _ _ _ demo_bss demo_ov demo_stack (Some (zeros 24)) (lit "RSSI") 24
      session_armed (-5)). vm_compute. reflexivity.
Defined.
