(* ===== verification/Query.v ===== *)
(** * A statistics query from the command to the report

    The command "GET_STA_STATISTICS <address>" goes through every component of the
    driver library: the dispatcher selects the branch, the request is built and sent on
    the testmode channel, the answer is decoded by its handler, and the report is
    printed into the buffer of the control interface.  This file composes their
    theorems. *)

From S2P Require Import Prelude CString Printf Layout Structs World Handlers Testmode.
From S2P Require Import Requests Statistics P2pSink DriverCmd DriverProps Session.

Section Query.
Context {NL : Libnl} {K : Kernel} `{!LibnlLaws} (A : abi) `{!WpaCommon} `{!WpaCommonLaws}.
Context (cfg : config) (ifindex : Z).

(** The request for the station [mac]; [buf] is the address of the structure the answer
    goes to. *)
Definition statistics_request (mac : list byte) (buf : Z) : list byte :=
  store_zeroed A get_sta_statistics_params_t
    [VI (versioned NL80211_TESTMODE_STATISTICS); VI (struct_len A get_sta_statistics_params_t);
     VI 0; VI 0; VA mac; VI buf].

(** The request for the link counters. *)
Definition link_request (buf : Z) : list byte :=
  store_zeroed A get_sta_link_detect_params_t
    [VI (versioned NL80211_TESTMODE_LINK_DETECT); VI (struct_len A get_sta_link_detect_params_t); VI buf].

Definition exchange (data : list byte) : trace :=
  [EvMsgAlloc;
   EvNlSend NL80211_CMD_TESTMODE
     [(NL80211_ATTR_IFINDEX, le_split 4 ifindex); (NL80211_ATTR_TESTDATA, data)];
   EvMsgFree].

(** The kernel takes the request [data] after the history [tr] and answers it with the
    message [msg] and an acknowledgement. *)
Record answered (tr : trace) (data : list byte) (msg : nl_msg) : Prop := {
  an_alloc : nlmsg_alloc_ok tr = true;
  an_put : forall attr bytes, nla_put_ok (tr ++ [EvMsgAlloc]) attr bytes = true;
  an_clone : nl_cb_clone_ok (tr ++ [EvMsgAlloc]) = true;
  an_send : 0 <= nl_send_result (tr ++ take 2 (exchange data));
  an_answers : nl_answers (tr ++ take 2 (exchange data)) = [[DValid msg]; [DAck]]
}.

(** ** Lemmas *)

(** The channel delivers the answer its handler decodes. *)
Lemma testmode_answered tr data msg id h o o' :
  MTK_TURNKEY_WLAN cfg = true -> answered tr data msg ->
  request_index data = Ret id -> select_handler cfg id = Some h -> h msg o = Ret (NL_SKIP, o') ->
  wpa_driver_nl80211_testmode cfg ifindex tr data o = Ret (0, o', tr ++ exchange data).
Proof.
  intros Ht [Ha Hp Hc Hs Han] Hid Hh Ho. unfold wpa_driver_nl80211_testmode.
  rewrite Ht, Ha. cbn [negb]. rewrite !Hp. cbn [negb]. rewrite Hid, bind_Ret, Hh.
  unfold send_and_recv_msgs. rewrite Hc. cbn [negb].
  replace ((tr ++ [EvMsgAlloc]) ++ [_]) with (tr ++ take 2 (exchange data))
    by (by rewrite <- (assoc_L (++))).
  rewrite (proj2 (Z.ltb_ge _ _) Hs), Han. cbn. rewrite Ho. cbn. by rewrite <- (assoc_L (++)).
Qed.

Lemma testmode_statistics tr mac buf msg s sinfo :
  MTK_TURNKEY_WLAN cfg = true -> answered tr (statistics_request mac buf) msg ->
  answer_table STA_STATISTICS_NUM sta_statistics_policy msg = Some sinfo ->
  wpa_driver_nl80211_testmode cfg ifindex tr (statistics_request mac buf) (OutStats s) =
  Ret (0, OutStats (sta_statistics_decoded sinfo s), tr ++ exchange (statistics_request mac buf)).
Proof.
  intros Ht Han Hm. apply (testmode_answered _ _ msg 16 stats_callback); [done|done| |done|].
  - by apply (request_index_stored A 16).
  - cbn. by rewrite statistics_handler_decodes, Hm.
Qed.

Lemma testmode_link tr buf msg l sinfo :
  MTK_TURNKEY_WLAN cfg = true -> MTK_POOR_LINK_DETECT cfg = true -> answered tr (link_request buf) msg ->
  answer_table LINK_DETECT_NUM link_detect_policy msg = Some sinfo ->
  (forall x, sinfo 4%nat = Some x -> s64 (nla_get_u64 x) <> - 2 ^ 63) ->
  wpa_driver_nl80211_testmode cfg ifindex tr (link_request buf) (OutLink l) =
  Ret (0, OutLink (link_detect_decoded sinfo l), tr ++ exchange (link_request buf)).
Proof.
  intros Ht Hp Han Hm Hx. apply (testmode_answered _ _ msg 32 link_callback); [done|done| | |].
  - by apply (request_index_stored A 32).
  - unfold select_handler. rewrite Hp. change (32 =? 16) with false. change (32 =? 18) with false.
    by rewrite andb_false_r.
  - cbn. rewrite link_handler_decodes, Hm. rewrite bool_decide_false; [done|].
    destruct (sinfo 4%nat) as [x|]; [|by inversion 1].
    intros HE. inversion HE as [? ? E|? ? HE']; subst; [|inversion HE']. by apply (Hx x).
Qed.

(** The whole function behind the command. *)
Lemma get_statistics_answered tr text mac buf garbage behind m n msg sinfo x :
  MTK_TURNKEY_WLAN cfg = true -> hwaddr_aton text = Some mac ->
  answered tr (statistics_request mac buf) msg ->
  answer_table STA_STATISTICS_NUM sta_statistics_policy msg = Some sinfo -> sinfo 8%nat = Some x ->
  wf_sta_statistics garbage -> (605 ≤ n ≤ length m)%nat ->
  let report := statistics_text (sta_statistics_decoded sinfo garbage) in
  let run := wpa_driver_get_sta_statistics (wpa_driver_nl80211_testmode cfg ifindex) A buf garbage behind
               tr text m n in
  match behind with
  | None => run = Undef OutOfBounds
  | Some _ =>
      exists m', run = Ret (Z.of_nat (length report), m', tr ++ exchange (statistics_request mac buf)) /\
        cstr m' = Some report /\ drop n m' = drop n m
  end.
Proof.
  intros Ht Hmac Han Hm Hx Hwf [Hlo Hhi] report run. unfold run. clear run.
  unfold wpa_driver_get_sta_statistics, wpas_get_sta_statistics. rewrite Hmac.
  pose proof (hwaddr_aton_length text mac Hmac) as Hl.
  rewrite mem_read_whole by lia. rewrite bind_Ret, take_ge by lia.
  fold (statistics_request mac buf). rewrite (testmode_statistics _ _ _ _ garbage _ Ht Han Hm).
  rewrite !bind_Ret. change (0 <? 0) with false. cbv iota.
  assert (tx_rate (sta_statistics_decoded sinfo garbage) = tx_rate_of (nla_get_u16 x)) as Hrate
    by (unfold sta_statistics_decoded, attr_or; cbn; by rewrite Hx).
  pose proof (print_complete (sta_statistics_decoded sinfo garbage) (nla_get_u16 x) behind m n
    (decoded_wf _ _ Hwf) (nla_get_u16_range x) Hrate Hlo Hhi) as Hp.
  destruct behind as [b|]; [|by rewrite Hp].
  destruct Hp as (m' & -> & Hc & Hd). rewrite bind_Ret. by exists m'.
Qed.

Lemma classify_statistics text :
  classify cfg (str "GET_STA_STATISTICS " ++ text) = Some CGetStaStatistics.
Proof. reflexivity. Qed.

Lemma classify_link_detect text :
  MTK_POOR_LINK_DETECT cfg = true ->
  classify cfg (str "GET_STA_LINK_DETECT" ++ text) = Some CGetStaLinkDetect.
Proof. intros Hp. unfold classify, command_table. rewrite Hp. reflexivity. Qed.

(** The decoded counters are 64 bit values. *)
Lemma link_decoded_counters sinfo l :
  Forall (in_u 64) (link_counters l) -> Forall (in_u 64) (link_counters (link_detect_decoded sinfo l)).
Proof.
  intros W. unfold link_counters in *. unfold link_detect_decoded. cbn.
  repeat match goal with W : Forall _ (_ :: _) |- _ => apply Forall_cons_1 in W as [? W] end.
  repeat apply Forall_cons_2; try apply Forall_nil_2;
    (apply attr_or_ind; [intros x; try apply nla_get_u64_range|done]).
  unfold magnitude64. pose proof (swrap_range 64 (nla_get_u64 x) ltac:(lia)) as [Hlo Hhi].
  change (swrap 64) with s64 in Hlo, Hhi. unfold in_u. change (64 - 1) with 63 in *. lia.
Qed.

Lemma get_link_answered tr buf garbage m n msg sinfo :
  MTK_TURNKEY_WLAN cfg = true -> MTK_POOR_LINK_DETECT cfg = true -> answered tr (link_request buf) msg ->
  answer_table LINK_DETECT_NUM link_detect_policy msg = Some sinfo ->
  (forall x, sinfo 4%nat = Some x -> s64 (nla_get_u64 x) <> - 2 ^ 63) ->
  Forall (in_u 64) (link_counters garbage) -> (267 ≤ n ≤ length m)%nat ->
  let report := concat (link_pieces (link_detect_decoded sinfo garbage)) in
  exists m', wpa_driver_get_sta_link_detect (wpa_driver_nl80211_testmode cfg ifindex) A buf garbage tr m n =
      Ret (Z.of_nat (length report), m', tr ++ exchange (link_request buf)) /\
    cstr m' = Some report /\ drop n m' = drop n m.
Proof.
  intros Ht Hp Han Hm Hx Hg [Hlo Hhi] report.
  edestruct (link_report_printed (wpa_driver_nl80211_testmode cfg ifindex) A buf garbage tr m n
    (link_detect_decoded sinfo garbage) 0) as (r & m' & E & Hr); [|by apply link_decoded_counters|done..|].
  - unfold wpas_get_sta_link_detect. fold (link_request buf).
    by rewrite (testmode_link _ _ _ garbage _ Ht Hp Han Hm Hx).
  - cbn in Hr. destruct Hr as (-> & Hc & Hd). by exists m'.
Qed.

(** ** Properties *)

(** C3: a statistics query, end to end: the command "GET_STA_STATISTICS <address>" with a
    valid address and a buffer of at least 605 bytes, when the kernel answers the request
    with statistics that include the rate.  The printing evaluates element 32 of [reserved], the
    byte behind the structure: where that byte may not be read, as in C, the behaviour of the
    call is undefined.  Where the program finds a byte there, the call has sent exactly one
    testmode request, which names the station, it returns the length of the report, and
    the buffer holds, as a terminated string, the report of the decoded attributes; nothing
    behind the buffer, in wpa_supplicant's state or in the error counter changes. *)
Theorem statistics_command (ov : overlays) (g : stack) (P2P_CONCURRENT MAX_ERRORS : Z)
    (bss : i802_bss) (drv : driver_data) (text mac m : list byte) (n : nat) (s : cmd_state)
    (msg : nl_msg) (sinfo : nat -> option nlattr) (rate : nlattr)
    (Hturnkey : MTK_TURNKEY_WLAN cfg = true)
    (Hdrv : bss_drv bss = Some drv) (Hctx : drv_ctx drv <> 0)
    (Hif : bss_ifname bss <> str "ap0") (Hconf : is_Some (conf (st_wpa s)))
    (Htext : NUL ∉ text) (Hmac : hwaddr_aton text = Some mac)
    (Hbuf : st_buf s = Some m) (Hlen : (605 ≤ n ≤ length m)%nat)
    (Hstack : wf_sta_statistics (g_stats g))
    (Hans : answered (st_trace s) (statistics_request mac (g_stats_addr g)) msg)
    (Hmsg : answer_table STA_STATISTICS_NUM sta_statistics_policy msg = Some sinfo)
    (Hrate : sinfo 8%nat = Some rate) :
  let report := statistics_text (sta_statistics_decoded sinfo (g_stats g)) in
  let run := wpa_driver_nl80211_driver_cmd (wpa_driver_nl80211_testmode cfg ifindex) A cfg ov g
    P2P_CONCURRENT MAX_ERRORS bss (str "GET_STA_STATISTICS " ++ text ++ [NUL]) n s in
  match g_behind g with
  | None => run = Undef OutOfBounds
  | Some _ =>
      exists m',
        run = Ret (Z.of_nat (length report),
          {| st_trace := st_trace s ++ exchange (statistics_request mac (g_stats_addr g));
             st_buf := Some m'; st_wpa := st_wpa s; drv_errors := drv_errors s |}) /\
        cstr m' = Some report /\ drop n m' = drop n m
  end.
Proof.
  intros report run. unfold run. clear run. rewrite (assoc_L (++)).
  rewrite (entry_branch _ _ _ _ _ _ _ _ drv _ CGetStaStatistics); [|done|done|done| |by apply classify_statistics];
    cycle 1.
  { rewrite not_elem_of_app. split; [decide_now|done]. }
  cbn [run_command].
  unfold cmd_get_sta_statistics, use_wpa_s, str_eq, buf_mem.
  rewrite bool_decide_false, bind_Ret, Hbuf by done.
  change (drop 19 (str "GET_STA_STATISTICS " ++ text)) with text. cbn [default]. unfold id.
  pose proof (get_statistics_answered (st_trace s) text mac (g_stats_addr g) (g_stats g) (g_behind g) m n
    msg sinfo rate Hturnkey Hmac Hans Hmsg Hrate Hstack Hlen) as Hr. cbn zeta in Hr.
  destruct (g_behind g) as [b|]; [|by rewrite Hr].
  destruct Hr as (m' & Hr & Hc & Hd). rewrite Hr, !bind_Ret. exists m'. split; [|done].
  unfold put_buf. rewrite Hbuf. by destruct s.
Qed.

(** C5: the link query, end to end: "GET_STA_LINK_DETECT" with a buffer of at least 267
    bytes sends exactly one testmode request; when the kernel answers with counters
    whose ACK failure count has a magnitude, the call returns the length of the report
    and the buffer holds, as a terminated string, the eight decoded counters; nothing
    behind the buffer, in wpa_supplicant's state or in the error counter changes. *)
Theorem link_detect_command (ov : overlays) (g : stack) (P2P_CONCURRENT MAX_ERRORS : Z)
    (bss : i802_bss) (drv : driver_data) (text m : list byte) (n : nat) (s : cmd_state)
    (msg : nl_msg) (sinfo : nat -> option nlattr)
    (Hturnkey : MTK_TURNKEY_WLAN cfg = true) (Hlink : MTK_POOR_LINK_DETECT cfg = true)
    (Hdrv : bss_drv bss = Some drv) (Hctx : drv_ctx drv <> 0)
    (Hif : bss_ifname bss <> str "ap0") (Hconf : is_Some (conf (st_wpa s))) (Htext : NUL ∉ text)
    (Hbuf : st_buf s = Some m) (Hlen : (267 ≤ n ≤ length m)%nat)
    (Hstack : Forall (in_u 64) (link_counters (g_link g)))
    (Hans : answered (st_trace s) (link_request (g_link_addr g)) msg)
    (Hmsg : answer_table LINK_DETECT_NUM link_detect_policy msg = Some sinfo)
    (Hack : forall x, sinfo 4%nat = Some x -> s64 (nla_get_u64 x) <> - 2 ^ 63) :
  let report := concat (link_pieces (link_detect_decoded sinfo (g_link g))) in
  exists m',
    wpa_driver_nl80211_driver_cmd (wpa_driver_nl80211_testmode cfg ifindex) A cfg ov g
      P2P_CONCURRENT MAX_ERRORS bss (str "GET_STA_LINK_DETECT" ++ text ++ [NUL]) n s =
    Ret (Z.of_nat (length report),
         {| st_trace := st_trace s ++ exchange (link_request (g_link_addr g));
            st_buf := Some m'; st_wpa := st_wpa s; drv_errors := drv_errors s |}) /\
    cstr m' = Some report /\ drop n m' = drop n m.
Proof.
  intros report. rewrite (assoc_L (++)).
  rewrite (entry_branch _ _ _ _ _ _ _ _ drv _ CGetStaLinkDetect); [|done|done|done| |by apply classify_link_detect];
    cycle 1.
  { rewrite not_elem_of_app. split; [decide_now|done]. }
  cbn [run_command]. unfold cmd_get_sta_link_detect, use_wpa_s, str_eq, buf_mem.
  rewrite bool_decide_false, bind_Ret, Hbuf by done. cbn [default].
  destruct (get_link_answered (st_trace s) (g_link_addr g) (g_link g) m n msg sinfo)
    as (m' & Hr & Hc & Hd); try done.
  unfold id. rewrite Hr, !bind_Ret. exists m'. split; [|done].
  unfold put_buf. rewrite Hbuf. by destruct s.
Qed.

End Query.

(** ** Witnesses *)

Definition demo_sinfo : nat -> option tree_attr :=
  match answer_table (NL := tree_libnl) STA_STATISTICS_NUM sta_statistics_policy stats_answer with
  | Some f => f
  | None => fun _ => None
  end.

Definition demo_mac : list byte := default [] (parse_mac ETH_ALEN (str "00:11:22:33:44:5f")).

Definition query_state : cmd_state := demo_state{{st_buf := Some (zeros 700)}}.

(** A stack with a byte behind the statistics. *)
Definition padded_stack : stack :=
  {| g_stats := stack_stats; g_stats_addr := 0; g_behind := Some Byte.xaa; g_link := demo_link;
     g_link_addr := 0; g_channel := (170, 187); g_suspend := replicate 12 Byte.xaa |}.

Lemma demo_answered :
  @answered tree_libnl (ack_kernel [stats_answer]) 7 [] (statistics_request Arm64 demo_mac 0) stats_answer.
Proof. constructor; first [reflexivity|intros; reflexivity|vm_compute; discriminate]. Qed.

Lemma statistics_command_witness :
  let report := statistics_text (sta_statistics_decoded (NL := tree_libnl) demo_sinfo stack_stats) in
  exists m',
    @wpa_driver_nl80211_driver_cmd tree_libnl (ack_kernel [stats_answer])
      (@wpa_driver_nl80211_testmode _ (ack_kernel [stats_answer]) config_all 7) Arm64 colon_mac config_all
      demo_ov padded_stack 1 4 demo_bss (lit "GET_STA_STATISTICS 00:11:22:33:44:5f") 650 query_state =
    Ret (Z.of_nat (length report),
         {| st_trace := [] ++ exchange (NL := tree_libnl) 7 (statistics_request Arm64 demo_mac 0);
            st_buf := Some m'; st_wpa := demo_supplicant; drv_errors := 3 |}) /\
    cstr m' = Some report /\ drop 650 m' = drop 650 (zeros 700).
Proof.
  simple refine (@statistics_command tree_libnl (ack_kernel [stats_answer]) _ Arm64 colon_mac colon_mac_laws config_all
    7 demo_ov padded_stack 1 4 demo_bss demo_drv (str "00:11:22:33:44:5f") demo_mac (zeros 700) 650 query_state
    stats_answer demo_sinfo (default (Leaf []) (demo_sinfo 8%nat)) _ _ _ _ _ _ _ _ _ _ _ _ _).
  - reflexivity.
  - reflexivity.
  - discriminate.
  - discriminate.
  - by eexists.
  - decide_now.
  - reflexivity.
  - reflexivity.
  - rewrite length_zeros. lia.
  - apply stack_stats_wf.
  - apply demo_answered.
  - reflexivity.
  - reflexivity.
Defined.

(** An answer with three of the eight counters, one of them negative. *)
Definition link_answer : list (nat * tree_attr) :=
  [(69%nat, Nest [(1%nat, Leaf (le_split 8 5)); (4%nat, Leaf (le_split 8 (-7)));
                  (6%nat, Leaf (le_split 8 (2 ^ 40)))])].

Definition demo_link_sinfo : nat -> option tree_attr :=
  match answer_table (NL := tree_libnl) LINK_DETECT_NUM link_detect_policy link_answer with
  | Some f => f
  | None => fun _ => None
  end.

Lemma demo_link_answered :
  @answered tree_libnl (ack_kernel [link_answer]) 7 [] (link_request Arm64 (g_link_addr demo_stack)) link_answer.
Proof. constructor; first [reflexivity|intros; reflexivity|vm_compute; discriminate]. Qed.

Lemma link_detect_command_witness :
  let report := concat (link_pieces (link_detect_decoded (NL := tree_libnl) demo_link_sinfo (g_link demo_stack))) in
  exists m',
    @wpa_driver_nl80211_driver_cmd tree_libnl (ack_kernel [link_answer])
      (@wpa_driver_nl80211_testmode _ (ack_kernel [link_answer]) config_all 7) Arm64 colon_mac config_all
      demo_ov demo_stack 1 4 demo_bss (lit "GET_STA_LINK_DETECT") 300 query_state =
    Ret (Z.of_nat (length report),
         {| st_trace := [] ++ exchange (NL := tree_libnl) 7 (link_request Arm64 (g_link_addr demo_stack));
            st_buf := Some m'; st_wpa := demo_supplicant; drv_errors := 3 |}) /\
    cstr m' = Some report /\ drop 300 m' = drop 300 (zeros 700).
Proof.
  apply (@link_detect_command tree_libnl (ack_kernel [link_answer]) _ Arm64 colon_mac config_all
    7 demo_ov demo_stack 1 4 demo_bss demo_drv [] (zeros 700) 300 query_state link_answer demo_link_sinfo).
  - reflexivity.
  - reflexivity.
  - reflexivity.
  - discriminate.
  - discriminate.
  - by eexists.
  - decide_now.
  - reflexivity.
  - rewrite length_zeros. lia.
  - repeat constructor; vm_compute; discriminate.
  - apply demo_link_answered.
  - reflexivity.
  - intros x [= <-]. vm_compute. discriminate.
Defined.
