(* ===== verification/Live.v ===== *)
(** * Requests that come back

    The receive loop of the testmode channel ends only when the kernel settles the
    request.  This file states what is needed of the kernel, shows that the channel of
    the code then returns for every request ([LiveChannel]), and that every function of
    the library that sends one returns on such a channel, with the conditions on its
    arguments that keep it inside its objects. *)

From S2P Require Import Prelude CString Printf Layout Structs World Handlers Testmode.
From S2P Require Import Requests Statistics P2pSink DriverCmd.

(** ** Computations that return *)

(** [m] returns a value that satisfies [P]: total correctness. *)
Definition returns {A} (m : outcome A) (P : A -> Prop) : Prop := exists a, m = Ret a /\ P a.

Lemma returns_ret {A} (a : A) (P : A -> Prop) : P a -> returns (Ret a) P.
Proof. intros. by exists a. Qed.

Lemma returns_bind {A B} (m : outcome A) (f : A -> outcome B) P Q :
  returns m P -> (forall a, P a -> returns (f a) Q) -> returns (a ← m; f a) Q.
Proof. intros (a & -> & Ha) Hf. by apply Hf. Qed.

Lemma returns_fmap {A B} (m : outcome A) (f : A -> B) P Q :
  returns m P -> (forall a, P a -> Q (f a)) -> returns (f <$> m) Q.
Proof. intros (a & -> & Ha) Hf. exists (f a). auto. Qed.

Lemma returns_mono {A} (m : outcome A) (P Q : A -> Prop) :
  returns m P -> (forall a, P a -> Q a) -> returns m Q.
Proof. intros (a & -> & Ha) Hf. exists a. auto. Qed.

Lemma returns_deref {A} (p : option A) (P : A -> Prop) a : p = Some a -> P a -> returns (deref p) P.
Proof. intros -> Ha. by apply returns_ret. Qed.

Lemma returns_read m off n :
  (off + n ≤ length m)%nat -> returns (mem_read m off n) (fun l => length l = n).
Proof.
  intros. unfold mem_read. rewrite decide_True by done. apply returns_ret.
  rewrite length_take, length_drop. lia.
Qed.

Lemma returns_write m off src :
  (off + length src ≤ length m)%nat -> returns (mem_write m off src) (fun m' => length m' = length m).
Proof.
  intros H. pose proof (mem_write_in_range m off src H) as E. exists (take off m ++ src ++ drop (off + length src) m).
  split; [done|]. by eapply mem_write_length.
Qed.

(** ** Kernels and channels that answer *)

Section Channel.
Context {NL : Libnl} {K : Kernel}.

(** The ACK failure count of a link detection answer has a magnitude. *)
Definition countable (msg : nl_msg) : Prop :=
  forall sinfo x, answer_table LINK_DETECT_NUM link_detect_policy msg = Some sinfo ->
    sinfo 4%nat = Some x -> s64 (nla_get_u64 x) <> - 2 ^ 63.

(** Every request is settled in the end, and the private ioctl answers with a string
    inside the buffer it was given. *)
Class Responsive : Prop := {
  rk_settles : forall tr, Exists (fun b => batch_status b 1 <= 0) (nl_answers tr);
  rk_countable : forall tr, Forall (delivers countable) (nl_answers tr);
  rk_private : forall tr c, NUL ∈ pc_buf c ->
    let '(_, answer, _) := ioctl_private tr c in
    (length answer ≤ length (pc_buf c))%nat /\ NUL ∈ answer ++ drop (length answer) (pc_buf c)
}.

(** The object the answer is stored into is the one the request's identifier calls
    for. *)
Definition expected (id : Z) (o : out_obj) : Prop :=
  (id = 16 -> exists s, o = OutStats s) /\ (id = 18 -> exists v, o = OutGoReady v) /\
  (id = 32 -> exists l, o = OutLink l) /\ (id = 48 -> exists c, o = OutChan c).

(** What the senders need for termination, beside [TestmodeChannel]. *)
Class LiveChannel (tm : channel) : Prop :=
  tm_live : forall tr d o id, request_index d = Ret id -> expected id o ->
    returns (tm tr d o) (fun _ => True).

Lemma go_ready_callback_skips Q :
  skips Q (fun o => exists v, o = OutGoReady v) (Some go_ready_callback).
Proof.
  intros msg o _ [v ->]. cbn. unfold testmode_beamplus_go_ready_handler.
  rewrite run_handler_table. destruct (answer_table _ _ _); [|by eauto].
  edestruct @attr_loop_returns as [v' ->]; [|by eauto]. eauto.
Qed.

Lemma chan_callback_skips Q : skips Q (fun o => exists c, o = OutChan c) (Some chan_callback).
Proof.
  intros msg o _ [c ->]. cbn. unfold testmode_available_channel_handler.
  rewrite run_handler_table. destruct (answer_table _ _ _); [|by eauto].
  edestruct @attr_loop_returns as [v' ->]; [|by eauto]. eauto.
Qed.

Lemma link_callback_skips : skips countable (fun o => exists l, o = OutLink l) (Some link_callback).
Proof.
  intros msg o Hc [l ->]. cbn. rewrite link_handler_decodes.
  destruct (answer_table _ _ _) as [sinfo|] eqn:Et; [|by eauto].
  rewrite bool_decide_false; [by eauto|].
  destruct (sinfo 4%nat) as [x|] eqn:Ex; [|by inversion 1].
  intros HE. inversion HE as [? ? Hx|? ? HE']; subst; [|inversion HE'].
  by apply (Hc sinfo x).
Qed.

(** The handler the switch selects works on the expected object. *)
Lemma select_skips cfg id o :
  expected id o -> exists P : out_obj -> Prop, P o /\ skips countable P (select_handler cfg id).
Proof.
  intros (H16 & H18 & H32 & H48). unfold select_handler.
  destruct (Z.eqb_spec id 16) as [E|_].
  { exists (same_kind (OutStats stack_stats)). destruct (H16 E) as [s ->].
    split; [done|]. apply stats_callback_skips. }
  destruct (_ && (id =? 18)) eqn:E; [apply andb_true_iff in E as [_ E%Z.eqb_eq]|clear E].
  { exists (fun o => exists v, o = OutGoReady v). split; [by apply H18|apply go_ready_callback_skips]. }
  destruct (_ && (id =? 32)) eqn:E; [apply andb_true_iff in E as [_ E%Z.eqb_eq]|clear E].
  { exists (fun o => exists l, o = OutLink l). split; [by apply H32|apply link_callback_skips]. }
  destruct (_ && (id =? 48)) eqn:E; [apply andb_true_iff in E as [_ E%Z.eqb_eq]|clear E].
  { exists (fun o => exists c, o = OutChan c). split; [by apply H48|apply chan_callback_skips]. }
  by exists (fun _ => True).
Qed.

(** The channel of the code is live on a responsive kernel. *)
#[global] Instance testmode_is_live `{!Responsive} cfg ifindex :
  LiveChannel (wpa_driver_nl80211_testmode cfg ifindex).
Proof.
  intros tr d o id Hid Ho. unfold wpa_driver_nl80211_testmode.
  destruct (MTK_TURNKEY_WLAN cfg); cbn [negb]; [|by apply returns_ret].
  destruct (nlmsg_alloc_ok tr); cbn [negb]; [|by apply returns_ret].
  do 2 (destruct (nla_put_ok _ _ _); cbn [negb]; [|by apply returns_ret]).
  rewrite Hid, bind_Ret. unfold send_and_recv_msgs.
  destruct (nl_cb_clone_ok _); cbn [negb]; [|by apply returns_ret].
  destruct (_ <? 0); [by apply returns_ret|].
  destruct (select_skips cfg id o Ho) as (P & HP & Hs).
  match goal with |- returns (mbind _ (recv_loop _ (nl_answers ?h) _ _)) _ =>
    destruct (proj2 (recv_loop_iff countable P _ (nl_answers h) 1 o Hs (rk_countable h) HP ltac:(lia))
                (rk_settles h)) as (e & o' & ->) end.
  by apply returns_ret.
Qed.

End Channel.

(** ** The senders *)

(** A pointer that is null or has [len] readable bytes behind it. *)
Definition readable (p : option (list byte)) (len : Z) : Prop :=
  forall l, p = Some l -> len <= Z.of_nat (length l).

(** The WAPI key the caller placed in the buffer fits the request. *)
Record wf_wapi_key (k : wapi_key_param_type) : Prop := {
  wk_wf_addr : readable (wk_addr k) (Z.of_nat ETH_ALEN);
  wk_wf_idx : wk_key_idx k < 2 ^ 31 - 1;
  wk_wf_seq : readable (wk_seq k) (wk_seq_len k);
  wk_wf_key : wk_key_len k <= 32 /\ readable (wk_key k) (wk_key_len k)
}.

(** So does the Wi-Fi Display structure. *)
Record wf_wfd (wfd_size : Z) (p : wfd_data_s) : Prop := {
  wd_size : in_u 32 wfd_size;
  wd_members : wf_wfd_data p;
  wd_ie : WfdSessionInformationIELen p <= 192 /\
    WfdSessionInformationIELen p <= Z.of_nat (length (WfdSessionInformationIE p))
}.

Section Senders.
Context {NL : Libnl} (tm : channel) `{!LiveChannel tm} (A : abi) `{!WpaCommon} `{!WpaCommonLaws}.

(** A request that starts with the identifier of no query returns. *)
Lemma live_store tr m id ts vs :
  0 <= id < 2 ^ 24 -> id ∉ [16; 18; 32; 48] ->
  returns (tm tr (store A m (U32 :: ts) (VI (versioned id) :: vs)) OutNone) (fun _ => True).
Proof.
  intros Hid Hn. eapply tm_live; [by apply request_index_store|].
  split_and!; intros ->; destruct Hn; decide_now.
Qed.

(** [m] is a structure of the type, filled member by member, whose header holds the
    identifier. *)
Definition headed (ts : list ctype) (id : Z) (m : list byte) : Prop :=
  exists vs, built A (U32 :: ts) m (VI (versioned id) :: vs).

Lemma headed_set ts id m i t v :
  headed ts id m -> ts !! i = Some t -> typed A t v ->
  returns (set_member A (U32 :: ts) m (S i) v) (headed ts id).
Proof.
  intros [vs B] Hi Hv. destruct (built_set A _ m _ (S i) t v B Hi Hv) as (m' & E & B').
  exists m'. split; [done|]. by eexists.
Qed.

(** A member of array type holds an array. *)
Lemma headed_array ts id m vs i n :
  built A (U32 :: ts) m (VI (versioned id) :: vs) -> ts !! i = Some (Arr n) ->
  exists l, vs !! i = Some (VA l).
Proof.
  intros [_ T] Hi. apply Forall2_cons_1 in T as [_ T].
  destruct (Forall2_lookup_l _ _ _ _ _ T Hi) as (v & Hv & Ht). destruct v as [|l]; [done|eauto].
Qed.

Lemma headed_copy ts id m i n l :
  headed ts id m -> ts !! i = Some (Arr n) -> (length l ≤ n)%nat ->
  returns (mem_write m (offset_of A (U32 :: ts) (S i)) l) (headed ts id).
Proof.
  intros [vs B] Hi Hl. destruct (headed_array ts id m vs i n B Hi) as [old Ho].
  destruct (built_copy A _ m _ (S i) n old l B Hi Ho Hl) as (m' & E & B').
  exists m'. split; [done|]. by eexists.
Qed.

Lemma live_headed tr ts id m :
  headed ts id m -> 0 <= id < 2 ^ 24 -> id ∉ [16; 18; 32; 48] ->
  returns (tm tr m OutNone) (fun _ => True).
Proof. intros [vs [-> _]] Hid Hn. by apply live_store. Qed.

(** Reading [len] bytes behind a pointer. *)
Lemma read_behind p l len :
  readable p len -> p = Some l -> returns (mem_read l 0 (Z.to_nat len)) (fun b => length b = Z.to_nat len).
Proof. intros Hp E. apply Hp in E. apply returns_read. lia. Qed.

(** The sequence number runs on from [tx_seq] into [rx_seq]. *)
Lemma headed_seq m b (ts := drop 1 wapi_key_params_t) id :
  headed ts id m -> (length b ≤ 16)%nat ->
  returns (mem_write m (offset_of A wapi_key_params_t 5) b) (headed ts id).
Proof.
  intros [vs B] Hb.
  destruct (headed_array _ _ _ vs 4 8 B eq_refl) as [tx Htx].
  destruct (headed_array _ _ _ vs 5 8 B eq_refl) as [rx Hrx]. destruct B as [-> B].
  assert (length tx = 8%nat) by (by apply (Forall2_lookup_lr _ _ _ 5%nat (Arr 8) (VA tx)) in B).
  assert (length rx = 8%nat) by (by apply (Forall2_lookup_lr _ _ _ 6%nat (Arr 8) (VA rx)) in B).
  eexists. split; [by apply (write_seq A _ tx rx)|]. eexists. split; [reflexivity|].
  apply Forall2_cons_1 in B as [Bi B]. constructor; [done|].
  apply (typed_insert A ts _ 5 (Arr 8)); [|done|];
    [apply (typed_insert A ts _ 4 (Arr 8)); [done|done|]|];
    cbn; rewrite length_app, ?length_take, !length_drop; lia.
Qed.

(** The request is filled without leaving the structure, whatever is null or empty. *)
Lemma wapi_request_headed k :
  wf_wapi_key k -> wk_seq_len k <= 16 ->
  returns (wapi_key_request A (wk_addr k) (wk_key_idx k) (wk_set_tx k) (wk_seq k) (wk_seq_len k)
             (wk_key k) (wk_key_len k))
    (headed (drop 1 wapi_key_params_t) NL80211_TESTMODE_WAPI).
Proof.
  intros [Ha _ Hs [Hk32 Hk]] Hs16. unfold wapi_key_request. cbn zeta.
  pose proof (wapi_initial_typed A (wk_key_idx k) (wk_key_len k) (wk_addr k) (wk_set_tx k)) as T.
  destruct (wapi_addr_read (wk_addr k)) as [-> Hal]; [intros a E; apply Ha in E; unfold ETH_ALEN in *; lia|].
  rewrite bind_Ret. set (ts := drop 1 wapi_key_params_t). set (id := NL80211_TESTMODE_WAPI).
  assert (forall m i t v, headed ts id m -> ts !! i = Some t -> typed A t v ->
    returns (set_member A wapi_key_params_t m (S i) v) (headed ts id)) as Hset by apply headed_set.
  apply returns_bind with (headed ts id).
  { apply (Hset _ 6%nat (Arr 6)); [|done|exact Hal]. eexists. split; [reflexivity|exact T]. }
  intros m1 H1. apply returns_bind with (headed ts id).
  { destruct (wk_key k) as [kb|] eqn:Ek; [|by apply returns_ret].
    destruct (_ =? 0); [by apply returns_ret|].
    eapply returns_bind; [by eapply read_behind|]. cbn beta. intros b Hb.
    apply returns_bind with (headed ts id); [by apply (headed_copy ts id m1 9 32); [| |lia]|].
    intros m2 H2. apply (Hset _ 8%nat U16); [done|done|]. apply u16_in_u. }
  intros m3 H3. apply returns_bind with (headed ts id); [by apply (Hset _ 7%nat U16)|].
  intros m4 H4. destruct (wk_seq k) as [sb|] eqn:Es; [|by apply returns_ret].
  destruct (_ =? 0); [by apply returns_ret|].
  eapply returns_bind; [by eapply read_behind|]. cbn beta. intros b Hb. by apply headed_seq; [|lia].
Qed.

Lemma set_wapi_key_returns tr k :
  wf_wapi_key k ->
  returns (wpa_driver_nl80211_set_wapi_key tm A tr (wk_addr k) (wk_key_idx k) (wk_set_tx k) (wk_seq k)
             (wk_seq_len k) (wk_key k) (wk_key_len k)) (fun _ => True).
Proof.
  intros W. unfold wpa_driver_nl80211_set_wapi_key.
  change (Z.of_nat IW_ENCODE_SEQ_MAX_SIZE * 2) with 16.
  destruct (Z.ltb_spec 16 (wk_seq_len k)); [by apply returns_ret|].
  rewrite (proj2 (Z.leb_gt _ _)) by apply W.
  eapply returns_bind; [by apply wapi_request_headed|]. intros m Hm.
  eapply returns_bind; [eapply live_headed; [exact Hm|done|decide_now]|].
  intros [[r o] tr'] _. by apply returns_ret.
Qed.

Lemma wfd_update_returns tr size p :
  wf_wfd size p -> returns (wpas_wfd_data_update tm A size tr p) (fun _ => True).
Proof.
  intros [Hs Hm [Hie Hl]]. unfold wpas_wfd_data_update.
  destruct (wfd_request_built A size p Hs Hm Hie Hl) as (m & -> & B). rewrite bind_Ret.
  eapply returns_bind; [apply (live_headed tr (drop 1 wfd_data_t) 2); [eexists; exact B|done|decide_now]|].
  intros [[r o] tr'] _. by apply returns_ret.
Qed.

(** The requests without a variable part. *)
Ltac live_call :=
  eapply returns_bind;
  [ first [ apply live_store; [done|decide_now]
          | eapply tm_live; [by apply request_index_stored|split_and!; by eauto] ]
  | intros [[? ?] ?] _; by apply returns_ret ].

Lemma sw_cmd_returns tr set adr dat :
  returns (wpa_driver_nl80211_driver_sw_cmd tm A tr set adr dat) (fun _ => True).
Proof. live_call. Qed.

Lemma sigma_returns tr index value :
  returns (wpas_p2p_sigma_test_mode tm A tr index value) (fun _ => True).
Proof. live_call. Qed.

Lemma hotspot_returns tr bssid blocked :
  returns (wpa_driver_hotspot_block_list_update tm A tr bssid blocked) (fun _ => True).
Proof. live_call. Qed.

Lemma set_beamplus_returns tr value :
  returns (wpas_driver_set_beamplus tm A tr value) (fun _ => True).
Proof. live_call. Qed.

Lemma get_beamplus_returns tr :
  returns (wpas_driver_get_beamplus_go_ready tm A tr) (fun _ => True).
Proof. live_call. Qed.

Lemma link_query_returns tr buf l :
  returns (wpas_get_sta_link_detect tm A tr buf l) (fun _ => True).
Proof. live_call. Qed.

(** The report of the counters, into a buffer of any size. *)
Lemma link_report_returns buf g tr m n :
  (n ≤ length m)%nat ->
  returns (wpa_driver_get_sta_link_detect tm A buf g tr m n) (fun _ => True).
Proof.
  intros Hn. unfold wpa_driver_get_sta_link_detect.
  eapply returns_bind; [apply link_query_returns|]. intros [[r l] tr'] _.
  destruct (r <? 0); [by apply returns_ret|].
  destruct (emit_all_spec m 0 n (link_pieces l)) as (m' & -> & _); [lia|]. by apply returns_ret.
Qed.

(** The blanks of a text; the sigma commands search for one after the other. *)
Definition blanks (s : list byte) : nat := length (filter (fun b => b = SP) s).

Lemma after_blank_returns s :
  (1 ≤ blanks s)%nat -> returns (after_blank s) (fun r => S (blanks r) = blanks s).
Proof.
  unfold after_blank. induction s as [|b s IH]; cbn [strchr]; [by inversion 1|].
  unfold blanks. rewrite filter_cons. intros Hb.
  destruct (decide (b = SP)) as [->|Hne]; [by apply returns_ret|].
  destruct (IH Hb) as (r & E & Hr). destruct (strchr s SP) as [i|]; [|done].
  apply Ret_inj in E as <-. by apply returns_ret.
Qed.

Lemma set_opps_returns tr cmd :
  (2 ≤ blanks cmd)%nat -> returns (p2p_ctrl_iface_set_opps tm A tr cmd) (fun _ => True).
Proof.
  intros Hb. unfold p2p_ctrl_iface_set_opps.
  eapply returns_bind; [apply after_blank_returns; lia|]. cbn beta. intros s Hs.
  destruct (hwaddr_aton s); [|by apply returns_ret].
  eapply returns_bind; [apply after_blank_returns; lia|]. intros _ _.
  eapply returns_bind; [apply sigma_returns|]. intros [r tr'] _. by apply returns_ret.
Qed.

Lemma set_sleep_returns tr cmd :
  (1 ≤ blanks cmd)%nat -> returns (p2p_ctrl_iface_set_sleep tm A tr cmd) (fun _ => True).
Proof.
  intros Hb. unfold p2p_ctrl_iface_set_sleep.
  destruct (hwaddr_aton cmd); [|by apply returns_ret].
  eapply returns_bind; [apply after_blank_returns; lia|]. intros _ _.
  eapply returns_bind; [apply sigma_returns|]. intros [r tr'] _. by apply returns_ret.
Qed.

Lemma set_power_save_returns tr cmd :
  returns (p2p_ctrl_iface_set_power_save tm A tr cmd) (fun _ => True).
Proof.
  eapply returns_bind; [apply sigma_returns|]. intros [r tr'] _. by apply returns_ret.
Qed.

End Senders.
