(* ===== verification/Mrdump.v ===== *)
(** * The memory dump status block

    [mrdump/mrdump_status.c]: the boot loader leaves the result of a memory dump in a
    block near the end of the [expdb] partition; the library reads and clears it. *)

From S2P Require Import Prelude CString Printf.

(** ** Data *)

Inductive MRDUMP_STATUS : Type := MRDUMP_STATUS_NONE | MRDUMP_STATUS_FAILED | MRDUMP_STATUS_OK.

Inductive MRDUMP_OUTPUT : Type :=
| MRDUMP_OUTPUT_NULL
| MRDUMP_OUTPUT_USB
| MRDUMP_OUTPUT_EXT4_DATA
| MRDUMP_OUTPUT_VFAT_INT_STORAGE.

Record mrdump_status_result : Type := {
  struct_size : Z;
  status : MRDUMP_STATUS;
  output : MRDUMP_OUTPUT;
  mode : list byte;          (* char [32] *)
  status_line : list byte;   (* char [128] *)
  log_buf : list byte        (* char [2048] *)
}.

(** [memset] and [struct_size = sizeof(struct mrdump_status_result)]. *)
Definition cleared_result : mrdump_status_result :=
  {| struct_size := 4 + 4 + 4 + 32 + 128 + 2048; status := MRDUMP_STATUS_NONE;
     output := MRDUMP_OUTPUT_NULL; mode := zeros 32; status_line := zeros 128;
     log_buf := zeros 2048 |}.

Definition MRDUMP_OFFSET : Z := 3145728.
Definition MRDUMP_SIG : list byte := str "MRDUMP04".

(** [struct mrdump_cblock_result] is packed: the offsets of [status] and [log_buf], and
    its size. *)
Definition STATUS_OFF : nat := 9.
Definition STATUS_LEN : nat := 128.
Definition LOG_OFF : nat := 137.
Definition CBLOCK_SIZE : nat := 2185.

(** ** The partition *)

(** What the device answers: which of the two names can be opened, whether the queries
    and transfers succeed, and what a failed write leaves behind. *)
Record device : Type := {
  dev_opens : list bool;
  dev_size_ok : bool;
  dev_blksize_ok : bool;
  dev_size : Z;                       (* BLKGETSIZE64 *)
  dev_blksize : Z;                    (* BLKSSZGET *)
  dev_read_ok : bool;
  dev_write_ok : bool;
  dev_torn : (Z -> byte) -> Z -> byte
}.

(** The contents of the partition and the number of open descriptors. *)
Record disk : Type := {
  bytes : Z -> byte;
  open_fds : Z
}.

Record partinfo : Type := {
  pi_size : Z;
  pi_blksize : Z
}.

Definition open_fd (d : disk) : disk := {| bytes := bytes d; open_fds := open_fds d + 1 |}.
Definition close_fd (d : disk) : disk := {| bytes := bytes d; open_fds := open_fds d - 1 |}.

(** The [n] bytes from [off] on. *)
Definition disk_read (d : disk) (off : Z) (n : nat) : list byte :=
  (fun i => bytes d (off + Z.of_nat i)) <$> seq 0 n.

Definition disk_write (d : disk) (off : Z) (l : list byte) : disk :=
  {| bytes := fun a => match l !! Z.to_nat (a - off) with
                      | Some b => if off <=? a then b else bytes d a
                      | None => bytes d a
                      end;
     open_fds := open_fds d |}.

(** [lseek64(fd, off, SEEK_SET)]: the difference is an unsigned 64 bit number, the
    argument is signed. *)
Definition lseek64 (off : Z) : Z := if s64 off <? 0 then -1 else s64 off.

Section Mrdump.
Context (dev : device).

(** The names of [expdb_devs] in turn. *)
Fixpoint expdb_open_from (opens : list bool) (d : disk) : option partinfo * disk :=
  match opens with
  | [] => (None, d)
  | false :: opens' => expdb_open_from opens' d
  | true :: _ =>
      let d1 := open_fd d in
      if negb (dev_size_ok dev) then (None, close_fd d1)
      else if negb (dev_blksize_ok dev) then (None, close_fd d1)
      else (Some {| pi_size := dev_size dev; pi_blksize := dev_blksize dev |}, d1)
  end.

(** [None] is the result -1. *)
Definition expdb_open (d : disk) : option partinfo * disk := expdb_open_from (take 2 (dev_opens dev)) d.

(** [version] is the first line of /sys/module/mrdump/version, [None] when it cannot be
    opened or read. *)
Definition mrdump_is_supported (version : option (list byte)) : Z :=
  match version with Some _ => 1 | None => 0 end.

(** [memset(status, 0, 128); strcpy(status, "CLEAR")] in the block. *)
Definition clear_status (cb : list byte) : list byte :=
  take STATUS_OFF cb ++ str "CLEAR" ++ zeros (STATUS_LEN - 5) ++ drop LOG_OFF cb.

Definition mrdump_status_clear (d : disk) : bool * disk :=
  match expdb_open d with
  | (None, d1) => (false, d1)
  | (Some pi, d1) =>
      let off := lseek64 (u64 (pi_size pi - MRDUMP_OFFSET)) in
      if off <? 0 then (false, close_fd d1)
      else if negb (dev_read_ok dev) then (false, close_fd d1)
      else
        let cb := disk_read d1 off CBLOCK_SIZE in
        if off <? 0 then (false, close_fd d1)
        else if negb (dev_write_ok dev)
        then (false, close_fd {| bytes := dev_torn dev (bytes d1); open_fds := open_fds d1 |})
        else (true, close_fd (disk_write d1 off (clear_status cb)))
  end.

(** ** Parsing *)

(** The lines behind "OK": [do { strval = strtok_r(NULL, "\n", &saveptr); ... } while
    (strval != NULL)].  The first component is [false] for [return false].  The fuel counts
    the iterations: a loop that is not done when it runs out does not return. *)
Fixpoint parse_ok_lines (fuel : nat) (save : list byte) (r : mrdump_status_result)
    : outcome (bool * mrdump_status_result) :=
  match fuel with
  | O => Hang
  | S fuel' =>
      match strtok_r NL save with
      | None => Ret (true, r)
      | Some (strval, save') =>
          if starts_with (str "OUTPUT:") strval then
            if str_eq (drop 7 strval) (str "EXT4_DATA")
            then parse_ok_lines fuel' save' r{{output := MRDUMP_OUTPUT_EXT4_DATA}}
            else if str_eq (drop 7 strval) (str "VFAT_INT_STORAGE")
            then parse_ok_lines fuel' save' r{{output := MRDUMP_OUTPUT_VFAT_INT_STORAGE}}
            else Ret (false, r)
          else if starts_with (str "MODE:") strval
          then parse_ok_lines fuel' save' r{{mode := strlcpy (mode r) (drop 5 strval)}}
          else parse_ok_lines fuel' save' r
      end
  end.

(** The status line [line], a terminated string.  Every line shortens what is left, so
    its length and one more iteration are enough ([parse_ok_lines_terminates]). *)
Definition parse_status (line : list byte) (r : mrdump_status_result)
    : outcome (bool * mrdump_status_result) :=
  match strtok_r NL line with
  | None => Ret (false, r)
  | Some (strval, save) =>
      if str_eq strval (str "OK") then
        parse_ok_lines (S (length save)) save
          r{{status := MRDUMP_STATUS_OK; output := MRDUMP_OUTPUT_NULL}}
      else if str_eq strval (str "NONE") then Ret (true, r{{status := MRDUMP_STATUS_NONE}})
      else if str_eq strval (str "CLEAR") then Ret (true, r{{status := MRDUMP_STATUS_NONE}})
      else Ret (true, r{{status := MRDUMP_STATUS_FAILED}})
  end.

(** [cb] is the block that was read.  The status is copied before it is terminated:
    [strlcpy] takes the length of its source, up to the first terminator from there
    on. *)
Definition read_block (cb : list byte) (r : mrdump_status_result) : outcome (bool * mrdump_status_result) :=
  ok ← strcmp_eq (take STATUS_OFF cb) MRDUMP_SIG;
  if negb ok then Ret (false, r)
  else
    src ← cstr_at cb STATUS_OFF;
    let r1 := r{{status_line := strlcpy (status_line r) src}} in
    let cb1 := <[(STATUS_OFF + STATUS_LEN - 1)%nat := NUL]> cb in
    line ← cstr_at cb1 STATUS_OFF;
    '(parsed, r2) ← parse_status line r1;
    if negb parsed then Ret (false, r2)
    else
      lg ← cstr_at cb1 LOG_OFF;
      Ret (true, r2{{log_buf := strlcpy (log_buf r2) lg}}).

Definition mrdump_status_get (d : disk) : outcome (bool * mrdump_status_result * disk) :=
  match expdb_open d with
  | (None, d1) => Ret (false, cleared_result, d1)
  | (Some pi, d1) =>
      let off := lseek64 (u64 (pi_size pi - MRDUMP_OFFSET)) in
      if off <? 0 then Ret (false, cleared_result, close_fd d1)
      else if negb (dev_read_ok dev) then Ret (false, cleared_result, close_fd d1)
      else
        '(b, r) ← read_block (disk_read d1 off CBLOCK_SIZE) cleared_result;
        Ret (b, r, close_fd d1)
  end.

(** ** Lemmas *)

Lemma close_open d : close_fd (open_fd d) = d.
Proof. destruct d as [b f]. unfold close_fd, open_fd. cbn. f_equal. lia. Qed.

Lemma expdb_open_cases d :
  expdb_open d = (None, d) \/
  expdb_open d = (Some {| pi_size := dev_size dev; pi_blksize := dev_blksize dev |},
                  open_fd d).
Proof.
  unfold expdb_open.
  induction (take 2 (dev_opens dev)) as [|[] l IH]; cbn [expdb_open_from]; [by left| |done].
  rewrite close_open. destruct (dev_size_ok dev), (dev_blksize_ok dev); auto.
Qed.

(** The device can be used: one of the names opens and every request succeeds. *)
Definition usable : Prop :=
  true ∈ take 2 (dev_opens dev) /\ dev_size_ok dev = true /\ dev_blksize_ok dev = true /\
  dev_read_ok dev = true /\ dev_write_ok dev = true /\ MRDUMP_OFFSET <= dev_size dev < 2 ^ 63.

Lemma expdb_open_usable d :
  usable ->
  expdb_open d = (Some {| pi_size := dev_size dev; pi_blksize := dev_blksize dev |},
                  open_fd d).
Proof.
  intros (Ho & Hs & Hb & _). unfold expdb_open. revert Ho.
  induction (take 2 (dev_opens dev)) as [|[] l IH]; cbn; intros Ho; [by apply not_elem_of_nil in Ho| |].
  - by rewrite Hs, Hb.
  - apply IH. by apply elem_of_cons in Ho as [|].
Qed.

Lemma block_offset size :
  MRDUMP_OFFSET <= size < 2 ^ 63 -> lseek64 (u64 (size - MRDUMP_OFFSET)) = size - MRDUMP_OFFSET.
Proof.
  unfold MRDUMP_OFFSET, lseek64, u64, s64. intros H. rewrite uwrap_id by (split; lia).
  rewrite swrap_id by (try split; lia). by rewrite (proj2 (Z.ltb_ge _ _)) by lia.
Qed.

Lemma block_offset_small size :
  0 <= size < MRDUMP_OFFSET -> lseek64 (u64 (size - MRDUMP_OFFSET)) = -1.
Proof.
  unfold MRDUMP_OFFSET, lseek64, u64, uwrap. intros H.
  replace ((size - 3145728) mod 2 ^ 64) with (size - 3145728 + 2 ^ 64)
    by (apply Z.mod_unique with (-1); lia).
  unfold s64, swrap. replace ((size - 3145728 + 2 ^ 64 + 2 ^ (64 - 1)) mod 2 ^ 64)
    with (size - 3145728 + 2 ^ 63) by (apply Z.mod_unique with 1; lia).
  by rewrite (proj2 (Z.ltb_lt _ _)) by lia.
Qed.

Lemma disk_read_length d off n : length (disk_read d off n) = n.
Proof. unfold disk_read. by rewrite length_fmap, length_seq. Qed.

Lemma disk_read_lookup d off n i :
  (i < n)%nat -> disk_read d off n !! i = Some (bytes d (off + Z.of_nat i)).
Proof. intros. unfold disk_read. by rewrite list_lookup_fmap, lookup_seq_lt. Qed.

Lemma disk_read_write d off l : disk_read (disk_write d off l) off (length l) = l.
Proof.
  apply list_eq. intros i. destruct (Nat.lt_ge_cases i (length l)).
  - rewrite disk_read_lookup by done. cbn [bytes disk_write].
    replace (Z.to_nat (off + Z.of_nat i - off)) with i by lia.
    destruct (lookup_lt_is_Some_2 l i) as [b Hb]; [done|]. rewrite Hb.
    by rewrite (proj2 (Z.leb_le off _)) by lia.
  - rewrite !lookup_ge_None_2; [done|done|by rewrite disk_read_length].
Qed.

Lemma clear_status_length cb : length cb = CBLOCK_SIZE -> length (clear_status cb) = CBLOCK_SIZE.
Proof.
  intros H. unfold clear_status. rewrite !length_app, length_take, length_drop, length_zeros, H.
  done.
Qed.

(** The block of a usable device. *)
Definition block (d : disk) : list byte :=
  disk_read d (dev_size dev - MRDUMP_OFFSET) CBLOCK_SIZE.

Lemma clear_usable d :
  usable ->
  mrdump_status_clear d =
  (true, disk_write d (dev_size dev - MRDUMP_OFFSET) (clear_status (block d))).
Proof.
  intros Hu. unfold mrdump_status_clear. rewrite expdb_open_usable by done.
  destruct Hu as (_ & _ & _ & Hr & Hw & Hs). cbn [pi_size]. rewrite block_offset by done.
  rewrite (proj2 (Z.ltb_ge _ 0)), Hr, Hw by lia. cbn [negb]. f_equal.
  exact (close_open (disk_write d (dev_size dev - MRDUMP_OFFSET) (clear_status (block d)))).
Qed.

Lemma get_usable d :
  usable ->
  mrdump_status_get d = ('(b, r) ← read_block (block d) cleared_result; Ret (b, r, d)).
Proof.
  intros Hu. unfold mrdump_status_get. rewrite expdb_open_usable by done.
  destruct Hu as (_ & _ & _ & Hr & _ & Hs). cbn [pi_size]. rewrite block_offset by done.
  rewrite (proj2 (Z.ltb_ge _ 0)), Hr, close_open by lia. reflexivity.
Qed.

Lemma block_clear d :
  block (disk_write d (dev_size dev - MRDUMP_OFFSET) (clear_status (block d))) =
  clear_status (block d).
Proof.
  pose proof (disk_read_write d (dev_size dev - MRDUMP_OFFSET) (clear_status (block d))) as E.
  rewrite clear_status_length in E by apply disk_read_length. exact E.
Qed.

Lemma get_reads_only d b r d' : mrdump_status_get d = Ret (b, r, d') -> bytes d' = bytes d.
Proof.
  unfold mrdump_status_get.
  destruct (expdb_open_cases d) as [-> | ->]; intros Hg; [by inv_outcome|].
  generalize dependent read_block. intros rb Hg.
  destruct (_ <? 0); [by inv_outcome|]. destruct (negb _); [by inv_outcome|].
  inv_outcome. destruct a. by inv_outcome.
Qed.

(** What is read from a cleared block with the log area [l]. *)
Definition cleared_read (lg : list byte) : mrdump_status_result :=
  cleared_result{{status_line := strlcpy (zeros 128) (str "CLEAR");
                  log_buf := strlcpy (zeros 2048) lg}}.

Lemma parse_clear r : parse_status (str "CLEAR") r = Ret (true, r{{status := MRDUMP_STATUS_NONE}}).
Proof. reflexivity. Qed.

Lemma read_cleared l lg :
  cstr l = Some lg ->
  read_block ((MRDUMP_SIG ++ [NUL]) ++ str "CLEAR" ++ zeros (STATUS_LEN - 5) ++ l) cleared_result =
  Ret (true, cleared_read lg).
Proof.
  intros Hl. set (cb := _ ++ _ ++ _ ++ l).
  assert (take STATUS_OFF cb = MRDUMP_SIG ++ [NUL]) as Hsig by done.
  assert (cstr_at cb STATUS_OFF = Ret (str "CLEAR")) as Hst by done.
  assert (cb !! (STATUS_OFF + STATUS_LEN - 1)%nat = Some NUL) as Hlast by done.
  assert (cstr_at cb LOG_OFF = Ret lg) as Hlog.
  { unfold cstr_at. by change (drop LOG_OFF cb) with l; rewrite Hl. }
  unfold read_block. rewrite Hsig. change (strcmp_eq (MRDUMP_SIG ++ [NUL]) MRDUMP_SIG) with (Ret true).
  rewrite bind_Ret. cbn [negb]. rewrite Hst, bind_Ret. rewrite (list_insert_id cb _ NUL Hlast).
  rewrite Hst, bind_Ret, parse_clear, bind_Ret. cbn [negb]. by rewrite Hlog, bind_Ret.
Qed.

(** Outside the status the cleared block is the old one. *)
Lemma clear_status_lookup cb i :
  length cb = CBLOCK_SIZE -> (i < STATUS_OFF \/ LOG_OFF ≤ i)%nat -> clear_status cb !! i = cb !! i.
Proof.
  intros Hl Hi. unfold clear_status. destruct Hi as [Hi|Hi].
  - rewrite lookup_app_l by (rewrite length_take, Hl; unfold STATUS_OFF, CBLOCK_SIZE in *; lia).
    by rewrite lookup_take_lt.
  - rewrite !(assoc_L (++)), lookup_app_r, lookup_drop.
    + rewrite !length_app, length_take, Hl, length_zeros. f_equal. unfold LOG_OFF in *. cbn. lia.
    + rewrite !length_app, length_take, Hl, length_zeros. unfold LOG_OFF in *. cbn. lia.
Qed.

(** The loop ends: it needs at most one iteration more than the text is long. *)
Lemma parse_ok_lines_returns fuel save r :
  (length save < fuel)%nat -> exists b r', parse_ok_lines fuel save r = Ret (b, r').
Proof.
  revert save r. induction fuel as [|fuel IH]; intros save r Hf; [lia|]. cbn.
  destruct (strtok_r NL save) as [[t save']|] eqn:Et; [|by do 2 eexists].
  apply strtok_r_shorter in Et.
  repeat case_match; first [apply IH; lia|by do 2 eexists].
Qed.

(** And more iterations change nothing. *)
Lemma parse_ok_lines_more fuel k save r x :
  parse_ok_lines fuel save r = Ret x -> parse_ok_lines (fuel + k) save r = Ret x.
Proof.
  revert save r. induction fuel as [|fuel IH]; intros save r; cbn; [done|].
  destruct (strtok_r NL save) as [[t save']|]; [|done]. repeat case_match; auto.
Qed.

Lemma parse_ok_lines_output fuel save r b r' :
  output r <> MRDUMP_OUTPUT_USB -> parse_ok_lines fuel save r = Ret (b, r') ->
  output r' <> MRDUMP_OUTPUT_USB.
Proof.
  revert save r. induction fuel as [|fuel IH]; intros save r Ho; cbn; [done|].
  destruct (strtok_r NL save) as [[t save']|]; [|by intros [= <- <-]].
  repeat case_match; intros Hr; simplify_eq; eauto; (eapply IH; [|exact Hr]); done.
Qed.

Lemma read_block_output cb b r :
  read_block cb cleared_result = Ret (b, r) -> output r <> MRDUMP_OUTPUT_USB.
Proof.
  unfold read_block. intros Hr. inv_outcome. destruct (negb a); [by inv_outcome|].
  generalize dependent (STATUS_OFF + STATUS_LEN - 1)%nat. intros last Hr. inv_outcome.
  destruct a2 as [parsed r2].
  assert (output r2 <> MRDUMP_OUTPUT_USB) as Ho.
  { rename E2 into Ep. unfold parse_status in Ep.
    destruct (strtok_r NL _) as [[t save]|]; [|by injection Ep as <- <-].
    destruct (str_eq t (str "OK")); [by eapply parse_ok_lines_output in Ep|].
    by repeat case_match; injection Ep as <- <-. }
  destruct (negb parsed); inv_outcome; done.
Qed.

Lemma get_cleared d lg :
  usable -> take STATUS_OFF (block d) = MRDUMP_SIG ++ [NUL] ->
  cstr (drop LOG_OFF (block d)) = Some lg ->
  let d' := disk_write d (dev_size dev - MRDUMP_OFFSET) (clear_status (block d)) in
  mrdump_status_get d' = Ret (true, cleared_read lg, d').
Proof.
  intros Hu Hsig Hlog d'. unfold d'. rewrite get_usable, block_clear by done.
  assert (clear_status (block d) =
          (MRDUMP_SIG ++ [NUL]) ++ str "CLEAR" ++ zeros (STATUS_LEN - 5) ++ drop LOG_OFF (block d)) as Hc
    by (unfold clear_status; by rewrite Hsig).
  by rewrite Hc, (read_cleared _ lg Hlog).
Qed.

(** The outputs the parser knows, and the text of a successful dump. *)
Definition output_name (o : MRDUMP_OUTPUT) : option (list byte) :=
  match o with
  | MRDUMP_OUTPUT_EXT4_DATA => Some (str "EXT4_DATA")
  | MRDUMP_OUTPUT_VFAT_INT_STORAGE => Some (str "VFAT_INT_STORAGE")
  | MRDUMP_OUTPUT_NULL | MRDUMP_OUTPUT_USB => None
  end.

Definition ok_status_text (m name : list byte) : list byte :=
  str "OK" ++ NL :: (str "MODE:" ++ m) ++ NL :: (str "OUTPUT:" ++ name) ++ [NL].

Lemma parse_mode_line fuel m rest r :
  NL ∉ m ->
  parse_ok_lines (S fuel) ((str "MODE:" ++ m) ++ NL :: rest) r =
  parse_ok_lines fuel rest r{{mode := strlcpy (mode r) m}}.
Proof.
  intros Hm. cbn [parse_ok_lines].
  change (str "MODE:" ++ m) with (Byte.x4d :: (drop 1 (str "MODE:") ++ m)).
  rewrite strtok_r_line; [done|]. apply not_elem_of_cons. split; [done|].
  apply not_elem_of_app. split; [decide_now|done].
Qed.

Lemma parse_output_line fuel o name rest r :
  output_name o = Some name ->
  parse_ok_lines (S fuel) ((str "OUTPUT:" ++ name) ++ NL :: rest) r =
  parse_ok_lines fuel rest r{{output := o}}.
Proof.
  intros Ho. cbn [parse_ok_lines].
  change (str "OUTPUT:" ++ name) with (Byte.x4f :: (drop 1 (str "OUTPUT:") ++ name)).
  destruct o; cbn [output_name] in Ho; try done; injection Ho as <-;
    (rewrite strtok_r_line; [done|decide_now]).
Qed.

(** ** Properties *)

(** C34: the loop over the lines behind "OK" ends for every text: it returns within one
    iteration more than the text is long, and with what it returns then however many
    more it is allowed. *)
Theorem parse_ok_lines_terminates (save : list byte) (r : mrdump_status_result) :
  exists b r', forall k, parse_ok_lines (S (length save) + k) save r = Ret (b, r').
Proof.
  destruct (parse_ok_lines_returns (S (length save)) save r) as (b & r' & E); [lia|].
  exists b, r'. intros k. by apply parse_ok_lines_more.
Qed.

(** The output of a status that was read is never USB. *)
Theorem output_never_usb (d d' : disk) (b : bool) (r : mrdump_status_result)
    (Hget : mrdump_status_get d = Ret (b, r, d')) :
  output r <> MRDUMP_OUTPUT_USB.
Proof.
  unfold mrdump_status_get in Hget. destruct (expdb_open d) as [[pi|] d1]; [|by inv_outcome].
  destruct (_ <? 0); [by inv_outcome|]. destruct (negb _); [by inv_outcome|].
  inv_outcome. destruct a as [b1 r1]. inv_outcome. by eapply read_block_output.
Qed.

(** C33: every descriptor that is opened is closed again, on every path of reading and
    clearing. *)
Theorem descriptors_balanced (d : disk) :
  open_fds (snd (mrdump_status_clear d)) = open_fds d /\
  (forall b r d', mrdump_status_get d = Ret (b, r, d') -> open_fds d' = open_fds d).
Proof.
  split.
  - unfold mrdump_status_clear. destruct (expdb_open_cases d) as [-> | ->]; [done|].
    repeat case_match; cbn; lia.
  - intros b r d'. unfold mrdump_status_get.
    destruct (expdb_open_cases d) as [-> | ->]; intros Hg; [by inv_outcome|].
    generalize dependent read_block. intros rb Hg. rewrite close_open in Hg.
    destruct (_ <? 0); [by inv_outcome|]. destruct (negb _); [by inv_outcome|].
    inv_outcome. destruct a. by inv_outcome.
Qed.

(** C32: a partition smaller than the offset of the block is rejected: the difference
    wraps to a negative seek position, both functions return false and nothing is
    written. *)
Theorem small_partition_rejected (d : disk) (Hsize : 0 <= dev_size dev < MRDUMP_OFFSET) :
  (fst (mrdump_status_clear d) = false /\ bytes (snd (mrdump_status_clear d)) = bytes d) /\
  exists d', mrdump_status_get d = Ret (false, cleared_result, d') /\ bytes d' = bytes d.
Proof.
  unfold mrdump_status_clear, mrdump_status_get.
  destruct (expdb_open_cases d) as [-> | ->]; cbn [pi_size]; [split; [done|by eexists]|].
  rewrite block_offset_small by done. split; [done|by eexists].
Qed.

(** C31: on a device that can be opened, is large enough, and reads and writes whole
    blocks, clearing a status changes nothing on the partition but the 128 bytes of the
    status. *)
Theorem clear_frame (d : disk) (a : Z) (Husable : usable)
    (Ha : a < dev_size dev - MRDUMP_OFFSET + 9 \/ dev_size dev - MRDUMP_OFFSET + 137 <= a) :
  fst (mrdump_status_clear d) = true /\ bytes (snd (mrdump_status_clear d)) a = bytes d a.
Proof.
  rewrite clear_usable by done. split; [done|]. cbn [snd bytes disk_write].
  pose proof (disk_read_length d (dev_size dev - MRDUMP_OFFSET) CBLOCK_SIZE) as Hl.
  fold (block d) in Hl. set (off := dev_size dev - MRDUMP_OFFSET) in *.
  destruct (Z.leb_spec off a); [|by destruct (_ !! _)].
  destruct (Z.lt_ge_cases a (off + Z.of_nat CBLOCK_SIZE)).
  - rewrite clear_status_lookup by (done || unfold STATUS_OFF, LOG_OFF; lia).
    unfold block. fold off. rewrite disk_read_lookup by lia. f_equal. lia.
  - rewrite lookup_ge_None_2; [done|]. rewrite clear_status_length by done. lia.
Qed.

(** C13: on a usable device whose block has the signature and a terminated log, clearing
    and then reading gives the status NONE, the status line "CLEAR" and the log that was
    there before, its first 2047 characters. *)
Theorem clear_then_get (d : disk) (lg : list byte) (Husable : usable)
    (Hsig : take STATUS_OFF (block d) = MRDUMP_SIG ++ [NUL])
    (Hlog : cstr (drop LOG_OFF (block d)) = Some lg) :
  exists r,
    mrdump_status_clear d = (true, snd (mrdump_status_clear d)) /\
    mrdump_status_get (snd (mrdump_status_clear d)) = Ret (true, r, snd (mrdump_status_clear d)) /\
    status r = MRDUMP_STATUS_NONE /\ cstr (status_line r) = Some (str "CLEAR") /\
    cstr (log_buf r) = Some (take 2047 lg).
Proof.
  rewrite clear_usable by done. exists (cleared_read lg). split; [done|]. cbn [snd].
  rewrite (get_cleared d lg) by done.
  split; [done|]. split; [done|]. split; [done|].
  apply cstr_inv in Hlog as [Hn _].
  apply (cstr_strlcpy (zeros 2048)); [rewrite length_zeros; lia|done].
Qed.

(** The status is copied before it is terminated: when neither the status nor the
    log area of a signed block holds a terminator, the copy reads past the end of the
    block. *)
Theorem status_overread (d : disk) (Husable : usable)
    (Hsig : take STATUS_OFF (block d) = MRDUMP_SIG ++ [NUL])
    (Hnul : NUL ∉ drop STATUS_OFF (block d)) :
  mrdump_status_get d = Undef OutOfBounds.
Proof.
  rewrite get_usable by done. unfold read_block. rewrite Hsig.
  change (strcmp_eq (MRDUMP_SIG ++ [NUL]) MRDUMP_SIG) with (Ret true). rewrite bind_Ret. cbn [negb].
  unfold cstr_at. apply cstr_None in Hnul. by rewrite Hnul.
Qed.

(** The parser on such a text. *)
Lemma parse_ok_text m o name r :
  NL ∉ m -> output_name o = Some name ->
  parse_status (ok_status_text m name) r =
  Ret (true, r{{status := MRDUMP_STATUS_OK; output := o; mode := strlcpy (mode r) m}}).
Proof.
  intros Hm Ho. unfold parse_status, ok_status_text. set (save := (_ ++ m) ++ _).
  change (str "OK" ++ NL :: save) with ((Byte.x4f :: [Byte.x4b]) ++ NL :: save).
  rewrite strtok_r_line by decide_now.
  change (str_eq (Byte.x4f :: [Byte.x4b]) (str "OK")) with true. cbv iota.
  assert (2 ≤ length save)%nat as Hl by (unfold save; rewrite length_app; cbn; lia).
  destruct (length save) as [|[|n]]; [lia..|]. unfold save.
  rewrite parse_mode_line, (parse_output_line _ o) by done. by destruct r.
Qed.

(** A signed block with the status text [t] and the log area [l] reads as the parser has
    it. *)
Lemma read_status_block t l lg r :
  NUL ∉ t -> (length t < STATUS_LEN)%nat -> cstr l = Some lg ->
  parse_status t (cleared_result{{status_line := strlcpy (zeros 128) t}}) = Ret (true, r) ->
  read_block ((MRDUMP_SIG ++ [NUL]) ++ (t ++ zeros (STATUS_LEN - length t)) ++ l) cleared_result =
  Ret (true, r{{log_buf := strlcpy (log_buf r) lg}}).
Proof.
  intros Hn Hlen Hl Hp. set (cb := _ ++ _ ++ l).
  assert (take STATUS_OFF cb = MRDUMP_SIG ++ [NUL]) as Hsig by done.
  assert (drop STATUS_OFF cb = t ++ zeros (STATUS_LEN - length t) ++ l) as Hd
    by (unfold cb; rewrite (assoc_L (++) t); done).
  assert (cstr_at cb STATUS_OFF = Ret t) as Hst.
  { unfold cstr_at. rewrite Hd. destruct (STATUS_LEN - length t)%nat as [|k] eqn:Ek; [lia|].
    change (zeros (S k)) with (NUL :: zeros k). cbn [app]. by rewrite cstr_app_nul. }
  assert (cb !! (STATUS_OFF + STATUS_LEN - 1)%nat = Some NUL) as Hlast.
  { change (STATUS_OFF + STATUS_LEN - 1)%nat with (STATUS_OFF + 127)%nat.
    rewrite <- lookup_drop, Hd, lookup_app_r by (unfold STATUS_LEN in *; lia).
    rewrite lookup_app_l by (rewrite length_zeros; unfold STATUS_LEN in *; lia).
    apply lookup_replicate_2. unfold STATUS_LEN in *. lia. }
  assert (cstr_at cb LOG_OFF = Ret lg) as Hlog.
  { unfold cstr_at. change LOG_OFF with (STATUS_OFF + STATUS_LEN)%nat. rewrite <- drop_drop, Hd.
    rewrite (assoc_L (++)), drop_app_length'; [by rewrite Hl|].
    rewrite length_app, length_zeros. lia. }
  unfold read_block. rewrite Hsig. change (strcmp_eq (MRDUMP_SIG ++ [NUL]) MRDUMP_SIG) with (Ret true).
  rewrite bind_Ret. cbn [negb]. rewrite Hst, bind_Ret. rewrite (list_insert_id cb _ NUL Hlast).
  change (status_line cleared_result) with (zeros 128). rewrite Hst, bind_Ret, Hp, bind_Ret.
  cbn [negb]. by rewrite Hlog, bind_Ret.
Qed.

(** C14: a status that reports success with a mode and an output is read back from the
    partition as it was written there: for every mode of at most 31 characters without
    a line break, each output the parser knows and a terminated log, reading succeeds
    and gives the status OK, that output, that mode, the status text and the first
    2047 characters of the log, and leaves the partition as it was. *)
Theorem ok_status_roundtrip (d : disk) (m : list byte) (o : MRDUMP_OUTPUT) (name l lg : list byte)
    (Husable : usable) (Hm : NL ∉ m /\ NUL ∉ m /\ (length m ≤ 31)%nat) (Ho : output_name o = Some name)
    (Hlog : cstr l = Some lg)
    (Hblock : block d = (MRDUMP_SIG ++ [NUL]) ++
       (ok_status_text m name ++ zeros (STATUS_LEN - length (ok_status_text m name))) ++ l) :
  exists r, mrdump_status_get d = Ret (true, r, d) /\
    status r = MRDUMP_STATUS_OK /\ output r = o /\ cstr (mode r) = Some m /\
    cstr (status_line r) = Some (ok_status_text m name) /\ cstr (log_buf r) = Some (take 2047 lg).
Proof.
  destruct Hm as (Hnl & Hnul & Hl).
  assert (length name ≤ 16)%nat as Hln by (by destruct o; try done; injection Ho as <-; cbn; lia).
  assert (NUL ∉ name) as Hnn by (destruct o; try done; injection Ho as <-; decide_now).
  set (t := ok_status_text m name) in *.
  assert (length t < STATUS_LEN)%nat as Hlt.
  { unfold t, ok_status_text, STATUS_LEN. repeat (rewrite ?length_app; cbn [length]). cbn. lia. }
  assert (NUL ∉ t) as Hnt.
  { unfold t, ok_status_text.
    repeat first [apply not_elem_of_app; split|apply not_elem_of_cons; split]; first [done|decide_now]. }
  eexists. rewrite get_usable, Hblock by done.
  rewrite (read_status_block t l lg _ Hnt Hlt Hlog (parse_ok_text m o name _ Hnl Ho)).
  rewrite bind_Ret. split; [reflexivity|]. split_and!; [done|done| | |].
  - etransitivity; [apply (cstr_strlcpy (zeros 32)); [rewrite length_zeros; lia|done]|].
    f_equal. apply take_ge. rewrite length_zeros. lia.
  - etransitivity; [apply (cstr_strlcpy (zeros 128)); [rewrite length_zeros; lia|done]|].
    f_equal. apply take_ge. rewrite length_zeros. unfold STATUS_LEN in Hlt. lia.
  - apply cstr_inv in Hlog as [Hn _]. apply (cstr_strlcpy (zeros 2048)); [rewrite length_zeros; lia|done].
Qed.

End Mrdump.

(** ** Witnesses *)

Definition demo_dev : device :=
  {| dev_opens := [false; true]; dev_size_ok := true; dev_blksize_ok := true; dev_size := 10485760;
     dev_blksize := 512; dev_read_ok := true; dev_write_ok := true; dev_torn := fun f => f |}.

Definition small_dev : device :=
  {| dev_opens := [true]; dev_size_ok := true; dev_blksize_ok := true; dev_size := 1048576;
     dev_blksize := 512; dev_read_ok := true; dev_write_ok := true; dev_torn := fun f => f |}.

(** A partition that holds [l] at the block and [fill] elsewhere. *)
Definition demo_disk (l : list byte) (fill : byte) : disk :=
  {| bytes := fun a => if 7340032 <=? a then nth (Z.to_nat (a - 7340032)) l fill else fill;
     open_fds := 0 |}.

Definition failed_block : list byte :=
  lit "MRDUMP04" ++ str "FAILED" ++ zeros 122 ++ lit "no space".

Lemma demo_dev_usable : usable demo_dev.
Proof.
  unfold usable. split_and!; [decide_now|reflexivity..| |]; vm_compute; [discriminate|reflexivity].
Qed.

Lemma small_partition_rejected_witness :
  let d := demo_disk [] NUL in
  (fst (mrdump_status_clear small_dev d) = false /\
   bytes (snd (mrdump_status_clear small_dev d)) = bytes d) /\
  exists d', mrdump_status_get small_dev d = Ret (false, cleared_result, d') /\ bytes d' = bytes d.
Proof.
  apply (small_partition_rejected small_dev (demo_disk [] NUL)). split; vm_compute; [discriminate|reflexivity].
Defined.

Lemma output_never_usb_witness : output cleared_result <> MRDUMP_OUTPUT_USB.
Proof.
  apply (output_never_usb small_dev (demo_disk [] NUL) (close_fd (open_fd (demo_disk [] NUL))) false).
  reflexivity.
Defined.

Lemma clear_frame_witness :
  let d := demo_disk failed_block NUL in
  fst (mrdump_status_clear demo_dev d) = true /\
  bytes (snd (mrdump_status_clear demo_dev d)) 7340033 = bytes d 7340033.
Proof.
  apply (clear_frame demo_dev (demo_disk failed_block NUL) 7340033 demo_dev_usable).
  left. vm_compute. reflexivity.
Defined.

Lemma clear_then_get_witness :
  let d := demo_disk failed_block NUL in
  exists r,
    mrdump_status_clear demo_dev d = (true, snd (mrdump_status_clear demo_dev d)) /\
    mrdump_status_get demo_dev (snd (mrdump_status_clear demo_dev d)) =
      Ret (true, r, snd (mrdump_status_clear demo_dev d)) /\
    status r = MRDUMP_STATUS_NONE /\ cstr (status_line r) = Some (str "CLEAR") /\
    cstr (log_buf r) = Some (take 2047 (str "no space")).
Proof.
  apply (clear_then_get demo_dev (demo_disk failed_block NUL) (str "no space") demo_dev_usable);
    vm_compute; reflexivity.
Defined.

Lemma status_overread_witness :
  mrdump_status_get demo_dev (demo_disk (lit "MRDUMP04") Byte.x41) = Undef OutOfBounds.
Proof.
  apply (status_overread demo_dev (demo_disk (lit "MRDUMP04") Byte.x41) demo_dev_usable);
    [vm_compute; reflexivity|decide_now].
Defined.

Definition ok_text : list byte := ok_status_text (str "EXT4") (str "EXT4_DATA").
Definition ok_block : list byte :=
  (MRDUMP_SIG ++ [NUL]) ++ (ok_text ++ zeros (STATUS_LEN - length ok_text)) ++ str "done" ++ zeros 2044.

Lemma ok_status_roundtrip_witness :
  exists r, mrdump_status_get demo_dev (demo_disk ok_block NUL) = Ret (true, r, demo_disk ok_block NUL) /\
    status r = MRDUMP_STATUS_OK /\ output r = MRDUMP_OUTPUT_EXT4_DATA /\ cstr (mode r) = Some (str "EXT4") /\
    cstr (status_line r) = Some ok_text /\ cstr (log_buf r) = Some (take 2047 (str "done")).
Proof.
  apply (ok_status_roundtrip demo_dev (demo_disk ok_block NUL) (str "EXT4") MRDUMP_OUTPUT_EXT4_DATA
           (str "EXT4_DATA") (str "done" ++ zeros 2044) (str "done")).
  - apply demo_dev_usable.
  - split_and!; [decide_now|decide_now|cbn; lia].
  - reflexivity.
  - vm_compute. reflexivity.
  - vm_compute. reflexivity.
Defined.
