(* ===== verification/MrdumpTool.v ===== *)
(** * The memory dump tool

    [mrdump/mrdump_tool.c]: the command line tool over the status block.  Its standard
    output is the list of bytes it prints. *)

From S2P Require Import Prelude CString Mrdump.

Definition TAB : byte := Byte.x09.

Definition usage (prog : list byte) : list byte :=
  str "Usage" ++ [NL] ++
  [TAB] ++ prog ++ str " is-supported" ++ [NL] ++
  [TAB] ++ prog ++ str " status-get" ++ [NL] ++
  [TAB] ++ prog ++ str " status-log" ++ [NL] ++
  [TAB] ++ prog ++ str " status-clear" ++ [NL].

Definition output_text (o : MRDUMP_OUTPUT) : list byte :=
  match o with
  | MRDUMP_OUTPUT_NULL => str "null"
  | MRDUMP_OUTPUT_USB => str "usb"
  | MRDUMP_OUTPUT_EXT4_DATA => str "ext4/data partition"
  | MRDUMP_OUTPUT_VFAT_INT_STORAGE => str "vfat/internal partition"
  end ++ [NL].

Definition dump_status_ok (r : mrdump_status_result) : outcome (list byte) :=
  m ← cstr_at (mode r) 0;
  Ret (str "Ok" ++ [NL] ++ [TAB] ++ str "Mode: " ++ m ++ [NL; TAB] ++ str "Output: " ++
       output_text (output r)).

Definition status_get_text (r : mrdump_status_result) : outcome (list byte) :=
  t ← match status r with
      | MRDUMP_STATUS_NONE => Ret (str "None" ++ [NL])
      | MRDUMP_STATUS_FAILED => Ret (str "Failed" ++ [NL])
      | MRDUMP_STATUS_OK => dump_status_ok r
      end;
  Ret (str "MT-RAMDUMP" ++ [NL; TAB] ++ str "Status:" ++ t).

Definition status_log_text (r : mrdump_status_result) : outcome (list byte) :=
  l ← cstr_at (status_line r) 0;
  lg ← cstr_at (log_buf r) 0;
  Ret (str "status line:" ++ [NL] ++ l ++ [NL] ++ str "log:" ++ [NL] ++ lg ++ [NL]).

Definition get_failed : list byte := str "MT-RAMDUMP get status failed" ++ [NL].

(** [prog] is [argv[0]], [args] the rest; the result is the exit status, the output and
    the partition. *)
Definition main (dev : device) (version : option (list byte)) (prog : list byte)
    (args : list (list byte)) (d : disk) : outcome (Z * list byte * disk) :=
  match args with
  | [arg] =>
      if str_eq arg (str "is-supported") then
        Ret (0, (if mrdump_is_supported version =? 0 then str "MT-RAMDUMP not support"
                 else str "MT-RAMDUMP support ok") ++ [NL], d)
      else if str_eq arg (str "status-get") then
        '(ok, r, d') ← mrdump_status_get dev d;
        t ← (if ok : bool then status_get_text r else Ret get_failed);
        Ret (0, t, d')
      else if str_eq arg (str "status-log") then
        '(ok, r, d') ← mrdump_status_get dev d;
        t ← (if ok : bool then status_log_text r else Ret get_failed);
        Ret (0, t, d')
      else if str_eq arg (str "status-clear") then
        let '(ok, d') := mrdump_status_clear dev d in
        Ret (0, if ok then [] else str "MT-RAMDUMP Status clear failed" ++ [NL], d')
      else Ret (0, usage prog, d)
  | _ => Ret (0, usage prog, d)
  end.

(** ** Properties *)

(** "status-clear" prints nothing when it succeeds, and "status-get" after it prints
    the status None. *)
Theorem tool_clear_then_get (dev : device) (version : option (list byte)) (prog lg : list byte)
    (d : disk) (Husable : usable dev)
    (Hsig : take STATUS_OFF (block dev d) = MRDUMP_SIG ++ [NUL])
    (Hlog : cstr (drop LOG_OFF (block dev d)) = Some lg) :
  exists d',
    main dev version prog [str "status-clear"] d = Ret (0, [], d') /\
    main dev version prog [str "status-get"] d' =
      Ret (0, str "MT-RAMDUMP" ++ [NL; TAB] ++ str "Status:None" ++ [NL], d').
Proof.
  eexists. unfold main.
  change (str_eq (str "status-clear") (str "is-supported")) with false.
  change (str_eq (str "status-clear") (str "status-get")) with false.
  change (str_eq (str "status-clear") (str "status-log")) with false.
  change (str_eq (str "status-clear") (str "status-clear")) with true.
  change (str_eq (str "status-get") (str "is-supported")) with false.
  change (str_eq (str "status-get") (str "status-get")) with true.
  rewrite clear_usable by done. split; [done|].
  by rewrite (get_cleared dev d lg Husable Hsig Hlog), bind_Ret.
Qed.

(** The tool never reports an error in its exit status, and only "status-clear"
    changes the partition. *)
Theorem tool_exit_and_frame (dev : device) (version : option (list byte)) (prog : list byte)
    (args : list (list byte)) (d d' : disk) (code : Z) (out : list byte)
    (Hargs : args <> [str "status-clear"])
    (Hret : main dev version prog args d = Ret (code, out, d')) :
  code = 0 /\ bytes d' = bytes d.
Proof.
  assert (forall b r d1, mrdump_status_get dev d = Ret (b, r, d1) -> bytes d1 = bytes d) as Hget
    by apply get_reads_only.
  unfold main in Hret. destruct args as [|arg [|? ?]]; [by inv_outcome| |by inv_outcome].
  repeat match type of Hret with
  | (if str_eq arg ?t then _ else _) = _ => destruct (str_eq arg t) eqn:?
  end.
  - by inv_outcome.
  - inv_outcome. destruct a as [[b r] d1]. inv_outcome. eauto.
  - inv_outcome. destruct a as [[b r] d1]. inv_outcome. eauto.
  - exfalso. apply Hargs. f_equal. by eapply bool_decide_eq_true.
  - by inv_outcome.
Qed.

(** ** Witnesses *)

Lemma tool_clear_then_get_witness :
  exists d',
    main demo_dev None (str "mrdump_tool") [str "status-clear"] (demo_disk failed_block NUL) = Ret (0, [], d') /\
    main demo_dev None (str "mrdump_tool") [str "status-get"] d' =
      Ret (0, str "MT-RAMDUMP" ++ [NL; TAB] ++ str "Status:None" ++ [NL], d').
Proof.
  apply (tool_clear_then_get demo_dev None (str "mrdump_tool") (str "no space")
           (demo_disk failed_block NUL) demo_dev_usable); vm_compute; reflexivity.
Defined.

Lemma tool_exit_and_frame_witness :
  0 = 0 /\ bytes (demo_disk failed_block NUL) = bytes (demo_disk failed_block NUL).
Proof.
  apply (tool_exit_and_frame demo_dev None (str "mrdump_tool") [str "help"] (demo_disk failed_block NUL)
           (demo_disk failed_block NUL) 0 (usage (str "mrdump_tool"))); [discriminate|reflexivity].
Defined.
