(* ===== verification/PowerHal.v ===== *)
(** * The power HAL and the proximity sensor helper

    [power/power.c], [meizupshelper/lib.c] and [meizupshelper/helper.c]: both write short
    texts to kernel nodes.  The nodes are a map from paths to what was last written;
    which of them can be opened and how a write ends is up to the kernel. *)

From S2P Require Import Prelude CString Printf.

(** ** Kernel nodes *)

(** A node can be opened or not, and a write returns the number of bytes it took, which
    may be less than it was given, or a negative code. *)
Record nodes : Type := {
  node_text : list byte -> list byte;
  can_open : list byte -> bool;
  write_result : list byte -> list byte -> Z
}.

Definition write_node (path t : list byte) (n : nodes) : nodes :=
  n{{node_text := fun p => if decide (p = path) then t else node_text n p}}.

(** What a write with result [r] leaves: the bytes that were taken, and nothing new when
    none were. *)
Definition written (path s : list byte) (r : Z) (n : nodes) : nodes :=
  if r <=? 0 then n else write_node path (take (Z.to_nat r) s) n.

(** ** power.c *)

Definition MT_RUSH_BOOST_PATH : list byte := str "/proc/hps/rush_boost_enabled".
Definition MT_FPS_UPPER_BOUND_PATH : list byte := str "/d/ged/hal/fps_upper_bound".

(** A node that cannot be opened and a failed write are logged and otherwise ignored; a
    short write is not noticed. *)
Definition power_fwrite (path s : list byte) (n : nodes) : nodes :=
  if negb (can_open n path) then n
  else
    let len := write_result n path s in
    if len <? 0 then n else written path s len n.

Section PowerHal.
(** The hint of [hardware/power.h] the module acts on; the node of the touch screen, if
    the build names one, and the feature it serves. *)
Context (POWER_HINT_LOW_POWER POWER_FEATURE_DOUBLE_TAP_TO_WAKE : Z).
Context (TAP_TO_WAKE_NODE : option (list byte)).

(** The module has nothing to set up and ignores the screen. *)
Definition power_init (n : nodes) : nodes := n.
Definition power_set_interactive (on : Z) (n : nodes) : nodes := n.

(** [data] is null or points to an [int32_t]. *)
Definition power_hint (hint : Z) (data : option Z) (n : nodes) : outcome nodes :=
  if hint =? POWER_HINT_LOW_POWER then
    dataint ← deref data;
    Ret (if negb (dataint =? 0)
         then power_fwrite MT_RUSH_BOOST_PATH (str "0") (power_fwrite MT_FPS_UPPER_BOUND_PATH (str "30") n)
         else power_fwrite MT_RUSH_BOOST_PATH (str "1") (power_fwrite MT_FPS_UPPER_BOUND_PATH (str "60") n))
  else Ret n.

(** [snprintf] into the local [tmp_str[64]]. *)
Definition set_feature (feature state : Z) (n : nodes) : outcome nodes :=
  match TAP_TO_WAKE_NODE with
  | Some node =>
      if feature =? POWER_FEATURE_DOUBLE_TAP_TO_WAKE then
        '(tmp_str, _) ← snprintf (zeros 64) 0 64 (fmt_d state);
        t ← cstr_at tmp_str 0;
        Ret (power_fwrite node t n)
      else Ret n
  | None => Ret n
  end.

(** ** Lemmas *)

(** The node takes the text, all of it. *)
Definition writable (n : nodes) (path t : list byte) : Prop :=
  can_open n path = true /\ write_result n path t = Z.of_nat (length t).

Lemma written_all path t n :
  t <> [] -> node_text (written path t (Z.of_nat (length t)) n) path = t.
Proof.
  intros Ht. destruct t as [|b t]; [done|]. unfold written.
  rewrite (proj2 (Z.leb_gt _ _)) by (cbn [length]; lia).
  rewrite Nat2Z.id, firstn_all. cbn. cbv [constant]. by rewrite decide_True.
Qed.

Lemma written_other path t r n p : p <> path -> node_text (written path t r n) p = node_text n p.
Proof.
  intros Hp. unfold written. destruct (r <=? 0); [done|]. cbn. cbv [constant].
  by rewrite decide_False.
Qed.

Lemma power_fwrite_same path t n :
  t <> [] -> writable n path t -> node_text (power_fwrite path t n) path = t.
Proof.
  intros Ht [Ho Hw]. unfold power_fwrite. rewrite Ho, Hw. cbn [negb].
  rewrite (proj2 (Z.ltb_ge _ _)) by lia. by apply written_all.
Qed.

Lemma power_fwrite_other path t n p :
  p <> path -> node_text (power_fwrite path t n) p = node_text n p.
Proof.
  intros Hp. unfold power_fwrite. destruct (negb _); [done|]. destruct (_ <? 0); [done|].
  by apply written_other.
Qed.

Lemma power_fwrite_kernel path t n :
  can_open (power_fwrite path t n) = can_open n /\
  write_result (power_fwrite path t n) = write_result n.
Proof.
  unfold power_fwrite, written. destruct (negb _); [done|]. destruct (_ <? 0); [done|].
  by destruct (_ <=? 0).
Qed.

Lemma writable_after path t n p u : writable n p u -> writable (power_fwrite path t n) p u.
Proof. unfold writable. by destruct (power_fwrite_kernel path t n) as [-> ->]. Qed.

(** ** Properties *)

(** C38: when the two nodes can be opened and take whole texts, the low power hint caps
    the frame rate at 30 and disables the rush boost when its data is not 0, and restores
    60 and the boost when it is; whatever came before, the last hint decides, and no other
    node changes. *)
Theorem low_power_hint (data : Z) (n : nodes)
    (Hfps : forall t, writable n MT_FPS_UPPER_BOUND_PATH t)
    (Hboost : forall t, writable n MT_RUSH_BOOST_PATH t) :
  exists n', power_hint POWER_HINT_LOW_POWER (Some data) n = Ret n' /\
    node_text n' MT_FPS_UPPER_BOUND_PATH = (if data =? 0 then str "60" else str "30") /\
    node_text n' MT_RUSH_BOOST_PATH = (if data =? 0 then str "1" else str "0") /\
    forall p, p <> MT_FPS_UPPER_BOUND_PATH -> p <> MT_RUSH_BOOST_PATH ->
      node_text n' p = node_text n p.
Proof.
  unfold power_hint. rewrite Z.eqb_refl. cbn [deref mbind outcome_bind]. eexists. split; [done|].
  destruct (data =? 0); cbn [negb]; (split_and!;
    [ rewrite power_fwrite_other by done; by apply power_fwrite_same
    | apply power_fwrite_same; [done|by apply writable_after]
    | intros p H1 H2; by rewrite !power_fwrite_other by done ]).
Qed.

(** The data of the low power hint is dereferenced without a test: a null pointer is
    undefined behaviour; every other hint ignores its data. *)
Theorem hint_null_data (hint : Z) (n : nodes) :
  power_hint hint None n = if hint =? POWER_HINT_LOW_POWER then Undef NullDeref else Ret n.
Proof. unfold power_hint. by destruct (hint =? POWER_HINT_LOW_POWER). Qed.

(** The double tap feature writes its state as a decimal number, which always fits
    the 64 byte buffer. *)
Theorem double_tap_text (node : list byte) (state : Z) (n : nodes)
    (Hnode : TAP_TO_WAKE_NODE = Some node) (Hw : writable n node (fmt_d state)) :
  exists n', set_feature POWER_FEATURE_DOUBLE_TAP_TO_WAKE state n = Ret n' /\
    node_text n' node = fmt_d state.
Proof.
  unfold set_feature. rewrite Hnode, Z.eqb_refl.
  destruct (snprintf_whole (zeros 64) 64 (fmt_d state)) as (m' & -> & Hm);
    [pose proof (fmt_d_length state); lia|by rewrite length_zeros|apply fmt_d_no_nul|].
  cbn [mbind outcome_bind]. unfold cstr_at. rewrite drop_0, Hm. cbn [mbind outcome_bind].
  eexists. split; [done|]. apply power_fwrite_same; [apply fmt_d_nonempty|done].
Qed.

End PowerHal.

(** ** meizupshelper *)

Definition MEIZU_PS_CALIBRATION_TRIGGER_PATH : list byte := str "/sys/class/meizu/ps/ps_calibration".

Definition meizu_psh_run_calibration (n : nodes) : Z * nodes :=
  if negb (can_open n MEIZU_PS_CALIBRATION_TRIGGER_PATH) then (1, n)
  else
    let ret := write_result n MEIZU_PS_CALIBRATION_TRIGGER_PATH (str "1") in
    if ret <? 0 then (1, n)
    else (0, written MEIZU_PS_CALIBRATION_TRIGGER_PATH (str "1") ret n).

Definition do_calibrate : nodes -> Z * nodes := meizu_psh_run_calibration.

(** The exit status and the text for the standard error. *)
Definition do_usage (progname : list byte) : Z * list byte :=
  (127, str "usage: " ++ progname ++ str " <c>" ++ [NL; NL] ++
        str "       c -- run proximity sensor calibration" ++ [NL]).

(** The exit status, what is written to the standard error, and the nodes; [args] are the
    arguments behind the program's name. *)
Definition helper_main (progname : list byte) (args : list (list byte)) (n : nodes)
    : Z * list byte * nodes :=
  match args with
  | [arg] =>
      if str_eq_ci arg (str "c")
      then let '(ret, n') := do_calibrate n in (ret, [], n')
      else (do_usage progname, n)
  | _ => (do_usage progname, n)
  end.

(** The argument that starts a calibration, in either case. *)
Definition asks_calibration (args : list (list byte)) : Prop := args = [str "c"] \/ args = [str "C"].

Lemma only_c arg : str_eq_ci arg (str "c") = true <-> arg = str "c" \/ arg = str "C".
Proof.
  unfold str_eq_ci. split; [|by intros [-> | ->]].
  intros E%bool_decide_eq_true. destruct arg as [|b [|? ?]]; try done.
  injection E as E. revert E. by destruct b; vm_compute; auto.
Qed.

(** The trigger can be opened and the write does not fail. *)
Definition accepts (n : nodes) : Prop :=
  can_open n MEIZU_PS_CALIBRATION_TRIGGER_PATH = true /\
  0 <= write_result n MEIZU_PS_CALIBRATION_TRIGGER_PATH (str "1").

Definition triggered (n : nodes) : nodes :=
  written MEIZU_PS_CALIBRATION_TRIGGER_PATH (str "1")
    (write_result n MEIZU_PS_CALIBRATION_TRIGGER_PATH (str "1")) n.

Lemma calibration_cases (n : nodes) :
  (accepts n /\ meizu_psh_run_calibration n = (0, triggered n)) \/
  (~ accepts n /\ meizu_psh_run_calibration n = (1, n)).
Proof.
  unfold meizu_psh_run_calibration, accepts, triggered.
  destruct (can_open n _); cbn [negb]; [|right; split; [by intros []|done]].
  destruct (Z.ltb_spec (write_result n MEIZU_PS_CALIBRATION_TRIGGER_PATH (str "1")) 0).
  - right. split; [lia|done].
  - by left.
Qed.

(** The exit status of the calibration helper tells what happened: 0 exactly when
    a calibration was asked for and the write to the trigger did not fail, 1 exactly when it was asked
    for and the node refused, 127 with the usage on the standard error exactly when it
    was not asked for; in the last two cases the nodes keep their text. *)
Theorem helper_exit_status (progname : list byte) (args : list (list byte)) (n n' : nodes)
    (code : Z) (err : list byte) (Hrun : helper_main progname args n = (code, err, n')) :
  (code = 0 <-> asks_calibration args /\ accepts n) /\
  (code = 1 <-> asks_calibration args /\ ~ accepts n) /\
  (code = 127 <-> ~ asks_calibration args) /\
  (code = 0 -> n' = triggered n) /\
  (code <> 0 -> n' = n) /\ (err = [] <-> asks_calibration args).
Proof.
  assert (asks_calibration args \/ ~ asks_calibration args /\ helper_main progname args n = (do_usage progname, n))
    as [Ha|[Ha Hu]].
  - unfold asks_calibration, helper_main. destruct args as [|arg [|? ?]]; [by right; split; [intros []|]| |].
    + destruct (str_eq_ci arg (str "c")) eqn:E; [left|right].
      * apply only_c in E as [-> | ->]; auto.
      * split; [|done]. intros Hor. assert (arg = str "c" \/ arg = str "C") as Hc%only_c by naive_solver.
        congruence.
    + right. split; [by intros []|done].
  - assert (helper_main progname args n = (let '(ret, n') := meizu_psh_run_calibration n in (ret, [], n')))
      as Hm by (by destruct Ha as [-> | ->]).
    rewrite Hm in Hrun.
    destruct (calibration_cases n) as [[Hw Hc]|[Hw Hc]]; rewrite Hc in Hrun; simplify_eq; naive_solver.
  - rewrite Hu in Hrun. injection Hrun as <- <- <-.
    split_and!; [split; [discriminate|tauto]|split; [discriminate|tauto]|tauto|discriminate|done|].
    split; [discriminate|tauto].
Qed.

(** ** Witnesses *)

Definition open_nodes : nodes :=
  {| node_text := fun _ => []; can_open := fun _ => true; write_result := fun _ t => Z.of_nat (length t) |}.

Lemma open_nodes_writable p t : writable open_nodes p t.
Proof. by split. Qed.

Lemma low_power_hint_witness :
  exists n', power_hint 6 6 (Some 1) open_nodes = Ret n' /\
    node_text n' MT_FPS_UPPER_BOUND_PATH = str "30" /\
    node_text n' MT_RUSH_BOOST_PATH = str "0" /\
    forall p, p <> MT_FPS_UPPER_BOUND_PATH -> p <> MT_RUSH_BOOST_PATH -> node_text n' p = [].
Proof.
  exact (low_power_hint 6 1 open_nodes (open_nodes_writable _) (open_nodes_writable _)).
Defined.

Lemma double_tap_text_witness :
  exists n', set_feature 1 (Some (str "/sys/tap")) 1 (-1) open_nodes = Ret n' /\
    node_text n' (str "/sys/tap") = fmt_d (-1).
Proof.
  exact (double_tap_text 1 (Some (str "/sys/tap")) (str "/sys/tap") (-1) open_nodes eq_refl
           (open_nodes_writable _ _)).
Defined.

Lemma helper_exit_status_witness :
  let n' := triggered open_nodes in
  (0 = 0 <-> asks_calibration [str "C"] /\ accepts open_nodes) /\
  (0 = 1 <-> asks_calibration [str "C"] /\ ~ accepts open_nodes) /\
  (0 = 127 <-> ~ asks_calibration [str "C"]) /\
  (0 = 0 -> n' = triggered open_nodes) /\
  (0 <> 0 -> n' = open_nodes) /\ (@nil byte = [] <-> asks_calibration [str "C"]).
Proof.
  exact (helper_exit_status (str "meizupshelper") [str "C"] open_nodes (triggered open_nodes) 0 [] eq_refl).
Defined.
