(* ===== verification/Perf.v ===== *)
(** * The performance service client

    [mtk/perfservicenative/PerfServiceNative.cpp]: entry points with C linkage that send
    requests to the service "mtk-perfservice" over binder.  In this tree every entry
    point begins with a [return], so that the statements behind it are never executed.
    A function body is a statement of a small monad with an early return: the model
    keeps the leading [return] and the statements behind it.  The properties are in two
    groups: what the library does as it stands, and the protocol of the statements
    behind the returns, run with the initialisation behind its own return. *)

From Stdlib Require Import Sorting.Sorted.
From S2P Require Import Prelude CString.

(** ** Transactions *)

(** The anonymous enumeration, in the order of IPerfService.aidl. *)
Inductive transaction_code : Type :=
| TRANSACTION_boostEnable
| TRANSACTION_boostDisable
| TRANSACTION_boostEnableTimeout
| TRANSACTION_boostEnableTimeoutMs
| TRANSACTION_notifyAppState
| TRANSACTION_userReg
| TRANSACTION_userRegBigLittle
| TRANSACTION_userUnreg
| TRANSACTION_userGetCapability
| TRANSACTION_userRegScn
| TRANSACTION_userRegScnConfig
| TRANSACTION_userUnregScn
| TRANSACTION_userEnable
| TRANSACTION_userEnableTimeout
| TRANSACTION_userEnableTimeoutMs
| TRANSACTION_userDisable
| TRANSACTION_userResetAll
| TRANSACTION_userDisableAll
| TRANSACTION_userRestoreAll
| TRANSACTION_dumpAll
| TRANSACTION_setFavorPid
| TRANSACTION_notifyFrameUpdate
| TRANSACTION_notifyDisplayType
| TRANSACTION_notifyUserStatus.

#[global] Instance transaction_code_eq_dec : EqDecision transaction_code.
Proof. solve_decision. Defined.

(** The enumerators in order: the value of each is [IBinder::FIRST_CALL_TRANSACTION] plus
    its position. *)
Definition transaction_codes : list transaction_code :=
  [TRANSACTION_boostEnable; TRANSACTION_boostDisable; TRANSACTION_boostEnableTimeout;
   TRANSACTION_boostEnableTimeoutMs; TRANSACTION_notifyAppState; TRANSACTION_userReg;
   TRANSACTION_userRegBigLittle; TRANSACTION_userUnreg; TRANSACTION_userGetCapability;
   TRANSACTION_userRegScn; TRANSACTION_userRegScnConfig; TRANSACTION_userUnregScn;
   TRANSACTION_userEnable; TRANSACTION_userEnableTimeout; TRANSACTION_userEnableTimeoutMs;
   TRANSACTION_userDisable; TRANSACTION_userResetAll; TRANSACTION_userDisableAll;
   TRANSACTION_userRestoreAll; TRANSACTION_dumpAll; TRANSACTION_setFavorPid;
   TRANSACTION_notifyFrameUpdate; TRANSACTION_notifyDisplayType; TRANSACTION_notifyUserStatus].

Lemma transaction_codes_complete c : c ∈ transaction_codes.
Proof. destruct c; decide_now. Qed.

Lemma transaction_codes_distinct : NoDup transaction_codes.
Proof. decide_now. Qed.

(** A call of [binder->transact]: the integers written behind the interface token, and
    whether the flag FLAG_ONEWAY is given. *)
Record transaction : Type := {
  tx_code : transaction_code;
  tx_args : list Z;
  tx_oneway : bool
}.

(** ** State and surroundings *)

(** The static variables ([binder] not null) and the transactions so far. *)
Record perf_state : Type := {
  inited : Z;
  binder : bool;
  mPreviousTime : Z;
  set_tid : Z;
  transacted : list transaction
}.

(** What a call finds outside: the boot mode file ([None] when it cannot be opened, the
    inner [None] when reading fails), the stack below [bootMode], the service manager's
    answer, the thread, the clock, the integer the service replies. *)
Record perf_env : Type := {
  boot_file : option (option (list byte));
  stack_byte : byte;
  service_registered : bool;
  getpid : Z;
  gettid : Z;
  systemTime : Z;
  reply_int : transaction -> Z
}.

Definition RENDER_THREAD_UPDATE_DURATION : Z := 400000000.
Definition RENDER_BIT : Z := 0x800000.
Definition RENDER_MASK : Z := 0x7FFFFF.

(** [bootMode[0]] after the read. *)
Definition check_meta_mode (env : perf_env) : Z :=
  match boot_file env with
  | None => 0
  | Some (Some []) => 0
  | Some (Some (b :: _)) => if code b =? 0x31 then 1 else 0
  | Some None => if code (stack_byte env) =? 0x31 then 1 else 0
  end.

(** ** Statements *)

(** A statement of a function with result type [R]: it goes on with a value or leaves the
    function with a result. *)
Definition stmt (R A : Type) : Type := perf_state -> perf_state * (R + A).

#[global] Instance stmt_ret {R} : MRet (stmt R) := fun A a s => (s, inr a).
#[global] Instance stmt_bind {R} : MBind (stmt R) := fun A B f m s =>
  match m s with
  | (s', inl r) => (s', inl r)
  | (s', inr a) => f a s'
  end.

Definition return_ {R} (r : R) : stmt R unit := fun s => (s, inl r).
Definition get {R A} (f : perf_state -> A) : stmt R A := fun s => (s, inr (f s)).
Definition put {R} (f : perf_state -> perf_state) : stmt R unit := fun s => (f s, inr tt).

(** A call: the function's state change and result. *)
Definition call_ {R} (body : stmt R R) (s : perf_state) : perf_state * R :=
  match body s with (s', inl r) | (s', inr r) => (s', r) end.

(** A statement that calls a void function. *)
Definition call_void {R} (body : stmt unit unit) : stmt R unit := fun s =>
  (fst (call_ body s), inr tt).

Section Perf.
Context (env : perf_env).

Definition init_body : stmt unit unit :=
  i ← get inited;
  if negb (i =? 0) then mret tt
  else if negb (check_meta_mode env =? 0) then return_ tt
  else
    put (fun s => s{{binder := service_registered env}});;
    b ← get binder;
    if b : bool then put (fun s => s{{inited := 1}}) else mret tt.

Definition init : stmt unit unit := return_ tt;; init_body.

(** The statements behind the leading return of an entry point, for a given [init]. *)
Section Bodies.
Context (init_ : stmt unit unit).

(** [if (binder != NULL) binder->transact(...)]. *)
Definition transact (c : transaction_code) (args : list Z) (oneway : bool) : stmt unit unit :=
  b ← get binder;
  if b : bool
  then put (fun s => s{{transacted := (transacted s ++
         [{| tx_code := c; tx_args := args; tx_oneway := oneway |}])}})
  else mret tt.

Definition simple_body (c : transaction_code) (args : list Z) (oneway : bool) : stmt unit unit :=
  call_void init_;; transact c args oneway.

(** The functions that read an integer from the reply, -1 without the service. *)
Definition query_body (c : transaction_code) (args : list Z) : stmt Z Z :=
  call_void init_;;
  b ← get binder;
  if b : bool then
    let t := {| tx_code := c; tx_args := args; tx_oneway := false |} in
    put (fun s => s{{transacted := (transacted s ++ [t])}});;
    mret (reply_int env t)
  else mret (-1).

Definition boostEnable_body (scenario : Z) : stmt unit unit :=
  simple_body TRANSACTION_boostEnable [scenario] false.
Definition boostDisable_body (scenario : Z) : stmt unit unit :=
  simple_body TRANSACTION_boostDisable [scenario] false.
Definition boostEnableTimeout_body (scenario timeout : Z) : stmt unit unit :=
  simple_body TRANSACTION_boostEnableTimeout [scenario; timeout] false.
Definition boostEnableTimeoutMs_body (scenario timeout_ms : Z) : stmt unit unit :=
  simple_body TRANSACTION_boostEnableTimeoutMs [scenario; timeout_ms] false.
Definition boostEnableAsync_body (scenario : Z) : stmt unit unit :=
  simple_body TRANSACTION_boostEnable [scenario] true.
Definition boostDisableAsync_body (scenario : Z) : stmt unit unit :=
  simple_body TRANSACTION_boostDisable [scenario] true.
Definition boostEnableTimeoutAsync_body (scenario timeout : Z) : stmt unit unit :=
  simple_body TRANSACTION_boostEnableTimeout [scenario; timeout] true.
Definition boostEnableTimeoutMsAsync_body (scenario timeout_ms : Z) : stmt unit unit :=
  simple_body TRANSACTION_boostEnableTimeoutMs [scenario; timeout_ms] true.
Definition userReg_body (scn_core scn_freq : Z) : stmt Z Z :=
  query_body TRANSACTION_userReg [scn_core; scn_freq; getpid env; gettid env].
Definition userRegBigLittle_body (core_big freq_big core_little freq_little : Z) : stmt Z Z :=
  query_body TRANSACTION_userRegBigLittle
    [core_big; freq_big; core_little; freq_little; getpid env; gettid env].
Definition userUnreg_body (handle : Z) : stmt unit unit :=
  simple_body TRANSACTION_userUnreg [handle] false.
Definition userGetCapability_body (cmd : Z) : stmt Z Z :=
  query_body TRANSACTION_userGetCapability [cmd].
Definition userRegScn_body : stmt Z Z :=
  query_body TRANSACTION_userRegScn [getpid env; gettid env].
Definition userRegScnConfig_body (handle cmd p1 p2 p3 p4 : Z) : stmt unit unit :=
  simple_body TRANSACTION_userRegScnConfig [handle; cmd; p1; p2; p3; p4] false.
Definition userUnregScn_body (handle : Z) : stmt unit unit :=
  simple_body TRANSACTION_userUnregScn [handle] false.
Definition userEnable_body (handle : Z) : stmt unit unit :=
  simple_body TRANSACTION_userEnable [handle] false.
Definition userDisable_body (handle : Z) : stmt unit unit :=
  simple_body TRANSACTION_userDisable [handle] false.
Definition userEnableTimeout_body (handle timeout : Z) : stmt unit unit :=
  simple_body TRANSACTION_userEnableTimeout [handle; timeout] false.
Definition userEnableTimeoutMs_body (handle timeout_ms : Z) : stmt unit unit :=
  simple_body TRANSACTION_userEnableTimeoutMs [handle; timeout_ms] false.
Definition userResetAll_body : stmt unit unit := simple_body TRANSACTION_userResetAll [] false.
Definition userDisableAll_body : stmt unit unit := simple_body TRANSACTION_userDisableAll [] false.
Definition dumpAll_body : stmt unit unit := simple_body TRANSACTION_dumpAll [] false.
Definition setFavorPid_body (pid : Z) : stmt unit unit :=
  simple_body TRANSACTION_setFavorPid [pid] true.
Definition setBoostThread_body : stmt unit unit :=
  simple_body TRANSACTION_setFavorPid [Z.lor (gettid env) RENDER_BIT] true.

(** The first call reports the thread instead of the level; later ones are limited to
    one in 400 ms. *)
Definition notifyFrameUpdate_body (level : Z) : stmt unit unit :=
  let now := systemTime env in
  call_void init_;;
  t ← get set_tid;
  level ← (if t =? 0 then put (fun s => s{{set_tid := 1}});; mret (gettid env) else mret level);
  p ← get mPreviousTime;
  if (p =? 0) || (RENDER_THREAD_UPDATE_DURATION <? now - p) then
    transact TRANSACTION_notifyFrameUpdate [level] true;;
    put (fun s => s{{mPreviousTime := now}})
  else mret tt.

Definition notifyDisplayType_body (type : Z) : stmt unit unit :=
  simple_body TRANSACTION_notifyDisplayType [type] true.
Definition notifyUserStatus_body (type status : Z) : stmt unit unit :=
  simple_body TRANSACTION_notifyUserStatus [type; status] true.

End Bodies.

(** ** Entry points *)

Definition PerfServiceNative_boostEnable (scenario : Z) : stmt unit unit :=
  return_ tt;; boostEnable_body init scenario.
Definition PerfServiceNative_boostDisable (scenario : Z) : stmt unit unit :=
  return_ tt;; boostDisable_body init scenario.
Definition PerfServiceNative_boostEnableTimeout (scenario timeout : Z) : stmt unit unit :=
  return_ tt;; boostEnableTimeout_body init scenario timeout.
Definition PerfServiceNative_boostEnableTimeoutMs (scenario timeout_ms : Z) : stmt unit unit :=
  return_ tt;; boostEnableTimeoutMs_body init scenario timeout_ms.
Definition PerfServiceNative_boostEnableAsync (scenario : Z) : stmt unit unit :=
  return_ tt;; boostEnableAsync_body init scenario.
Definition PerfServiceNative_boostDisableAsync (scenario : Z) : stmt unit unit :=
  return_ tt;; boostDisableAsync_body init scenario.
Definition PerfServiceNative_boostEnableTimeoutAsync (scenario timeout : Z) : stmt unit unit :=
  return_ tt;; boostEnableTimeoutAsync_body init scenario timeout.
Definition PerfServiceNative_boostEnableTimeoutMsAsync (scenario timeout_ms : Z) : stmt unit unit :=
  return_ tt;; boostEnableTimeoutMsAsync_body init scenario timeout_ms.
Definition PerfServiceNative_userReg (scn_core scn_freq : Z) : stmt Z Z :=
  return_ (-1);; userReg_body init scn_core scn_freq.
Definition PerfServiceNative_userRegBigLittle (core_big freq_big core_little freq_little : Z) : stmt Z Z :=
  return_ (-1);; userRegBigLittle_body init core_big freq_big core_little freq_little.
Definition PerfServiceNative_userUnreg (handle : Z) : stmt unit unit :=
  return_ tt;; userUnreg_body init handle.
Definition PerfServiceNative_userGetCapability (cmd : Z) : stmt Z Z :=
  return_ (-1);; userGetCapability_body init cmd.
Definition PerfServiceNative_userRegScn : stmt Z Z :=
  return_ (-1);; userRegScn_body init.
Definition PerfServiceNative_userRegScnConfig (handle cmd p1 p2 p3 p4 : Z) : stmt unit unit :=
  return_ tt;; userRegScnConfig_body init handle cmd p1 p2 p3 p4.
Definition PerfServiceNative_userUnregScn (handle : Z) : stmt unit unit :=
  return_ tt;; userUnregScn_body init handle.
Definition PerfServiceNative_userEnable (handle : Z) : stmt unit unit :=
  return_ tt;; userEnable_body init handle.
Definition PerfServiceNative_userDisable (handle : Z) : stmt unit unit :=
  return_ tt;; userDisable_body init handle.
Definition PerfServiceNative_userEnableTimeout (handle timeout : Z) : stmt unit unit :=
  return_ tt;; userEnableTimeout_body init handle timeout.
Definition PerfServiceNative_userEnableTimeoutMs (handle timeout_ms : Z) : stmt unit unit :=
  return_ tt;; userEnableTimeoutMs_body init handle timeout_ms.
Definition PerfServiceNative_userResetAll : stmt unit unit :=
  return_ tt;; userResetAll_body init.
Definition PerfServiceNative_userDisableAll : stmt unit unit :=
  return_ tt;; userDisableAll_body init.
Definition PerfServiceNative_dumpAll : stmt unit unit :=
  return_ tt;; dumpAll_body init.
Definition PerfServiceNative_setFavorPid (pid : Z) : stmt unit unit :=
  return_ tt;; setFavorPid_body init pid.
Definition PerfServiceNative_setBoostThread : stmt unit unit :=
  return_ tt;; setBoostThread_body init.
Definition PerfServiceNative_notifyFrameUpdate (level : Z) : stmt unit unit :=
  return_ tt;; notifyFrameUpdate_body init level.
Definition PerfServiceNative_notifyDisplayType (type : Z) : stmt unit unit :=
  return_ tt;; notifyDisplayType_body init type.
Definition PerfServiceNative_notifyUserStatus (type status : Z) : stmt unit unit :=
  return_ tt;; notifyUserStatus_body init type status.

(** The calls a client can make. *)
Inductive perf_call : Type :=
| Call_boostEnable (scenario : Z)
| Call_boostDisable (scenario : Z)
| Call_boostEnableTimeout (scenario timeout : Z)
| Call_boostEnableTimeoutMs (scenario timeout_ms : Z)
| Call_boostEnableAsync (scenario : Z)
| Call_boostDisableAsync (scenario : Z)
| Call_boostEnableTimeoutAsync (scenario timeout : Z)
| Call_boostEnableTimeoutMsAsync (scenario timeout_ms : Z)
| Call_userReg (scn_core scn_freq : Z)
| Call_userRegBigLittle (core_big freq_big core_little freq_little : Z)
| Call_userUnreg (handle : Z)
| Call_userGetCapability (cmd : Z)
| Call_userRegScn
| Call_userRegScnConfig (handle cmd p1 p2 p3 p4 : Z)
| Call_userUnregScn (handle : Z)
| Call_userEnable (handle : Z)
| Call_userDisable (handle : Z)
| Call_userEnableTimeout (handle timeout : Z)
| Call_userEnableTimeoutMs (handle timeout_ms : Z)
| Call_userResetAll
| Call_userDisableAll
| Call_dumpAll
| Call_setFavorPid (pid : Z)
| Call_setBoostThread
| Call_notifyFrameUpdate (level : Z)
| Call_notifyDisplayType (type : Z)
| Call_notifyUserStatus (type status : Z).

(** A function without a result, as one that returns 0. *)
Definition void (m : stmt unit unit) : stmt Z Z := fun s =>
  let '(s', _) := call_ m s in (s', inr 0).

Definition entry (c : perf_call) : stmt Z Z :=
  match c with
  | Call_boostEnable scenario => void (PerfServiceNative_boostEnable scenario)
  | Call_boostDisable scenario => void (PerfServiceNative_boostDisable scenario)
  | Call_boostEnableTimeout scenario timeout => void (PerfServiceNative_boostEnableTimeout scenario timeout)
  | Call_boostEnableTimeoutMs scenario timeout_ms => void (PerfServiceNative_boostEnableTimeoutMs scenario timeout_ms)
  | Call_boostEnableAsync scenario => void (PerfServiceNative_boostEnableAsync scenario)
  | Call_boostDisableAsync scenario => void (PerfServiceNative_boostDisableAsync scenario)
  | Call_boostEnableTimeoutAsync scenario timeout => void (PerfServiceNative_boostEnableTimeoutAsync scenario timeout)
  | Call_boostEnableTimeoutMsAsync scenario timeout_ms => void (PerfServiceNative_boostEnableTimeoutMsAsync scenario timeout_ms)
  | Call_userReg scn_core scn_freq => PerfServiceNative_userReg scn_core scn_freq
  | Call_userRegBigLittle core_big freq_big core_little freq_little => PerfServiceNative_userRegBigLittle core_big freq_big core_little freq_little
  | Call_userUnreg handle => void (PerfServiceNative_userUnreg handle)
  | Call_userGetCapability cmd => PerfServiceNative_userGetCapability cmd
  | Call_userRegScn => PerfServiceNative_userRegScn
  | Call_userRegScnConfig handle cmd p1 p2 p3 p4 => void (PerfServiceNative_userRegScnConfig handle cmd p1 p2 p3 p4)
  | Call_userUnregScn handle => void (PerfServiceNative_userUnregScn handle)
  | Call_userEnable handle => void (PerfServiceNative_userEnable handle)
  | Call_userDisable handle => void (PerfServiceNative_userDisable handle)
  | Call_userEnableTimeout handle timeout => void (PerfServiceNative_userEnableTimeout handle timeout)
  | Call_userEnableTimeoutMs handle timeout_ms => void (PerfServiceNative_userEnableTimeoutMs handle timeout_ms)
  | Call_userResetAll => void PerfServiceNative_userResetAll
  | Call_userDisableAll => void PerfServiceNative_userDisableAll
  | Call_dumpAll => void PerfServiceNative_dumpAll
  | Call_setFavorPid pid => void (PerfServiceNative_setFavorPid pid)
  | Call_setBoostThread => void PerfServiceNative_setBoostThread
  | Call_notifyFrameUpdate level => void (PerfServiceNative_notifyFrameUpdate level)
  | Call_notifyDisplayType type => void (PerfServiceNative_notifyDisplayType type)
  | Call_notifyUserStatus type status => void (PerfServiceNative_notifyUserStatus type status)
  end.

(** The statements behind the returns, with the initialisation behind its own. *)
Definition behind_return (c : perf_call) : stmt Z Z :=
  match c with
  | Call_boostEnable scenario => void (boostEnable_body init_body scenario)
  | Call_boostDisable scenario => void (boostDisable_body init_body scenario)
  | Call_boostEnableTimeout scenario timeout => void (boostEnableTimeout_body init_body scenario timeout)
  | Call_boostEnableTimeoutMs scenario timeout_ms => void (boostEnableTimeoutMs_body init_body scenario timeout_ms)
  | Call_boostEnableAsync scenario => void (boostEnableAsync_body init_body scenario)
  | Call_boostDisableAsync scenario => void (boostDisableAsync_body init_body scenario)
  | Call_boostEnableTimeoutAsync scenario timeout => void (boostEnableTimeoutAsync_body init_body scenario timeout)
  | Call_boostEnableTimeoutMsAsync scenario timeout_ms => void (boostEnableTimeoutMsAsync_body init_body scenario timeout_ms)
  | Call_userReg scn_core scn_freq => userReg_body init_body scn_core scn_freq
  | Call_userRegBigLittle core_big freq_big core_little freq_little => userRegBigLittle_body init_body core_big freq_big core_little freq_little
  | Call_userUnreg handle => void (userUnreg_body init_body handle)
  | Call_userGetCapability cmd => userGetCapability_body init_body cmd
  | Call_userRegScn => userRegScn_body init_body
  | Call_userRegScnConfig handle cmd p1 p2 p3 p4 => void (userRegScnConfig_body init_body handle cmd p1 p2 p3 p4)
  | Call_userUnregScn handle => void (userUnregScn_body init_body handle)
  | Call_userEnable handle => void (userEnable_body init_body handle)
  | Call_userDisable handle => void (userDisable_body init_body handle)
  | Call_userEnableTimeout handle timeout => void (userEnableTimeout_body init_body handle timeout)
  | Call_userEnableTimeoutMs handle timeout_ms => void (userEnableTimeoutMs_body init_body handle timeout_ms)
  | Call_userResetAll => void (userResetAll_body init_body)
  | Call_userDisableAll => void (userDisableAll_body init_body)
  | Call_dumpAll => void (dumpAll_body init_body)
  | Call_setFavorPid pid => void (setFavorPid_body init_body pid)
  | Call_setBoostThread => void (setBoostThread_body init_body)
  | Call_notifyFrameUpdate level => void (notifyFrameUpdate_body init_body level)
  | Call_notifyDisplayType type => void (notifyDisplayType_body init_body type)
  | Call_notifyUserStatus type status => void (notifyUserStatus_body init_body type status)
  end.

(** ** Reference definitions *)

(** The request each call stands for. *)
Definition request (c : perf_call) : transaction :=
  match c with
  | Call_boostEnable x => Build_transaction TRANSACTION_boostEnable [x] false
  | Call_boostDisable x => Build_transaction TRANSACTION_boostDisable [x] false
  | Call_boostEnableTimeout x t => Build_transaction TRANSACTION_boostEnableTimeout [x; t] false
  | Call_boostEnableTimeoutMs x t => Build_transaction TRANSACTION_boostEnableTimeoutMs [x; t] false
  | Call_boostEnableAsync x => Build_transaction TRANSACTION_boostEnable [x] true
  | Call_boostDisableAsync x => Build_transaction TRANSACTION_boostDisable [x] true
  | Call_boostEnableTimeoutAsync x t => Build_transaction TRANSACTION_boostEnableTimeout [x; t] true
  | Call_boostEnableTimeoutMsAsync x t => Build_transaction TRANSACTION_boostEnableTimeoutMs [x; t] true
  | Call_userReg c f => Build_transaction TRANSACTION_userReg [c; f; getpid env; gettid env] false
  | Call_userRegBigLittle cb fb cl fl =>
      Build_transaction TRANSACTION_userRegBigLittle [cb; fb; cl; fl; getpid env; gettid env] false
  | Call_userUnreg h => Build_transaction TRANSACTION_userUnreg [h] false
  | Call_userGetCapability c => Build_transaction TRANSACTION_userGetCapability [c] false
  | Call_userRegScn => Build_transaction TRANSACTION_userRegScn [getpid env; gettid env] false
  | Call_userRegScnConfig h c p1 p2 p3 p4 =>
      Build_transaction TRANSACTION_userRegScnConfig [h; c; p1; p2; p3; p4] false
  | Call_userUnregScn h => Build_transaction TRANSACTION_userUnregScn [h] false
  | Call_userEnable h => Build_transaction TRANSACTION_userEnable [h] false
  | Call_userDisable h => Build_transaction TRANSACTION_userDisable [h] false
  | Call_userEnableTimeout h t => Build_transaction TRANSACTION_userEnableTimeout [h; t] false
  | Call_userEnableTimeoutMs h t => Build_transaction TRANSACTION_userEnableTimeoutMs [h; t] false
  | Call_userResetAll => Build_transaction TRANSACTION_userResetAll [] false
  | Call_userDisableAll => Build_transaction TRANSACTION_userDisableAll [] false
  | Call_dumpAll => Build_transaction TRANSACTION_dumpAll [] false
  | Call_setFavorPid p => Build_transaction TRANSACTION_setFavorPid [p] true
  | Call_setBoostThread =>
      Build_transaction TRANSACTION_setFavorPid [Z.lor (gettid env) RENDER_BIT] true
  | Call_notifyFrameUpdate l => Build_transaction TRANSACTION_notifyFrameUpdate [l] true
  | Call_notifyDisplayType t => Build_transaction TRANSACTION_notifyDisplayType [t] true
  | Call_notifyUserStatus t st => Build_transaction TRANSACTION_notifyUserStatus [t; st] true
  end.

(** The calls that return a handle or a capability. *)
Definition is_query (c : perf_call) : bool :=
  match c with
  | Call_userReg _ _ | Call_userRegBigLittle _ _ _ _ | Call_userGetCapability _ | Call_userRegScn => true
  | _ => false
  end.

(** ** Lemmas *)

(** Nothing behind a return is executed. *)
Lemma return_first {R A} (r : R) (m : stmt R A) s : (return_ r;; m) s = (s, inl r).
Proof. done. Qed.

(** The binder is only ever found together with [inited]. *)
Definition connected (s : perf_state) : Prop := inited s <> 0 -> binder s = true.

(** With the service at hand the initialisation ends connected. *)
Lemma init_connects s :
  connected s -> service_registered env = true -> check_meta_mode env = 0 ->
  exists i, call_ init_body s = (s{{inited := i; binder := true}}, tt) /\ i <> 0.
Proof.
  intros Hc Hs Hm. unfold call_, init_body, get, put, mbind, stmt_bind. cbn.
  destruct (Z.eqb_spec (inited s) 0) as [Hi|Hi]; cbn.
  - rewrite Hm, Hs. cbn. exists 1. by destruct s.
  - exists (inited s). split; [|done]. specialize (Hc Hi). destruct s. cbn in *. cbv [constant].
    by rewrite Hc.
Qed.

(** Without it, or in meta mode, nothing changes but a binder that stays null. *)
Lemma init_unavailable s :
  inited s = 0 -> binder s = false ->
  service_registered env = false \/ check_meta_mode env <> 0 ->
  call_ init_body s = (s, tt).
Proof.
  intros Hi Hb Hno. unfold call_, init_body, get, put, mbind, stmt_bind. cbn. rewrite Hi. cbn.
  destruct (Z.eqb_spec (check_meta_mode env) 0) as [Hm|Hm]; cbn; [|done].
  destruct Hno as [->|]; [|done]. cbn. destruct s. cbn in *. cbv [constant]. by rewrite Hb.
Qed.

(** Appending a transaction. *)
Definition sent_by (s : perf_state) (t : transaction) : perf_state :=
  s{{transacted := (transacted s ++ [t])}}.

Lemma call_void_run {R} (m : stmt unit unit) (s : perf_state) :
  call_void (R := R) m s = (fst (call_ m s), inr tt).
Proof. done. Qed.

(** The two shapes of body, after an initialisation that leads to [s1]. *)
Lemma simple_run c args oneway s s1 :
  call_ init_body s = (s1, tt) ->
  call_ (void (simple_body init_body c args oneway)) s =
  (if binder s1 then sent_by s1 (Build_transaction c args oneway) else s1, 0).
Proof.
  intros Hi. unfold call_ at 1, void, simple_body. unfold call_ at 1.
  unfold mbind, stmt_bind. rewrite call_void_run, Hi. cbn.
  unfold transact, get, put, mbind, stmt_bind. by destruct (binder s1).
Qed.

Lemma query_run c args s s1 :
  call_ init_body s = (s1, tt) ->
  call_ (query_body init_body c args) s =
  (if binder s1 then (sent_by s1 (Build_transaction c args false),
                      reply_int env (Build_transaction c args false))
   else (s1, -1)).
Proof.
  intros Hi. unfold query_body, mbind, stmt_bind. unfold call_ at 1.
  rewrite call_void_run, Hi. unfold get, put. cbn. by destruct (binder s1).
Qed.

(** Every call but the frame updates has one of the two shapes. *)
Lemma body_run c s s1 :
  (forall l, c <> Call_notifyFrameUpdate l) -> call_ init_body s = (s1, tt) ->
  call_ (behind_return c) s =
  (if binder s1 then (sent_by s1 (request c), if is_query c then reply_int env (request c) else 0)
   else (s1, if is_query c then -1 else 0)).
Proof.
  intros Hf Hi. destruct c; try (by destruct (Hf level eq_refl)); cbn [behind_return is_query request];
    first [ apply query_run, Hi
          | etrans; [apply simple_run, Hi|by destruct (binder s1)] ].
Qed.

(** A frame update is due when none was sent before or the last one is old enough. *)
Definition due (s : perf_state) : bool :=
  (mPreviousTime s =? 0) || (RENDER_THREAD_UPDATE_DURATION <? systemTime env - mPreviousTime s).

Definition frame_state (s1 : perf_state) (level : Z) : perf_state :=
  let t := set_tid s1 in
  let level := if t =? 0 then gettid env else level in
  let s2 := s1{{set_tid := (if t =? 0 then 1 else t)}} in
  if due s1 then
    (if binder s1 then sent_by s2 (Build_transaction TRANSACTION_notifyFrameUpdate [level] true)
     else s2){{mPreviousTime := systemTime env}}
  else s2.

Lemma frame_run level s s1 :
  call_ init_body s = (s1, tt) ->
  call_ (behind_return (Call_notifyFrameUpdate level)) s = (frame_state s1 level, 0).
Proof.
  intros Hi. cbn [behind_return]. unfold call_ at 1, void, notifyFrameUpdate_body. unfold call_ at 1.
  unfold mbind, stmt_bind. rewrite call_void_run, Hi. cbn [fst].
  unfold transact, get, put, mret, stmt_ret, mbind, stmt_bind, frame_state, due.
  destruct s1 as [i b p t tr]. cbn. cbv [constant]. destruct (t =? 0); cbn;
    (destruct ((p =? 0) || _); [|done]); by destruct b.
Qed.

(** ** Properties *)

(** As it stands the library is inert: whatever is called, in whatever state and
    surroundings, no transaction is sent, no static variable changes, and the calls that
    ask for a handle or a capability return -1. *)
Theorem perf_silent (c : perf_call) (s : perf_state) :
  call_ (entry c) s = (s, if is_query c then -1 else 0).
Proof. by destruct c. Qed.

(** The statements behind the returns, given a registered service outside meta mode,
    send exactly one transaction per call: the code of the called function with its
    arguments in order, one way for the asynchronous functions and the notifications; a
    query returns the integer of the reply. *)
Theorem perf_protocol (c : perf_call) (s : perf_state) (Hframe : forall l, c <> Call_notifyFrameUpdate l)
    (Hconn : connected s) (Hservice : service_registered env = true) (Hmeta : check_meta_mode env = 0) :
  exists s', call_ (behind_return c) s = (s', if is_query c then reply_int env (request c) else 0) /\
    transacted s' = transacted s ++ [request c] /\ connected s' /\ binder s' = true.
Proof.
  destruct (init_connects s Hconn Hservice Hmeta) as (i & Hi & Hn).
  rewrite (body_run c s _ Hframe Hi). cbn. by eexists.
Qed.

(** Without the service, or in meta mode, nothing is sent and the queries return -1,
    also behind the returns. *)
Theorem perf_unavailable (c : perf_call) (s : perf_state)
    (Hinit : inited s = 0) (Hbinder : binder s = false)
    (Hno : service_registered env = false \/ check_meta_mode env <> 0) :
  exists s', call_ (behind_return c) s = (s', if is_query c then -1 else 0) /\
    transacted s' = transacted s.
Proof.
  pose proof (init_unavailable s Hinit Hbinder Hno) as Hi.
  assert ((exists l, c = Call_notifyFrameUpdate l) \/ forall l, c <> Call_notifyFrameUpdate l) as [[l ->]|Hf]
    by (destruct c; first [by right|by left; eexists]).
  - rewrite (frame_run l s s Hi). eexists. split; [done|]. unfold frame_state. rewrite Hbinder.
    by destruct (due s).
  - rewrite (body_run c s s Hf Hi), Hbinder. by eexists.
Qed.

End Perf.

(** ** Frame updates over time *)

(** A sequence of frame updates, each in its own surroundings. *)
Definition frame_call (s : perf_state) (c : perf_env * Z) : perf_state :=
  fst (call_ (behind_return (fst c) (Call_notifyFrameUpdate (snd c))) s).

Definition frame_calls (calls : list (perf_env * Z)) (s : perf_state) : perf_state :=
  foldl frame_call s calls.

Definition call_time (c : perf_env * Z) : Z := systemTime (fst c).

(** The length of the history of transactions. *)
Definition sent_count (s : perf_state) : Z := Z.of_nat (length (transacted s)).

Abbreviation period := (RENDER_THREAD_UPDATE_DURATION + 1).

(** The initialisation touches neither the clock nor the history. *)
Lemma init_frame env s :
  exists s1, call_ (init_body env) s = (s1, tt) /\
    mPreviousTime s1 = mPreviousTime s /\ transacted s1 = transacted s.
Proof.
  unfold call_, init_body, get, put, mret, stmt_ret, mbind, stmt_bind. cbn. destruct s as [i b p t tr]. cbn.
  destruct (i =? 0); cbn; [|by eexists]. destruct (check_meta_mode env =? 0); cbn; [|by eexists].
  destruct (service_registered env); cbn; by eexists.
Qed.

(** One update: early ones change nothing, a due one sends at most one transaction and
    restarts the clock. *)
Lemma frame_step s c :
  (mPreviousTime s <> 0 /\ call_time c - mPreviousTime s < period /\
   mPreviousTime (frame_call s c) = mPreviousTime s /\ sent_count (frame_call s c) = sent_count s) \/
  ((mPreviousTime s = 0 \/ period <= call_time c - mPreviousTime s) /\
   mPreviousTime (frame_call s c) = call_time c /\
   sent_count s <= sent_count (frame_call s c) <= sent_count s + 1).
Proof.
  destruct c as [env level]. unfold frame_call, call_time, sent_count. cbn [fst snd].
  destruct (init_frame env s) as (s1 & Hi & Hp & Ht). rewrite (frame_run env level s s1 Hi). cbn [fst].
  unfold frame_state, due. destruct s1 as [i b p t tr]. cbn in Hp, Ht. subst p tr.
  cbn [mPreviousTime binder set_tid].
  destruct (Z.eqb_spec (mPreviousTime s) 0) as [H0|H0]; cbn [orb];
    [right|destruct (Z.ltb_spec RENDER_THREAD_UPDATE_DURATION (systemTime env - mPreviousTime s));
           [right|left; cbn; lia]].
  all: split; [lia|]; split; [by destruct b|].
  all: destruct b; cbn; rewrite ?length_app; cbn; lia.
Qed.

(** In a sorted sequence the later calls are not earlier than the first. *)
Lemma later_calls c calls t1 :
  List.Forall (Z.le (call_time c)) (call_time <$> calls) ->
  Forall (fun c' => call_time c' <= t1) calls ->
  Forall (fun c' => call_time c <= call_time c' <= t1) calls.
Proof.
  rewrite !List.Forall_forall. intros Hle Hf x Hx. split; [|by apply Hf].
  by apply Hle, in_map.
Qed.

Lemma frames_after calls s t1 :
  0 < mPreviousTime s <= t1 -> StronglySorted Z.le (call_time <$> calls) ->
  Forall (fun c => mPreviousTime s <= call_time c <= t1) calls ->
  (sent_count (frame_calls calls s) - sent_count s) * period <= t1 - mPreviousTime s.
Proof.
  revert s. induction calls as [|c calls IH]; intros s Hp Hs Hf; cbn [frame_calls foldl]; [lia|].
  cbn in Hs. apply StronglySorted_inv in Hs as [Hs Hle]. apply Forall_cons_1 in Hf as [Hc Hf].
  change (foldl frame_call (frame_call s c) calls) with (frame_calls calls (frame_call s c)).
  destruct (frame_step s c) as [(_ & _ & Hm & Hn)|(Hd & Hm & Hn)].
  - rewrite <- Hn, <- Hm. apply IH; [lia|done|by rewrite Hm].
  - specialize (IH (frame_call s c)). rewrite Hm in IH.
    assert (Forall (fun c' => call_time c <= call_time c' <= t1) calls) as Hf'
      by (apply later_calls; [done|eapply Forall_impl; [|exact Hf]; cbn; lia]).
    specialize (IH ltac:(lia) Hs Hf'). unfold RENDER_THREAD_UPDATE_DURATION in *. lia.
Qed.

(** C35: behind the return, frame updates are limited: however often the function is
    called between the times [t0] and [t1], the number of transactions times 400 ms is
    at most the length of the interval plus 400 ms. *)
Theorem frame_updates_limited (calls : list (perf_env * Z)) (s : perf_state) (t0 t1 : Z)
    (Hstart : 0 <= mPreviousTime s <= t0) (Hpos : 0 < t0 <= t1)
    (Hsorted : StronglySorted Z.le (call_time <$> calls))
    (Htimes : Forall (fun c => t0 <= call_time c <= t1) calls) :
  (sent_count (frame_calls calls s) - sent_count s) * period <= t1 - t0 + period.
Proof.
  revert s Hstart. induction calls as [|c calls IH]; intros s Hstart; cbn [frame_calls foldl].
  { unfold RENDER_THREAD_UPDATE_DURATION. lia. }
  cbn in Hsorted. apply StronglySorted_inv in Hsorted as [Hs Hle].
  apply Forall_cons_1 in Htimes as [Hc Hf].
  change (foldl frame_call (frame_call s c) calls) with (frame_calls calls (frame_call s c)).
  destruct (frame_step s c) as [(_ & _ & Hm & Hn)|(_ & Hm & Hn)].
  - rewrite <- Hn. apply IH; [done|done|by rewrite Hm].
  - pose proof (frames_after calls (frame_call s c) t1) as Ha. rewrite Hm in Ha.
    assert (Forall (fun c' => call_time c <= call_time c' <= t1) calls) as Hf'
      by (apply later_calls; [done|eapply Forall_impl; [|exact Hf]; cbn; lia]).
    specialize (Ha ltac:(lia) Hs Hf'). unfold RENDER_THREAD_UPDATE_DURATION in *. lia.
Qed.

(** The tag of a boosted thread, and what identifiers without it look like. *)
Lemma render_tag x : Z.land (Z.lor x RENDER_BIT) RENDER_BIT = RENDER_BIT.
Proof.
  rewrite Z.land_lor_distr_l, Z.land_diag. apply Z.bits_inj'. intros n Hn.
  rewrite Z.lor_spec, Z.land_spec. by destruct (Z.testbit x n), (Z.testbit RENDER_BIT n).
Qed.

Lemma untagged z : 0 <= z < 2 ^ 23 -> Z.land z RENDER_BIT = 0.
Proof.
  intros Hz. apply Z.bits_inj'. intros n Hn. rewrite Z.land_spec, Z.bits_0.
  change RENDER_BIT with (2 ^ 23). rewrite Z.pow2_bits_eqb by lia.
  destruct (Z.eqb_spec 23 n) as [<-|]; [|apply andb_false_r].
  destruct (Z.eq_dec z 0) as [->|]; [done|]. rewrite Z.bits_above_log2; [done|lia|].
  apply Z.log2_lt_pow2; lia.
Qed.

(** Behind the return, [setBoostThread] reports the calling thread as a favoured
    process with a tag: the mask recovers the thread from the argument that is sent, the
    tag bit is set, and no process below 2^23 is reported with the same argument. *)
Theorem boost_thread_tag (env : perf_env) (s : perf_state) (pid : Z)
    (Hconn : connected s) (Hservice : service_registered env = true) (Hmeta : check_meta_mode env = 0)
    (Htid : 0 <= gettid env < 2 ^ 23) (Hpid : 0 <= pid < 2 ^ 23) :
  exists s' arg, call_ (setBoostThread_body env (init_body env)) s = (s', tt) /\
    transacted s' = transacted s ++
      [{| tx_code := TRANSACTION_setFavorPid; tx_args := [arg]; tx_oneway := true |}] /\
    Z.land arg RENDER_MASK = gettid env /\ Z.land arg RENDER_BIT = RENDER_BIT /\ arg <> pid.
Proof.
  destruct (init_connects env s Hconn Hservice Hmeta) as (i & Hi & _).
  assert (forall l, Call_setBoostThread <> Call_notifyFrameUpdate l) as Hf by done.
  pose proof (body_run env Call_setBoostThread s _ Hf Hi) as Hr. cbn in Hr.
  destruct (call_ (setBoostThread_body env (init_body env)) s) as [s' []] eqn:E.
  unfold call_ at 1, void in Hr. rewrite E in Hr. injection Hr as ->.
  eexists _, _. split; [done|]. split; [done|]. split_and!; [|apply render_tag|].
  - rewrite Z.land_lor_distr_l. change (Z.land RENDER_BIT RENDER_MASK) with 0. rewrite Z.lor_0_r.
    change RENDER_MASK with (Z.ones 23). rewrite Z.land_ones by lia. by apply Z.mod_small.
  - intros Heq. pose proof (untagged pid Hpid) as Hb. rewrite <- Heq, render_tag in Hb. discriminate.
Qed.

(** ** Witnesses *)

Definition demo_env (time : Z) : perf_env :=
  {| boot_file := Some (Some (str "0")); stack_byte := NUL; service_registered := true;
     getpid := 300; gettid := 301; systemTime := time; reply_int := fun _ => 7 |}.

Definition fresh : perf_state :=
  {| inited := 0; binder := false; mPreviousTime := 0; set_tid := 0; transacted := [] |}.

Lemma perf_protocol_witness :
  exists s', call_ (behind_return (demo_env 1) (Call_userReg 2 3)) fresh = (s', 7) /\
    transacted s' = [] ++ [Build_transaction TRANSACTION_userReg [2; 3; 300; 301] false] /\
    connected s' /\ binder s' = true.
Proof.
  apply (perf_protocol (demo_env 1) (Call_userReg 2 3) fresh);
    [discriminate|intros H; by destruct H|reflexivity|reflexivity].
Defined.

(** In meta mode. *)
Definition meta_env : perf_env := (demo_env 1){{boot_file := Some (Some (str "1"))}}.

Lemma perf_unavailable_witness :
  exists s', call_ (behind_return meta_env (Call_userReg 2 3)) fresh = (s', -1) /\ transacted s' = [].
Proof.
  apply (perf_unavailable meta_env (Call_userReg 2 3) fresh); [reflexivity|reflexivity|].
  right. vm_compute. discriminate.
Defined.

(** Four calls within 600 ms: two transactions. *)
Definition demo_frames : list (perf_env * Z) :=
  [(demo_env 1000000000, 1); (demo_env 1100000000, 2); (demo_env 1500000000, 3); (demo_env 1600000000, 4)].

Lemma frame_updates_limited_witness :
  (sent_count (frame_calls demo_frames fresh) - sent_count fresh) * period <=
    1600000000 - 1000000000 + period /\
  sent_count (frame_calls demo_frames fresh) = 2.
Proof.
  split; [|reflexivity].
  apply (frame_updates_limited demo_frames fresh 1000000000 1600000000).
  - cbn. lia.
  - lia.
  - repeat constructor; cbn; lia.
  - repeat constructor; cbn; lia.
Defined.

Lemma boost_thread_tag_witness :
  exists s' arg, call_ (setBoostThread_body (demo_env 1) (init_body (demo_env 1))) fresh = (s', tt) /\
    transacted s' = [] ++
      [{| tx_code := TRANSACTION_setFavorPid; tx_args := [arg]; tx_oneway := true |}] /\
    Z.land arg RENDER_MASK = 301 /\ Z.land arg RENDER_BIT = RENDER_BIT /\ arg <> 12.
Proof.
  apply (boost_thread_tag (demo_env 1) fresh 12);
    [intros H; by destruct H|reflexivity|reflexivity|cbn; lia|lia].
Defined.
