(* ===== verification/Shims.v ===== *)
(** * The symbol shims

    [libmtk_symbols], [libshims] and [mtk/libxlog]: functions under the names the
    vendor's prebuilt libraries import.  Most of them forward to a function of another
    library under its current name; the others log, or do nothing.  The functions
    they call are not in the repository: a call is an [effect], and the result of one is
    the parameter [ext].

    The shims whose names are mangled C++ names are plain functions without the implicit
    object argument.  A call passes its arguments in the first argument registers and
    says nothing of the others: [registers] is what the callee finds there. *)

From S2P Require Import Prelude CString Layout.

(** ** Calls *)

(** A machine word, or a [std::string] passed by value. *)
Inductive arg : Type :=
| Word (z : Z)
| StdString (s : string).

Inductive effect : Type :=
| Invoke (symbol : string) (args : list arg)
| InvokePtr (address : Z) (args : list arg)        (* through a function pointer *)
| Log (fmt : string) (args : list arg).

(** What a function does and returns; [None] for [void]. *)
Abbreviation result := (outcome (list effect * option Z)).

(** The conversions of a format: "%%" is none. *)
Fixpoint conversions (fmt : list byte) : nat :=
  match fmt with
  | [] => 0
  | b :: fmt' =>
      if decide (b = Byte.x25) then
        match fmt' with
        | c :: fmt'' => if decide (c = Byte.x25) then conversions fmt'' else S (conversions fmt')
        | [] => 0
        end
      else conversions fmt'
  end.

(** ALOGD, ALOGI: each conversion takes one argument, of which it reads as many bits as
    it prints.  The formats below are those of the source without the newline at their
    end. *)
Definition alog (fmt : string) (args : list arg) : outcome (list effect) :=
  if (conversions (str fmt) <=? length args)%nat then Ret [Log fmt args] else Undef MissingArgument.

Section Shims.
Context (A : abi) (ext : string -> list arg -> Z).

Definition call_void (f : string) (args : list arg) : result := Ret ([Invoke f args], None).
Definition call_value (f : string) (args : list arg) : result :=
  Ret ([Invoke f args], Some (ext f args)).

(** ** icu53.c and icu55.c *)

Definition ucnv_open_53 (converterName err : Z) : result :=
  call_value "ucnv_open" [Word converterName; Word err].
Definition ucnv_close_53 (converter : Z) : result := call_void "ucnv_close" [Word converter].
Definition UCNV_TO_U_CALLBACK_STOP_53 (context toUArgs codeUnits length reason err : Z) : result :=
  call_void "UCNV_TO_U_CALLBACK_STOP"
    [Word context; Word toUArgs; Word codeUnits; Word length; Word reason; Word err].
Definition UCNV_FROM_U_CALLBACK_STOP_53 (context fromUArgs codeUnits length codePoint reason err : Z)
    : result :=
  call_void "UCNV_FROM_U_CALLBACK_STOP"
    [Word context; Word fromUArgs; Word codeUnits; Word length; Word codePoint; Word reason; Word err].
Definition ucnv_setToUCallBack_53 (converter newAction newContext oldAction oldContext err : Z) : result :=
  call_void "ucnv_setToUCallBack"
    [Word converter; Word newAction; Word newContext; Word oldAction; Word oldContext; Word err].
Definition ucnv_setFromUCallBack_53 (converter newAction newContext oldAction oldContext err : Z) : result :=
  call_void "ucnv_setFromUCallBack"
    [Word converter; Word newAction; Word newContext; Word oldAction; Word oldContext; Word err].
Definition ucnv_convertEx_53 (targetCnv sourceCnv target targetLimit source sourceLimit pivotStart
    pivotSource pivotTarget pivotLimit reset flush pErrorCode : Z) : result :=
  call_void "ucnv_convertEx"
    [Word targetCnv; Word sourceCnv; Word target; Word targetLimit; Word source; Word sourceLimit;
     Word pivotStart; Word pivotSource; Word pivotTarget; Word pivotLimit; Word reset; Word flush;
     Word pErrorCode].

Definition ucnv_open_55 (converterName err : Z) : result :=
  call_value "ucnv_open" [Word converterName; Word err].
Definition ucnv_close_55 (converter : Z) : result := call_void "ucnv_close" [Word converter].
Definition UCNV_TO_U_CALLBACK_STOP_55 (context toUArgs codeUnits length reason err : Z) : result :=
  call_void "UCNV_TO_U_CALLBACK_STOP"
    [Word context; Word toUArgs; Word codeUnits; Word length; Word reason; Word err].
Definition UCNV_FROM_U_CALLBACK_STOP_55 (context fromUArgs codeUnits length codePoint reason err : Z)
    : result :=
  call_void "UCNV_FROM_U_CALLBACK_STOP"
    [Word context; Word fromUArgs; Word codeUnits; Word length; Word codePoint; Word reason; Word err].
Definition ucnv_setToUCallBack_55 (converter newAction newContext oldAction oldContext err : Z) : result :=
  call_void "ucnv_setToUCallBack"
    [Word converter; Word newAction; Word newContext; Word oldAction; Word oldContext; Word err].
Definition ucnv_setFromUCallBack_55 (converter newAction newContext oldAction oldContext err : Z) : result :=
  call_void "ucnv_setFromUCallBack"
    [Word converter; Word newAction; Word newContext; Word oldAction; Word oldContext; Word err].
Definition ucnv_convertEx_55 (targetCnv sourceCnv target targetLimit source sourceLimit pivotStart
    pivotSource pivotTarget pivotLimit reset flush pErrorCode : Z) : result :=
  call_void "ucnv_convertEx"
    [Word targetCnv; Word sourceCnv; Word target; Word targetLimit; Word source; Word sourceLimit;
     Word pivotStart; Word pivotSource; Word pivotTarget; Word pivotLimit; Word reset; Word flush;
     Word pErrorCode].

(** ** The mangled names *)

(** mtk_gui.cpp: [static_cast<uint32_t>(layer)]. *)
Definition SurfaceControl_setLayerEi (layer : Z) : result :=
  call_void "_ZN7android14SurfaceControl8setLayerEj" [Word (u32 layer)].

(** mtk_parcel.cpp and mtk_string.cpp: pointers to another character type. *)
Definition Parcel_writeString16EPKtm (s len : Z) : result :=
  call_void "_ZN7android6Parcel13writeString16EPKDsm" [Word s; Word len].
Definition String16_setToEPKtj (s len : Z) : result :=
  call_void "_ZN7android8String165setToEPKDsj" [Word s; Word len].
Definition String16_C1EPKtj (o len : Z) : result :=
  call_void "_ZN7android8String16C1EPKDsj" [Word o; Word len].

(** mtk_ui.cpp. *)
Definition GraphicBufferMapper_lockYCbCr (handle usage bounds ycbcr : Z) : result :=
  call_void "_ZN7android19GraphicBufferMapper9lockYCbCrEPK13native_handlejRKNS_4RectEP13android_ycbcr"
    [Word handle; Word (u32 usage); Word bounds; Word ycbcr].
Definition GraphicBufferMapper_lock (handle usage bounds vaddr : Z) : result :=
  call_void "_ZN7android19GraphicBufferMapper4lockEPK13native_handlejRKNS_4RectEPPv"
    [Word handle; Word (u32 usage); Word bounds; Word vaddr].
Definition Fence_waitEj (timeout : Z) : result :=
  call_void "_ZN7android5Fence4waitEi" [Word (s32 timeout)].

(** wvm.c. *)
Definition MediaBufferGroup_C1Ev : result :=
  call_value "_ZN7android16MediaBufferGroupC1Ej" [Word 0].

Definition string_ctor : string :=
  "_ZN7android13GraphicBufferC1EjjijNSt3__112basic_stringIcNS1_11char_traitsIcEENS1_9allocatorIcEEEE".
Definition default_ctor : string := "_ZN7android13GraphicBufferC1Ev".

(** The constructor with an explicit instance: [dlsym] gives the address of a symbol of
    the libraries loaded behind this one, 0 when there is none; the address is called
    as it is. *)
Definition GraphicBuffer_C1Ejjij (dlsym : string -> Z) (instance inWidth inHeight inFormat inUsage : Z)
    : result :=
  e1 ← alog "_ZN7android13GraphicBufferC1Ejjij: begin ..." [];
  e2 ← alog "_ZN7android13GraphicBufferC1Ejjij(instance = %08X, inWidth = %d, inHeight = %d, inFormat = %d, inUsage = %08X)"
         [Word instance; Word inWidth; Word inHeight; Word (u32 inFormat); Word inUsage];
  let func := dlsym string_ctor in
  let func2 := dlsym default_ctor in
  e3 ← alog "_ZN7android13GraphicBufferC1EjjijNSt3__112basic_stringIcNS1_11char_traitsIcEENS1_9allocatorIcEEEE [0x%08X]"
         [Word func];
  e4 ← alog "_ZN7android13GraphicBufferC1Ev [0x%08X]" [Word func2];
  if func =? 0 then Undef NullDeref
  else
    e5 ← alog "_ZN7android13GraphicBufferC1Ejjij: end ..." [];
    Ret (e1 ++ e2 ++ e3 ++ e4 ++
         [InvokePtr func [Word instance; Word inWidth; Word inHeight; Word inFormat; Word inUsage;
                          StdString "<Unknown>"]] ++ e5, None).

(** mtk_omx.cpp: the assignment is to the parameter, the memory [m] behind it is not
    written. *)
Definition mtk_omx_get_current_time (time : Z) (m : list byte) : result * list byte :=
  let time := -1 in (Ret ([], None), m).

(** ** ssl.c *)

Definition SSL_ctrl (ssl cmd larg parg : Z) : result :=
  e ← alog "SSL_ctrl: ssl=%p cmd=%d larg=%ld parg=%p" [Word ssl; Word cmd; Word larg; Word parg];
  Ret (e, Some (-1)).

Definition SSL_CTX_ctrl (ctx cmd larg parg : Z) : result :=
  e ← alog "SSL_CTX_ctrl: ctx=%p cmd=%d larg=%ld parg=%p" [Word ctx; Word cmd; Word larg; Word parg];
  Ret (e, Some (-1)).

Definition CRYPTO_free (p : Z) : result := call_void "free" [Word p].

(** [num] is an [int], the argument of [malloc] a [size_t]. *)
Definition CRYPTO_malloc (num file line : Z) : result :=
  e ← alog "CRYPTO_malloc: num=%d file=%s line=%d" [Word num; Word file; Word line];
  let size := [Word (uwrap (8 * Z.of_nat (ptr_size A)) num)] in
  Ret (e ++ [Invoke "malloc" size], Some (ext "malloc" size)).

Definition CRYPTO_lock (mode type file line : Z) : result :=
  e ← alog "CRYPTO_lock: mode=%d type=%d file=%s line=%d" [Word mode; Word type; Word file; Word line];
  Ret (e, None).

(** ** xlog.c, and mtk_xlog.cpp with the same functions *)

Record xlog_record : Type := {
  tag_str : string;
  fmt_str : string;
  prio : Z
}.

(** [LOG_PRI_VA] is [__android_log_vprint]. *)
Definition xlog_buf_printf (bufid : Z) (rec : option xlog_record) (args : list arg) : result :=
  r ← deref rec;
  _ ← alog (fmt_str r) args;
  Ret ([Invoke "__android_log_vprint" (Word (prio r) :: StdString (tag_str r) :: StdString (fmt_str r) :: args)],
       Some 0).

(** ** camera.cpp *)

Definition camera_string_ctor (inWidth inHeight inFormat inUsage : Z) (requestorName : string) : result :=
  e ← alog "_ZN7android13GraphicBufferC1EjjijNSt3__112basic_stringIcNS1_11char_traitsIcEENS1_9allocatorIcEEEE(%d,%d,%d,%d,%s)"
        [Word inWidth; Word inHeight; Word (u32 inFormat); StdString requestorName];
  Ret (e, None).

Definition camera_ctor (inWidth inHeight inFormat inUsage : Z) : result :=
  e1 ← alog "_ZN7android13GraphicBufferC1Ejjij: begin ..." [];
  '(e2, _) ← camera_string_ctor inWidth inHeight inFormat inUsage "<Unknown>";
  e3 ← alog "_ZN7android13GraphicBufferC1Ejjij: end ..." [];
  Ret (e1 ++ e2 ++ e3, None).

(** ** Reference definitions *)

(** The part of a parameter that matters: all of a pointer or [size_t], 32 bits of an
    [int], [uint32_t] or enumeration. *)
Inductive width : Type := W32 | WPtr.

Definition significant (w : width) (z : Z) : Z := match w with W32 => u32 z | WPtr => z end.

(** A shim that stands for another function: the parameters, and the shim on the list of
    its arguments. *)
Record forward : Type := {
  fw_symbol : string;
  fw_target : string;
  fw_params : list width;
  fw_returns : bool;                                (* the target has a result *)
  fw_run : list Z -> option result
}.

Definition shim1 (f : Z -> result) (l : list Z) : option result :=
  match l with [a] => Some (f a) | _ => None end.
Definition shim2 (f : Z -> Z -> result) (l : list Z) : option result :=
  match l with [a; b] => Some (f a b) | _ => None end.
Definition shim4 (f : Z -> Z -> Z -> Z -> result) (l : list Z) : option result :=
  match l with [a; b; c; d] => Some (f a b c d) | _ => None end.
Definition shim6 (f : Z -> Z -> Z -> Z -> Z -> Z -> result) (l : list Z) : option result :=
  match l with [a; b; c; d; e; g] => Some (f a b c d e g) | _ => None end.
Definition shim7 (f : Z -> Z -> Z -> Z -> Z -> Z -> Z -> result) (l : list Z) : option result :=
  match l with [a; b; c; d; e; g; h] => Some (f a b c d e g h) | _ => None end.
Definition shim13 (f : Z -> Z -> Z -> Z -> Z -> Z -> Z -> Z -> Z -> Z -> Z -> Z -> Z -> result) (l : list Z)
    : option result :=
  match l with
  | [a; b; c; d; e; g; h; i; j; k; n; o; p] => Some (f a b c d e g h i j k n o p)
  | _ => None
  end.

(** The converters of ICU under a version suffix. *)
Definition icu_forwards (version : string) (open : Z -> Z -> result) (close : Z -> result)
    (to_stop : Z -> Z -> Z -> Z -> Z -> Z -> result) (from_stop : Z -> Z -> Z -> Z -> Z -> Z -> Z -> result)
    (set_to set_from : Z -> Z -> Z -> Z -> Z -> Z -> result)
    (convert : Z -> Z -> Z -> Z -> Z -> Z -> Z -> Z -> Z -> Z -> Z -> Z -> Z -> result) : list forward :=
  let entry name ps returns run :=
    {| fw_symbol := String.append name version; fw_target := name; fw_params := ps;
       fw_returns := returns; fw_run := run |} in
  [entry "ucnv_open" [WPtr; WPtr] true (shim2 open);
   entry "ucnv_close" [WPtr] false (shim1 close);
   entry "UCNV_TO_U_CALLBACK_STOP" [WPtr; WPtr; WPtr; W32; W32; WPtr] false (shim6 to_stop);
   entry "UCNV_FROM_U_CALLBACK_STOP" [WPtr; WPtr; WPtr; W32; W32; W32; WPtr] false (shim7 from_stop);
   entry "ucnv_setToUCallBack" (replicate 6 WPtr) false (shim6 set_to);
   entry "ucnv_setFromUCallBack" (replicate 6 WPtr) false (shim6 set_from);
   entry "ucnv_convertEx" (replicate 10 WPtr ++ [W32; W32; WPtr]) false (shim13 convert)].

(** The members of C++ classes, with the parameters the shim declares. *)
Definition member_forwards : list forward :=
  [{| fw_symbol := "_ZN7android14SurfaceControl8setLayerEi";
      fw_target := "_ZN7android14SurfaceControl8setLayerEj";
      fw_params := [W32]; fw_returns := false; fw_run := shim1 SurfaceControl_setLayerEi |};
   {| fw_symbol := "_ZN7android6Parcel13writeString16EPKtm";
      fw_target := "_ZN7android6Parcel13writeString16EPKDsm";
      fw_params := [WPtr; WPtr]; fw_returns := false; fw_run := shim2 Parcel_writeString16EPKtm |};
   {| fw_symbol := "_ZN7android8String165setToEPKtj";
      fw_target := "_ZN7android8String165setToEPKDsj";
      fw_params := [WPtr; W32]; fw_returns := false; fw_run := shim2 String16_setToEPKtj |};
   {| fw_symbol := "_ZN7android8String16C1EPKtj"; fw_target := "_ZN7android8String16C1EPKDsj";
      fw_params := [WPtr; W32]; fw_returns := false; fw_run := shim2 String16_C1EPKtj |};
   {| fw_symbol := "_ZN7android19GraphicBufferMapper9lockYCbCrEPK13native_handleiRKNS_4RectEP13android_ycbcr";
      fw_target := "_ZN7android19GraphicBufferMapper9lockYCbCrEPK13native_handlejRKNS_4RectEP13android_ycbcr";
      fw_params := [WPtr; W32; WPtr; WPtr]; fw_returns := false; fw_run := shim4 GraphicBufferMapper_lockYCbCr |};
   {| fw_symbol := "_ZN7android19GraphicBufferMapper4lockEPK13native_handleiRKNS_4RectEPPv";
      fw_target := "_ZN7android19GraphicBufferMapper4lockEPK13native_handlejRKNS_4RectEPPv";
      fw_params := [WPtr; W32; WPtr; WPtr]; fw_returns := false; fw_run := shim4 GraphicBufferMapper_lock |};
   {| fw_symbol := "_ZN7android5Fence4waitEj"; fw_target := "_ZN7android5Fence4waitEi";
      fw_params := [W32]; fw_returns := false; fw_run := shim1 Fence_waitEj |}].

Definition forwards : list forward :=
  icu_forwards "_53" ucnv_open_53 ucnv_close_53 UCNV_TO_U_CALLBACK_STOP_53 UCNV_FROM_U_CALLBACK_STOP_53
    ucnv_setToUCallBack_53 ucnv_setFromUCallBack_53 ucnv_convertEx_53 ++
  icu_forwards "_55" ucnv_open_55 ucnv_close_55 UCNV_TO_U_CALLBACK_STOP_55 UCNV_FROM_U_CALLBACK_STOP_55
    ucnv_setToUCallBack_55 ucnv_setFromUCallBack_55 ucnv_convertEx_55 ++
  member_forwards.

(** The shim makes one call, of its target, and the target receives what the shim was
    given, up to the bits that matter; the shim returns the target's result exactly when
    the target has one. *)
Definition transparent (f : forward) : Prop :=
  forall l, length l = length (fw_params f) ->
    exists l' r, fw_run f l = Some (Ret ([Invoke (fw_target f) (Word <$> l')], r)) /\
      r = (if fw_returns f then Some (ext (fw_target f) (Word <$> l')) else None) /\
      zip_with significant (fw_params f) l' = zip_with significant (fw_params f) l.

(** The argument registers a callee finds: the words passed, then what the caller's
    compiler left in the others. *)
Definition word_of (a : arg) : option Z := match a with Word z => Some z | StdString _ => None end.
Definition registers (e : effect) (rest : list Z) : list Z :=
  match e with Invoke _ args => omap word_of args ++ rest | _ => rest end.

(** ** Lemmas *)

Lemma u32_idemp z : u32 (u32 z) = u32 z.
Proof. unfold u32, uwrap. apply Z.mod_mod. lia. Qed.

Lemma u32_s32 z : u32 (s32 z) = u32 z.
Proof.
  unfold u32, s32, uwrap, swrap. change (32 - 1) with 31.
  Z.to_euclidean_division_equations. lia.
Qed.

(** An argument list of known length, spelled out. *)
Ltac spell_out l :=
  repeat (destruct l as [|? l]; try discriminate).

Lemma transparent_intro f :
  (forall l, length l = length (fw_params f) ->
     match fw_run f l with
     | Some (Ret ([Invoke t args], r)) =>
         t = fw_target f /\ r = (if fw_returns f then Some (ext t args) else None) /\ args = Word <$> omap word_of args /\
         zip_with significant (fw_params f) (omap word_of args) = zip_with significant (fw_params f) l
     | _ => False
     end) -> transparent f.
Proof.
  intros H l Hl. specialize (H l Hl).
  destruct (fw_run f l) as [[[[|[t args| |] [|]] r]| |]|]; try done.
  destruct H as (-> & Hr & Ha & Hz). exists (omap word_of args), r. by rewrite <- Ha.
Qed.

Lemma forwards_transparent : Forall transparent forwards.
Proof.
  repeat apply Forall_cons_2; try apply Forall_nil_2; apply transparent_intro; intros l Hl; cbn in Hl;
    spell_out l; (split_and!; [done|done|done|]); cbn -[u32 s32]; by rewrite ?u32_idemp, ?u32_s32.
Qed.

(** ** Properties *)

(** C36: the forwarding shims are transparent: each of the 21 makes exactly one call, of the
    function it stands for, hands on its arguments in order with every bit that their
    types carry (the casts between [int] and [uint32_t] lose none), and returns the
    callee's result where the callee has one (the two [ucnv_open]) and nothing elsewhere. *)
Theorem shims_forward :
  length forwards = 21%nat /\ NoDup (fw_symbol <$> forwards) /\ Forall transparent forwards.
Proof. split_and!; [done|decide_now|apply forwards_transparent]. Qed.

(** C37: the [GraphicBuffer] shim constructs the instance it is given through the
    constructor with a name, with the same dimensions, format and usage; when no library
    behind it has that constructor, the result of [dlsym] is called untested. *)
Theorem graphic_buffer_constructs (dlsym : string -> Z) (instance w h f u : Z) :
  if dlsym string_ctor =? 0
  then GraphicBuffer_C1Ejjij dlsym instance w h f u = Undef NullDeref
  else exists before after,
    GraphicBuffer_C1Ejjij dlsym instance w h f u =
      Ret (before ++ [InvokePtr (dlsym string_ctor)
                        [Word instance; Word w; Word h; Word f; Word u; StdString "<Unknown>"]] ++ after, None) /\
    Forall (fun e => exists fmt args, e = Log fmt args) (before ++ after).
Proof.
  unfold GraphicBuffer_C1Ejjij. destruct (dlsym string_ctor =? 0); [done|].
  cbn -[u32 string_ctor default_ctor].
  eexists [_; _; _; _], [_]. split; [reflexivity|]. repeat constructor; by do 2 eexists.
Qed.

(** The constructor of [MediaBufferGroup] is called with the single word 0: whatever the
    other registers hold, the callee's object pointer is null. *)
Theorem media_buffer_group_null_object (rest : list Z) :
  exists e r, MediaBufferGroup_C1Ev = Ret ([e], r) /\ head (registers e rest) = Some 0.
Proof. by do 2 eexists. Qed.

(** The time query of the player stores nothing: the caller's variable keeps its bytes. *)
Theorem omx_time_not_stored (time : Z) (m : list byte) :
  snd (mtk_omx_get_current_time time m) = m.
Proof. done. Qed.

(** A negative size becomes a request for almost the whole address space. *)
Theorem crypto_malloc_negative (num file line : Z) (Hnum : - 2 ^ 31 <= num < 0) :
  exists e r, CRYPTO_malloc num file line =
    Ret (e ++ [Invoke "malloc" [Word (2 ^ (8 * Z.of_nat (ptr_size A)) + num)]], r).
Proof.
  unfold CRYPTO_malloc. cbn -[Z.pow Z.mul uwrap].
  replace (uwrap _ num) with (2 ^ (8 * Z.of_nat (ptr_size A)) + num); [by eexists [_], _|].
  unfold uwrap. apply Z.mod_unique with (-1); destruct A; cbn -[Z.pow] in *; lia.
Qed.

(** The camera shim's log message has five conversions and four arguments. *)
Theorem camera_missing_argument (w h f u : Z) : camera_ctor w h f u = Undef MissingArgument.
Proof. reflexivity. Qed.

(** The log shim hands the record and the arguments on and returns 0; it needs a record
    and enough arguments for its format. *)
Theorem xlog_forwards (bufid : Z) (rec : option xlog_record) (args : list arg) :
  xlog_buf_printf bufid rec args =
  match rec with
  | None => Undef NullDeref
  | Some r =>
      if (conversions (str (fmt_str r)) <=? length args)%nat
      then Ret ([Invoke "__android_log_vprint"
                   (Word (prio r) :: StdString (tag_str r) :: StdString (fmt_str r) :: args)], Some 0)
      else Undef MissingArgument
  end.
Proof. destruct rec as [r|]; [|done]. unfold xlog_buf_printf, alog. cbn. by destruct (_ <=? _)%nat. Qed.

End Shims.
